(** * Laplace core: the Minecraft process supervisor

    A shallow embedding of the class [MinecraftServer] of
    [src/backend/core/minecraft.ts] and of [writeJsonAtomic] of the utilities
    module, together with the part of the JavaScript runtime and of [node:fs]
    the supervisor relies on, followed by the properties of the
    specification checked against them.

    Conventions.
    - A JavaScript string is the list of its UTF-16 code units ([list N]).
    - A path is the list of its components from the root, normalised the way
      [path.join] normalises on POSIX.
    - The fields of the object are the record [MinecraftServer]; what lives
      outside the object (files, clock, pending timers, the child process
      and the RCON peer) is the record [World].  A method is a function from
      both to an outcome (a value or a thrown error) and the new pair: a
      thrown error does not roll the state back, as in JavaScript.
    - [setTimeout] callbacks and [fs.appendFile] calls are queued in the
      world; the events of [step] carry them out later, as the event loop
      does.  An [await] on the RCON session is answered within the call.
    - JSON files are kept as the documents they hold, at the type the
      program reads them at.
    - A [Map] is the list of its entries in the order of insertion; an
      object used as a record of strings is the list of its own entries in
      the order of [Object.entries], and reading a key of it also sees what
      every object inherits.

    Embedded: [getStatus], [selectServer], [createServer], [deleteServer],
    [readPropertiesFile], [writePropertiesFile], [detectCoreType],
    [getProperty], [getPublicInfo], [updatePublicFile], [getBackupDir],
    [createBackup], [deleteBackup], [restoreBackup], [saveSettings],
    [readJsonSafe], [getLaplaceMeta], [getPlayers], [executeCommand], [log],
    [loadAndStart], [updateState], the status poller, [spawnProcess] and the
    handlers it registers, [handleCrash], [connectRcon] and [cleanup]; further
    on, [getRecentLogs], [getSettings], [getBackupsForServer],
    [performPlayerAction], [stop] and [restart], [readJsonSafe] of the
    utilities module, and [getConfig], [validatePath] and [parseTokenString]
    of the server entry point.  The methods [listServers], [getBackups] and
    [getDirSize] are not embedded. *)

From Stdlib Require Import ZArith NArith String Ascii List Lia Bool.
From stdpp Require Import base option list gmap pretty.
Import ListNotations.

Local Open Scope N_scope.

(** ** JavaScript strings *)

Module JsString.

Abbreviation jsstring := (list N).

(** A string literal of the source, for literals made of ASCII only. *)
Definition js (s : string) : jsstring :=
  map N_of_ascii (list_ascii_of_string s).

Definition eqb (a b : jsstring) : bool := bool_decide (a = b).

(** Template-literal interpolation of a number that holds an integer. *)
Definition ofZ (z : Z) : jsstring := js (pretty z).
Definition ofNat (n : nat) : jsstring := js (pretty n).

Definition in_range (lo hi c : N) : bool := (lo <=? c) && (c <=? hi).

(** [String.prototype.toLowerCase], one code unit at a time.  ASCII letters
    are mapped exactly.  Outside ASCII only the two characters whose
    lower-case form contains an ASCII letter are mapped (U+0130 and the
    Kelvin sign U+212A); every other unit above 127 is kept: its lower-case
    form is again outside ASCII, and the supervisor only ever tests lowered
    strings against ASCII classes and ASCII substrings. *)
Definition lowerUnit (c : N) : jsstring :=
  if in_range 65 90 c then [c + 32]
  else if c =? 304 then [105; 775]
  else if c =? 8490 then [107]
  else [c].

Definition toLowerCase (s : jsstring) : jsstring := flat_map lowerUnit s.

(** WhiteSpace and LineTerminator code units of ECMAScript, as removed by
    [trim]. *)
Definition isSpace (c : N) : bool :=
  in_range 9 13 c || (c =? 32) || (c =? 160) || (c =? 5760)
  || in_range 8192 8202 c || (c =? 8232) || (c =? 8233) || (c =? 8239)
  || (c =? 8287) || (c =? 12288) || (c =? 65279).

Fixpoint trimStart (s : jsstring) : jsstring :=
  match s with
  | c :: s' => if isSpace c then trimStart s' else s
  | [] => []
  end.

Definition trimEnd (s : jsstring) : jsstring := rev (trimStart (rev s)).
Definition trim (s : jsstring) : jsstring := trimEnd (trimStart s).

Fixpoint startsWith (p s : jsstring) : bool :=
  match p, s with
  | [], _ => true
  | a :: p', b :: s' => (a =? b) && startsWith p' s'
  | _ :: _, [] => false
  end.

Fixpoint includes (sub s : jsstring) : bool :=
  startsWith sub s ||
  match s with
  | [] => false
  | _ :: s' => includes sub s'
  end.

(** [s.indexOf(c)] for a one-unit needle; [None] is -1. *)
Fixpoint indexOf (c : N) (s : jsstring) : option nat :=
  match s with
  | [] => None
  | d :: s' => if d =? c then Some O else S <$> indexOf c s'
  end.

(** [s.split(sep)] for a non-empty separator.  [skip] counts the units of a
    separator just recognised that are still to be passed over. *)
Fixpoint split_go (sep : jsstring) (skip : nat) (cur s : jsstring)
  : list jsstring :=
  match s with
  | [] => [rev cur]
  | c :: s' =>
      match skip with
      | S k => split_go sep k cur s'
      | O =>
          if startsWith sep s
          then rev cur :: split_go sep (length sep - 1) [] s'
          else split_go sep 0 (c :: cur) s'
      end
  end.

Definition split (sep s : jsstring) : list jsstring := split_go sep 0 [] s.

(** [parts.join(sep)] *)
Fixpoint join (sep : jsstring) (parts : list jsstring) : jsstring :=
  match parts with
  | [] => []
  | [p] => p
  | p :: rest => p ++ sep ++ join sep rest
  end.

(** Decimal digit of a code unit. *)
Definition digit (c : N) : option Z :=
  if in_range 48 57 c then Some (Z.of_N (c - 48)) else None.

Definition hexDigit (c : N) : option Z :=
  if in_range 48 57 c then Some (Z.of_N (c - 48))
  else if in_range 97 102 c then Some (Z.of_N (c - 87))
  else if in_range 65 70 c then Some (Z.of_N (c - 55))
  else None.

Fixpoint digits_go (dig : N -> option Z) (radix acc : Z) (seen : bool)
  (s : jsstring) : option Z :=
  match s with
  | c :: s' =>
      match dig c with
      | Some d => digits_go dig radix (acc * radix + d)%Z true s'
      | None => if seen then Some acc else None
      end
  | [] => if seen then Some acc else None
  end.

(** [parseInt(s)] without a radix argument: leading white space, an
    optional sign, an optional [0x] prefix, then the longest run of digits;
    [None] is NaN. *)
Definition parseInt (s : jsstring) : option Z :=
  let s := trimStart s in
  let '(neg, s) :=
    match s with
    | 45 :: r => (true, r)
    | 43 :: r => (false, r)
    | _ => (false, s)
    end in
  let v :=
    match s with
    | 48 :: 120 :: r | 48 :: 88 :: r => digits_go hexDigit 16 0 false r
    | _ => digits_go digit 10 0 false s
    end in
  (fun z => if neg then (- z)%Z else z) <$> v.

End JsString.
Import JsString.

(** ** Regular expressions

    The fragment of ECMAScript regular expressions the supervisor uses:
    character classes, concatenation, greedy [*], [?] and [{lo,hi}].  The
    matcher is the backtracking one of the language: alternatives are tried
    in priority order and the first that lets the rest of the pattern match
    wins.  [k] is the continuation standing for "the rest of the pattern". *)

Module Regex.

Inductive re :=
| Cls (p : N -> bool)
| Seq (a b : re)
| Star (a : re)
| Opt (a : re)
| Rep (lo hi : nat) (a : re).

Fixpoint backtrack (r : re) (s : jsstring) (k : jsstring -> option jsstring)
  : option jsstring :=
  match r with
  | Cls p =>
      match s with
      | c :: s' => if p c then k s' else None
      | [] => None
      end
  | Seq a b => backtrack a s (fun s' => backtrack b s' k)
  | Opt a =>
      match backtrack a s k with
      | Some rest => Some rest
      | None => k s
      end
  | Star a =>
      (fix loop (n : nat) (s : jsstring) : option jsstring :=
         match n with
         | O => k s
         | S n' =>
             match backtrack a s (fun s' =>
                      if (length s' <? length s)%nat then loop n' s' else None) with
             | Some rest => Some rest
             | None => k s
             end
         end) (length s) s
  | Rep lo hi a =>
      (fix rep (lo hi : nat) (s : jsstring) : option jsstring :=
         match hi with
         | O => match lo with O => k s | S _ => None end
         | S hi' =>
             match backtrack a s (fun s' => rep (pred lo) hi' s') with
             | Some rest => Some rest
             | None => match lo with O => k s | S _ => None end
             end
         end) lo hi s
  end.

(** The text left after the leftmost-priority match of [r] at the start of
    [s], if there is one. *)
Definition matchAt (r : re) (s : jsstring) : option jsstring :=
  backtrack r s Some.

(** [s.replace(/r/g, by)].  An empty match is replaced and the scan moves
    on by one unit, as [lastIndex] does. *)
Fixpoint replace_go (fuel : nat) (r : re) (by_ : jsstring) (s : jsstring)
  : jsstring :=
  match fuel with
  | O => s
  | S fuel' =>
      match matchAt r s with
      | Some rest =>
          if (length rest <? length s)%nat
          then by_ ++ replace_go fuel' r by_ rest
          else match s with
               | c :: s' => by_ ++ c :: replace_go fuel' r by_ s'
               | [] => by_
               end
      | None =>
          match s with
          | c :: s' => c :: replace_go fuel' r by_ s'
          | [] => []
          end
      end
  end.

Definition replaceAll (r : re) (by_ s : jsstring) : jsstring :=
  replace_go (S (length s)) r by_ s.

Definition lit (c : N) : re := Cls (N.eqb c).
Definition oneOf (cs : jsstring) : re := Cls (fun c => bool_decide (c ∈ cs)).

End Regex.

Import Regex.


(** ** Paths ([node:path], POSIX) *)

Module Path.

Abbreviation path := (list jsstring).

(** One component of a path being normalised: empty and [.] components
    vanish, [..] drops the last component (the root is its own parent). *)
Definition push (acc : path) (seg : jsstring) : path :=
  if bool_decide (seg = [] ∨ seg = js ".") then acc
  else if bool_decide (seg = js "..") then removelast acc
  else acc ++ [seg].

(** [path.join(base, ...parts)] for an absolute, normalised [base]. *)
Definition join (base : path) (parts : list jsstring) : path :=
  fold_left push (flat_map (split (js "/")) parts) base.

Definition dirname (p : path) : path := removelast p.

(** The path as the string the program sees. *)
Definition toString (p : path) : jsstring :=
  js "/" ++ JsString.join (js "/") p.

End Path.
Import Path.

(** ** Dates *)

Module JsDate.

Definition pad (width : nat) (z : Z) : jsstring :=
  let d := ofZ z in
  repeat 48%N (width - length d) ++ d.

(** Civil date of a day number counted from 1970-01-01. *)
Definition civil (days : Z) : Z * Z * Z :=
  let z := (days + 719468)%Z in
  let era := (z / 146097)%Z in
  let doe := (z - era * 146097)%Z in
  let yoe := ((doe - doe / 1460 + doe / 36524 - doe / 146096) / 365)%Z in
  let doy := (doe - (365 * yoe + yoe / 4 - yoe / 100))%Z in
  let mp := ((5 * doy + 2) / 153)%Z in
  let d := (doy - (153 * mp + 2) / 5 + 1)%Z in
  let m := (if (mp <? 10)%Z then mp + 3 else mp - 9)%Z in
  let y := (yoe + era * 400 + (if (m <=? 2)%Z then 1 else 0))%Z in
  (y, m, d).

(** [new Date(ms).toISOString()] *)
Definition toISOString (ms : Z) : jsstring :=
  let days := (ms / 86400000)%Z in
  let rest := (ms mod 86400000)%Z in
  let '(y, m, d) := civil days in
  let year :=
    if ((0 <=? y) && (y <=? 9999))%Z then pad 4 y
    else if (y <? 0)%Z then js "-" ++ pad 6 (- y) else js "+" ++ pad 6 y in
  year ++ js "-" ++ pad 2 m ++ js "-" ++ pad 2 d ++ js "T"
  ++ pad 2 (rest / 3600000) ++ js ":" ++ pad 2 (rest / 60000 mod 60) ++ js ":"
  ++ pad 2 (rest / 1000 mod 60) ++ js "." ++ pad 3 (rest mod 1000) ++ js "Z".

End JsDate.



(** ** Data model ([src/types.ts])

    Each interface is a record in a module of its name, so that the fields
    keep the names they have in the source. *)

Inductive Status := OFFLINE | STARTING | ONLINE | STOPPING | RESTARTING | CRASHED.

#[global] Instance Status_eq_dec : EqDecision Status.
Proof. solve_decision. Defined.

Definition Status_toString (s : Status) : jsstring :=
  match s with
  | OFFLINE => js "OFFLINE" | STARTING => js "STARTING" | ONLINE => js "ONLINE"
  | STOPPING => js "STOPPING" | RESTARTING => js "RESTARTING"
  | CRASHED => js "CRASHED"
  end.

Module LogEntry.
Inductive kind := info | warn | error | chat.
Record t := { timestamp : jsstring; message : jsstring; type : kind }.
Definition upper (k : kind) : jsstring :=
  match k with
  | info => js "INFO" | warn => js "WARN" | error => js "ERROR" | chat => js "CHAT"
  end.
End LogEntry.

Module JavaArgs.
Record t := { xmx : jsstring; xms : jsstring; args : jsstring }.
End JavaArgs.

Module ServerConfig.
Record t := {
  id : jsstring;
  name : jsstring;
  jarFile : jsstring;
  javaArgs : JavaArgs.t;
  rconPort : Z;
  rconPassword : option jsstring;
  autoRestart : bool;
  created : Z
}.
End ServerConfig.

Module ServerCreationParams.
Record t := {
  name : jsstring;
  sourceJarPath : jsstring;
  port : Z;
  maxPlayers : Z;
  motd : jsstring;
  xmx : jsstring;
  xms : jsstring;
  eulaAccepted : bool
}.
End ServerCreationParams.

Module ServerStatus.
Record t := {
  running : bool;
  status : Status;
  activeServerId : option jsstring;
  serverName : option jsstring;
  startTime : option Z
}.
End ServerStatus.

Module PublicServerInfo.
Record players_t := { online : nat; max : option Z; list : list jsstring }.
Record t := {
  name : jsstring;
  motd : jsstring;
  status : Status;
  version : jsstring;
  coreType : jsstring;
  players : players_t;
  lastUpdated : Z
}.
End PublicServerInfo.

Module LaplaceUser.
Inductive role_t := admin | guest | user | system.
Record t := {
  id : jsstring;
  username : jsstring;
  token : jsstring;
  role : role_t;
  externalIds : list (jsstring * jsstring)
}.
End LaplaceUser.

Module Player.
Inductive source_t := cache | rcon | ops | whitelist.
Record meta_t := { firstSeen : option Z; notes : option jsstring }.
Record linked_t := {
  id : jsstring;
  username : jsstring;
  externalIds : list (jsstring * jsstring)
}.
Record t := {
  uuid : jsstring;
  name : jsstring;
  lastLogin : Z;
  isOnline : bool;
  isOp : bool;
  isBanned : bool;
  isWhitelisted : bool;
  avatarUrl : option jsstring;
  source : source_t;
  meta : option meta_t;
  linkedUser : option linked_t
}.
(** One element of [usercache.json], [ops.json], [banned-players.json] or
    [whitelist.json], as far as the aggregator reads it. *)
Record ref := { ref_uuid : jsstring; ref_name : jsstring }.
End Player.

Module ServerSettingsPayload.
Record t := {
  config : ServerConfig.t;
  properties : list (jsstring * jsstring)
}.
End ServerSettingsPayload.

Module PanelConfig.
Record t := { panelPort : Z; activeServer : option jsstring; theme : jsstring }.
End PanelConfig.

(** The entry of [key] in a list of entries: [map.get(key)] on a
    [Map<string, V>], and [obj[key]] on an object for a key that is not one
    of those every object inherits (see [readProperty] below). *)
Fixpoint lookupKey {V} (k : jsstring) (o : list (jsstring * V)) : option V :=
  match o with
  | [] => None
  | (k', v) :: o' => if bool_decide (k' = k) then Some v else lookupKey k o'
  end.

(** [map.set(key, v)]: an existing key keeps its place, a new one goes
    last. *)
Fixpoint assignKey {V} (k : jsstring) (v : V) (o : list (jsstring * V))
  : list (jsstring * V) :=
  match o with
  | [] => [(k, v)]
  | (k', v') :: o' =>
      if bool_decide (k' = k) then (k, v) :: o' else (k', v') :: assignKey k v o'
  end.

(** ** Plain objects

    An object literal [{}] used as a [Record<string, string>], kept as the
    list of its own entries in the order in which [Object.entries] gives
    them: the keys that are array indices first, in ascending order, then the
    other keys in the order of their creation. *)

(** The number that a decimal numeral denotes. *)
Definition numeral (k : jsstring) : N :=
  fold_left (fun n c => 10 * n + (c - 48)) k 0.

(** The array index that a key is: a decimal numeral with no leading zero
    and a value below 2^32 - 1. *)
Definition arrayIndex (k : jsstring) : option N :=
  match k with
  | [] => None
  | c :: rest =>
      if forallb (in_range 48 57) k
         && (negb (c =? 48) || bool_decide (rest = []))
         && (numeral k <? 4294967295)
      then Some (numeral k)
      else None
  end.

(** [obj[k] = v] for the array index [n] that [k] is: the entry goes to its
    place among the array indices. *)
Fixpoint assignIndex (n : N) (k v : jsstring) (o : list (jsstring * jsstring))
  : list (jsstring * jsstring) :=
  match o with
  | [] => [(k, v)]
  | (k', v') :: o' =>
      match arrayIndex k' with
      | Some m =>
          if m <? n then (k', v') :: assignIndex n k v o'
          else if m =? n then (k, v) :: o'
          else (k, v) :: (k', v') :: o'
      | None => (k, v) :: (k', v') :: o'
      end
  end.

(** [obj[k] = v] with a string [v].  The key [__proto__] is the accessor
    that the object inherits: its setter ignores a value that is neither an
    object nor [null], so nothing is stored. *)
Definition assignProperty (k v : jsstring) (o : list (jsstring * jsstring))
  : list (jsstring * jsstring) :=
  if bool_decide (k = js "__proto__") then o
  else
    match arrayIndex k with
    | Some n => assignIndex n k v o
    | None => assignKey k v o
    end.

(** The names that every plain object inherits from [Object.prototype]. *)
Definition inheritedKeys : list jsstring :=
  [js "constructor"; js "__defineGetter__"; js "__defineSetter__";
   js "hasOwnProperty"; js "__lookupGetter__"; js "__lookupSetter__";
   js "isPrototypeOf"; js "propertyIsEnumerable"; js "toString"; js "valueOf";
   js "__proto__"; js "toLocaleString"].

(** What [obj[k]] is when it is not [undefined]: the string of an own entry,
    or the member of [Object.prototype] of that name (a function, and the
    prototype itself for [__proto__]). *)
Inductive propertyValue := Str (s : jsstring) | Member (name : jsstring).

(** [obj[k]]; [None] is [undefined]. *)
Definition readProperty (k : jsstring) (o : list (jsstring * jsstring))
  : option propertyValue :=
  match lookupKey k o with
  | Some v => Some (Str v)
  | None => if bool_decide (k ∈ inheritedKeys) then Some (Member k) else None
  end.

(** A value of [obj[k]] where the code takes it for a string; it is one
    whenever [k] is not inherited. *)
Definition stringOf (v : propertyValue) : jsstring :=
  match v with Str s => s | Member _ => [] end.

(** ** Outcomes and the method monad *)

Inductive exn := Error (message : jsstring).

Definition exn_message (e : exn) : jsstring := let 'Error m := e in m.

Inductive outcome (A : Type) :=
| Ret (a : A)
| Throw (e : exn).
Arguments Ret {A} a.
Arguments Throw {A} e.

Section Monad.
Context {S : Type}.

(** A computation over the state [S] that returns or throws. *)
Definition M (A : Type) : Type := S -> outcome A * S.

Definition ret {A} (a : A) : M A := fun s => (Ret a, s).
Definition throw {A} (e : exn) : M A := fun s => (Throw e, s).

Definition bind {A B} (m : M A) (f : A -> M B) : M B :=
  fun s =>
    match m s with
    | (Ret a, s') => f a s'
    | (Throw e, s') => (Throw e, s')
    end.

(** [try { m } catch (e) { h e }] *)
Definition try_catch {A} (m : M A) (h : exn -> M A) : M A :=
  fun s =>
    match m s with
    | (Ret a, s') => (Ret a, s')
    | (Throw e, s') => h e s'
    end.

Definition gets {A} (f : S -> A) : M A := fun s => (Ret (f s), s).
Definition modify (f : S -> S) : M unit := fun s => (Ret tt, f s).

(** [if (c) m] *)
Definition when (c : bool) (m : M unit) : M unit := if c then m else ret tt.

(** [for (const x of l) body x] *)
Fixpoint forEach {A} (l : list A) (body : A -> M unit) : M unit :=
  match l with
  | [] => ret tt
  | x :: l' => bind (body x) (fun _ => forEach l' body)
  end.

End Monad.
Arguments M : clear implicits.

Notation "x <- m ;; k" := (bind m (fun x => k))
  (at level 20, m at level 99, k at level 200, only parsing).
Notation "m ;; k" := (bind m (fun _ => k))
  (at level 100, k at level 200, right associativity, only parsing).

(** Run a computation on a component of the state. *)
Definition zoom {S T A} (get : S -> T) (set : T -> S -> S) (m : M T A) : M S A :=
  fun s => let '(r, t) := m (get s) in (r, set t s).

(** ** The world outside the object *)

(** The JSON documents the program reads and writes, by the shape it gives
    them or expects of them: an instance descriptor, the public summary, an
    array of player identities (the name cache and the operator, ban and
    allow lists of the game), the object of player notes keyed by identifier,
    the panel configuration. *)
Inductive document :=
| DConfig (c : ServerConfig.t)
| DPublic (i : PublicServerInfo.t)
| DRefs (l : list Player.ref)
| DMeta (m : list (jsstring * Player.meta_t))
| DPanel (c : PanelConfig.t).

(** What a file holds: text that is not JSON, the serialisation of a
    document, or the remains of a write that did not complete. *)
Inductive content :=
| Text (s : jsstring)
| Json (d : document)
| Torn.

Inductive node :=
| File (c : content)
| Dir.

Record inode := { node_of : node; birthtimeMs : Z }.

(** A call into [node:fs], as the environment sees it, and the two ways the
    environment can make it fail for reasons of its own (permissions, a full
    disk, a failing device): before anything was done, or in the middle. *)
Inductive fsop :=
| OpRead (p : path)
| OpWrite (p : path)
| OpRename (src dst : path)
| OpMkdir (p : path)
| OpCopy (src dst : path)
| OpRemove (p : path)
| OpList (p : path).

Inductive failure := Refused | Interrupted.

(** Callbacks handed to [setTimeout]. *)
Inductive task :=
| Respawn                       (* handleCrash, 5000 ms *)
| RconAttempt (attempts : nat). (* connectRcon, 3000 ms *)

Record ChildProcess := { pid : nat; stdin : bool }.
Record Rcon := { socket : bool }.

(** What leaves the object, in the order it happens (latest first). *)
Inductive effect :=
| EmitStatus (s : ServerStatus.t)
| EmitLog (e : LogEntry.t)
| Spawned (command : jsstring) (argv : list jsstring) (cwd : path)
| StdinWrite (data : jsstring)
| RconConnect (host : jsstring) (port : Z) (password : jsstring)
| RconSend (cmd : jsstring)
| RconEnd
| SetTimeout (job : task) (ms : Z)
| ConsoleError (msg : jsstring).

Record World := {
  files : gmap path inode;
  fault : fsop -> option failure;
  now : Z;                              (* Date.now() *)
  entropy : nat -> N;                   (* the bytes crypto.randomBytes yields *)
  drawn : nat;                          (* how many of them were consumed *)
  timers : list (task * Z);             (* pending setTimeout callbacks *)
  appends : list (path * jsstring);     (* fs.appendFile calls in flight *)
  trace : list effect;
  nextPid : nat;
  spawnThrows : option jsstring;        (* spawn() throws synchronously *)
  rconListening : bool;                 (* the game accepts an RCON login *)
  rconReply : jsstring -> outcome jsstring;
  stdinThrows : bool
}.

Definition set_files (f : gmap path inode -> gmap path inode) (w : World) : World :=
  {| files := f (files w); fault := fault w; now := now w; entropy := entropy w;
     drawn := drawn w; timers := timers w; appends := appends w;
     trace := trace w; nextPid := nextPid w; spawnThrows := spawnThrows w;
     rconListening := rconListening w; rconReply := rconReply w;
     stdinThrows := stdinThrows w |}.

Definition set_drawn (f : nat -> nat) (w : World) : World :=
  {| files := files w; fault := fault w; now := now w; entropy := entropy w;
     drawn := f (drawn w); timers := timers w; appends := appends w;
     trace := trace w; nextPid := nextPid w; spawnThrows := spawnThrows w;
     rconListening := rconListening w; rconReply := rconReply w;
     stdinThrows := stdinThrows w |}.

Definition set_timers (f : list (task * Z) -> list (task * Z)) (w : World) : World :=
  {| files := files w; fault := fault w; now := now w; entropy := entropy w;
     drawn := drawn w; timers := f (timers w); appends := appends w;
     trace := trace w; nextPid := nextPid w; spawnThrows := spawnThrows w;
     rconListening := rconListening w; rconReply := rconReply w;
     stdinThrows := stdinThrows w |}.

Definition set_appends (f : list (path * jsstring) -> list (path * jsstring))
  (w : World) : World :=
  {| files := files w; fault := fault w; now := now w; entropy := entropy w;
     drawn := drawn w; timers := timers w; appends := f (appends w);
     trace := trace w; nextPid := nextPid w; spawnThrows := spawnThrows w;
     rconListening := rconListening w; rconReply := rconReply w;
     stdinThrows := stdinThrows w |}.

Definition set_trace (f : list effect -> list effect) (w : World) : World :=
  {| files := files w; fault := fault w; now := now w; entropy := entropy w;
     drawn := drawn w; timers := timers w; appends := appends w;
     trace := f (trace w); nextPid := nextPid w; spawnThrows := spawnThrows w;
     rconListening := rconListening w; rconReply := rconReply w;
     stdinThrows := stdinThrows w |}.

Definition set_nextPid (f : nat -> nat) (w : World) : World :=
  {| files := files w; fault := fault w; now := now w; entropy := entropy w;
     drawn := drawn w; timers := timers w; appends := appends w;
     trace := trace w; nextPid := f (nextPid w); spawnThrows := spawnThrows w;
     rconListening := rconListening w; rconReply := rconReply w;
     stdinThrows := stdinThrows w |}.

(** Record an effect. *)
Definition emit (e : effect) : M World unit := modify (set_trace (cons e)).

(** [setTimeout(job, ms)] *)
Definition setTimeout (job : task) (ms : Z) : M World unit :=
  emit (SetTimeout job ms) ;;
  modify (set_timers (fun l => l ++ [(job, ms)])).

(** ** The file system ([node:fs])

    The tree is kept flat: a finite map from the paths that exist to what is
    there; the root always exists.  Each call fails the way the system call
    does on a missing entry or on an entry of the wrong kind, and also when
    the environment says so ([fault]). *)

Module Fs.

Definition ENOENT := Error (js "ENOENT: no such file or directory").
Definition ENOTDIR := Error (js "ENOTDIR: not a directory").
Definition EISDIR := Error (js "EISDIR: illegal operation on a directory").
Definition ENOTEMPTY := Error (js "ENOTEMPTY: directory not empty").
Definition EINVAL := Error (js "EINVAL: invalid argument").
Definition EIO := Error (js "EIO: i/o error").

Definition root : inode := {| node_of := Dir; birthtimeMs := 0 |}.

Definition lookupNode (fs : gmap path inode) (p : path) : option inode :=
  match p with
  | [] => Some root
  | _ => fs !! p
  end.

Definition isFile (fs : gmap path inode) (p : path) : bool :=
  match lookupNode fs p with
  | Some {| node_of := File _ |} => true
  | _ => false
  end.

Definition isDir (fs : gmap path inode) (p : path) : bool :=
  match lookupNode fs p with
  | Some {| node_of := Dir |} => true
  | _ => false
  end.

(** [fs.existsSync(p)]: never throws. *)
Definition existsSync (w : World) (p : path) : bool :=
  match lookupNode (files w) p with
  | Some _ => true
  | None => false
  end.

(** The names directly under [p]. *)
Definition children (fs : gmap path inode) (p : path) : list jsstring :=
  omap (fun kv : path * inode =>
          if bool_decide (kv.1 ≠ [] ∧ removelast kv.1 = p) then last kv.1 else None)
       (map_to_list fs).

Definition under (p q : path) : bool := bool_decide (p `prefix_of` q).

Definition guard (op : fsop) : M World unit :=
  fun w => match fault w op with
           | Some _ => (Throw EIO, w)
           | None => (Ret tt, w)
           end.

(** [fs.statSync(p)] *)
Definition statSync (p : path) : M World inode :=
  fun w => match lookupNode (files w) p with
           | Some i => (Ret i, w)
           | None => (Throw ENOENT, w)
           end.

(** [fs.readFileSync(p, 'utf-8')] *)
Definition readFileSync (p : path) : M World content :=
  guard (OpRead p) ;;
  fun w => match lookupNode (files w) p with
           | Some {| node_of := File c |} => (Ret c, w)
           | Some {| node_of := Dir |} => (Throw EISDIR, w)
           | None => (Throw ENOENT, w)
           end.

(** [fs.readdirSync(p)] *)
Definition readdirSync (p : path) : M World (list jsstring) :=
  guard (OpList p) ;;
  fun w => match lookupNode (files w) p with
           | Some {| node_of := Dir |} => (Ret (children (files w) p), w)
           | Some {| node_of := File _ |} => (Throw ENOTDIR, w)
           | None => (Throw ENOENT, w)
           end.

(** [fs.writeFileSync(p, c)].  An interrupted write leaves the file open for
    writing behind it: it exists and holds a torn content. *)
Definition writeFileSync (p : path) (c : content) : M World unit :=
  fun w =>
    match fault w (OpWrite p) with
    | Some Refused => (Throw EIO, w)
    | flt =>
        if negb (isDir (files w) (removelast p)) then (Throw ENOENT, w)
        else if isDir (files w) p then (Throw EISDIR, w)
        else
          let birth := match files w !! p with
                       | Some i => birthtimeMs i
                       | None => now w
                       end in
          match flt with
          | Some _ =>
              (Throw EIO,
               set_files <[p := {| node_of := File Torn; birthtimeMs := birth |}]> w)
          | None =>
              (Ret tt,
               set_files <[p := {| node_of := File c; birthtimeMs := birth |}]> w)
          end
    end.

(** Move the whole tree at [src] to [dst]. *)
Definition relocate (src dst : path) (fs : gmap path inode) : gmap path inode :=
  list_to_map
    (map (fun kv : path * inode =>
            (if under src kv.1 then dst ++ drop (length src) kv.1 else kv.1, kv.2))
         (map_to_list fs)).

(** [fs.renameSync(src, dst)]: all or nothing. *)
Definition renameSync (src dst : path) : M World unit :=
  guard (OpRename src dst) ;;
  fun w =>
    match lookupNode (files w) src with
    | None => (Throw ENOENT, w)
    | Some i =>
        if negb (isDir (files w) (removelast dst)) then (Throw ENOENT, w)
        else
          match node_of i with
          | File _ =>
              if isDir (files w) dst then (Throw EISDIR, w)
              else (Ret tt, set_files (fun fs => <[dst := i]> (delete src fs)) w)
          | Dir =>
              if isFile (files w) dst then (Throw ENOTDIR, w)
              else if negb (bool_decide (children (files w) dst = []))
              then (Throw ENOTEMPTY, w)
              else if under src dst && negb (bool_decide (src = dst))
              then (Throw EINVAL, w)
              else (Ret tt, set_files (relocate src dst) w)
          end
    end.

(** The directories to create, outermost first, for [mkdir -p]. *)
Definition ancestors (p : path) : list path :=
  map (fun n => take n p) (seq 1 (length p)).

Fixpoint mkdirs (birth : Z) (ps : list path) (fs : gmap path inode)
  : option (gmap path inode) :=
  match ps with
  | [] => Some fs
  | q :: ps' =>
      match fs !! q with
      | Some {| node_of := File _ |} => None
      | Some {| node_of := Dir |} => mkdirs birth ps' fs
      | None => mkdirs birth ps' (<[q := {| node_of := Dir; birthtimeMs := birth |}]> fs)
      end
  end.

(** [fs.mkdirSync(p, { recursive: true })] *)
Definition mkdirSync (p : path) : M World unit :=
  guard (OpMkdir p) ;;
  fun w => match mkdirs (now w) (ancestors p) (files w) with
           | Some fs' => (Ret tt, set_files (fun _ => fs') w)
           | None => (Throw ENOTDIR, w)
           end.

(** [fs.rmSync(p, { recursive: true, force: true })]: a missing entry is not
    an error. *)
Definition rmSync (p : path) : M World unit :=
  guard (OpRemove p) ;;
  modify (set_files (filter (fun kv : path * inode => ¬ p `prefix_of` kv.1))).

(** [fs.copyFileSync(src, dst)] *)
Definition copyFileSync (src dst : path) : M World unit :=
  guard (OpCopy src dst) ;;
  c <- readFileSync src ;;
  writeFileSync dst c.

(** Every path from just below [src] down to [k] passes the filter. *)
Definition passes (keep : path -> bool) (src k : path) : bool :=
  forallb (fun n => keep (take n k)) (seq (Datatypes.S (length src)) (length k - length src)).

(** [fs.cpSync(src, dst, { recursive: true, filter })].  The copies are new
    entries, born now.  A clash of kinds between a copied entry and one
    already at the destination is not modelled: the copy replaces it. *)
Definition cpSync (src dst : path) (keep : path -> bool) : M World unit :=
  guard (OpCopy src dst) ;;
  i <- statSync src ;;
  if negb (keep src) then ret tt
  else
    match node_of i with
    | File c => mkdirSync (removelast dst) ;; writeFileSync dst c
    | Dir =>
        if under src dst then throw EINVAL
        else
          mkdirSync dst ;;
          fun w =>
            let copy (kv : path * inode) (fs : gmap path inode) :=
              if under src kv.1 && negb (bool_decide (kv.1 = src))
                 && passes keep src kv.1
              then <[dst ++ drop (length src) kv.1 :=
                       {| node_of := node_of kv.2; birthtimeMs := now w |}]> fs
              else fs in
            (Ret tt, set_files (fun fs => foldr copy fs (map_to_list fs)) w)
    end.

(** [fs.appendFile(p, data, callback)]: the write is only started.  The
    thread pool carries it out at a moment of its own, which may fall within
    the synchronous code of the caller; here it is carried out between two
    calls, by the event [Appended].  Within a call that logs, the file
    [laplace.log] of the selected instance, and no other file, may therefore
    be ahead of what is computed here. *)
Definition appendFile (p : path) (data : jsstring) : M World unit :=
  modify (set_appends (fun l => l ++ [(p, data)])).

(** What the append does once the thread pool gets to it. *)
Definition appendNow (p : path) (data : jsstring) : M World unit :=
  guard (OpWrite p) ;;
  fun w =>
    if negb (isDir (files w) (removelast p)) then (Throw ENOENT, w)
    else
      match lookupNode (files w) p with
      | Some {| node_of := Dir |} => (Throw EISDIR, w)
      | Some {| node_of := File c; birthtimeMs := b |} =>
          let c' := match c with Text s => Text (s ++ data) | _ => Torn end in
          (Ret tt, set_files <[p := {| node_of := File c'; birthtimeMs := b |}]> w)
      | None =>
          (Ret tt,
           set_files <[p := {| node_of := File (Text data); birthtimeMs := now w |}]> w)
      end.

End Fs.

(** ** [writeJsonAtomic] (utilities module)

    [`${filePath}.tmp`] lengthens the last component of the path. *)

Definition tmpPath (filePath : path) : path :=
  match last filePath with
  | Some name => removelast filePath ++ [name ++ js ".tmp"]
  | None => [js ".tmp"]
  end.

Definition writeJsonAtomic (filePath : path) (data : document) : M World unit :=
  let tmp := tmpPath filePath in
  let content := Json data in            (* JSON.stringify(data, null, 2) *)
  try_catch
    (Fs.writeFileSync tmp content ;;
     Fs.renameSync tmp filePath)
    (fun e =>
       emit (ConsoleError (js "[System] Atomic write failed for "
                           ++ Path.toString filePath ++ js ":")) ;;
       throw e).

(** [const saveConfig = (data) => writeJsonAtomic(CONFIG_FILE, data)], the one
    writer of the global panel configuration. *)
Definition saveConfig (CONFIG_FILE : path) (data : PanelConfig.t) : M World unit :=
  writeJsonAtomic CONFIG_FILE (DPanel data).

(** ** The class [MinecraftServer] *)

Record MinecraftServer := {
  process : option ChildProcess;
  rcon : option Rcon;
  config : option ServerConfig.t;
  serverDir : option path;              (* [None] is the empty string *)
  logs : list LogEntry.t;
  status : Status;
  crashCount : Z;
  intentionToStop : bool;
  serversDir : path;
  users : list LaplaceUser.t;           (* what users.getUsers() returns *)
  onlinePlayers : list jsstring;
  startTime : option Z;
  statusInterval : option Z             (* the period of the running poller *)
}.

Definition MAX_LOGS : nat := 500.

(** [new MinecraftServer(serversDir, users)] *)
Definition constructor (serversDir : path) (users : list LaplaceUser.t)
  : MinecraftServer :=
  {| process := None; rcon := None; config := None; serverDir := None;
     logs := []; status := OFFLINE; crashCount := 0; intentionToStop := false;
     serversDir := serversDir; users := users; onlinePlayers := [];
     startTime := None; statusInterval := None |}.

Definition set_process (v : option ChildProcess) (s : MinecraftServer) :=
  {| process := v; rcon := rcon s; config := config s; serverDir := serverDir s;
     logs := logs s; status := status s; crashCount := crashCount s;
     intentionToStop := intentionToStop s; serversDir := serversDir s;
     users := users s; onlinePlayers := onlinePlayers s;
     startTime := startTime s; statusInterval := statusInterval s |}.

Definition set_rcon (v : option Rcon) (s : MinecraftServer) :=
  {| process := process s; rcon := v; config := config s; serverDir := serverDir s;
     logs := logs s; status := status s; crashCount := crashCount s;
     intentionToStop := intentionToStop s; serversDir := serversDir s;
     users := users s; onlinePlayers := onlinePlayers s;
     startTime := startTime s; statusInterval := statusInterval s |}.

Definition set_config (v : option ServerConfig.t) (s : MinecraftServer) :=
  {| process := process s; rcon := rcon s; config := v; serverDir := serverDir s;
     logs := logs s; status := status s; crashCount := crashCount s;
     intentionToStop := intentionToStop s; serversDir := serversDir s;
     users := users s; onlinePlayers := onlinePlayers s;
     startTime := startTime s; statusInterval := statusInterval s |}.

Definition set_serverDir (v : option path) (s : MinecraftServer) :=
  {| process := process s; rcon := rcon s; config := config s; serverDir := v;
     logs := logs s; status := status s; crashCount := crashCount s;
     intentionToStop := intentionToStop s; serversDir := serversDir s;
     users := users s; onlinePlayers := onlinePlayers s;
     startTime := startTime s; statusInterval := statusInterval s |}.

Definition set_logs (v : list LogEntry.t) (s : MinecraftServer) :=
  {| process := process s; rcon := rcon s; config := config s;
     serverDir := serverDir s; logs := v; status := status s;
     crashCount := crashCount s; intentionToStop := intentionToStop s;
     serversDir := serversDir s; users := users s;
     onlinePlayers := onlinePlayers s; startTime := startTime s;
     statusInterval := statusInterval s |}.

Definition set_status (v : Status) (s : MinecraftServer) :=
  {| process := process s; rcon := rcon s; config := config s;
     serverDir := serverDir s; logs := logs s; status := v;
     crashCount := crashCount s; intentionToStop := intentionToStop s;
     serversDir := serversDir s; users := users s;
     onlinePlayers := onlinePlayers s; startTime := startTime s;
     statusInterval := statusInterval s |}.

Definition set_crashCount (v : Z) (s : MinecraftServer) :=
  {| process := process s; rcon := rcon s; config := config s;
     serverDir := serverDir s; logs := logs s; status := status s;
     crashCount := v; intentionToStop := intentionToStop s;
     serversDir := serversDir s; users := users s;
     onlinePlayers := onlinePlayers s; startTime := startTime s;
     statusInterval := statusInterval s |}.

Definition set_intentionToStop (v : bool) (s : MinecraftServer) :=
  {| process := process s; rcon := rcon s; config := config s;
     serverDir := serverDir s; logs := logs s; status := status s;
     crashCount := crashCount s; intentionToStop := v;
     serversDir := serversDir s; users := users s;
     onlinePlayers := onlinePlayers s; startTime := startTime s;
     statusInterval := statusInterval s |}.

Definition set_onlinePlayers (v : list jsstring) (s : MinecraftServer) :=
  {| process := process s; rcon := rcon s; config := config s;
     serverDir := serverDir s; logs := logs s; status := status s;
     crashCount := crashCount s; intentionToStop := intentionToStop s;
     serversDir := serversDir s; users := users s;
     onlinePlayers := v; startTime := startTime s;
     statusInterval := statusInterval s |}.

Definition set_startTime (v : option Z) (s : MinecraftServer) :=
  {| process := process s; rcon := rcon s; config := config s;
     serverDir := serverDir s; logs := logs s; status := status s;
     crashCount := crashCount s; intentionToStop := intentionToStop s;
     serversDir := serversDir s; users := users s;
     onlinePlayers := onlinePlayers s; startTime := v;
     statusInterval := statusInterval s |}.

Definition set_statusInterval (v : option Z) (s : MinecraftServer) :=
  {| process := process s; rcon := rcon s; config := config s;
     serverDir := serverDir s; logs := logs s; status := status s;
     crashCount := crashCount s; intentionToStop := intentionToStop s;
     serversDir := serversDir s; users := users s;
     onlinePlayers := onlinePlayers s; startTime := startTime s;
     statusInterval := v |}.

(** The object and its surroundings. *)
Definition Sys : Type := MinecraftServer * World.

(** [this.field] *)
Definition this {A} (f : MinecraftServer -> A) : M Sys A := gets (fun s => f s.1).
(** [this.field = v] *)
Definition assign (f : MinecraftServer -> MinecraftServer) : M Sys unit :=
  modify (fun s => (f s.1, s.2)).
(** A call that only touches the world. *)
Definition io {A} (m : M World A) : M Sys A :=
  zoom snd (fun w s => (s.1, w)) m.
(** A read of the world. *)
Definition ask {A} (f : World -> A) : M Sys A := gets (fun s => f s.2).

(** [x || dflt] on strings: the empty string is falsy. *)
Definition orElse (x dflt : jsstring) : jsstring :=
  match x with [] => dflt | _ => x end.

(** [getStatus()] *)
Definition getStatus (s : MinecraftServer) : ServerStatus.t :=
  {| ServerStatus.running :=
       bool_decide (status s = ONLINE) || bool_decide (status s = STARTING)
       || bool_decide (status s = RESTARTING);
     ServerStatus.status := status s;
     ServerStatus.activeServerId :=
       match config s with
       | Some c => match ServerConfig.id c with [] => None | i => Some i end
       | None => None
       end;
     ServerStatus.serverName := ServerConfig.name <$> config s;
     ServerStatus.startTime := startTime s |}.

(** [this.emit('status', this.getStatus())] *)
Definition emitStatus : M Sys unit :=
  s <- this getStatus ;; io (emit (EmitStatus s)).

(** The text of a file read as lines.  The serialisation of a document is not
    spelled out in characters: read as text, a document or a torn file shows
    no line. *)
Definition textOf (c : content) : jsstring :=
  match c with Text s => s | _ => [] end.

Definition parseProperty (props : list (jsstring * jsstring)) (line : jsstring)
  : list (jsstring * jsstring) :=
  let line := trim line in
  if bool_decide (line = []) || startsWith (js "#") line then props
  else
    match indexOf 61 line with
    | Some splitIdx =>
        let key := trim (take splitIdx line) in
        let val := trim (drop (Datatypes.S splitIdx) line) in
        assignProperty key val props
    | None => props
    end.

(** [readPropertiesFile()] *)
Definition readPropertiesFile : M Sys (list (jsstring * jsstring)) :=
  dir <- this serverDir ;;
  match dir with
  | None => throw (Error (js "No server selected."))
  | Some dir =>
      let propsPath := Path.join dir [js "server.properties"] in
      present <- ask (fun w => Fs.existsSync w propsPath) ;;
      if present : bool then
        content <- io (Fs.readFileSync propsPath) ;;
        ret (fold_left parseProperty (split [10] (textOf content)) [])
      else ret []
  end.

(** [writePropertiesFile(properties)] *)
Definition writePropertiesFile (properties : list (jsstring * jsstring)) : M Sys unit :=
  dir <- this serverDir ;;
  match dir with
  | None => throw (Error (js "No server selected."))
  | Some dir =>
      let propsPath := Path.join dir [js "server.properties"] in
      let newContent :=
        fold_left (fun acc kv => acc ++ kv.1 ++ js "=" ++ kv.2 ++ [10])
          properties
          (js "# Minecraft server properties" ++ [10]
           ++ js "# Edited by Laplace Panel" ++ [10]) in
      io (Fs.writeFileSync propsPath (Text newContent))
  end.

(** [detectCoreType(jarName)] *)
Definition detectCoreType (jarName : jsstring) : jsstring :=
  let lower := toLowerCase jarName in
  if includes (js "paper") lower then js "Paper"
  else if includes (js "spigot") lower then js "Spigot"
  else if includes (js "forge") lower then js "Forge"
  else if includes (js "fabric") lower then js "Fabric"
  else js "Vanilla/Custom".

(** [getProperty(key, defaultVal)] *)
Definition getProperty (key defaultVal : jsstring) : M Sys propertyValue :=
  dir <- this serverDir ;;
  match dir with
  | None => ret (Str defaultVal)
  | Some _ =>
      try_catch
        (props <- readPropertiesFile ;;
         ret (default (Str defaultVal) (readProperty key props)))
        (fun _ => ret (Str defaultVal))
  end.

(** [getPublicInfo()] *)
Definition getPublicInfo : M Sys PublicServerInfo.t :=
  cfg <- this config ;;
  motd <- getProperty (js "motd") (js "A Laplace Server") ;;
  st <- this status ;;
  online <- this onlinePlayers ;;
  maxp <- getProperty (js "max-players") (js "20") ;;
  t <- ask now ;;
  ret {| PublicServerInfo.name :=
           orElse (default [] (ServerConfig.name <$> cfg)) (js "Unconfigured Server");
         PublicServerInfo.motd := stringOf motd;
         PublicServerInfo.status := st;
         PublicServerInfo.version := js "Latest";
         PublicServerInfo.coreType :=
           match cfg with
           | Some c => detectCoreType (ServerConfig.jarFile c)
           | None => js "Unknown"
           end;
         PublicServerInfo.players :=
           {| PublicServerInfo.online := length online;
              PublicServerInfo.max := parseInt (stringOf maxp);
              PublicServerInfo.list := online |};
         PublicServerInfo.lastUpdated := t |}.

Definition publicPath (s : MinecraftServer) : path :=
  Path.join (serversDir s) [js ".."; js "laplace.public.json"].

(** [updatePublicFile()] *)
Definition updatePublicFile : M Sys unit :=
  try_catch
    (data <- getPublicInfo ;;
     p <- this publicPath ;;
     io (writeJsonAtomic p (DPublic data)))
    (fun _ => ret tt).

(** The pattern of [log], written here with blanks between its parts: an
    escape unit (001b or 009b), then [[()#;?] *], then optionally
    [[0-9]{1,4}] followed by [( ; [0-9]{0,4} ) *], then one unit of
    [[0-9A-ORZcf-nqry=><]]. *)
Definition ansiPattern : re :=
  let digit := Cls (in_range 48 57) in
  Seq (oneOf [27; 155])
   (Seq (Star (oneOf (js "[()#;?")))
    (Seq (Opt (Seq (Rep 1 4 digit) (Star (Seq (lit 59) (Rep 0 4 digit)))))
         (Cls (fun c =>
                 in_range 48 57 c || in_range 65 79 c || (c =? 82) || (c =? 90)
                 || (c =? 99) || in_range 102 110 c || (c =? 113) || (c =? 114)
                 || (c =? 121) || (c =? 61) || (c =? 62) || (c =? 60))))).

(** [this.logs.push(entry); if (this.logs.length > this.MAX_LOGS) this.logs.shift();] *)
Definition pushLog (entry : LogEntry.t) (buffer : list LogEntry.t) : list LogEntry.t :=
  let pushed := buffer ++ [entry] in
  if (MAX_LOGS <? length pushed)%nat then tail pushed else pushed.

(** [log(message, type)] *)
Definition log (message : jsstring) (type : LogEntry.kind) : M Sys unit :=
  let cleanMsg := trim (replaceAll ansiPattern [] message) in
  if bool_decide (cleanMsg = []) then ret tt
  else
    t <- ask now ;;
    let entry := {| LogEntry.timestamp := JsDate.toISOString t;
                    LogEntry.message := cleanMsg;
                    LogEntry.type := type |} in
    assign (fun s => set_logs (pushLog entry (logs s)) s) ;;
    dir <- this serverDir ;;
    match dir with
    | Some dir =>
        io (Fs.appendFile (Path.join dir [js "laplace.log"])
              (js "[" ++ LogEntry.timestamp entry ++ js "] ["
               ++ LogEntry.upper type ++ js "] " ++ cleanMsg ++ [10]))
    | None => ret tt
    end ;;
    io (emit (EmitLog entry)).

Definition logSystem (msg : jsstring) : M Sys unit := log msg LogEntry.info.
Definition logError (msg : jsstring) : M Sys unit := log msg LogEntry.error.

(** [startStatusPoller()] and [stopStatusPoller()] *)
Definition startStatusPoller : M Sys unit := assign (set_statusInterval (Some 5000%Z)).
Definition stopStatusPoller : M Sys unit := assign (set_statusInterval None).

(** [updateState(newState)] *)
Definition updateState (newState : Status) : M Sys unit :=
  assign (set_status newState) ;;
  emitStatus ;;
  updatePublicFile ;;
  match newState with
  | ONLINE => startStatusPoller
  | OFFLINE | CRASHED | STOPPING => stopStatusPoller
  | _ => ret tt
  end.

(** [JSON.parse(text)] where the instance descriptor is expected.  The field
    [config] holds a descriptor or nothing: a file that parses to a value of
    another shape, which the code would keep as it is, is outside of what the
    model follows, and is taken here as one that does not parse.  The
    properties of [selectServer] and of its callers are stated for
    descriptor files that hold a descriptor or do not parse. *)
Definition parseConfig (c : content) : M Sys ServerConfig.t :=
  match c with
  | Json (DConfig cfg) => ret cfg
  | _ => throw (Error (js "SyntaxError: Unexpected token in JSON"))
  end.

(** [selectServer(serverId)] *)
Definition selectServer (serverId : jsstring) : M Sys unit :=
  root <- this serversDir ;;
  let serverPath := Path.join root [serverId] in
  found <- ask (fun w => Fs.existsSync w serverPath) ;;
  if negb found then throw (Error (js "Server ID not found"))
  else
    let configPath := Path.join serverPath [js "laplace.server.json"] in
    found <- ask (fun w => Fs.existsSync w configPath) ;;
    if negb found then throw (Error (js "Server configuration corrupted"))
    else
      try_catch
        (text <- io (Fs.readFileSync configPath) ;;
         cfg <- parseConfig text ;;
         assign (set_config (Some cfg)) ;;
         assign (set_serverDir (Some serverPath)) ;;
         emitStatus)
        (fun _ => throw (Error (js "Failed to parse server config"))).


(** [l.map(f)] with an [f] that has effects. *)
Fixpoint mapM {S A B} (f : A -> M S B) (l : list A) : M S (list B) :=
  match l with
  | [] => ret []
  | x :: l' => y <- f x ;; ys <- mapM f l' ;; ret (y :: ys)
  end.

(** [Array.prototype.sort] with a comparator: stable, by insertion. *)
Fixpoint insertBy {A} (cmp : A -> A -> Z) (x : A) (l : list A) : list A :=
  match l with
  | [] => [x]
  | y :: l' => if (cmp x y <=? 0)%Z then x :: l else y :: insertBy cmp x l'
  end.

Definition sortBy {A} (cmp : A -> A -> Z) (l : list A) : list A :=
  foldr (insertBy cmp) [] l.

(** [crypto.randomBytes(n).toString('hex')] *)
Definition hexChar (d : N) : N := if d <? 10 then 48 + d else 87 + d.

Definition randomBytesHex (n : nat) : M World jsstring :=
  fun w =>
    (Ret (flat_map (fun i => let b := entropy w (drawn w + i)%nat mod 256 in
                             [hexChar (b / 16); hexChar (b mod 16)])
                   (seq 0 n)),
     set_drawn (Nat.add n) w).

(** The pattern [/[^a-z0-9]/g] of [createServer]. *)
Definition slugPattern : re :=
  Cls (fun c => negb (in_range 97 122 c || in_range 48 57 c)).

(** [params.name.toLowerCase().replace(/[^a-z0-9]/g, '-')] *)
Definition slug (name : jsstring) : jsstring :=
  replaceAll slugPattern (js "-") (toLowerCase name).

(** A path given as a string, read from the root. *)
Definition ofString (s : jsstring) : path := Path.join [] [s].

(** [createServer(params)] *)
Definition createServer (params : ServerCreationParams.t) : M Sys jsstring :=
  let source := ofString (ServerCreationParams.sourceJarPath params) in
  found <- ask (fun w => Fs.existsSync w source) ;;
  if negb found
  then throw (Error (js "Core file not found at: "
                     ++ ServerCreationParams.sourceJarPath params))
  else
    let serverId := slug (ServerCreationParams.name params) in
    root <- this serversDir ;;
    let serverPath := Path.join root [serverId] in
    found <- ask (fun w => Fs.existsSync w serverPath) ;;
    if found : bool
    then throw (Error (js "Server ID '" ++ serverId
                       ++ js "' already exists. Please choose a different name."))
    else
      try_catch
        (io (Fs.mkdirSync serverPath) ;;
         let destJar := Path.join serverPath [js "server.jar"] in
         io (Fs.copyFileSync source destJar) ;;
         when (ServerCreationParams.eulaAccepted params)
           (io (Fs.writeFileSync (Path.join serverPath [js "eula.txt"])
                  (Text (js "eula=true")))) ;;
         rconPwd <- io (randomBytesHex 8) ;;
         let props :=
           JsString.join [10]
             [ js "#Minecraft server properties";
               js "#Created by Laplace Panel";
               js "server-port=" ++ ofZ (ServerCreationParams.port params);
               js "enable-rcon=true";
               js "rcon.port=25575";
               js "rcon.password=" ++ rconPwd;
               js "max-players=" ++ ofZ (ServerCreationParams.maxPlayers params);
               js "motd=" ++ ServerCreationParams.motd params;
               js "online-mode=true";
               js "view-distance=10" ] in
         io (Fs.writeFileSync (Path.join serverPath [js "server.properties"])
               (Text props)) ;;
         t <- ask now ;;
         let config :=
           {| ServerConfig.id := serverId;
              ServerConfig.name := ServerCreationParams.name params;
              ServerConfig.jarFile := js "server.jar";
              ServerConfig.javaArgs :=
                {| JavaArgs.xmx := orElse (ServerCreationParams.xmx params) (js "4G");
                   JavaArgs.xms := orElse (ServerCreationParams.xms params) (js "1G");
                   JavaArgs.args := [] |};
              ServerConfig.rconPort := 25575;
              ServerConfig.rconPassword := Some rconPwd;
              ServerConfig.autoRestart := true;
              ServerConfig.created := t |} in
         io (writeJsonAtomic (Path.join serverPath [js "laplace.server.json"])
               (DConfig config)) ;;
         logSystem (js "[System] Server '" ++ ServerCreationParams.name params
                    ++ js "' created successfully (ID: " ++ serverId ++ js ").") ;;
         selectServer serverId ;;
         ret serverId)
        (fun e =>
           found <- ask (fun w => Fs.existsSync w serverPath) ;;
           (if found : bool then
              names <- io (Fs.readdirSync serverPath) ;;
              when (length names <? 3)%nat
                (try_catch (io (Fs.rmSync serverPath)) (fun _ => ret tt))
            else ret tt) ;;
           logError (js "[Creation Failed] " ++ exn_message e) ;;
           throw e).

Inductive BackupAction := DELETE_ALL | KEEP_ALL | KEEP_LATEST.

(** [this.config?.id === serverId] *)
Definition isActive (s : MinecraftServer) (serverId : jsstring) : bool :=
  match config s with
  | Some c => bool_decide (ServerConfig.id c = serverId)
  | None => false
  end.

(** [deleteServer(serverId, backupAction)] *)
Definition deleteServer (serverId : jsstring) (backupAction : BackupAction)
  : M Sys unit :=
  root <- this serversDir ;;
  let targetDir := Path.join root [serverId] in
  found <- ask (fun w => Fs.existsSync w targetDir) ;;
  if negb found then throw (Error (js "Server ID not found."))
  else
    active <- this (fun s => isActive s serverId) ;;
    st <- this status ;;
    if active && negb (bool_decide (st = OFFLINE))
    then throw (Error (js "Cannot delete the active server while it is running. Stop it first."))
    else
      let backupsDir := Path.join (Path.dirname root) [js "backups"; serverId] in
      found <- ask (fun w => Fs.existsSync w backupsDir) ;;
      (if found : bool then
         match backupAction with
         | DELETE_ALL =>
             logSystem (js "[Delete] Removing all backups for " ++ serverId ++ js "...") ;;
             io (Fs.rmSync backupsDir)
         | KEEP_LATEST =>
             logSystem (js "[Delete] Pruning backups for " ++ serverId
                        ++ js " (Keeping latest)...") ;;
             names <- io (Fs.readdirSync backupsDir) ;;
             backups <- mapM (fun f =>
                                let p := Path.join backupsDir [f] in
                                i <- io (Fs.statSync p) ;;
                                ret (p, birthtimeMs i)) names ;;
             let sorted := sortBy (fun a b => (b.2 - a.2)%Z) backups in
             forEach (tail sorted) (fun b => io (Fs.rmSync b.1))
         | KEEP_ALL => ret tt
         end
       else ret tt) ;;
      logSystem (js "[Delete] Removing server files for " ++ serverId ++ js "...") ;;
      io (Fs.rmSync targetDir) ;;
      active <- this (fun s => isActive s serverId) ;;
      when active
        (assign (set_config None) ;;
         assign (set_serverDir None) ;;
         assign (set_logs []) ;;
         emitStatus).

(** [getBackupDir()] *)
Definition getBackupDir : M Sys path :=
  root <- this serversDir ;;
  cfg <- this config ;;
  let backupDir :=
    Path.join (Path.dirname root)
      [js "backups"; orElse (default [] (ServerConfig.id <$> cfg)) (js "unknown")] in
  found <- ask (fun w => Fs.existsSync w backupDir) ;;
  when (negb found) (io (Fs.mkdirSync backupDir)) ;;
  ret backupDir.

(** The pattern [/[^a-zA-Z0-9-_]/g] of [createBackup]. *)
Definition labelPattern : re :=
  Cls (fun c => negb (in_range 97 122 c || in_range 65 90 c || in_range 48 57 c
                      || (c =? 45) || (c =? 95))).

(** [createBackup(actor, name?)] *)
Definition createBackup (actor : jsstring) (name : option jsstring) : M Sys unit :=
  dir <- this serverDir ;;
  cfg <- this config ;;
  match dir, cfg with
  | Some dir, Some _ =>
      st <- this status ;;
      if negb (bool_decide (st = OFFLINE))
      then throw (Error (js "Server must be OFFLINE to create a backup."))
      else
        logSystem (js "[Backup] Process started by user: " ++ actor) ;;
        t <- ask now ;;
        let timestamp := replaceAll (oneOf (js ":.")) (js "-") (JsDate.toISOString t) in
        let backupName :=
          match name with
          | Some (c :: n) => replaceAll labelPattern [] (c :: n) ++ js "-" ++ timestamp
          | _ => js "backup-" ++ timestamp
          end in
        backupDir <- getBackupDir ;;
        let targetDir := Path.join backupDir [backupName] in
        try_catch
          (io (Fs.cpSync dir targetDir
                 (fun src => negb (includes (js "session.lock") (Path.toString src)))) ;;
           logSystem (js "[Backup] Created snapshot: " ++ backupName))
          (fun e =>
             logError (js "[Backup] Failed: " ++ exn_message e) ;;
             throw e)
  | _, _ => throw (Error (js "No server loaded"))
  end.

(** [deleteBackup(actor, id)] *)
Definition deleteBackup (actor id : jsstring) : M Sys unit :=
  backupDir <- getBackupDir ;;
  let dir := Path.join backupDir [id] in
  found <- ask (fun w => Fs.existsSync w dir) ;;
  when found
    (io (Fs.rmSync dir) ;;
     logSystem (js "[Backup] Snapshot '" ++ id ++ js "' deleted by user: " ++ actor)).

(** [restoreBackup(actor, id)].  With no server selected [this.serverDir] is
    the empty string, which [readdirSync] does not find. *)
Definition restoreBackup (actor id : jsstring) : M Sys unit :=
  st <- this status ;;
  if negb (bool_decide (st = OFFLINE))
  then throw (Error (js "Server must be OFFLINE to restore."))
  else
    backupDir <- getBackupDir ;;
    let backupSource := Path.join backupDir [id] in
    found <- ask (fun w => Fs.existsSync w backupSource) ;;
    if negb found then throw (Error (js "Backup not found"))
    else
      logSystem (js "[Restore] Process initiated by user: " ++ actor) ;;
      logSystem (js "[Restore] Restoring from " ++ id ++ js "...") ;;
      dir <- this serverDir ;;
      match dir with
      | None => throw Fs.ENOENT
      | Some dir =>
          names <- io (Fs.readdirSync dir) ;;
          forEach names (fun file => io (Fs.rmSync (Path.join dir [file]))) ;;
          io (Fs.cpSync backupSource dir (fun _ => true)) ;;
          logSystem (js "[Restore] Completed.")
      end.

(** [{ ...this.config, ...data.config }]: every required field comes from the
    payload; the optional password is kept when the payload has none. *)
Definition mergeConfig (old new : ServerConfig.t) : ServerConfig.t :=
  {| ServerConfig.id := ServerConfig.id new;
     ServerConfig.name := ServerConfig.name new;
     ServerConfig.jarFile := ServerConfig.jarFile new;
     ServerConfig.javaArgs := ServerConfig.javaArgs new;
     ServerConfig.rconPort := ServerConfig.rconPort new;
     ServerConfig.rconPassword :=
       match ServerConfig.rconPassword new with
       | Some p => Some p
       | None => ServerConfig.rconPassword old
       end;
     ServerConfig.autoRestart := ServerConfig.autoRestart new;
     ServerConfig.created := ServerConfig.created new |}.

(** The file of the instance descriptor of the selected instance. *)
Definition descriptorPath (dir : path) : path :=
  Path.join dir [js "laplace.server.json"].

(** [saveSettings(actor, data)] *)
Definition saveSettings (actor : jsstring) (data : ServerSettingsPayload.t)
  : M Sys unit :=
  dir <- this serverDir ;;
  cfg <- this config ;;
  match dir, cfg with
  | Some dir, Some cfg =>
      let merged := mergeConfig cfg (ServerSettingsPayload.config data) in
      assign (set_config (Some merged)) ;;
      io (writeJsonAtomic (descriptorPath dir) (DConfig merged)) ;;
      writePropertiesFile (ServerSettingsPayload.properties data) ;;
      logSystem (js "[Config] Server configuration updated by user: " ++ actor) ;;
      updatePublicFile
  | _, _ => throw (Error (js "No server loaded"))
  end.

(** ** Player roster *)

(** [readJsonSafe(filename)]: what [JSON.parse] makes of the file, and the
    empty array when there is no file or when reading or parsing fails. *)
Definition readJsonSafe (filename : jsstring) : M Sys document :=
  dir <- this serverDir ;;
  match dir with
  | None => ret (DRefs [])
  | Some dir =>
      let target := Path.join dir [filename] in
      found <- ask (fun w => Fs.existsSync w target) ;;
      if negb found then ret (DRefs [])
      else
        try_catch
          (content <- io (Fs.readFileSync target) ;;
           match content with
           | Json d => ret d
           | Text s =>
               if bool_decide (trim s = []) then ret (DRefs [])
               else throw (Error (js "SyntaxError: Unexpected token in JSON"))
           | Torn => throw (Error (js "SyntaxError: Unexpected end of JSON input"))
           end)
          (fun _ => ret (DRefs []))
  end.

(** [getLaplaceMeta()]: what [JSON.parse] makes of the notes file, and the
    empty object when there is no file or when reading or parsing fails. *)
Definition getLaplaceMeta : M Sys document :=
  dir <- this serverDir ;;
  match dir with
  | None => ret (DMeta [])
  | Some dir =>
      let target := Path.join dir [js "laplace.players.json"] in
      found <- ask (fun w => Fs.existsSync w target) ;;
      if negb found then ret (DMeta [])
      else
        try_catch
          (content <- io (Fs.readFileSync target) ;;
           match content with
           | Json d => ret d
           | _ => throw (Error (js "SyntaxError: Unexpected token in JSON"))
           end)
          (fun _ => ret (DMeta []))
  end.

(** [laplaceMeta[uuid]] over the whole of [laplaceMeta]: a document of
    another shape is taken to have no entry under a player identifier. *)
Definition metaOf (laplaceMeta : document) : list (jsstring * Player.meta_t) :=
  match laplaceMeta with DMeta m => m | _ => [] end.

Definition avatarUrl (name : jsstring) : jsstring :=
  js "https://minotar.net/helm/" ++ name ++ js "/100.png".

(** The record [getOrInit] creates for an identity not seen yet. *)
Definition initPlayer (users : list LaplaceUser.t)
  (laplaceMeta : list (jsstring * Player.meta_t)) (uuid name : jsstring) : Player.t :=
  let linkedManagerUser :=
    List.find (fun u => bool_decide
                 (lookupKey (js "minecraft") (LaplaceUser.externalIds u) = Some uuid))
              users in
  {| Player.uuid := uuid;
     Player.name := name;
     Player.lastLogin := 0;
     Player.isOnline := false;
     Player.isOp := false;
     Player.isBanned := false;
     Player.isWhitelisted := false;
     Player.avatarUrl := Some (avatarUrl name);
     Player.source := Player.cache;
     Player.meta :=
       Some (default {| Player.firstSeen := None; Player.notes := None |}
                     (lookupKey uuid laplaceMeta));
     Player.linkedUser :=
       (fun u => {| Player.id := LaplaceUser.id u;
                    Player.username := LaplaceUser.username u;
                    Player.externalIds := LaplaceUser.externalIds u |})
       <$> linkedManagerUser |}.

Definition setSource (v : Player.source_t) (p : Player.t) : Player.t :=
  {| Player.uuid := Player.uuid p; Player.name := Player.name p;
     Player.lastLogin := Player.lastLogin p; Player.isOnline := Player.isOnline p;
     Player.isOp := Player.isOp p; Player.isBanned := Player.isBanned p;
     Player.isWhitelisted := Player.isWhitelisted p;
     Player.avatarUrl := Player.avatarUrl p; Player.source := v;
     Player.meta := Player.meta p; Player.linkedUser := Player.linkedUser p |}.

Definition setOp (p : Player.t) : Player.t :=
  {| Player.uuid := Player.uuid p; Player.name := Player.name p;
     Player.lastLogin := Player.lastLogin p; Player.isOnline := Player.isOnline p;
     Player.isOp := true; Player.isBanned := Player.isBanned p;
     Player.isWhitelisted := Player.isWhitelisted p;
     Player.avatarUrl := Player.avatarUrl p; Player.source := Player.source p;
     Player.meta := Player.meta p; Player.linkedUser := Player.linkedUser p |}.

Definition setBanned (p : Player.t) : Player.t :=
  {| Player.uuid := Player.uuid p; Player.name := Player.name p;
     Player.lastLogin := Player.lastLogin p; Player.isOnline := Player.isOnline p;
     Player.isOp := Player.isOp p; Player.isBanned := true;
     Player.isWhitelisted := Player.isWhitelisted p;
     Player.avatarUrl := Player.avatarUrl p; Player.source := Player.source p;
     Player.meta := Player.meta p; Player.linkedUser := Player.linkedUser p |}.

Definition setWhitelisted (p : Player.t) : Player.t :=
  {| Player.uuid := Player.uuid p; Player.name := Player.name p;
     Player.lastLogin := Player.lastLogin p; Player.isOnline := Player.isOnline p;
     Player.isOp := Player.isOp p; Player.isBanned := Player.isBanned p;
     Player.isWhitelisted := true;
     Player.avatarUrl := Player.avatarUrl p; Player.source := Player.source p;
     Player.meta := Player.meta p; Player.linkedUser := Player.linkedUser p |}.

Definition setOnline (t : Z) (p : Player.t) : Player.t :=
  {| Player.uuid := Player.uuid p; Player.name := Player.name p;
     Player.lastLogin := t; Player.isOnline := true;
     Player.isOp := Player.isOp p; Player.isBanned := Player.isBanned p;
     Player.isWhitelisted := Player.isWhitelisted p;
     Player.avatarUrl := Player.avatarUrl p; Player.source := Player.source p;
     Player.meta := Player.meta p; Player.linkedUser := Player.linkedUser p |}.

(** The [Map<string, Player>] of one aggregation, in insertion order. *)
Abbreviation playerMap := (list (jsstring * Player.t)).

(** [update(getOrInit(p.uuid, p.name))] *)
Definition touch (users : list LaplaceUser.t)
  (laplaceMeta : list (jsstring * Player.meta_t))
  (update : Player.t -> Player.t) (m : playerMap) (p : Player.ref) : playerMap :=
  match lookupKey (Player.ref_uuid p) m with
  | Some q => assignKey (Player.ref_uuid p) (update q) m
  | None =>
      m ++ [(Player.ref_uuid p,
             update (initPlayer users laplaceMeta (Player.ref_uuid p) (Player.ref_name p)))]
  end.

(** [list.forEach((p) => update(getOrInit(p.uuid, p.name)))] on what
    [readJsonSafe] returned, held in the variable [array]: only an array has a
    [forEach]; on any other value the call is a [TypeError]. *)
Definition forEachRef (array : jsstring) (value : document)
  (body : playerMap -> Player.ref -> playerMap) (m : playerMap) : M Sys playerMap :=
  match value with
  | DRefs l => ret (fold_left body l m)
  | _ => throw (Error (js "TypeError: " ++ array ++ js ".forEach is not a function"))
  end.

(** The loop over [playerMap.entries()] with its [break]: the first record
    whose name matches becomes online; [None] when none matches. *)
Fixpoint markOnline (t : Z) (name : jsstring) (m : playerMap) : option playerMap :=
  match m with
  | [] => None
  | (uuid, p) :: m' =>
      if bool_decide (toLowerCase (Player.name p) = toLowerCase name)
      then Some ((uuid, setOnline t p) :: m')
      else cons (uuid, p) <$> markOnline t name m'
  end.

Definition seenOnline (t : Z) (m : playerMap) (name : jsstring) : playerMap :=
  match markOnline t name m with
  | Some m' => m'
  | None =>
      let tempId := js "online-" ++ name in
      assignKey tempId
        {| Player.uuid := tempId; Player.name := name; Player.lastLogin := t;
           Player.isOnline := true; Player.isOp := false; Player.isBanned := false;
           Player.isWhitelisted := false; Player.avatarUrl := Some (avatarUrl name);
           Player.source := Player.rcon; Player.meta := None;
           Player.linkedUser := None |} m
  end.

(** [await this.rcon.send(cmd)] *)
Definition rconSend (cmd : jsstring) : M Sys jsstring :=
  io (emit (RconSend cmd)) ;;
  fun s => (rconReply s.2 cmd, s).

(** The names after [online:] in the answer to [list]; [None] when the answer
    does not have the expected shape or names nobody. *)
Definition parseOnline (reply : jsstring) : option (list jsstring) :=
  if negb (bool_decide (reply = [])) && includes (js "online:") reply then
    match split (js "online:") reply with
    | _ :: part :: _ =>
        if (0 <? length (trim part))%nat
        then Some (List.filter (fun n => (0 <? length n)%nat)
                     (map trim (split (js ",") part)))
        else None
    | _ => None
    end
  else None.

(** The comparator of the final sort. *)
Definition byPresence (a b : Player.t) : Z :=
  if negb (Bool.eqb (Player.isOnline a) (Player.isOnline b))
  then (if Player.isOnline a then -1 else 1)%Z
  else (Player.lastLogin b - Player.lastLogin a)%Z.

(** [getPlayers()] *)
Definition getPlayers : M Sys (list Player.t) :=
  dir <- this serverDir ;;
  match dir with
  | None => ret []
  | Some _ =>
      userCache <- readJsonSafe (js "usercache.json") ;;
      ops <- readJsonSafe (js "ops.json") ;;
      banned <- readJsonSafe (js "banned-players.json") ;;
      whitelist <- readJsonSafe (js "whitelist.json") ;;
      laplaceMeta <- getLaplaceMeta ;;
      us <- this users ;;
      let getOrInit := touch us (metaOf laplaceMeta) in
      playerMap <- forEachRef (js "userCache") userCache
                     (getOrInit (setSource Player.cache)) [] ;;
      playerMap <- forEachRef (js "ops") ops (getOrInit setOp) playerMap ;;
      playerMap <- forEachRef (js "banned") banned (getOrInit setBanned) playerMap ;;
      playerMap <- forEachRef (js "whitelist") whitelist
                     (getOrInit setWhitelisted) playerMap ;;
      assign (set_onlinePlayers []) ;;
      st <- this status ;;
      session <- this rcon ;;
      playerMap <-
        (if bool_decide (st = ONLINE) && bool_decide (is_Some session) then
           try_catch
             (reply <- rconSend (js "list") ;;
              match parseOnline reply with
              | Some onlineNames =>
                  assign (set_onlinePlayers onlineNames) ;;
                  t <- ask now ;;
                  ret (fold_left (seenOnline t) onlineNames playerMap)
              | None => ret playerMap
              end)
             (fun _ => ret playerMap)
         else ret playerMap) ;;
      updatePublicFile ;;
      ret (sortBy byPresence (map snd playerMap))
  end.

(** ** Commands *)

(** The pattern of [executeCommand] as the source file has it: the two units
    U+0E22 U+0E07, then one unit of [[0-9a-fk-or]]. *)
Definition colorPattern : re :=
  Seq (lit 3618) (Seq (lit 3591)
    (Cls (fun c => in_range 48 57 c || in_range 97 102 c || in_range 107 111 c
                   || (c =? 114)))).

(** [this.process.stdin.write(data)] *)
Definition stdinWrite (data : jsstring) : M Sys unit :=
  broken <- ask stdinThrows ;;
  if broken : bool then throw (Error (js "write EPIPE"))
  else io (emit (StdinWrite data)).

(** [executeCommand(actor, cmd)] *)
Definition executeCommand (actor cmd : jsstring) : M Sys jsstring :=
  st <- this status ;;
  if negb (bool_decide (st = ONLINE)) && negb (bool_decide (st = STARTING))
  then throw (Error (js "Server not active. Start it first."))
  else
    log (js "[" ++ actor ++ js "] /" ++ cmd) LogEntry.info ;;
    session <- this rcon ;;
    proc <- this process ;;
    match session, proc with
    | Some {| socket := true |}, _ =>
        try_catch
          (response <- rconSend cmd ;;
           ret (replaceAll colorPattern [] response))
          (fun e =>
             logError (js "RCON Error: " ++ exn_message e) ;;
             throw e)
    | _, Some {| stdin := true |} =>
        try_catch
          (stdinWrite (cmd ++ [10]) ;;
           ret (js "Command sent to process stdin (RCON unavailable)."))
          (fun _ => throw (Error (js "Failed to write to stdin")))
    | _, _ => throw (Error (js "No execution interface available."))
    end.

(** ** Lifecycle *)

(** [this.serverDir] used as a path: the empty string is the working
    directory, taken to be the root. *)
Definition dirPath (d : option path) : path := default [] d.

(** [spawn('java', args, { cwd })] *)
Definition spawn (command : jsstring) (argv : list jsstring) (cwd : path)
  : M Sys ChildProcess :=
  bad <- ask spawnThrows ;;
  match bad with
  | Some msg => throw (Error msg)
  | None =>
      n <- ask nextPid ;;
      io (modify (set_nextPid Datatypes.S)) ;;
      io (emit (Spawned command argv cwd)) ;;
      ret {| pid := n; stdin := true |}
  end.

(** [spawnProcess()], up to the registration of the handlers, which are the
    events [Stdout], [Stderr], [Close] and [ProcError] below. *)
Definition spawnProcess : M Sys unit :=
  cfg <- this config ;;
  match cfg with
  | None => ret tt
  | Some cfg =>
      updateState STARTING ;;
      logSystem (js "Booting core: " ++ ServerConfig.name cfg ++ js "...") ;;
      dir <- this (fun s => dirPath (serverDir s)) ;;
      let jarPath := Path.join dir [ServerConfig.jarFile cfg] in
      found <- ask (fun w => Fs.existsSync w jarPath) ;;
      if negb found then
        logError (js "FATAL: Server jar not found at " ++ Path.toString jarPath) ;;
        updateState CRASHED
      else
        let customArgs :=
          List.filter (fun arg => (0 <? length (trim arg))%nat)
            (split (js " ") (JavaArgs.args (ServerConfig.javaArgs cfg))) in
        let args :=
          [js "-Xmx" ++ JavaArgs.xmx (ServerConfig.javaArgs cfg);
           js "-Xms" ++ JavaArgs.xms (ServerConfig.javaArgs cfg)]
          ++ customArgs ++ [js "-jar"; Path.toString jarPath; js "nogui"] in
        t <- ask now ;;
        assign (set_startTime (Some t)) ;;
        try_catch
          (p <- spawn (js "java") args dir ;;
           assign (set_process (Some p)))
          (fun e =>
             logError (js "Spawn Exception: " ++ exn_message e) ;;
             updateState CRASHED ;;
             assign (set_startTime None))
  end.

(** [loadAndStart(serverId, actor)] *)
Definition loadAndStart (serverId actor : jsstring) : M Sys unit :=
  st <- this status ;;
  if negb (bool_decide (st = OFFLINE)) && negb (bool_decide (st = CRASHED))
  then throw (Error (js "Server is already running or busy"))
  else
    selectServer serverId ;;
    assign (set_crashCount 0) ;;
    assign (set_intentionToStop false) ;;
    updateState STARTING ;;
    logSystem (js "[System] Start command received from user: " ++ actor) ;;
    spawnProcess.

(** [this.config?.autoRestart !== false] *)
Definition autoRestartEnabled (s : MinecraftServer) : bool :=
  match config s with
  | Some c => ServerConfig.autoRestart c
  | None => true
  end.

(** [handleCrash()] *)
Definition handleCrash : M Sys unit :=
  assign (fun s => set_crashCount (crashCount s + 1) s) ;;
  n <- this crashCount ;;
  enabled <- this autoRestartEnabled ;;
  if (n <=? 3)%Z && enabled then
    logError (js "Server crashed! Auto-restarting (" ++ ofZ n ++ js "/3) in 5s...") ;;
    io (setTimeout Respawn 5000)
  else
    logError (js "Max crash attempts reached. Manual intervention required.").

(** The callback of [handleCrash]'s timer. *)
Definition respawn : M Sys unit :=
  stopping <- this intentionToStop ;;
  if negb stopping then spawnProcess else ret tt.

(** [connectRcon(attempts)], up to the timer. *)
Definition connectRcon (attempts : nat) : M Sys unit :=
  session <- this rcon ;;
  cfg <- this config ;;
  if bool_decide (is_Some session) || negb (bool_decide (is_Some cfg)) then ret tt
  else if (5 <? attempts)%nat then ret tt
  else io (setTimeout (RconAttempt attempts) 3000).

(** [await Rcon.connect({ host, port, password })] *)
Definition rconConnect (host : jsstring) (port : Z) (password : jsstring)
  : M Sys Rcon :=
  io (emit (RconConnect host port password)) ;;
  up <- ask rconListening ;;
  if up : bool then ret {| socket := true |}
  else throw (Error (js "connect ECONNREFUSED")).

(** The callback of [connectRcon]'s timer. *)
Definition rconAttempt (attempts : nat) : M Sys unit :=
  cfg <- this config ;;
  match cfg with
  | None => ret tt
  | Some cfg =>
      try_catch
        (session <- rconConnect (js "localhost")
                      (if (ServerConfig.rconPort cfg =? 0)%Z then 25575%Z
                       else ServerConfig.rconPort cfg)
                      (orElse (default [] (ServerConfig.rconPassword cfg)) (js "minecraft")) ;;
         assign (set_rcon (Some session)) ;;
         logSystem (js "RCON channel established."))
        (fun e =>
           when (2 <? attempts)%nat
             (logError (js "RCON connection retry (" ++ ofNat attempts ++ js "/5)...")) ;;
           connectRcon (attempts + 1))
  end.

(** [cleanup()] *)
Definition cleanup : M Sys unit :=
  stopStatusPoller ;;
  session <- this rcon ;;
  when (bool_decide (is_Some session))
    (io (emit RconEnd) ;; assign (set_rcon None)) ;;
  assign (set_process None) ;;
  assign (set_startTime None).

(** [process.stdout.on('data', ...)] *)
Definition onStdout (str : jsstring) : M Sys unit :=
  log str LogEntry.info ;;
  if (includes (js "Done") str && includes (js "!") str)
     || includes (js "Listening on port") str
  then
    st <- this status ;;
    if negb (bool_decide (st = ONLINE))
    then updateState ONLINE ;; connectRcon 0
    else ret tt
  else ret tt.

(** [process.stderr.on('data', ...)] *)
Definition onStderr (str : jsstring) : M Sys unit := logError str.

(** [process.on('error', ...)] *)
Definition onError : M Sys unit :=
  logError (js "FATAL: Failed to spawn Java process. Is Java installed?") ;;
  updateState CRASHED ;;
  assign (set_startTime None).

(** An exit code that is none of 0, 130 and 143; [None] is the [null] of a
    process killed by a signal. *)
Definition abnormal (code : option Z) : bool :=
  match code with
  | Some c => negb ((c =? 0) || (c =? 130) || (c =? 143))%Z
  | None => true
  end.

(** [process.on('close', ...)] *)
Definition onClose (code : option Z) : M Sys unit :=
  logSystem (js "Process exited with code "
             ++ match code with Some c => ofZ c | None => js "null" end) ;;
  cleanup ;;
  stopping <- this intentionToStop ;;
  st <- this status ;;
  if negb stopping && negb (bool_decide (st = RESTARTING)) && abnormal code then
    updateState CRASHED ;;
    handleCrash
  else if negb (bool_decide (st = RESTARTING)) then updateState OFFLINE
  else ret tt.

(** ** Events

    What the event loop delivers to the object between two calls of its
    methods. *)

Inductive event :=
| Stdout (data : jsstring)
| Stderr (data : jsstring)
| Close (code : option Z)
| ProcError
| Elapsed (n : nat)            (* the n-th pending timer fires *)
| Appended (n : nat)           (* the n-th pending append is carried out *)
| Tick.                        (* the period of the status poller elapses *)

Definition runTask (job : task) : M Sys unit :=
  match job with
  | Respawn => respawn
  | RconAttempt attempts => rconAttempt attempts
  end.

Definition step (e : event) : M Sys unit :=
  match e with
  | Stdout data => onStdout data
  | Stderr data => onStderr data
  | Close code => onClose code
  | ProcError => onError
  | Elapsed n =>
      pending <- ask timers ;;
      match pending !! n with
      | Some (job, _) =>
          io (modify (set_timers (fun l => take n l ++ drop (Datatypes.S n) l))) ;;
          runTask job
      | None => ret tt
      end
  | Appended n =>
      pending <- ask appends ;;
      match pending !! n with
      | Some (p, data) =>
          io (modify (set_appends (fun l => take n l ++ drop (Datatypes.S n) l))) ;;
          try_catch (io (Fs.appendNow p data))
            (fun _ => io (emit (ConsoleError (js "Log write failed:"))))
      | None => ret tt
      end
  | Tick =>
      poller <- this statusInterval ;;
      st <- this status ;;
      if bool_decide (is_Some poller) && bool_decide (st = ONLINE)
      then try_catch (getPlayers ;; ret tt) (fun _ => ret tt)
      else ret tt
  end.

(** The state after a sequence of events. *)
Definition run (es : list event) (s : Sys) : Sys :=
  fold_left (fun s e => (step e s).2) es s.

(** ** A concrete installation

    The data directory [/srv] with two instances, [main] and [other], a
    backup directory for [main], and an uploaded jar under [/tmp]. *)

Module Demo.

Definition dir : inode := {| node_of := Dir; birthtimeMs := 1000 |}.
Definition file (c : content) : inode := {| node_of := File c; birthtimeMs := 1000 |}.

Definition servers : path := [js "srv"; js "servers"].

Definition descriptor (i : string) : ServerConfig.t :=
  {| ServerConfig.id := js i;
     ServerConfig.name := js i;
     ServerConfig.jarFile := js "server.jar";
     ServerConfig.javaArgs :=
       {| JavaArgs.xmx := js "4G"; JavaArgs.xms := js "1G"; JavaArgs.args := [] |};
     ServerConfig.rconPort := 25575;
     ServerConfig.rconPassword := Some (js "0011223344556677");
     ServerConfig.autoRestart := true;
     ServerConfig.created := 1000 |}.

Definition steve : Player.ref :=
  {| Player.ref_uuid := js "8667ba71-b85a-4004-af54-457a9734eed7";
     Player.ref_name := js "Steve" |}.
Definition alex : Player.ref :=
  {| Player.ref_uuid := js "ec561538-f3fd-461d-aff5-086b22154bce";
     Player.ref_name := js "Alex" |}.

Definition disk : gmap path inode :=
  list_to_map
    [ ([js "srv"], dir);
      (servers, dir);
      (servers ++ [js "main"], dir);
      (servers ++ [js "main"; js "laplace.server.json"], file (Json (DConfig (descriptor "main"))));
      (servers ++ [js "main"; js "server.jar"], file (Text (js "PK")));
      (servers ++ [js "main"; js "usercache.json"], file (Json (DRefs [steve; alex])));
      (servers ++ [js "main"; js "ops.json"], file (Json (DRefs [alex])));
      (servers ++ [js "other"], dir);
      (servers ++ [js "other"; js "laplace.server.json"], file (Json (DConfig (descriptor "other"))));
      ([js "srv"; js "backups"], dir);
      ([js "srv"; js "backups"; js "main"], dir);
      ([js "srv"; js "backups"; js "main"; js "backup-2024"], dir);
      ([js "srv"; js "config.json"],
       file (Json (DPanel {| PanelConfig.panelPort := 11228;
                             PanelConfig.activeServer := Some (js "main");
                             PanelConfig.theme := js "dark" |})));
      ([js "tmp"], dir);
      ([js "tmp"; js "paper.jar"], file (Text (js "PK"))) ].

(** A well-behaved environment; the RCON port of the game is closed. *)
Definition world : World :=
  {| files := disk; fault := fun _ => None; now := 1709210096789;
     entropy := N.of_nat; drawn := 0; timers := []; appends := []; trace := [];
     nextPid := 4000; spawnThrows := None; rconListening := false;
     rconReply := fun _ => Throw (Error (js "connection closed"));
     stdinThrows := false |}.

(** The same, with a game that answers every RCON command with a green
    "Hello" (section sign, [a], then the text). *)
Definition talkative : World :=
  {| files := disk; fault := fun _ => None; now := 1709210096789;
     entropy := N.of_nat; drawn := 0; timers := []; appends := []; trace := [];
     nextPid := 4000; spawnThrows := None; rconListening := true;
     rconReply := fun _ => Ret (167 :: js "aHello");
     stdinThrows := false |}.

(** The same disk, on which the descriptor of [main] can no longer be
    replaced: the rename over it is refused. *)
Definition readonly : World :=
  {| files := disk;
     fault := fun op => match op with
                        | OpRename _ _ => Some Refused
                        | _ => None
                        end;
     now := 1709210096789;
     entropy := N.of_nat; drawn := 0; timers := []; appends := []; trace := [];
     nextPid := 4000; spawnThrows := None; rconListening := false;
     rconReply := fun _ => Throw (Error (js "connection closed"));
     stdinThrows := false |}.

(** The supervisor just constructed. *)
Definition fresh : MinecraftServer := constructor servers [].

(** The supervisor with [main] selected and stopped. *)
Definition stopped : MinecraftServer :=
  set_serverDir (Some (servers ++ [js "main"]))
    (set_config (Some (descriptor "main")) fresh).

(** The supervisor with [main] up, no RCON session. *)
Definition online : MinecraftServer :=
  set_statusInterval (Some 5000%Z)
    (set_startTime (Some 1709210000000%Z)
       (set_process (Some {| pid := 3999; stdin := true |})
          (set_status ONLINE stopped))).

(** The same with an RCON session. *)
Definition connected : MinecraftServer :=
  set_rcon (Some {| socket := true |}) online.

(** The supervisor with [main] booting: the process runs and has not said
    yet that it is ready. *)
Definition starting : MinecraftServer :=
  set_startTime (Some 1709210000000%Z)
    (set_process (Some {| pid := 3999; stdin := true |})
       (set_status STARTING stopped)).

(** The line with which the game announces that it is ready. *)
Definition doneLine : jsstring :=
  js "[12:34:56] [Server thread/INFO]: Done (3.211s)! For help, type help".

(** [main] just started from [stopped]. *)
Definition started : Sys :=
  (loadAndStart (js "main") (js "admin") (stopped, world)).2.

(** A settings payload for [main]. *)
Definition settings : ServerSettingsPayload.t :=
  {| ServerSettingsPayload.config := descriptor "main";
     ServerSettingsPayload.properties := [(js "motd", js "hi")] |}.

Definition params (name : string) : ServerCreationParams.t :=
  {| ServerCreationParams.name := js name;
     ServerCreationParams.sourceJarPath := js "/tmp/paper.jar";
     ServerCreationParams.port := 25565;
     ServerCreationParams.maxPlayers := 20;
     ServerCreationParams.motd := js "A Laplace Server";
     ServerCreationParams.xmx := js "2G";
     ServerCreationParams.xms := [];
     ServerCreationParams.eulaAccepted := true |}.

End Demo.

(** ** Observations used in the proofs *)

(** [m] never changes the observation [f] of the state, whether it returns
    or throws. *)
Definition keeps {S A B} (f : S -> B) (m : M S A) : Prop :=
  forall s, f (m s).2 = f s.

(** [m] always returns. *)
Definition total {S A} (m : M S A) : Prop :=
  forall s, exists a, (m s).1 = Ret a.

(** An observation of the world is blind to a component when updating the
    component does not change it. *)
Definition blind_files {B} (f : World -> B) : Prop :=
  forall g w, f (set_files g w) = f w.
Definition blind_trace {B} (f : World -> B) : Prop :=
  forall g w, f (set_trace g w) = f w.
Definition blind_timers {B} (f : World -> B) : Prop :=
  forall g w, f (set_timers g w) = f w.
Definition blind_appends {B} (f : World -> B) : Prop :=
  forall g w, f (set_appends g w) = f w.
Definition blind_drawn {B} (f : World -> B) : Prop :=
  forall g w, f (set_drawn g w) = f w.
Definition blind_nextPid {B} (f : World -> B) : Prop :=
  forall g w, f (set_nextPid g w) = f w.

(** The directory of the instance [serverId]. *)
Definition instanceDir (s : MinecraftServer) (serverId : jsstring) : path :=
  Path.join (serversDir s) [serverId].

(** The backup directory of the selected instance, as [getBackupDir]
    computes it. *)
Definition backupDirOf (s : MinecraftServer) : path :=
  Path.join (Path.dirname (serversDir s))
    [js "backups"; orElse (default [] (ServerConfig.id <$> config s)) (js "unknown")].

(** [m] maintains the invariant [P], whether it returns or throws. *)
Definition preserves {S A} (P : S -> Prop) (m : M S A) : Prop :=
  forall s, P s -> P (m s).2.

(** The log buffer is within its cap. *)
Definition logsBounded (s : Sys) : Prop := (length (logs s.1) <= MAX_LOGS)%nat.

(** What can happen to a supervisor: an event is delivered or one of its
    methods is called (the value a method returns is dropped here). *)
Inductive operation :=
| Deliver (e : event)
| SelectServer (serverId : jsstring)
| CreateServer (params : ServerCreationParams.t)
| DeleteServer (serverId : jsstring) (backupAction : BackupAction)
| CreateBackup (actor : jsstring) (name : option jsstring)
| DeleteBackup (actor id : jsstring)
| RestoreBackup (actor id : jsstring)
| SaveSettings (actor : jsstring) (data : ServerSettingsPayload.t)
| GetPlayers
| ExecuteCommand (actor cmd : jsstring)
| LoadAndStart (serverId actor : jsstring).

Definition perform (o : operation) : M Sys unit :=
  match o with
  | Deliver e => step e
  | SelectServer serverId => selectServer serverId
  | CreateServer params => createServer params ;; ret tt
  | DeleteServer serverId backupAction => deleteServer serverId backupAction
  | CreateBackup actor name => createBackup actor name
  | DeleteBackup actor id => deleteBackup actor id
  | RestoreBackup actor id => restoreBackup actor id
  | SaveSettings actor data => saveSettings actor data
  | GetPlayers => getPlayers ;; ret tt
  | ExecuteCommand actor cmd => executeCommand actor cmd ;; ret tt
  | LoadAndStart serverId actor => loadAndStart serverId actor
  end.

(** The supervisor and the world after a history of operations. *)
Definition history (os : list operation) (s : Sys) : Sys :=
  fold_left (fun s o => (perform o s).2) os s.

(** The readiness test of the [stdout] handler. *)
Definition ready (str : jsstring) : bool :=
  (includes (js "Done") str && includes (js "!") str)
  || includes (js "Listening on port") str.

(** How many RCON connections were attempted so far. *)
Definition isConnect (e : effect) : bool :=
  match e with RconConnect _ _ _ => true | _ => false end.
Definition connects (w : World) : nat := length (List.filter isConnect (trace w)).

(** How many respawns were scheduled so far. *)
Definition isRespawn (e : effect) : bool :=
  match e with SetTimeout Respawn _ => true | _ => false end.
Definition respawnsScheduled (w : World) : nat :=
  length (List.filter isRespawn (trace w)).

(** How many processes were spawned so far. *)
Definition isSpawn (e : effect) : bool :=
  match e with Spawned _ _ _ => true | _ => false end.
Definition spawns (w : World) : nat := length (List.filter isSpawn (trace w)).

(** The state is not RESTARTING. *)
Definition notRestarting (s : MinecraftServer) : Prop := status s <> RESTARTING.

(** Between two crashes of a run that nobody asked to stop: [count] crashes
    so far, auto-restart not off, the timers [pending] and [scheduled]
    respawns on the record. *)
Definition betweenCrashes (count : Z) (pending : list (task * Z)) (scheduled : nat)
  (s : Sys) : Prop :=
  intentionToStop s.1 = false /\ notRestarting s.1
  /\ autoRestartEnabled s.1 = true /\ crashCount s.1 = count
  /\ timers s.2 = pending /\ respawnsScheduled s.2 = scheduled.

(** The jar that [spawnProcess] starts for the descriptor [cfg]. *)
Definition jarPathOf (s : MinecraftServer) (cfg : ServerConfig.t) : path :=
  Path.join (dirPath (serverDir s)) [ServerConfig.jarFile cfg].

(** What a respawn needs to bring a process up: the descriptor [cfg]
    selected, its jar on disk, at a path other than the public summary and
    its temporary file, and a [spawn] that does not throw. *)
Definition canSpawn (cfg : ServerConfig.t) (s : Sys) : Prop :=
  config s.1 = Some cfg
  /\ Fs.existsSync s.2 (jarPathOf s.1 cfg) = true
  /\ jarPathOf s.1 cfg <> publicPath s.1
  /\ jarPathOf s.1 cfg <> tmpPath (publicPath s.1)
  /\ spawnThrows s.2 = None.

(** What [readJsonSafe] and [getLaplaceMeta] make of the file at [target],
    [fallback] being the value they return on any failure. *)
Definition parsedAt (fallback : document) (w : World) (target : path) : document :=
  if Fs.existsSync w target then
    match fault w (OpRead target), Fs.lookupNode (files w) target with
    | None, Some {| node_of := File (Json d) |} => d
    | _, _ => fallback
    end
  else fallback.

(** The array in [value], when it is one. *)
Definition refsOf (array : jsstring) (value : document) : outcome (list Player.ref) :=
  match value with
  | DRefs l => Ret l
  | _ => Throw (Error (js "TypeError: " ++ array ++ js ".forEach is not a function"))
  end.

Definition andThen {A B} (r : outcome A) (k : A -> outcome B) : outcome B :=
  match r with Ret a => k a | Throw e => Throw e end.

(** The four static sources folded into the map. *)
Definition staticRoster (users : list LaplaceUser.t)
  (laplaceMeta : list (jsstring * Player.meta_t))
  (userCache ops banned whitelist : list Player.ref) : playerMap :=
  let m := fold_left (touch users laplaceMeta (setSource Player.cache)) userCache [] in
  let m := fold_left (touch users laplaceMeta setOp) ops m in
  let m := fold_left (touch users laplaceMeta setBanned) banned m in
  fold_left (touch users laplaceMeta setWhitelisted) whitelist m.

(** The roster as the static sources under [dir] give it, or the error of
    the first of the four lists that is not an array. *)
Definition rosterOf (users : list LaplaceUser.t) (w : World) (dir : path)
  : outcome (list Player.t) :=
  let source name := parsedAt (DRefs []) w (Path.join dir [name]) in
  let laplaceMeta :=
    metaOf (parsedAt (DMeta []) w (Path.join dir [js "laplace.players.json"])) in
  andThen (refsOf (js "userCache") (source (js "usercache.json"))) (fun userCache =>
  andThen (refsOf (js "ops") (source (js "ops.json"))) (fun ops =>
  andThen (refsOf (js "banned") (source (js "banned-players.json"))) (fun banned =>
  andThen (refsOf (js "whitelist") (source (js "whitelist.json"))) (fun whitelist =>
  Ret (sortBy byPresence
         (map snd (staticRoster users laplaceMeta userCache ops banned whitelist))))))).

(** The four lists under [dir] are arrays, when they can be read at all. *)
Definition listsAreArrays (w : World) (dir : path) : Prop :=
  forall name,
    name ∈ [js "usercache.json"; js "ops.json"; js "banned-players.json";
            js "whitelist.json"] ->
    exists l, parsedAt (DRefs []) w (Path.join dir [name]) = DRefs l.

(** The names of the files the roster is built from. *)
Definition sourceNames : list jsstring :=
  [js "usercache.json"; js "ops.json"; js "banned-players.json";
   js "whitelist.json"; js "laplace.players.json"].

(** Two worlds hold the same source files under [dir], and reading them
    fails or not in the same way. *)
Definition sameSources (dir : path) (w w' : World) : Prop :=
  forall name, name ∈ sourceNames ->
    Fs.lookupNode (files w') (dir ++ [name]) = Fs.lookupNode (files w) (dir ++ [name])
    /\ fault w' (OpRead (dir ++ [name])) = fault w (OpRead (dir ++ [name])).

(** What an attempt and a retry leave alone. *)
Definition rconScene (s : Sys) :=
  (config s.1, status s.1, process s.1, rconListening s.2, stdinThrows s.2).

(** What a crash and a respawn leave alone. *)
Definition crashScene (s : Sys) := (intentionToStop s.1, config s.1).

(** * Further methods of the supervisor and their callers *)

(** ** More of the class [MinecraftServer] *)

(** [getRecentLogs()]: [this.logs.slice(-200)] *)
Definition getRecentLogs (s : MinecraftServer) : list LogEntry.t :=
  drop (length (logs s) - 200) (logs s).

(** [getSettings()] *)
Definition getSettings : M Sys ServerSettingsPayload.t :=
  dir <- this serverDir ;;
  cfg <- this config ;;
  match dir, cfg with
  | Some _, Some cfg =>
      properties <- readPropertiesFile ;;
      ret {| ServerSettingsPayload.config := cfg;
             ServerSettingsPayload.properties := properties |}
  | _, _ => throw (Error (js "No server loaded. Please create or select a server."))
  end.

(** [getBackupsForServer(serverId)] *)
Definition getBackupsForServer (serverId : jsstring) : M Sys (list jsstring) :=
  root <- this serversDir ;;
  let dir := Path.join (Path.dirname root) [js "backups"; serverId] in
  found <- ask (fun w => Fs.existsSync w dir) ;;
  if negb found then ret [] else io (Fs.readdirSync dir).

(** ** Further concrete situations *)

Module Scene.

(** The descriptor of [main] with auto-restart switched off. *)
Definition manual : ServerConfig.t :=
  {| ServerConfig.id := js "main";
     ServerConfig.name := js "main";
     ServerConfig.jarFile := js "server.jar";
     ServerConfig.javaArgs :=
       {| JavaArgs.xmx := js "4G"; JavaArgs.xms := js "1G"; JavaArgs.args := [] |};
     ServerConfig.rconPort := 25575;
     ServerConfig.rconPassword := Some (js "0011223344556677");
     ServerConfig.autoRestart := false;
     ServerConfig.created := 1000 |}.

(** [main] up, with that descriptor. *)
Definition unattended : MinecraftServer := set_config (Some manual) Demo.online.

End Scene.

(** ** Observations used in the further proofs *)

(** The object after [selectServer] has read the descriptor [cfg] of the
    instance [serverId]. *)
Definition selected (s : MinecraftServer) (serverId : jsstring) (cfg : ServerConfig.t)
  : MinecraftServer :=
  set_serverDir (Some (instanceDir s serverId)) (set_config (Some cfg) s).

(** The file at [p] holds the document [d] and can be read. *)
Definition holds (w : World) (p : path) (d : document) : Prop :=
  fault w (OpRead p) = None
  /\ exists b, Fs.lookupNode (files w) p
               = Some {| node_of := File (Json d); birthtimeMs := b |}.

(** The file at [p], if it holds a JSON document at all, holds a descriptor:
    the files for which [parseConfig] does what [JSON.parse] does. *)
Definition descriptorIfJson (w : World) (p : path) : Prop :=
  forall d b,
    Fs.lookupNode (files w) p = Some {| node_of := File (Json d); birthtimeMs := b |} ->
    exists cfg, d = DConfig cfg.

(** The object that the assignments [obj[k] = v] build from [{}], for the
    entries of [properties] in their order. *)
Definition objectOf (properties : list (jsstring * jsstring))
  : list (jsstring * jsstring) :=
  fold_left (fun acc kv => assignProperty kv.1 kv.2 acc) properties [].

(** A key that an object keeps as an entry of its own, in the order of
    creation: not [__proto__] and not an array index. *)
Definition plainKey (k : jsstring) : Prop :=
  k <> js "__proto__" /\ arrayIndex k = None.

(** [m] throws no error but those that satisfy [P]. *)
Definition raises {S A} (P : exn -> Prop) (m : M S A) : Prop :=
  forall s e, (m s).1 = Throw e -> P e.

(** The errors of the file system. *)
Definition fsError (e : exn) : Prop :=
  e ∈ [Fs.ENOENT; Fs.ENOTDIR; Fs.EISDIR; Fs.ENOTEMPTY; Fs.EINVAL; Fs.EIO].

(** The error with which [deleteServer] refuses the active instance. *)
Definition activeServerError : exn :=
  Error (js "Cannot delete the active server while it is running. Stop it first.").

(** The file to which [log] appends, when an instance is selected. *)
Definition logFile (s : MinecraftServer) : option path :=
  (fun dir => Path.join dir [js "laplace.log"]) <$> serverDir s.

(** A property that survives the properties file: a key that is not empty,
    has no white space at its ends, no [=] and no line feed in it and does
    not start a comment, and a value with no white space at its ends and no
    line feed in it. *)
Definition cleanProperty (kv : jsstring * jsstring) : Prop :=
  kv.1 <> [] /\ trim kv.1 = kv.1 /\ trim kv.2 = kv.2
  /\ head kv.1 <> Some 35 /\ (61 ∉ kv.1) /\ (10 ∉ kv.1) /\ (10 ∉ kv.2).

(** The text [writePropertiesFile] writes for [properties]. *)
Definition propertiesText (properties : list (jsstring * jsstring)) : jsstring :=
  fold_left (fun acc kv => acc ++ kv.1 ++ js "=" ++ kv.2 ++ [10]) properties
    (js "# Minecraft server properties" ++ [10]
     ++ js "# Edited by Laplace Panel" ++ [10]).

(** The command line [spawnProcess] hands to [spawn] for the descriptor
    [cfg] and the jar at [jarPath]. *)
Definition javaArguments (cfg : ServerConfig.t) (jarPath : path) : list jsstring :=
  [js "-Xmx" ++ JavaArgs.xmx (ServerConfig.javaArgs cfg);
   js "-Xms" ++ JavaArgs.xms (ServerConfig.javaArgs cfg)]
  ++ List.filter (fun arg => (0 <? length (trim arg))%nat)
       (split (js " ") (JavaArgs.args (ServerConfig.javaArgs cfg)))
  ++ [js "-jar"; Path.toString jarPath; js "nogui"].

(** A unit of an identifier: a lower-case letter, a digit or a dash. *)
Definition idUnit (c : N) : bool :=
  in_range 97 122 c || in_range 48 57 c || (c =? 45).

(** ** The utilities module *)

Module Utils.

(** [`${filePath}.corrupt`] lengthens the last component of the path. *)
Definition corruptPath (filePath : path) : path :=
  match last filePath with
  | Some name => removelast filePath ++ [name ++ js ".corrupt"]
  | None => [js ".corrupt"]
  end.

(** [readJsonSafe(filePath, defaultValue)].  [JSON.parse(content) as T] does
    not look at the shape of what it parsed: a document of any shape is
    returned as it is. *)
Definition readJsonSafe (filePath : path) (defaultValue : document)
  : M World document :=
  found <- gets (fun w => Fs.existsSync w filePath) ;;
  if negb found then ret defaultValue
  else
    try_catch
      (content <- Fs.readFileSync filePath ;;
       match content with
       | Json d => ret d
       | Text s =>
           if bool_decide (trim s = []) then ret defaultValue
           else throw (Error (js "Unexpected token in JSON"))
       | Torn => throw (Error (js "Unexpected end of JSON input"))
       end)
      (fun e =>
         emit (ConsoleError
                 (js "[System] Warning: Failed to parse JSON at "
                  ++ Path.toString filePath
                  ++ js ". Using default value. Error: " ++ exn_message e)) ;;
         try_catch (Fs.copyFileSync filePath (corruptPath filePath))
           (fun _ => ret tt) ;;
         ret defaultValue).

End Utils.

(** ** The server entry point ([server.ts]) *)

Module Server.

Definition PORT : Z := 11228.

(** [getConfig()], for the configuration file at [CONFIG_FILE]. *)
Definition getConfig (CONFIG_FILE : path) : M World document :=
  Utils.readJsonSafe CONFIG_FILE
    (DPanel {| PanelConfig.panelPort := PORT;
               PanelConfig.activeServer := None;
               PanelConfig.theme := js "dark" |}).

(** [config.activeServer] as the tests [!config.activeServer] see it: absent,
    [null] and the empty string are falsy.  A document of another shape is
    taken to have no such field. *)
Definition activeServerOf (config : document) : option jsstring :=
  match config with
  | DPanel c =>
      match PanelConfig.activeServer c with
      | Some (u :: i) => Some (u :: i)
      | _ => None
      end
  | _ => None
  end.

(** [validatePath(requestedPath)], for the servers directory [SERVERS_DIR].
    [path.resolve] of an absolute path is its normal form. *)
Definition validatePath (SERVERS_DIR CONFIG_FILE : path) (requestedPath : jsstring)
  : M World path :=
  config <- getConfig CONFIG_FILE ;;
  match activeServerOf config with
  | None => throw (Error (js "No active server selected"))
  | Some activeServer =>
      let root := Path.join SERVERS_DIR [activeServer] in
      let target := Path.join root [requestedPath] in
      if negb (startsWith (Path.toString root) (Path.toString target))
      then throw (Error (js "Access denied: Path traversal detected"))
      else ret target
  end.

(** [parseTokenString(rawToken)]: the pair of [type] and [value]. *)
Definition parseTokenString (rawToken : jsstring) : jsstring * jsstring :=
  if bool_decide (rawToken = []) then ([], [])
  else
    match indexOf 64 rawToken with
    | Some separatorIndex =>
        (take separatorIndex rawToken, drop (Datatypes.S separatorIndex) rawToken)
    | None => (js "laplace", rawToken)
    end.

End Server.

(** A content [JSON.parse] rejects: the remains of a write, or text that is
    not blank. *)
Definition unparsable (c : content) : Prop :=
  c = Torn \/ exists t, c = Text t /\ trim t <> [].

(** A path in normal form: no component is empty or holds a slash. *)
Definition normalised (p : path) : Prop :=
  Forall (fun c : jsstring => c <> [] /\ (47 ∉ c)) p.

(** [target] is at or below [root], or at or below a sibling of [root] whose
    name starts with the name of [root]. *)
Definition withinOrBeside (root target : path) : Prop :=
  root = []
  \/ exists parent name more rest,
       root = parent ++ [name] /\ target = parent ++ (name ++ more) :: rest.

(** How many writes the standard input of the game received so far. *)
Definition isStdinWrite (e : effect) : bool :=
  match e with StdinWrite _ => true | _ => false end.
Definition stdinWrites (w : World) : nat :=
  length (List.filter isStdinWrite (trace w)).

(** [performPlayerAction(actor, name, action, payload?)].  The type of
    [action] is erased when the program runs: the [switch] compares strings
    and has a [default]. *)
Definition performPlayerAction (actor name action : jsstring)
  (payload : option jsstring) : M Sys jsstring :=
  st <- this status ;;
  if negb (bool_decide (st = ONLINE))
  then throw (Error (js "Server must be online to perform actions"))
  else
    let given := default [] payload in
    cmd <- (if eqb action (js "kick")
            then ret (js "kick " ++ name ++ js " " ++ orElse given (js "Kicked by operator"))
            else if eqb action (js "ban")
            then ret (js "ban " ++ name ++ js " " ++ orElse given (js "Banned by operator"))
            else if eqb action (js "pardon") then ret (js "pardon " ++ name)
            else if eqb action (js "op") then ret (js "op " ++ name)
            else if eqb action (js "deop") then ret (js "deop " ++ name)
            else if eqb action (js "whitelist_add") then ret (js "whitelist add " ++ name)
            else if eqb action (js "whitelist_remove")
            then ret (js "whitelist remove " ++ name)
            else if eqb action (js "message")
            then
              match given with
              | [] => throw (Error (js "Message payload required"))
              | _ =>
                  ret (js "tellraw " ++ name ++ js " {" ++ [34] ++ js "text" ++ [34]
                       ++ js ":" ++ [34] ++ js "[Server] " ++ given ++ [34] ++ js ","
                       ++ [34] ++ js "color" ++ [34] ++ js ":" ++ [34] ++ js "gold"
                       ++ [34] ++ js "}")
              end
            else throw (Error (js "Unknown action"))) ;;
    response <- executeCommand actor cmd ;;
    logSystem (js "[Action] " ++ actor ++ js ": " ++ action ++ js " on " ++ name
               ++ js " -> " ++ response) ;;
    ret response.

(** The commands sent over the RCON session so far, latest first. *)
Definition rconSent (w : World) : list jsstring :=
  omap (fun e => match e with RconSend cmd => Some cmd | _ => None end) (trace w).

(** The name [createBackup] gives the snapshot it takes at the time [t]. *)
Definition snapshotName (name : option jsstring) (t : Z) : jsstring :=
  let timestamp := replaceAll (oneOf (js ":.")) (js "-") (JsDate.toISOString t) in
  match name with
  | Some (c :: n) => replaceAll labelPattern [] (c :: n) ++ js "-" ++ timestamp
  | _ => js "backup-" ++ timestamp
  end.

(** The filter [createBackup] hands to [cpSync]. *)
Definition notLocked (src : path) : bool :=
  negb (includes (js "session.lock") (Path.toString src)).

(** A name an entry of a directory can bear. *)
Definition plainName (c : jsstring) : Prop :=
  c <> [] /\ (47 ∉ c) /\ c <> js "." /\ c <> js "..".

(** A tree as a file system holds one: the entries bear plain names, and what
    is above an entry is a directory. *)
Definition wellFormed (fs : gmap path inode) : Prop :=
  map_Forall (fun (q : path) (_ : inode) =>
                Forall plainName q
                /\ Forall (fun a => Fs.isDir fs a = true) (Fs.ancestors (removelast q)))
             fs.

(** Nothing is at [p] or below it. *)
Definition vacant (fs : gmap path inode) (p : path) : Prop :=
  map_Forall (fun (q : path) (_ : inode) => ~ (p `prefix_of` q)) fs.

(** ** Stopping and restarting

    [stop] and [restart] are [async] methods that wait: for the answer of the
    game to the command [stop], for half a second at a time while the process
    is still there, for two seconds before the new start.  While a method
    waits, the event loop delivers other events to the object.  A method
    that waits is kept as the place where it resumes, and the signals sent to
    processes are recorded. *)

Inductive signal := SIGTERM | SIGKILL.

(** Where a method that waits resumes.  [caller] is the actor of the
    [restart] that awaits the [stop], if there is one. *)
Inductive resumption :=
| StopLoop (i : nat) (caller : option jsstring)  (* [stop], at the test of its loop *)
| RestartLoop (checks : nat) (actor : jsstring)  (* [restart], at the test of its loop *)
| RestartStart (actor : jsstring).               (* the callback of [restart]'s timer *)

Record Shell := {
  kills : list (nat * signal);     (* signals sent, latest first *)
  waiting : list resumption
}.

(** The supervisor and the world, with the signals and the methods that
    wait. *)
Definition Host : Type := Sys * Shell.

(** A method of the supervisor that does not wait. *)
Definition inSys {A} (m : M Sys A) : M Host A :=
  zoom fst (fun (x : Sys) (h : Host) => (x, h.2)) m.

(** [p.kill(sig)] *)
Definition kill (p : ChildProcess) (sig : signal) : M Host unit :=
  modify (fun h : Host =>
            (h.1, {| kills := (pid p, sig) :: kills h.2; waiting := waiting h.2 |})).

(** [await] of something that settles later. *)
Definition suspend (r : resumption) : M Host unit :=
  modify (fun h : Host =>
            (h.1, {| kills := kills h.2; waiting := waiting h.2 ++ [r] |})).

(** The end of [restart]: [if (this.config?.id) setTimeout(..., 2000)]. *)
Definition restartEnd (actor : jsstring) : M Host unit :=
  cfg <- inSys (this config) ;;
  match ServerConfig.id <$> cfg with
  | Some (_ :: _) => suspend (RestartStart actor)
  | _ => ret tt
  end.

(** [while (this.process && checks < 20) { await ...500; checks++; }] of
    [restart], from its test on. *)
Definition restartLoop (checks : nat) (actor : jsstring) : M Host unit :=
  proc <- inSys (this process) ;;
  if bool_decide (is_Some proc) && (checks <? 20)%nat
  then suspend (RestartLoop (checks + 1) actor)
  else restartEnd actor.

(** [stop] returns: the [restart] that awaits it goes on. *)
Definition stopDone (caller : option jsstring) : M Host unit :=
  match caller with
  | Some actor => restartLoop 0 actor
  | None => ret tt
  end.

(** [for (let i = 0; i < 20; i++) { if (!this.process) break; await ...500; }]
    of [stop], from its test on, and what follows the loop. *)
Definition stopLoop (i : nat) (caller : option jsstring) : M Host unit :=
  proc <- inSys (this process) ;;
  match proc with
  | Some p =>
      if (i <? 20)%nat then suspend (StopLoop (i + 1) caller)
      else
        inSys (logSystem (js "[System] Force killing process...")) ;;
        kill p SIGKILL ;;
        stopDone caller
  | None => stopDone caller
  end.

(** [stop(actor)] *)
Definition stop (actor : jsstring) (caller : option jsstring) : M Host unit :=
  st <- inSys (this status) ;;
  if bool_decide (st = OFFLINE) then stopDone caller
  else
    inSys (assign (set_intentionToStop true)) ;;
    inSys (updateState STOPPING) ;;
    inSys (logSystem (js "[System] Stop command received from user: " ++ actor)) ;;
    session <- inSys (this rcon) ;;
    match session with
    | Some _ =>
        inSys (try_catch (rconSend (js "stop") ;; ret tt) (fun _ => ret tt)) ;;
        suspend (StopLoop 0 caller)
    | None =>
        proc <- inSys (this process) ;;
        match proc with
        | Some p => kill p SIGTERM
        | None => ret tt
        end ;;
        stopDone caller
    end.

(** [restart(actor)] *)
Definition restart (actor : jsstring) : M Host unit :=
  st <- inSys (this status) ;;
  if bool_decide (st = OFFLINE) then
    cfg <- inSys (this config) ;;
    match ServerConfig.id <$> cfg with
    | Some (c :: id) => inSys (loadAndStart (c :: id) actor)
    | _ => throw (Error (js "No active server to start"))
    end
  else
    inSys (updateState RESTARTING) ;;
    inSys (logSystem (js "[System] Restart command received from user: " ++ actor)) ;;
    stop actor (Some actor).

(** A method that waited goes on.  The callback of the timer reads
    [this.config!.id] before anything can catch. *)
Definition resume (r : resumption) : M Host unit :=
  match r with
  | StopLoop i caller => stopLoop i caller
  | RestartLoop checks actor => restartLoop checks actor
  | RestartStart actor =>
      cfg <- inSys (this config) ;;
      match cfg with
      | None =>
          throw (Error (js "TypeError: Cannot read properties of null (reading 'id')"))
      | Some c =>
          inSys (try_catch (loadAndStart (ServerConfig.id c) actor)
                   (fun e =>
                      logError (js "Restart Failed: " ++ exn_message e) ;;
                      updateState CRASHED))
      end
  end.

(** The [n]-th method that waits goes on. *)
Definition wake (n : nat) : M Host unit :=
  pending <- gets (fun h : Host => waiting h.2) ;;
  match pending !! n with
  | Some r =>
      modify (fun h : Host =>
                (h.1, {| kills := kills h.2;
                         waiting := take n (waiting h.2)
                                    ++ drop (Datatypes.S n) (waiting h.2) |})) ;;
      resume r
  | None => ret tt
  end.

(** An event of the event loop reaches the supervisor. *)
Definition deliver (e : event) : M Host unit := inSys (step e).

(** One step of the copy of a tree, as [cpSync] folds it over the entries:
    an entry below [src] that passes the filter gets a copy below [dst],
    born at [birth]. *)
Definition copyEntry (src dst : path) (keep : path -> bool) (birth : Z)
  (kv : path * inode) (fs : gmap path inode) : gmap path inode :=
  if Fs.under src kv.1 && negb (bool_decide (kv.1 = src)) && Fs.passes keep src kv.1
  then <[dst ++ drop (length src) kv.1 :=
           {| node_of := node_of kv.2; birthtimeMs := birth |}]> fs
  else fs.

(** The demonstration disk with a second, later snapshot of [main]. *)
Definition archived : World :=
  set_files
    (fun fs =>
       <[[js "srv"; js "backups"; js "main"; js "backup-2025"; js "level.dat"] :=
           {| node_of := File (Text (js "level")); birthtimeMs := 2000 |}]>
         (<[[js "srv"; js "backups"; js "main"; js "backup-2025"] :=
              {| node_of := Dir; birthtimeMs := 2000 |}]> fs))
    Demo.world.

(** The demonstration disk on which nothing can be copied any more. *)
Definition uncopyable : World :=
  {| files := Demo.disk;
     fault := fun op => match op with
                        | OpCopy _ _ => Some Refused
                        | _ => None
                        end;
     now := 1709210096789;
     entropy := N.of_nat; drawn := 0; timers := []; appends := []; trace := [];
     nextPid := 4000; spawnThrows := None; rconListening := false;
     rconReply := fun _ => Throw (Error (js "connection closed"));
     stdinThrows := false |}.

(** * Checks of the runtime model *)

Example parseInt_ex : parseInt (js " 20x") = Some 20%Z.
Proof. reflexivity. Qed.

Example split_ex : split (js ",") (js "a,b,") = [js "a"; js "b"; []].
Proof. reflexivity. Qed.

Example toISOString_ex :
  JsDate.toISOString 1709210096789 = js "2024-02-29T12:34:56.789Z".
Proof. vm_compute. reflexivity. Qed.

Example join_ex :
  join [js "data"; js "servers"] [js ".."; js "laplace.public.json"]
  = [js "data"; js "laplace.public.json"].
Proof. vm_compute. reflexivity. Qed.

Example ansi_ex :
  replaceAll ansiPattern [] ([27] ++ js "[31;1mred" ++ [27] ++ js "[0m " ++ [27] ++ js "7x")
  = js "red x".
Proof. vm_compute. reflexivity. Qed.

(** * Reasoning about methods *)

(** ** Frames: what a computation leaves as it is *)

Section Frames.
Context {S : Type}.

Lemma keeps_ret {A B} (f : S -> B) (a : A) : keeps f (ret a).
Proof. intros s; reflexivity. Qed.

Lemma keeps_throw {A B} (f : S -> B) e : keeps f (@throw S A e).
Proof. intros s; reflexivity. Qed.

Lemma keeps_gets {A B} (f : S -> B) (g : S -> A) : keeps f (gets g).
Proof. intros s; reflexivity. Qed.

Lemma keeps_modify {B} (f : S -> B) (g : S -> S) :
  (forall s, f (g s) = f s) -> keeps f (modify g).
Proof. intros H s; apply H. Qed.

Lemma keeps_bind {A B C} (f : S -> C) (m : M S A) (k : A -> M S B) :
  keeps f m -> (forall a, keeps f (k a)) -> keeps f (bind m k).
Proof.
  intros Hm Hk s. unfold bind. specialize (Hm s).
  destruct (m s) as [[a|e] s']; simpl in *; [rewrite Hk|]; exact Hm.
Qed.

Lemma keeps_try_catch {A C} (f : S -> C) (m : M S A) (h : exn -> M S A) :
  keeps f m -> (forall e, keeps f (h e)) -> keeps f (try_catch m h).
Proof.
  intros Hm Hh s. unfold try_catch. specialize (Hm s).
  destruct (m s) as [[a|e] s']; simpl in *; [|rewrite Hh]; exact Hm.
Qed.

Lemma keeps_when {C} (f : S -> C) (c : bool) (m : M S unit) :
  keeps f m -> keeps f (when c m).
Proof. destruct c; [auto | intros _; apply keeps_ret]. Qed.

Lemma keeps_forEach {A C} (f : S -> C) (l : list A) (body : A -> M S unit) :
  (forall x, keeps f (body x)) -> keeps f (forEach l body).
Proof.
  intros H. induction l as [|x l IH]; simpl.
  - apply keeps_ret.
  - apply keeps_bind; auto.
Qed.

Lemma keeps_mapM {A B C} (f : S -> C) (g : A -> M S B) (l : list A) :
  (forall x, keeps f (g x)) -> keeps f (mapM g l).
Proof.
  intros H. induction l as [|x l IH]; simpl.
  - apply keeps_ret.
  - apply keeps_bind; [auto | intros y].
    apply keeps_bind; [auto | intros ys; apply keeps_ret].
Qed.

Lemma keeps_pair {A B C} (f : S -> B) (g : S -> C) (m : M S A) :
  keeps f m -> keeps g m -> keeps (fun s => (f s, g s)) m.
Proof. intros Hf Hg s. cbv beta. rewrite Hf, Hg. reflexivity. Qed.

(** What follows a computation does not matter for [f] if it keeps [f]. *)
Lemma keeps_after {A B C} (f : S -> C) (m : M S A) (k : A -> M S B) s :
  (forall a, keeps f (k a)) -> f (bind m k s).2 = f (m s).2.
Proof.
  intros Hk. unfold bind. destruct (m s) as [[a|e] s']; simpl; [apply Hk | reflexivity].
Qed.

Lemma total_ret {A} (a : A) : total (@ret S A a).
Proof. intros s; eexists; reflexivity. Qed.

Lemma total_gets {A} (g : S -> A) : total (gets g).
Proof. intros s; eexists; reflexivity. Qed.

Lemma total_modify (g : S -> S) : total (modify g).
Proof. intros s; eexists; reflexivity. Qed.

Lemma total_bind {A B} (m : M S A) (k : A -> M S B) :
  total m -> (forall a, total (k a)) -> total (bind m k).
Proof.
  intros Hm Hk s. unfold bind. destruct (Hm s) as [a Ha].
  destruct (m s) as [[a'|e] s']; simpl in *; [apply Hk | discriminate].
Qed.

Lemma total_try_catch {A} (m : M S A) (h : exn -> M S A) :
  (forall e, total (h e)) -> total (try_catch m h).
Proof.
  intros Hh s. unfold try_catch.
  destruct (m s) as [[a|e] s']; simpl; [eexists; reflexivity | apply Hh].
Qed.

Lemma total_when (c : bool) (m : M S unit) : total m -> total (when c m).
Proof. destruct c; [auto | intros _; apply total_ret]. Qed.

(** A total computation of type [unit] is a state transformer. *)
Lemma total_run (m : M S unit) s : total m -> m s = (Ret tt, (m s).2).
Proof.
  intros H. destruct (H s) as [[] Ha]. destruct (m s) as [r s']; simpl in *.
  congruence.
Qed.

Lemma bind_total {B} (m : M S unit) (k : unit -> M S B) s :
  total m -> bind m k s = k tt (m s).2.
Proof. intros H. unfold bind. rewrite (total_run m s H). reflexivity. Qed.

(** Inversion of a sequence or of a [try] that returned. *)
Lemma bind_Ret_inv {A B} (m : M S A) (k : A -> M S B) s b s' :
  bind m k s = (Ret b, s') ->
  exists a s1, m s = (Ret a, s1) /\ k a s1 = (Ret b, s').
Proof.
  unfold bind. destruct (m s) as [[a|e] s1]; [eauto | discriminate].
Qed.

Lemma bind_Throw_inv {A B} (m : M S A) (k : A -> M S B) s e s' :
  bind m k s = (Throw e, s') ->
  m s = (Throw e, s') \/ exists a s1, m s = (Ret a, s1) /\ k a s1 = (Throw e, s').
Proof.
  unfold bind. destruct (m s) as [[a|e'] s1]; [eauto | intros [= <- <-]; auto].
Qed.

Lemma try_catch_Ret_inv {A} (m : M S A) (h : exn -> M S A) s a s' :
  try_catch m h s = (Ret a, s') ->
  m s = (Ret a, s') \/ exists e s1, m s = (Throw e, s1) /\ h e s1 = (Ret a, s').
Proof.
  unfold try_catch. destruct (m s) as [[a'|e] s1]; [intros [= <- <-]; auto | eauto].
Qed.

(** Running a sequence or a [try] whose first part is known. *)
Lemma bind_Ret {A B} (m : M S A) (k : A -> M S B) s a s1 :
  m s = (Ret a, s1) -> bind m k s = k a s1.
Proof. intros H. unfold bind. rewrite H. reflexivity. Qed.

Lemma bind_Throw {A B} (m : M S A) (k : A -> M S B) s e s1 :
  m s = (Throw e, s1) -> bind m k s = (Throw e, s1).
Proof. intros H. unfold bind. rewrite H. reflexivity. Qed.

Lemma try_catch_Ret {A} (m : M S A) (h : exn -> M S A) s a s1 :
  m s = (Ret a, s1) -> try_catch m h s = (Ret a, s1).
Proof. intros H. unfold try_catch. rewrite H. reflexivity. Qed.

Lemma try_catch_Throw {A} (m : M S A) (h : exn -> M S A) s e s1 :
  m s = (Throw e, s1) -> try_catch m h s = h e s1.
Proof. intros H. unfold try_catch. rewrite H. reflexivity. Qed.

(** A computation with a known outcome, as a pair. *)
Lemma outcome_eq {A} (m : M S A) s r : (m s).1 = r -> m s = (r, (m s).2).
Proof. intros <-. apply surjective_pairing. Qed.

End Frames.

(** The object and the world are separate: a call into the world keeps the
    object, an assignment keeps the world. *)
Lemma keeps_io_this {A B} (f : MinecraftServer -> B) (m : M World A) :
  keeps (fun s : Sys => f s.1) (io m).
Proof. intros [s w]. unfold io, zoom. simpl. destruct (m w); reflexivity. Qed.

Lemma keeps_io_self {A} (m : M World A) : keeps (fun s : Sys => s.1) (io m).
Proof. apply (keeps_io_this (fun x => x)). Qed.

Lemma keeps_io_world {A B} (f : World -> B) (m : M World A) :
  keeps f m -> keeps (fun s : Sys => f s.2) (io m).
Proof.
  intros H [s w]. unfold io, zoom. simpl. specialize (H w).
  destruct (m w); exact H.
Qed.

Lemma keeps_io_id {A} (m : M World A) :
  keeps (fun w : World => w) m -> keeps (fun s : Sys => s) (io m).
Proof.
  intros H [s w]. unfold io, zoom. cbn [fst snd]. specialize (H w).
  destruct (m w) as [r w']. cbn [snd] in *. congruence.
Qed.

Lemma keeps_assign_world {B} (f : World -> B) g :
  keeps (fun s : Sys => f s.2) (assign g).
Proof. intros [s w]; reflexivity. Qed.

Lemma keeps_assign_this {B} (f : MinecraftServer -> B) g :
  (forall s, f (g s) = f s) -> keeps (fun s : Sys => f s.1) (assign g).
Proof. intros H [s w]; apply H. Qed.

Lemma total_io {A} (m : M World A) : total m -> total (io m).
Proof.
  intros H [s w]. unfold io, zoom. simpl. destruct (H w) as [a Ha].
  destruct (m w) as [r w']. simpl in *. eauto.
Qed.

Lemma total_assign g : total (assign g).
Proof. apply total_modify. Qed.

Create HintDb frame discriminated.

#[export] Hint Resolve keeps_ret keeps_throw keeps_gets keeps_io_this keeps_io_self
  keeps_assign_world total_ret total_gets total_modify total_assign : frame.

Ltac head_of t :=
  lazymatch t with
  | ?f _ => head_of f
  | _ => t
  end.

(** One step of the syntax-directed proof that a method keeps an observation
    or always returns: known facts first, then the shape of the program. *)
Ltac frame_step :=
  first
    [ solve [auto with frame]
    | match goal with
      | |- keeps (fun s => (@?f s, @?g s)) _ => apply (keeps_pair f g)
      | |- keeps _ (bind _ _) => apply keeps_bind; [| intros ?]
      | |- keeps _ (try_catch _ _) => apply keeps_try_catch; [| intros ?]
      | |- keeps _ (when _ _) => apply keeps_when
      | |- keeps _ (forEach _ _) => apply keeps_forEach; intros ?
      | |- keeps _ (mapM _ _) => apply keeps_mapM; intros ?
      | |- keeps _ (this _) => apply keeps_gets
      | |- keeps _ (ask _) => apply keeps_gets
      | |- keeps _ (assign _) =>
          first [ apply keeps_assign_world
                | apply keeps_assign_this; intros []; reflexivity ]
      | |- keeps _ (io _) =>
          first [ apply keeps_io_this | apply keeps_io_world | apply keeps_io_id ]
      | |- keeps _ (modify _) => apply keeps_modify; intros []; reflexivity
      | |- total (bind _ _) => apply total_bind; [| intros ?]
      | |- total (try_catch _ _) => apply total_try_catch; intros ?
      | |- total (when _ _) => apply total_when
      | |- total (this _) => apply total_gets
      | |- total (ask _) => apply total_gets
      | |- total (io _) => apply total_io
      | |- keeps _ (if ?b then _ else _) => destruct b
      | |- keeps _ (match ?x with _ => _ end) => destruct x
      | |- total (if ?b then _ else _) => destruct b
      | |- total (match ?x with _ => _ end) => destruct x
      | |- keeps _ ?m => let h := head_of m in unfold h
      | |- total ?m => let h := head_of m in unfold h
      end ].

Ltac frame := repeat frame_step.

(** ** Frames of the world *)

#[export] Hint Extern 1 (blind_files _) => (intros ? ?; reflexivity) : frame.
#[export] Hint Extern 1 (blind_trace _) => (intros ? ?; reflexivity) : frame.
#[export] Hint Extern 1 (blind_timers _) => (intros ? ?; reflexivity) : frame.
#[export] Hint Extern 1 (blind_appends _) => (intros ? ?; reflexivity) : frame.
#[export] Hint Extern 1 (blind_drawn _) => (intros ? ?; reflexivity) : frame.
#[export] Hint Extern 1 (blind_nextPid _) => (intros ? ?; reflexivity) : frame.

Section WorldFrames.
Context {B : Type} (f : World -> B).

Lemma emit_keeps e : blind_trace f -> keeps f (emit e).
Proof. intros H w. apply H. Qed.

Lemma setTimeout_keeps job ms : blind_trace f -> blind_timers f -> keeps f (setTimeout job ms).
Proof. intros H1 H2 w. unfold setTimeout, bind, emit, modify. simpl. rewrite H2. apply H1. Qed.

Lemma guard_keeps op : keeps f (Fs.guard op).
Proof. intros w. unfold Fs.guard. destruct (fault w op); reflexivity. Qed.

Lemma statSync_keeps p : keeps f (Fs.statSync p).
Proof. intros w. unfold Fs.statSync. destruct (Fs.lookupNode _ _); reflexivity. Qed.

Lemma readFileSync_keeps p : keeps f (Fs.readFileSync p).
Proof.
  apply keeps_bind; [apply guard_keeps | intros _ w].
  destruct (Fs.lookupNode _ _) as [[[]]|]; reflexivity.
Qed.

Lemma readdirSync_keeps p : keeps f (Fs.readdirSync p).
Proof.
  apply keeps_bind; [apply guard_keeps | intros _ w].
  destruct (Fs.lookupNode _ _) as [[[]]|]; reflexivity.
Qed.

Lemma writeFileSync_keeps p c : blind_files f -> keeps f (Fs.writeFileSync p c).
Proof.
  intros H w. unfold Fs.writeFileSync.
  destruct (fault w (OpWrite p)) as [[]|]; simpl; try reflexivity;
    destruct (negb _); try reflexivity; destruct (Fs.isDir _ p); try reflexivity;
    simpl; apply H.
Qed.

Lemma renameSync_keeps src dst : blind_files f -> keeps f (Fs.renameSync src dst).
Proof.
  intros H. apply keeps_bind; [apply guard_keeps | intros _ w].
  destruct (Fs.lookupNode _ src) as [[[] ?]|]; simpl; try reflexivity;
    repeat (match goal with |- context [if ?b then _ else _] => destruct b end;
            simpl; try reflexivity); apply H.
Qed.

Lemma mkdirSync_keeps p : blind_files f -> keeps f (Fs.mkdirSync p).
Proof.
  intros H. apply keeps_bind; [apply guard_keeps | intros _ w].
  destruct (Fs.mkdirs _ _ _); simpl; [apply H | reflexivity].
Qed.

Lemma rmSync_keeps p : blind_files f -> keeps f (Fs.rmSync p).
Proof.
  intros H. apply keeps_bind; [apply guard_keeps | intros _ w]. apply H.
Qed.

Lemma copyFileSync_keeps src dst : blind_files f -> keeps f (Fs.copyFileSync src dst).
Proof.
  intros H. unfold Fs.copyFileSync.
  apply keeps_bind; [apply guard_keeps | intros _].
  apply keeps_bind; [apply readFileSync_keeps | intros c].
  apply writeFileSync_keeps, H.
Qed.

Lemma cpSync_keeps src dst keep : blind_files f -> keeps f (Fs.cpSync src dst keep).
Proof.
  intros H. unfold Fs.cpSync.
  apply keeps_bind; [apply guard_keeps | intros _].
  apply keeps_bind; [apply statSync_keeps | intros i].
  destruct (negb _); [apply keeps_ret |].
  destruct (node_of i).
  - apply keeps_bind; [apply mkdirSync_keeps, H | intros _; apply writeFileSync_keeps, H].
  - destruct (Fs.under _ _); [apply keeps_throw |].
    apply keeps_bind; [apply mkdirSync_keeps, H | intros _ w; apply H].
Qed.

Lemma appendFile_keeps p data : blind_appends f -> keeps f (Fs.appendFile p data).
Proof. intros H w. apply H. Qed.

Lemma appendNow_keeps p data : blind_files f -> keeps f (Fs.appendNow p data).
Proof.
  intros H. apply keeps_bind; [apply guard_keeps | intros _ w].
  destruct (negb _); [reflexivity |].
  destruct (Fs.lookupNode _ p) as [[[] ?]|]; simpl; try reflexivity; apply H.
Qed.

Lemma randomBytesHex_keeps n : blind_drawn f -> keeps f (randomBytesHex n).
Proof. intros H w. apply H. Qed.

Lemma writeJsonAtomic_keeps p d :
  blind_files f -> blind_trace f -> keeps f (writeJsonAtomic p d).
Proof.
  intros H1 H2. unfold writeJsonAtomic.
  apply keeps_try_catch.
  - apply keeps_bind; [apply writeFileSync_keeps, H1 | intros _; apply renameSync_keeps, H1].
  - intros e. apply keeps_bind; [apply emit_keeps, H2 | intros _; apply keeps_throw].
Qed.

End WorldFrames.

#[export] Hint Resolve emit_keeps setTimeout_keeps guard_keeps statSync_keeps
  readFileSync_keeps readdirSync_keeps writeFileSync_keeps renameSync_keeps
  mkdirSync_keeps rmSync_keeps copyFileSync_keeps cpSync_keeps appendFile_keeps
  appendNow_keeps randomBytesHex_keeps writeJsonAtomic_keeps : frame.

Lemma emit_total e : total (emit e).
Proof. apply total_modify. Qed.

Lemma setTimeout_total job ms : total (setTimeout job ms).
Proof. apply total_bind; [apply emit_total | intros _; apply total_modify]. Qed.

Lemma appendFile_total p data : total (Fs.appendFile p data).
Proof. apply total_modify. Qed.

#[export] Hint Resolve emit_total setTimeout_total appendFile_total : frame.

(** ** Frames of the methods *)

Lemma spawnProcess_total : total spawnProcess.
Proof. frame. Qed.

Lemma spawnProcess_keeps_crashCount : keeps (fun s : Sys => crashCount s.1) spawnProcess.
Proof. frame. Qed.

Lemma spawnProcess_keeps_timers : keeps (fun s : Sys => timers s.2) spawnProcess.
Proof. frame. Qed.

(** * The properties of the specification *)

(** Reading a field or the world at the head of a method. *)
Lemma bind_this {A B} (f : MinecraftServer -> A) (k : A -> M Sys B) s :
  bind (this f) k s = k (f s.1) s.
Proof. reflexivity. Qed.

Lemma bind_ask {A B} (f : World -> A) (k : A -> M Sys B) s :
  bind (ask f) k s = k (f s.2) s.
Proof. reflexivity. Qed.

Lemma bind_assign {B} (f : MinecraftServer -> MinecraftServer) (k : unit -> M Sys B) s :
  bind (assign f) k s = k tt (f s.1, s.2).
Proof. reflexivity. Qed.

(** ** Lifecycle gates *)

(** C1. In every state other than OFFLINE and CRASHED, [loadAndStart] throws
    "Server is already running or busy" (the error the specification calls
    InvalidLifecycleForOperation) and leaves the object and the world exactly
    as they were: lifecycle state, selected descriptor, crash counter and
    stop-intent flag included. *)
Theorem loadAndStart_rejected_when_busy
  (s : MinecraftServer) (w : World) (serverId actor : jsstring) :
  status s <> OFFLINE -> status s <> CRASHED ->
  loadAndStart serverId actor (s, w)
  = (Throw (Error (js "Server is already running or busy")), (s, w)).
Proof.
  intros Hoff Hcrashed.
  unfold loadAndStart. rewrite bind_this. cbn [fst].
  rewrite (bool_decide_eq_false_2 _ Hoff), (bool_decide_eq_false_2 _ Hcrashed).
  reflexivity.
Qed.

Lemma loadAndStart_rejected_when_busy_witness :
  status Demo.online <> OFFLINE /\ status Demo.online <> CRASHED /\
  loadAndStart (js "main") (js "admin") (Demo.online, Demo.world)
  = (Throw (Error (js "Server is already running or busy")),
     (Demo.online, Demo.world)).
Proof.
  split; [discriminate |]. split; [discriminate |].
  apply loadAndStart_rejected_when_busy; discriminate.
Defined.

(** ** Instance creation *)

Lemma keeps_eq {S A B} (f : S -> B) (m : M S A) s r s' :
  keeps f m -> m s = (r, s') -> f s' = f s.
Proof. intros H E. specialize (H s). rewrite E in H. exact H. Qed.

(** Peel the sequence of a method that returned. *)
Ltac inv_ret H :=
  repeat (apply bind_Ret_inv in H;
          let a := fresh "a" in
          let s := fresh "s" in
          let E := fresh "E" in
          destruct H as (a & s & E & H); cbv beta zeta in H).

Lemma selectServer_Ret serverId s s' :
  selectServer serverId s = (Ret tt, s') ->
  Fs.existsSync s.2 (instanceDir s.1 serverId) = true
  /\ files s'.2 = files s.2 /\ serversDir s'.1 = serversDir s.1.
Proof.
  intros H. split; [| split].
  - unfold selectServer in H. rewrite bind_this, bind_ask in H. cbn [fst snd] in H.
    unfold instanceDir.
    destruct (Fs.existsSync _ _); [reflexivity | discriminate].
  - apply (keeps_eq (fun s : Sys => files s.2) (selectServer serverId) _ _ _ ltac:(frame) H).
  - apply (keeps_eq (fun s : Sys => serversDir s.1) (selectServer serverId) _ _ _ ltac:(frame) H).
Qed.

Lemma createServer_Ret params s id s' :
  createServer params s = (Ret id, s') ->
  id = slug (ServerCreationParams.name params)
  /\ Fs.existsSync s'.2 (instanceDir s'.1 id) = true.
Proof.
  intros H. unfold createServer in H.
  rewrite bind_ask in H.
  destruct (negb _); [discriminate |].
  rewrite bind_this, bind_ask in H. cbn [fst snd] in H.
  destruct (Fs.existsSync _ _); [discriminate |].
  apply try_catch_Ret_inv in H. destruct H as [H | (e & s1 & _ & H)].
  - inv_ret H. injection H as <- <-.
    match goal with
    | E : selectServer _ _ = (Ret ?u, _) |- _ =>
        destruct u; apply selectServer_Ret in E; destruct E as (Hex & Hfiles & Hroot)
    end.
    split; [reflexivity |].
    unfold Fs.existsSync, instanceDir in *. rewrite Hfiles, Hroot. exact Hex.
  - inv_ret H. discriminate.
Qed.

(** ** Commands *)

(** C6 on the code.  The pattern in the source file is not the section sign
    followed by a code: it is the two units U+0E22 U+0E07 followed by a code.
    An answer "section sign, a, Hello" therefore comes back as it is, while
    the three units U+0E22 U+0E07 [a] are what gets removed. *)
Theorem executeCommand_keeps_section_sign :
  (executeCommand (js "admin") (js "say hi") (Demo.connected, Demo.talkative)).1
  = Ret (167 :: js "aHello")
  /\ replaceAll colorPattern [] (167 :: js "aHello") = 167 :: js "aHello"
  /\ replaceAll colorPattern [] ([3618; 3591] ++ js "aHello") = js "Hello".
Proof. vm_compute. repeat split; reflexivity. Qed.

(** What the pattern of the source cannot touch: a text in which the unit
    U+0E22 does not occur. *)
Lemma colorPattern_no_match (s : jsstring) :
  3618 ∉ s -> replaceAll colorPattern [] s = s.
Proof.
  unfold replaceAll. generalize (Datatypes.S (length s)) as fuel.
  intros fuel. revert s. induction fuel as [|fuel IH]; intros s Hs; [reflexivity |].
  destruct s as [|c s]; [reflexivity |].
  assert (Hc : (3618 =? c) = false).
  { apply N.eqb_neq. intros E. subst c. apply Hs. left. }
  assert (Hm : matchAt colorPattern (c :: s) = None).
  { unfold matchAt, colorPattern, lit. cbn [backtrack]. rewrite Hc. reflexivity. }
  cbn [replace_go]. rewrite Hm.
  f_equal. apply IH. intros Hin. apply Hs. right. exact Hin.
Qed.

(** With a session, the answer of the game goes through that pattern and
    nothing else. *)
Lemma executeCommand_over_rcon actor cmd s w reply :
  status s = ONLINE \/ status s = STARTING ->
  rcon s = Some {| socket := true |} ->
  rconReply w cmd = Ret reply ->
  (executeCommand actor cmd (s, w)).1 = Ret (replaceAll colorPattern [] reply).
Proof.
  intros Hst Hrcon Hreply. unfold executeCommand.
  rewrite bind_this. cbn [fst].
  replace (negb (bool_decide (status s = ONLINE)) && negb (bool_decide (status s = STARTING)))
    with false
    by (destruct Hst as [-> | ->]; reflexivity).
  rewrite (bind_total (log _ _)) by frame.
  set (s1 := (log _ _ _).2).
  assert (H1 : rcon s1.1 = rcon s)
    by apply (ltac:(frame) : keeps (fun s : Sys => rcon s.1) (log _ _)).
  assert (H2 : rconReply s1.2 = rconReply w)
    by apply (ltac:(frame) : keeps (fun s : Sys => rconReply s.2) (log _ _)).
  rewrite !bind_this. rewrite H1, Hrcon.
  unfold try_catch, rconSend, bind, io, zoom, emit, modify.
  cbn [fst snd set_trace rconReply].
  rewrite H2, Hreply. reflexivity.
Qed.

(** ** The log buffer *)

Section Preserves.
Context {S : Type} (P : S -> Prop).

Lemma preserves_ret {A} (a : A) : preserves P (ret a).
Proof. intros s H; exact H. Qed.

Lemma preserves_throw {A} e : preserves P (@throw S A e).
Proof. intros s H; exact H. Qed.

Lemma preserves_gets {A} (g : S -> A) : preserves P (gets g).
Proof. intros s H; exact H. Qed.

Lemma preserves_bind {A B} (m : M S A) (k : A -> M S B) :
  preserves P m -> (forall a, preserves P (k a)) -> preserves P (bind m k).
Proof.
  intros Hm Hk s H. unfold bind. specialize (Hm s H).
  destruct (m s) as [[a|e] s']; cbn [snd] in *; [apply Hk |]; exact Hm.
Qed.

Lemma preserves_try_catch {A} (m : M S A) (h : exn -> M S A) :
  preserves P m -> (forall e, preserves P (h e)) -> preserves P (try_catch m h).
Proof.
  intros Hm Hh s H. unfold try_catch. specialize (Hm s H).
  destruct (m s) as [[a|e] s']; cbn [snd] in *; [| apply Hh]; exact Hm.
Qed.

Lemma preserves_when (c : bool) (m : M S unit) :
  preserves P m -> preserves P (when c m).
Proof. destruct c; [auto | intros _; apply preserves_ret]. Qed.

Lemma preserves_forEach {A} (l : list A) (body : A -> M S unit) :
  (forall x, preserves P (body x)) -> preserves P (forEach l body).
Proof.
  intros H. induction l as [|x l IH]; cbn [forEach].
  - apply preserves_ret.
  - apply preserves_bind; auto.
Qed.

Lemma preserves_mapM {A B} (g : A -> M S B) (l : list A) :
  (forall x, preserves P (g x)) -> preserves P (mapM g l).
Proof.
  intros H. induction l as [|x l IH]; cbn [mapM].
  - apply preserves_ret.
  - apply preserves_bind; [auto | intros y].
    apply preserves_bind; [auto | intros ys; apply preserves_ret].
Qed.

End Preserves.

Lemma pushLog_spec entry (buffer : list LogEntry.t) :
  (length buffer <= MAX_LOGS)%nat ->
  pushLog entry buffer
  = (if (length buffer <? MAX_LOGS)%nat then buffer else tail buffer) ++ [entry]
  /\ (length (pushLog entry buffer) <= MAX_LOGS)%nat.
Proof.
  intros Hlen. unfold pushLog. rewrite length_app. cbn [length].
  destruct (Nat.ltb_spec (length buffer) MAX_LOGS) as [Hlt | Hge].
  - replace (MAX_LOGS <? length buffer + 1)%nat with false
      by (symmetry; apply Nat.ltb_ge; lia).
    split; [reflexivity |]. rewrite length_app. cbn [length]. lia.
  - replace (MAX_LOGS <? length buffer + 1)%nat with true
      by (symmetry; apply Nat.ltb_lt; lia).
    destruct buffer as [|e0 buffer]; [unfold MAX_LOGS in Hge; cbn in Hge; lia |].
    cbn [tail app]. split; [reflexivity |].
    rewrite length_app. cbn [length] in *. lia.
Qed.

(** The buffer after [log]. *)
Lemma log_logs message type s w :
  logs (log message type (s, w)).2.1
  = let cleanMsg := trim (replaceAll ansiPattern [] message) in
    if bool_decide (cleanMsg = []) then logs s
    else pushLog {| LogEntry.timestamp := JsDate.toISOString (now w);
                    LogEntry.message := cleanMsg;
                    LogEntry.type := type |} (logs s).
Proof.
  unfold log. cbv zeta. destruct (bool_decide _); [reflexivity |].
  rewrite bind_ask. cbn [snd].
  rewrite (keeps_after (fun s : Sys => logs s.1)) by (intros ?; frame).
  reflexivity.
Qed.

Lemma log_preserves message type : preserves logsBounded (log message type).
Proof.
  intros [s w] H. unfold logsBounded in *. rewrite log_logs. cbv zeta.
  destruct (bool_decide _); [exact H |]. apply pushLog_spec, H.
Qed.

Lemma preserves_io_logs {A} (m : M World A) : preserves logsBounded (io m).
Proof.
  intros [s w] H. unfold io, zoom, logsBounded in *. cbn [fst snd] in *.
  destruct (m w); exact H.
Qed.

Create HintDb bounded discriminated.

#[export] Hint Resolve preserves_ret preserves_throw preserves_gets
  preserves_io_logs log_preserves : bounded.

Ltac bounded_step :=
  first
    [ solve [auto with bounded]
    | match goal with
      | |- preserves _ (bind _ _) => apply preserves_bind; [| intros ?]
      | |- preserves _ (try_catch _ _) => apply preserves_try_catch; [| intros ?]
      | |- preserves _ (when _ _) => apply preserves_when
      | |- preserves _ (forEach _ _) => apply preserves_forEach; intros ?
      | |- preserves _ (mapM _ _) => apply preserves_mapM; intros ?
      | |- preserves _ (this _) => apply preserves_gets
      | |- preserves _ (ask _) => apply preserves_gets
      | |- preserves _ (assign _) =>
          let H := fresh in
          intros [? ?] H;
          first [ exact H | unfold logsBounded, MAX_LOGS; cbn; lia ]
      | |- preserves _ (if ?b then _ else _) => destruct b
      | |- preserves _ (match ?x with _ => _ end) => destruct x
      | |- preserves _ (fun _ => _) => let H := fresh in intros ? H; exact H
      | |- preserves _ ?m => let h := head_of m in unfold h
      end ].

Ltac bounded := repeat bounded_step.

Lemma step_preserves e : preserves logsBounded (step e).
Proof. destruct e; bounded. Qed.

Lemma perform_preserves o : preserves logsBounded (perform o).
Proof. destruct o; [apply step_preserves | bounded ..]. Qed.

(** C8. [log] keeps the buffer within 500 entries; a message that is blank
    once cleaned leaves the buffer alone; any other is appended last, and
    when the buffer was full its first (oldest) entry is the one dropped, the
    others keeping their order.  Hence, from the constructor on, the buffer
    is within the cap after every event and every method call. *)
Theorem log_buffer_cap :
  (forall message type s w,
      (length (logs s) <= MAX_LOGS)%nat ->
      let cleanMsg := trim (replaceAll ansiPattern [] message) in
      let after := logs (log message type (s, w)).2.1 in
      (length after <= MAX_LOGS)%nat
      /\ (cleanMsg = [] -> after = logs s)
      /\ (cleanMsg <> [] ->
          exists entry,
            LogEntry.message entry = cleanMsg /\ LogEntry.type entry = type
            /\ after = (if (length (logs s) <? MAX_LOGS)%nat
                        then logs s else tail (logs s)) ++ [entry]))
  /\ (forall os serversDir users w,
         logsBounded (history os (constructor serversDir users, w))).
Proof.
  split.
  - intros message type s w Hlen cleanMsg after.
    split; [apply (log_preserves message type (s, w) Hlen) |].
    subst after. rewrite log_logs. cbv zeta. fold cleanMsg.
    split; intros Hc.
    + rewrite bool_decide_eq_true_2 by exact Hc. reflexivity.
    + rewrite bool_decide_eq_false_2 by exact Hc.
      eexists. split; [| split]; [| | apply pushLog_spec, Hlen]; reflexivity.
  - intros os serversDir users w. unfold history.
    assert (H0 : logsBounded (constructor serversDir users, w))
      by (unfold logsBounded, MAX_LOGS; cbn; lia).
    revert H0. generalize (constructor serversDir users, w).
    induction os as [|o os IH]; intros s Hs; [exact Hs |].
    cbn [fold_left]. apply IH, perform_preserves, Hs.
Qed.

Lemma log_buffer_cap_witness :
  (length (logs (log (js "hello") LogEntry.info (Demo.online, Demo.world)).2.1)
   <= MAX_LOGS)%nat.
Proof.
  apply (proj1 log_buffer_cap (js "hello") LogEntry.info Demo.online Demo.world).
  vm_compute. lia.
Defined.

(** ** Backups *)

Lemma mkdirs_subseteq (birth : Z) (ps : list path) (fs fs' : gmap path inode) :
  Fs.mkdirs birth ps fs = Some fs' -> fs ⊆ fs'.
Proof.
  revert fs. induction ps as [|q ps IH]; intros fs H; cbn [Fs.mkdirs] in H.
  - injection H as <-. reflexivity.
  - destruct (fs !! q) as [[[c|] b]|] eqn:Hq; [discriminate | apply IH, H |].
    etransitivity; [| apply IH, H]. apply insert_subseteq, Hq.
Qed.

Lemma mkdirSync_subseteq p w :
  files w ⊆ files (Fs.mkdirSync p w).2.
Proof.
  unfold Fs.mkdirSync, bind, Fs.guard.
  destruct (fault w (OpMkdir p)); [reflexivity |].
  destruct (Fs.mkdirs _ _ _) eqn:E; [| reflexivity].
  cbn [snd set_files files]. eapply mkdirs_subseteq, E.
Qed.

Lemma getBackupDir_existing s w :
  Fs.existsSync w (backupDirOf s) = true ->
  getBackupDir (s, w) = (Ret (backupDirOf s), (s, w)).
Proof.
  intros H. unfold getBackupDir. rewrite !bind_this, bind_ask. cbn [fst snd].
  unfold backupDirOf in H. rewrite H. reflexivity.
Qed.

Lemma getBackupDir_spec s w :
  let r := getBackupDir (s, w) in
  r.2.1 = s /\ files w ⊆ files r.2.2
  /\ (forall dir, r.1 = Ret dir -> dir = backupDirOf s).
Proof.
  cbv zeta. split; [| split].
  - apply (ltac:(frame) : keeps (fun s : Sys => s.1) getBackupDir).
  - unfold getBackupDir. rewrite !bind_this, bind_ask. cbn [fst snd].
    destruct (Fs.existsSync _ _); [reflexivity |]. cbn [negb when].
    unfold bind at 1. unfold io, zoom. cbn [fst snd].
    pose proof (mkdirSync_subseteq (backupDirOf s) w) as Hsub.
    unfold backupDirOf in Hsub.
    destruct (Fs.mkdirSync _ w) as [[[]|e] w1]; exact Hsub.
  - intros dir. unfold getBackupDir. rewrite !bind_this, bind_ask. cbn [fst snd].
    destruct (Fs.existsSync _ _); cbn [negb when].
    + intros [= <-]. reflexivity.
    + unfold bind at 1. unfold io, zoom. cbn [fst snd].
      destruct (Fs.mkdirSync _ w) as [[[]|e] w1]; [| discriminate].
      intros [= <-]. reflexivity.
Qed.

(** C10. When the path [deleteBackup] derives from the identifier does not
    exist in the backup directory [getBackupDir] hands out, the call returns
    without an error, without a log entry and without an effect; nothing that
    was on disk before is gone or altered, and when the backup directory was
    already there the call changes nothing at all. *)
Theorem deleteBackup_missing_snapshot (actor id : jsstring) (s : MinecraftServer)
  (w : World) (dir : path) :
  (getBackupDir (s, w)).1 = Ret dir ->
  Fs.existsSync (getBackupDir (s, w)).2.2 (Path.join dir [id]) = false ->
  let r := deleteBackup actor id (s, w) in
  r.1 = Ret tt
  /\ r.2.1 = s
  /\ files w ⊆ files r.2.2
  /\ trace r.2.2 = trace w
  /\ appends r.2.2 = appends w
  /\ (Fs.existsSync w (backupDirOf s) = true -> r.2 = (s, w)).
Proof.
  intros Hdir Hmissing. cbv zeta.
  destruct (getBackupDir_spec s w) as (Hself & Hsub & _). cbv zeta in *.
  assert (Htrace : trace (getBackupDir (s, w)).2.2 = trace w)
    by apply (ltac:(frame) : keeps (fun s : Sys => trace s.2) getBackupDir).
  assert (Happ : appends (getBackupDir (s, w)).2.2 = appends w)
    by apply (ltac:(frame) : keeps (fun s : Sys => appends s.2) getBackupDir).
  assert (E : deleteBackup actor id (s, w) = (Ret tt, (getBackupDir (s, w)).2)).
  { unfold deleteBackup. unfold bind at 1.
    destruct (getBackupDir (s, w)) as [[d|e] s1]; [| discriminate].
    cbn [fst snd] in *. injection Hdir as ->.
    rewrite bind_ask, Hmissing. reflexivity. }
  rewrite E. cbn [fst snd].
  repeat split; try assumption.
  intros Hex. rewrite (getBackupDir_existing s w Hex). reflexivity.
Qed.

Lemma deleteBackup_missing_snapshot_witness :
  let r := deleteBackup (js "admin") (js "backup-1999") (Demo.stopped, Demo.world) in
  r.1 = Ret tt
  /\ r.2.1 = Demo.stopped
  /\ files Demo.world ⊆ files r.2.2
  /\ trace r.2.2 = trace Demo.world
  /\ appends r.2.2 = appends Demo.world
  /\ (Fs.existsSync Demo.world (backupDirOf Demo.stopped) = true
      -> r.2 = (Demo.stopped, Demo.world)).
Proof.
  apply (deleteBackup_missing_snapshot (js "admin") (js "backup-1999")
           Demo.stopped Demo.world (backupDirOf Demo.stopped));
    vm_compute; reflexivity.
Defined.

(** ** Atomic replacement *)

Lemma tmpPath_neq (p : path) : tmpPath p <> p.
Proof.
  unfold tmpPath. destruct (last p) as [name|] eqn:Hlast.
  - intros H. apply (f_equal last) in H. rewrite last_snoc, Hlast in H.
    injection H as H. apply (f_equal length) in H. rewrite length_app in H.
    cbn in H. lia.
  - apply last_None in Hlast. subst p. discriminate.
Qed.

Lemma lookupNode_insert_ne (fs : gmap path inode) (p q : path) i :
  q <> p -> Fs.lookupNode (<[q := i]> fs) p = Fs.lookupNode fs p.
Proof.
  intros H. destruct p; [reflexivity |]. cbn [Fs.lookupNode].
  apply lookup_insert_ne, H.
Qed.

Ltac case_if :=
  match goal with
  | |- context [if ?b then _ else _] => destruct b eqn:?
  end.

(** A write touches the file it writes and nothing else. *)
Lemma writeFileSync_spec p c w :
  let r := Fs.writeFileSync p c w in
  (forall q, q <> p -> files r.2 !! q = files w !! q)
  /\ (r.1 = Ret tt ->
      exists b, files r.2 = <[p := {| node_of := File c; birthtimeMs := b |}]> (files w))
  /\ fault r.2 = fault w.
Proof.
  cbv zeta. unfold Fs.writeFileSync.
  destruct (fault w (OpWrite p)) as [[]|];
    repeat case_if; cbn [fst snd set_files files fault];
    (split; [| split]); try reflexivity; try discriminate; eauto;
    intros q Hq; apply lookup_insert_ne; congruence.
Qed.

(** A rename that fails does nothing; the rename of a file moves one entry. *)
Lemma renameSync_spec src dst w :
  let r := Fs.renameSync src dst w in
  (forall e, r.1 = Throw e -> r.2 = w)
  /\ (forall i c, src <> [] -> files w !! src = Some i -> node_of i = File c ->
        r.1 = Ret tt -> files r.2 = <[dst := i]> (delete src (files w))).
Proof.
  cbv zeta. unfold Fs.renameSync, bind, Fs.guard.
  destruct (fault w (OpRename src dst)); [split; [reflexivity | discriminate] |].
  split.
  - intros e.
    destruct (Fs.lookupNode (files w) src) as [[[c|] b]|]; cbn [node_of];
      repeat case_if; try reflexivity; discriminate.
  - intros i c Hsrc Hi Hc.
    assert (Hl : Fs.lookupNode (files w) src = Some i)
      by (destruct src; [congruence | exact Hi]).
    rewrite Hl, Hc. repeat case_if; try discriminate. reflexivity.
Qed.

Lemma tmpPath_nonempty (p : path) : tmpPath p <> [].
Proof.
  unfold tmpPath. destruct (last p); [| discriminate].
  intros H. apply (f_equal length) in H. rewrite length_app in H. cbn in H. lia.
Qed.

(** [writeJsonAtomic] touches the target and its temporary sibling only; when
    it throws the target is as before; when it returns the target holds the
    whole document. *)
Lemma writeJsonAtomic_spec p d w :
  let r := writeJsonAtomic p d w in
  (forall q, q <> p -> q <> tmpPath p -> files r.2 !! q = files w !! q)
  /\ (forall e, r.1 = Throw e -> files r.2 !! p = files w !! p)
  /\ (r.1 = Ret tt ->
      exists b, files r.2 !! p = Some {| node_of := File (Json d); birthtimeMs := b |})
  /\ fault r.2 = fault w.
Proof.
  cbv zeta. unfold writeJsonAtomic.
  pose proof (tmpPath_neq p) as Hneq. pose proof (tmpPath_nonempty p) as Hne.
  destruct (writeFileSync_spec (tmpPath p) (Json d) w) as (Hother & Hret & Hfault).
  cbv zeta in *.
  destruct (Fs.writeFileSync (tmpPath p) (Json d) w) as [[[]|e] w1] eqn:E1;
    cbn [fst snd] in *.
  - destruct (Hret eq_refl) as [b Hw1].
    destruct (renameSync_spec (tmpPath p) p w1) as (Hfail & Hmove). cbv zeta in *.
    assert (Htmp : files w1 !! tmpPath p
                   = Some {| node_of := File (Json d); birthtimeMs := b |})
      by (rewrite Hw1; apply lookup_insert_eq).
    assert (Hf1 : fault (Fs.renameSync (tmpPath p) p w1).2 = fault w1)
      by apply (ltac:(auto with frame) : keeps fault (Fs.renameSync _ _)).
    destruct (Fs.renameSync (tmpPath p) p w1) as [[[]|e] w2] eqn:E2;
      cbn [fst snd] in *.
    + specialize (Hmove _ _ Hne Htmp eq_refl eq_refl).
      erewrite try_catch_Ret by (erewrite bind_Ret by exact E1; exact E2).
      cbn [fst snd].
      split; [| split; [| split]].
      * intros q Hq Hqt. rewrite Hmove, lookup_insert_ne, lookup_delete_ne by congruence.
        apply Hother, Hqt.
      * intros e He. discriminate He.
      * intros _. exists b. rewrite Hmove. apply lookup_insert_eq.
      * congruence.
    + rewrite (Hfail e eq_refl) in E2.
      erewrite try_catch_Throw by (erewrite bind_Ret by exact E1; exact E2).
      unfold bind, emit, modify, throw. cbn [fst snd set_trace files fault].
      split; [| split; [| split]].
      * intros q _ Hqt. apply Hother, Hqt.
      * intros _ _. apply Hother. congruence.
      * intros He. discriminate He.
      * exact Hfault.
  - erewrite try_catch_Throw by (erewrite bind_Throw by exact E1; reflexivity).
    unfold bind, emit, modify, throw. cbn [fst snd set_trace files fault].
    split; [| split; [| split]].
    + intros q _ Hqt. apply Hother, Hqt.
    + intros _ _. apply Hother. congruence.
    + intros He. discriminate He.
    + exact Hfault.
Qed.

Lemma lookupNode_eq (fs fs' : gmap path inode) (p : path) :
  fs' !! p = fs !! p -> Fs.lookupNode fs' p = Fs.lookupNode fs p.
Proof. destruct p; [reflexivity | intros H; exact H]. Qed.

(** ** The RCON session *)

Lemma run_snoc es e s : run (es ++ [e]) s = (step e (run es s)).2.
Proof. unfold run. rewrite fold_left_app. reflexivity. Qed.

Lemma repeat_snoc {A} (x : A) n : repeat x (Datatypes.S n) = repeat x n ++ [x].
Proof. induction n as [|n IH]; [reflexivity |]. cbn [repeat app] in *. rewrite <- IH. reflexivity. Qed.

Lemma connectRcon_giveup attempts s :
  (5 < attempts)%nat -> connectRcon attempts s = (Ret tt, s).
Proof.
  intros H. unfold connectRcon. rewrite !bind_this.
  destruct (_ || _); [reflexivity |].
  replace (5 <? attempts)%nat with true by (symmetry; apply Nat.ltb_lt, H).
  reflexivity.
Qed.

Lemma connectRcon_schedule attempts s w cfg :
  rcon s = None -> config s = Some cfg -> (attempts <= 5)%nat ->
  connectRcon attempts (s, w)
  = (Ret tt, (s, set_timers (fun l => l ++ [(RconAttempt attempts, 3000%Z)])
                   (set_trace (cons (SetTimeout (RconAttempt attempts) 3000)) w))).
Proof.
  intros Hr Hc Ha. unfold connectRcon. rewrite !bind_this. cbn [fst].
  rewrite Hr, Hc.
  replace (5 <? attempts)%nat with false by (symmetry; apply Nat.ltb_ge, Ha).
  reflexivity.
Qed.

(** A refused connection: one more attempt on the record, and the next one
    scheduled unless the budget is spent. *)
Lemma rconAttempt_refused attempts s w cfg :
  rcon s = None -> config s = Some cfg -> rconListening w = false ->
  let r := (rconAttempt attempts (s, w)).2 in
  rcon r.1 = None
  /\ rconScene r = rconScene (s, w)
  /\ connects r.2 = Datatypes.S (connects w)
  /\ timers r.2
     = timers w ++ (if (attempts + 1 <=? 5)%nat
                    then [(RconAttempt (attempts + 1), 3000%Z)] else []).
Proof.
  intros Hr Hc Hl. cbv zeta.
  unfold rconAttempt. rewrite bind_this. cbn [fst]. rewrite Hc.
  set (w1 := set_trace (cons (RconConnect (js "localhost")
                   (if (ServerConfig.rconPort cfg =? 0)%Z then 25575%Z
                    else ServerConfig.rconPort cfg)
                   (orElse (default [] (ServerConfig.rconPassword cfg)) (js "minecraft")))) w).
  erewrite try_catch_Throw; cycle 1.
  { erewrite bind_Throw; [reflexivity |].
    unfold rconConnect.
    erewrite bind_Ret by reflexivity.
    rewrite bind_ask. cbn [snd rconListening set_trace]. rewrite Hl. reflexivity. }
  fold w1.
  set (m := when _ _).
  assert (Hm : total m) by (subst m; frame).
  rewrite (bind_total m _ _ Hm). cbv beta.
  match goal with |- context [connectRcon _ ?x] => set (s2 := x) end.
  assert (H1 : rcon s2.1 = None).
  { rewrite <- Hr. subst s2 m.
    apply (ltac:(frame) : keeps (fun s : Sys => rcon s.1) (when _ (logError _))). }
  assert (H2 : rconScene s2 = rconScene (s, w)).
  { subst s2 m. transitivity (rconScene (s, w1)); [| reflexivity].
    apply (ltac:(unfold rconScene; frame) : keeps rconScene (when _ (logError _))). }
  assert (H3 : connects s2.2 = Datatypes.S (connects w)).
  { subst s2 m.
    rewrite (ltac:(frame) : keeps (fun s : Sys => connects s.2) (when _ (logError _))).
    reflexivity. }
  assert (H4 : timers s2.2 = timers w).
  { subst s2 m.
    rewrite (ltac:(frame) : keeps (fun s : Sys => timers s.2) (when _ (logError _))).
    reflexivity. }
  assert (Hc2 : config s2.1 = Some cfg) by (injection H2 as -> _ _ _ _; exact Hc).
  clearbody s2. destruct s2 as [s2 w2]. cbn [fst snd] in *.
  destruct (Nat.leb_spec (attempts + 1) 5) as [Hle | Hgt].
  - rewrite (connectRcon_schedule _ _ _ _ H1 Hc2 Hle). cbn [fst snd].
    split; [exact H1 |]. split; [exact H2 |]. split; [exact H3 |].
    cbn [timers set_timers set_trace]. rewrite H4. reflexivity.
  - rewrite connectRcon_giveup by lia. cbn [fst snd].
    split; [exact H1 |]. split; [exact H2 |]. split; [exact H3 |].
    rewrite H4, app_nil_r. reflexivity.
Qed.

Lemma step_Elapsed_last (before : list (task * Z)) job ms s w :
  timers w = before ++ [(job, ms)] ->
  let w' := set_timers (fun l => take (length before) l
                                 ++ drop (Datatypes.S (length before)) l) w in
  step (Elapsed (length before)) (s, w) = runTask job (s, w')
  /\ timers w' = before.
Proof.
  intros H. cbv zeta. split.
  - cbn [step]. rewrite bind_ask. cbn [snd]. rewrite H.
    rewrite list_lookup_middle by reflexivity. reflexivity.
  - cbn [timers set_timers]. rewrite H.
    rewrite take_app_length.
    rewrite drop_ge by (rewrite length_app; cbn [length]; lia).
    apply app_nil_r.
Qed.

Lemma updateState_status st s : status (updateState st s).2.1 = st.
Proof.
  unfold updateState.
  rewrite (keeps_after (fun s : Sys => status s.1)) by (intros ?; frame).
  reflexivity.
Qed.

(** The readiness line, seen while the state is not ONLINE yet. *)
Lemma onStdout_ready data s w :
  status s <> ONLINE -> ready data = true ->
  onStdout data (s, w)
  = connectRcon 0 (updateState ONLINE (log data LogEntry.info (s, w)).2).2.
Proof.
  intros Hst Hready. unfold onStdout.
  rewrite (bind_total (log _ _)) by frame. cbv beta.
  unfold ready in Hready. rewrite Hready.
  rewrite bind_this.
  rewrite (ltac:(frame) : keeps (fun s : Sys => status s.1) (log data LogEntry.info)).
  cbn [fst]. rewrite (bool_decide_eq_false_2 _ Hst). cbn [negb].
  rewrite (bind_total (updateState _)) by frame. reflexivity.
Qed.

(** Without a session the command goes to the standard input of the
    process. *)
Lemma executeCommand_stdin actor cmd s w p :
  status s = ONLINE \/ status s = STARTING ->
  rcon s = None -> process s = Some p -> stdin p = true ->
  stdinThrows w = false ->
  let r := executeCommand actor cmd (s, w) in
  r.1 = Ret (js "Command sent to process stdin (RCON unavailable).")
  /\ head (trace r.2.2) = Some (StdinWrite (cmd ++ [10])).
Proof.
  intros Hst Hrcon Hproc Hstdin Hpipe. cbv zeta. unfold executeCommand.
  rewrite bind_this. cbn [fst].
  replace (negb (bool_decide (status s = ONLINE)) && negb (bool_decide (status s = STARTING)))
    with false
    by (destruct Hst as [-> | ->]; reflexivity).
  rewrite (bind_total (log _ _)) by frame. cbv beta.
  match goal with |- context [bind (this rcon) _ ?x] => set (s1 := x) end.
  assert (H1 : rcon s1.1 = None)
    by (rewrite <- Hrcon;
        apply (ltac:(frame) : keeps (fun s : Sys => rcon s.1) (log _ _))).
  assert (H2 : process s1.1 = Some p)
    by (rewrite <- Hproc;
        apply (ltac:(frame) : keeps (fun s : Sys => process s.1) (log _ _))).
  assert (H3 : stdinThrows s1.2 = false)
    by (rewrite <- Hpipe;
        apply (ltac:(frame) : keeps (fun s : Sys => stdinThrows s.2) (log _ _))).
  clearbody s1. rewrite !bind_this. rewrite H1, H2.
  destruct p as [n piped]. cbn [stdin] in Hstdin. subst piped.
  cbv beta iota. destruct s1 as [s1 w1]. cbn [fst snd] in *.
  unfold try_catch, stdinWrite, bind, ask, gets. cbn [fst snd]. rewrite H3.
  unfold io, zoom, emit, modify, ret. cbn [fst snd set_trace trace head].
  split; reflexivity.
Qed.

(** C5, as the code has it.  From the readiness line on, with the RCON port
    of the game closed: the first attempt is scheduled 3000 ms ahead, every
    refused attempt schedules the next 3000 ms ahead, and that up to the
    attempt numbered 5, so that six connections are attempted in all; the
    sixth refusal schedules nothing ([connectRcon(6)] returns at once, without
    a word), no session exists, and [executeCommand] then writes the command
    and a line feed to the standard input of the process and returns. *)
Theorem rcon_retry_budget (s : MinecraftServer) (w : World) (data : jsstring)
  (cfg : ServerConfig.t) (p : ChildProcess) :
  status s = STARTING -> ready data = true ->
  rcon s = None -> config s = Some cfg ->
  process s = Some p -> stdin p = true ->
  rconListening w = false -> stdinThrows w = false ->
  let n := length (timers w) in
  let after j := run (Stdout data :: repeat (Elapsed n) j) (s, w) in
  (forall j, (j <= 5)%nat ->
     status (after j).1 = ONLINE
     /\ connects (after j).2 = (connects w + j)%nat
     /\ timers (after j).2 = timers w ++ [(RconAttempt j, 3000%Z)])
  /\ connects (after 6%nat).2 = (connects w + 6)%nat
  /\ timers (after 6%nat).2 = timers w
  /\ rcon (after 6%nat).1 = None
  /\ (forall sys, connectRcon 6 sys = (Ret tt, sys))
  /\ (forall actor cmd,
        let r := executeCommand actor cmd (after 6%nat) in
        r.1 = Ret (js "Command sent to process stdin (RCON unavailable).")
        /\ head (trace r.2.2) = Some (StdinWrite (cmd ++ [10]))).
Proof.
  intros Hst Hready Hrcon Hcfg Hproc Hstdin Hclosed Hpipe n after.
  assert (Inv : forall j, (j <= 6)%nat ->
            rcon (after j).1 = None
            /\ rconScene (after j) = (Some cfg, ONLINE, Some p, false, false)
            /\ connects (after j).2 = (connects w + j)%nat
            /\ timers (after j).2
               = timers w ++ (if (j <=? 5)%nat then [(RconAttempt j, 3000%Z)] else [])).
  { induction j as [|j IH]; intros Hj.
    - subst after. cbn [repeat]. unfold run. cbn [fold_left step].
      rewrite onStdout_ready by (rewrite ?Hst; congruence).
      set (s1 := (updateState ONLINE _).2).
      assert (H1 : rcon s1.1 = None).
      { subst s1. rewrite <- Hrcon.
        rewrite (ltac:(frame) : keeps (fun s : Sys => rcon s.1) (updateState ONLINE)).
        apply (ltac:(frame) : keeps (fun s : Sys => rcon s.1) (log _ _)). }
      assert (H2 : rconScene s1 = (Some cfg, ONLINE, Some p, false, false)).
      { unfold rconScene. subst s1. rewrite updateState_status.
        rewrite (ltac:(frame) : keeps (fun s : Sys => config s.1) (updateState ONLINE)).
        rewrite (ltac:(frame) : keeps (fun s : Sys => process s.1) (updateState ONLINE)).
        rewrite (ltac:(frame) : keeps (fun s : Sys => rconListening s.2) (updateState ONLINE)).
        rewrite (ltac:(frame) : keeps (fun s : Sys => stdinThrows s.2) (updateState ONLINE)).
        rewrite (ltac:(frame) : keeps (fun s : Sys => config s.1) (log _ _)).
        rewrite (ltac:(frame) : keeps (fun s : Sys => process s.1) (log _ _)).
        rewrite (ltac:(frame) : keeps (fun s : Sys => rconListening s.2) (log _ _)).
        rewrite (ltac:(frame) : keeps (fun s : Sys => stdinThrows s.2) (log _ _)).
        cbn [fst snd]. rewrite Hcfg, Hproc, Hclosed, Hpipe. reflexivity. }
      assert (H3 : connects s1.2 = connects w).
      { subst s1.
        rewrite (ltac:(frame) : keeps (fun s : Sys => connects s.2) (updateState ONLINE)).
        apply (ltac:(frame) : keeps (fun s : Sys => connects s.2) (log _ _)). }
      assert (H4 : timers s1.2 = timers w).
      { subst s1.
        rewrite (ltac:(frame) : keeps (fun s : Sys => timers s.2) (updateState ONLINE)).
        apply (ltac:(frame) : keeps (fun s : Sys => timers s.2) (log _ _)). }
      clearbody s1. destruct s1 as [s1 w1]. cbn [fst snd] in *.
      assert (Hc1 : config s1 = Some cfg) by (unfold rconScene in H2; cbn in H2; congruence).
      rewrite (connectRcon_schedule 0 s1 w1 cfg H1 Hc1) by lia.
      cbn [fst snd]. split; [exact H1 |]. split; [exact H2 |].
      split; [rewrite Nat.add_0_r; exact H3 |].
      cbn [timers set_timers set_trace]. rewrite H4. reflexivity.
    - destruct (IH ltac:(lia)) as (I1 & I2 & I3 & I4).
      replace (j <=? 5)%nat with true in I4 by (symmetry; apply Nat.leb_le; lia).
      assert (E : after (Datatypes.S j) = (step (Elapsed n) (after j)).2).
      { subst after. cbv beta. rewrite repeat_snoc, app_comm_cons. apply run_snoc. }
      rewrite E. destruct (after j) as [sj wj]. cbn [fst snd] in *.
      destruct (step_Elapsed_last (timers w) _ _ sj wj I4) as [Estep Htim].
      cbv zeta in *. fold n in Estep, Htim. rewrite Estep. cbn [runTask].
      set (wj' := set_timers _ wj) in *.
      assert (Hc1 : config sj = Some cfg) by (unfold rconScene in I2; cbn in I2; congruence).
      assert (Hl1 : rconListening wj' = false)
        by (unfold rconScene in I2; cbn in I2; subst wj'; cbn; congruence).
      destruct (rconAttempt_refused j sj wj' cfg I1 Hc1 Hl1) as (R1 & R2 & R3 & R4).
      cbv zeta in *.
      split; [exact R1 |]. split; [rewrite R2; exact I2 |].
      split; [rewrite R3; subst wj'; change (connects (set_timers _ wj)) with (connects wj); lia |].
      rewrite R4, Htim. replace (j + 1)%nat with (Datatypes.S j) by lia. reflexivity. }
  split; [| split; [| split; [| split; [| split]]]].
  - intros j Hj. destruct (Inv j ltac:(lia)) as (_ & I2 & I3 & I4).
    replace (j <=? 5)%nat with true in I4 by (symmetry; apply Nat.leb_le; lia).
    unfold rconScene in I2. split; [congruence |]. split; assumption.
  - apply (Inv 6%nat). lia.
  - destruct (Inv 6%nat ltac:(lia)) as (_ & _ & _ & I4). rewrite I4. apply app_nil_r.
  - apply (Inv 6%nat). lia.
  - intros sys. apply connectRcon_giveup. lia.
  - intros actor cmd. destruct (Inv 6%nat ltac:(lia)) as (I1 & I2 & _ & _).
    destruct (after 6%nat) as [s6 w6]. unfold rconScene in I2. cbn [fst snd] in *.
    apply (executeCommand_stdin actor cmd s6 w6 p); try congruence.
    left. congruence.
Qed.

Lemma rcon_retry_budget_witness :
  connects (run (Stdout Demo.doneLine
                 :: repeat (Elapsed (length (timers Demo.world))) 6)
              (Demo.starting, Demo.world)).2
  = (connects Demo.world + 6)%nat.
Proof.
  destruct (rcon_retry_budget Demo.starting Demo.world Demo.doneLine
              (Demo.descriptor "main") {| pid := 3999; stdin := true |})
    as (_ & H & _); [vm_compute; reflexivity .. | exact H].
Defined.

(** C5 as stated fails: with the RCON port closed, six connections are
    attempted after the readiness line, not five at most. *)
Lemma rcon_six_attempts :
  let final := run (Stdout Demo.doneLine :: repeat (Elapsed 0) 6)
                 (Demo.starting, Demo.world) in
  connects Demo.world = 0%nat
  /\ status final.1 = ONLINE
  /\ connects final.2 = 6%nat
  /\ ~ (connects final.2 <= 5)%nat.
Proof. vm_compute. repeat split; try reflexivity. lia. Qed.

(** ** Crash recovery *)

Lemma preserves_io_any {A} (P : MinecraftServer -> Prop) (m : M World A) :
  preserves (fun s : Sys => P s.1) (io m).
Proof.
  intros [s w] H. unfold io, zoom. cbn [fst snd] in *. destruct (m w); exact H.
Qed.

Ltac steady_step :=
  first
    [ solve [auto with bounded]
    | match goal with
      | |- preserves _ (bind _ _) => apply preserves_bind; [| intros ?]
      | |- preserves _ (try_catch _ _) => apply preserves_try_catch; [| intros ?]
      | |- preserves _ (when _ _) => apply preserves_when
      | |- preserves _ (this _) => apply preserves_gets
      | |- preserves _ (ask _) => apply preserves_gets
      | |- preserves _ (io _) => apply preserves_io_any
      | |- preserves _ (assign _) =>
          let H := fresh in
          intros [? ?] H;
          first [ exact H | unfold notRestarting in *; cbn; congruence ]
      | |- preserves _ (if ?b then _ else _) => destruct b
      | |- preserves _ (match ?x with _ => _ end) => destruct x
      | |- preserves _ ?m => let h := head_of m in unfold h
      end ].

Ltac steady := repeat steady_step.

Lemma spawnProcess_notRestarting :
  preserves (fun s : Sys => notRestarting s.1) spawnProcess.
Proof. steady. Qed.

Lemma loadAndStart_notRestarting serverId actor :
  preserves (fun s : Sys => notRestarting s.1) (loadAndStart serverId actor).
Proof. steady. Qed.

(** From [H : m s = (r, s')], the value of an observation [m] keeps. *)
Ltac kept f H :=
  match type of H with
  | ?m ?s = (?r, ?s') =>
      transitivity (f s); [apply (keeps_eq f m s r s'); [frame | exact H] | reflexivity]
  end.

(** A start that went through: fresh crash budget, no intention to stop. *)
Lemma loadAndStart_Ret serverId actor s s' :
  loadAndStart serverId actor s = (Ret tt, s') ->
  crashCount s'.1 = 0%Z /\ intentionToStop s'.1 = false /\ notRestarting s'.1.
Proof.
  intros H.
  assert (Hnr : notRestarting s'.1).
  { pose proof (loadAndStart_notRestarting serverId actor s) as Hp.
    rewrite H in Hp. apply Hp. unfold loadAndStart in H.
    rewrite bind_this in H. unfold notRestarting. intros Hst. rewrite Hst in H.
    discriminate H. }
  unfold loadAndStart in H. rewrite bind_this in H.
  destruct (_ && _); [discriminate |].
  apply bind_Ret_inv in H. destruct H as ([] & sA & _ & H). cbv beta in H.
  rewrite !bind_assign in H.
  split; [| split; [| exact Hnr]].
  - kept (fun s : Sys => crashCount s.1) H.
  - kept (fun s : Sys => intentionToStop s.1) H.
Qed.

(** [handleCrash]: one more crash on the counter, and a respawn 5000 ms
    ahead when the counter is within 3 and auto-restart is not off. *)
Lemma handleCrash_spec s w :
  let again := (crashCount s + 1 <=? 3)%Z && autoRestartEnabled s in
  let r := (handleCrash (s, w)).2 in
  crashCount r.1 = (crashCount s + 1)%Z
  /\ status r.1 = status s
  /\ crashScene r = crashScene (s, w)
  /\ timers r.2 = timers w ++ (if again then [(Respawn, 5000%Z)] else [])
  /\ respawnsScheduled r.2
     = (respawnsScheduled w + (if again then 1 else 0))%nat.
Proof.
  cbv zeta. unfold handleCrash. rewrite bind_assign, !bind_this.
  cbn [fst snd crashCount set_crashCount].
  change (autoRestartEnabled (set_crashCount (crashCount s + 1) s))
    with (autoRestartEnabled s).
  set (s0 := set_crashCount (crashCount s + 1)%Z s).
  destruct ((crashCount s + 1 <=? 3)%Z && autoRestartEnabled s).
  - rewrite (bind_total (logError _)) by frame. cbv beta.
    match goal with |- context [io _ ?x] => set (s1 := x) end.
    assert (H1 : crashCount s1.1 = (crashCount s + 1)%Z)
      by apply (ltac:(frame) : keeps (fun s : Sys => crashCount s.1) (logError _)).
    assert (H2 : status s1.1 = status s)
      by apply (ltac:(frame) : keeps (fun s : Sys => status s.1) (logError _)).
    assert (H3 : crashScene s1 = crashScene (s, w))
      by (transitivity (crashScene (s0, w)); [| reflexivity];
          apply (ltac:(unfold crashScene; frame) : keeps crashScene (logError _))).
    assert (H4 : timers s1.2 = timers w)
      by apply (ltac:(frame) : keeps (fun s : Sys => timers s.2) (logError _)).
    assert (H5 : respawnsScheduled s1.2 = respawnsScheduled w)
      by apply (ltac:(frame) : keeps (fun s : Sys => respawnsScheduled s.2) (logError _)).
    clearbody s1. destruct s1 as [s1 w1]. cbn [fst snd] in *.
    unfold io, zoom, setTimeout, bind, emit, modify. cbn [fst snd].
    split; [exact H1 |]. split; [exact H2 |]. split; [exact H3 |].
    split.
    + cbn [timers set_timers set_trace]. rewrite H4. reflexivity.
    + unfold respawnsScheduled in *. cbn [trace set_timers set_trace List.filter isRespawn length].
      rewrite H5. lia.
  - match goal with |- context [logError ?m ?x] => set (s1 := logError m x) end.
    split; [apply (ltac:(frame) : keeps (fun s : Sys => crashCount s.1) (logError _)) |].
    split; [apply (ltac:(frame) : keeps (fun s : Sys => status s.1) (logError _)) |].
    split; [transitivity (crashScene (s0, w)); [| reflexivity];
            apply (ltac:(unfold crashScene; frame) : keeps crashScene (logError _)) |].
    split.
    + rewrite app_nil_r.
      apply (ltac:(frame) : keeps (fun s : Sys => timers s.2) (logError _)).
    + rewrite Nat.add_0_r.
      apply (ltac:(frame) : keeps (fun s : Sys => respawnsScheduled s.2) (logError _)).
Qed.

(** An exit that is not intended: CRASHED, then [handleCrash]. *)
Lemma onClose_crash code s w :
  intentionToStop s = false -> notRestarting s -> abnormal code = true ->
  let again := (crashCount s + 1 <=? 3)%Z && autoRestartEnabled s in
  let r := (onClose code (s, w)).2 in
  status r.1 = CRASHED
  /\ crashCount r.1 = (crashCount s + 1)%Z
  /\ crashScene r = crashScene (s, w)
  /\ timers r.2 = timers w ++ (if again then [(Respawn, 5000%Z)] else [])
  /\ respawnsScheduled r.2
     = (respawnsScheduled w + (if again then 1 else 0))%nat.
Proof.
  intros Hstop Hnr Hcode. cbv zeta. unfold onClose.
  rewrite (bind_total (logSystem _)) by frame. cbv beta.
  rewrite (bind_total cleanup) by frame. cbv beta.
  match goal with |- context [bind (this intentionToStop) _ ?x] => set (s1 := x) end.
  assert (H0 : crashCount s1.1 = crashCount s).
  { subst s1.
    rewrite (ltac:(frame) : keeps (fun s : Sys => crashCount s.1) cleanup).
    apply (ltac:(frame) : keeps (fun s : Sys => crashCount s.1) (logSystem _)). }
  assert (H1 : status s1.1 = status s).
  { subst s1.
    rewrite (ltac:(frame) : keeps (fun s : Sys => status s.1) cleanup).
    apply (ltac:(frame) : keeps (fun s : Sys => status s.1) (logSystem _)). }
  assert (H2 : crashScene s1 = crashScene (s, w)).
  { subst s1.
    rewrite (ltac:(unfold crashScene; frame) : keeps crashScene cleanup).
    apply (ltac:(unfold crashScene; frame) : keeps crashScene (logSystem _)). }
  assert (H3 : timers s1.2 = timers w).
  { subst s1.
    rewrite (ltac:(frame) : keeps (fun s : Sys => timers s.2) cleanup).
    apply (ltac:(frame) : keeps (fun s : Sys => timers s.2) (logSystem _)). }
  assert (H4 : respawnsScheduled s1.2 = respawnsScheduled w).
  { subst s1.
    rewrite (ltac:(frame) : keeps (fun s : Sys => respawnsScheduled s.2) cleanup).
    apply (ltac:(frame) : keeps (fun s : Sys => respawnsScheduled s.2) (logSystem _)). }
  clearbody s1. rewrite !bind_this.
  assert (Hs1 : intentionToStop s1.1 = false)
    by (unfold crashScene in H2; cbn in H2; congruence).
  rewrite Hs1, H1, Hcode, (bool_decide_eq_false_2 _ Hnr). cbn [negb andb].
  rewrite (bind_total (updateState _)) by frame. cbv beta.
  match goal with |- context [handleCrash ?x] => set (s2 := x) end.
  assert (G0 : crashCount s2.1 = crashCount s)
    by (rewrite <- H0;
        apply (ltac:(frame) : keeps (fun s : Sys => crashCount s.1) (updateState _))).
  assert (G1 : status s2.1 = CRASHED) by apply updateState_status.
  assert (G2 : crashScene s2 = crashScene (s, w))
    by (rewrite <- H2;
        apply (ltac:(unfold crashScene; frame) : keeps crashScene (updateState _))).
  assert (G3 : timers s2.2 = timers w)
    by (rewrite <- H3;
        apply (ltac:(frame) : keeps (fun s : Sys => timers s.2) (updateState _))).
  assert (G4 : respawnsScheduled s2.2 = respawnsScheduled w)
    by (rewrite <- H4;
        apply (ltac:(frame) : keeps (fun s : Sys => respawnsScheduled s.2) (updateState _))).
  clearbody s2. destruct s2 as [s2 w2]. cbn [fst snd] in *.
  destruct (handleCrash_spec s2 w2) as (C1 & C2 & C3 & C4 & C5). cbv zeta in *.
  assert (Ha : autoRestartEnabled s2 = autoRestartEnabled s).
  { unfold autoRestartEnabled, crashScene in *. cbn [fst snd] in G2.
    injection G2 as _ ->. reflexivity. }
  rewrite G0, Ha in *.
  split; [congruence |]. split; [exact C1 |]. split; [congruence |].
  split; [rewrite C4, G3; reflexivity | rewrite C5, G4; reflexivity].
Qed.

(** The timer of [handleCrash] fires while nothing asked for a stop. *)
Lemma respawn_spec s w :
  intentionToStop s = false -> notRestarting s ->
  let r := (respawn (s, w)).2 in
  notRestarting r.1
  /\ crashCount r.1 = crashCount s
  /\ crashScene r = crashScene (s, w)
  /\ timers r.2 = timers w
  /\ respawnsScheduled r.2 = respawnsScheduled w.
Proof.
  intros Hstop Hnr. cbv zeta.
  split; [| split; [| split; [| split]]].
  - unfold respawn. rewrite bind_this. cbn [fst]. rewrite Hstop. cbn [negb].
    apply (spawnProcess_notRestarting (s, w) Hnr).
  - apply (ltac:(frame) : keeps (fun s : Sys => crashCount s.1) respawn).
  - apply (ltac:(unfold crashScene; frame) : keeps crashScene respawn).
  - apply (ltac:(frame) : keeps (fun s : Sys => timers s.2) respawn).
  - apply (ltac:(frame) : keeps (fun s : Sys => respawnsScheduled s.2) respawn).
Qed.

Lemma crashScene_autoRestart s s' :
  crashScene s' = crashScene s ->
  intentionToStop s'.1 = intentionToStop s.1
  /\ autoRestartEnabled s'.1 = autoRestartEnabled s.1.
Proof.
  unfold crashScene, autoRestartEnabled. intros [= H1 H2]. rewrite H1, H2. auto.
Qed.

(** A crash within the budget, and the respawn it schedules. *)
Lemma crash_then_respawn count pending scheduled code s :
  betweenCrashes count pending scheduled s ->
  (count + 1 <= 3)%Z -> abnormal code = true ->
  let crashed := (step (Close code) s).2 in
  status crashed.1 = CRASHED
  /\ timers crashed.2 = pending ++ [(Respawn, 5000%Z)]
  /\ respawnsScheduled crashed.2 = Datatypes.S scheduled
  /\ betweenCrashes (count + 1) pending (Datatypes.S scheduled)
       (step (Elapsed (length pending)) crashed).2.
Proof.
  intros (Hstop & Hnr & Hauto & Hcount & Htimers & Hsched) Hle Hcode.
  cbv zeta. destruct s as [s w]. cbn [fst snd] in *.
  change (step (Close code) (s, w)) with (onClose code (s, w)).
  destruct (onClose_crash code s w Hstop Hnr Hcode) as (C1 & C2 & C3 & C4 & C5).
  cbv zeta in *. rewrite Hauto, Hcount in *.
  replace (count + 1 <=? 3)%Z with true in * by (symmetry; apply Z.leb_le, Hle).
  cbn [andb] in *.
  destruct (onClose code (s, w)) as [r [s1 w1]]. cbn [fst snd] in *.
  destruct (crashScene_autoRestart _ _ C3) as [D1 D2]. cbn [fst snd] in *.
  rewrite Htimers in C4. rewrite Hsched in C5.
  split; [exact C1 |]. split; [exact C4 |]. split; [lia |].
  destruct (step_Elapsed_last pending Respawn 5000%Z s1 w1 C4) as [Estep Htim].
  cbv zeta in *. rewrite Estep. cbn [runTask].
  set (w1' := set_timers _ w1) in *.
  assert (Hnr1 : notRestarting s1) by (unfold notRestarting; rewrite C1; discriminate).
  destruct (respawn_spec s1 w1' ltac:(congruence) Hnr1) as (R1 & R2 & R3 & R4 & R5).
  cbv zeta in *.
  destruct (crashScene_autoRestart _ _ R3) as [E1 E2]. cbn [fst snd] in *.
  unfold betweenCrashes.
  split; [congruence |]. split; [exact R1 |]. split; [congruence |].
  split; [congruence |]. split; [congruence |].
  rewrite R5. subst w1'.
  change (respawnsScheduled (set_timers _ w1)) with (respawnsScheduled w1). lia.
Qed.

(** The crash past the budget. *)
Lemma crash_past_budget count pending scheduled code s :
  betweenCrashes count pending scheduled s ->
  (3 < count + 1)%Z -> abnormal code = true ->
  let crashed := (step (Close code) s).2 in
  status crashed.1 = CRASHED
  /\ crashCount crashed.1 = (count + 1)%Z
  /\ timers crashed.2 = pending
  /\ respawnsScheduled crashed.2 = scheduled.
Proof.
  intros (Hstop & Hnr & Hauto & Hcount & Htimers & Hsched) Hgt Hcode.
  cbv zeta. destruct s as [s w]. cbn [fst snd] in *.
  change (step (Close code) (s, w)) with (onClose code (s, w)).
  destruct (onClose_crash code s w Hstop Hnr Hcode) as (C1 & C2 & C3 & C4 & C5).
  cbv zeta in *. rewrite Hcount in *.
  replace (count + 1 <=? 3)%Z with false in * by (symmetry; apply Z.leb_gt; lia).
  cbn [andb] in *. rewrite app_nil_r in C4.
  split; [exact C1 |]. split; [exact C2 |]. split; [congruence | lia].
Qed.

(** ** The roster *)

(** A read leaves everything as it is. *)
Lemma readFileSync_readonly p s :
  (io (Fs.readFileSync p) s).2 = s.
Proof.
  apply (keeps_io_id _ (readFileSync_keeps (fun w => w) p)).
Qed.

Lemma readFileSync_value p s w :
  (io (Fs.readFileSync p) (s, w)).1
  = match fault w (OpRead p), Fs.lookupNode (files w) p with
    | Some _, _ => Throw Fs.EIO
    | None, Some {| node_of := File c |} => Ret c
    | None, Some {| node_of := Dir |} => Throw Fs.EISDIR
    | None, None => Throw Fs.ENOENT
    end.
Proof.
  unfold io, zoom, Fs.readFileSync, bind, Fs.guard. cbn [fst snd].
  destruct (fault w (OpRead p)); [reflexivity |].
  destruct (Fs.lookupNode (files w) p) as [[[c|] b]|]; reflexivity.
Qed.

Lemma io_readFileSync p s w :
  io (Fs.readFileSync p) (s, w)
  = (match fault w (OpRead p), Fs.lookupNode (files w) p with
     | Some _, _ => Throw Fs.EIO
     | None, Some {| node_of := File c |} => Ret c
     | None, Some {| node_of := Dir |} => Throw Fs.EISDIR
     | None, None => Throw Fs.ENOENT
     end, (s, w)).
Proof.
  rewrite (surjective_pairing (io (Fs.readFileSync p) (s, w))).
  rewrite readFileSync_value, readFileSync_readonly. reflexivity.
Qed.

Lemma readJsonSafe_spec filename s w :
  readJsonSafe filename (s, w)
  = (Ret match serverDir s with
         | Some dir => parsedAt (DRefs []) w (Path.join dir [filename])
         | None => DRefs []
         end, (s, w)).
Proof.
  unfold readJsonSafe. rewrite bind_this. cbn [fst].
  destruct (serverDir s) as [dir|]; [| reflexivity].
  rewrite bind_ask. cbn [snd]. unfold parsedAt.
  destruct (Fs.existsSync w _); [| reflexivity]. cbn [negb].
  unfold try_catch, bind. rewrite io_readFileSync.
  destruct (fault w _); [reflexivity |].
  destruct (Fs.lookupNode _ _) as [[[[t|d|]|] ?]|]; try reflexivity.
  destruct (bool_decide (trim t = [])); reflexivity.
Qed.

Lemma getLaplaceMeta_spec s w :
  getLaplaceMeta (s, w)
  = (Ret match serverDir s with
         | Some dir => parsedAt (DMeta []) w (Path.join dir [js "laplace.players.json"])
         | None => DMeta []
         end, (s, w)).
Proof.
  unfold getLaplaceMeta. rewrite bind_this. cbn [fst].
  destruct (serverDir s) as [dir|]; [| reflexivity].
  rewrite bind_ask. cbn [snd]. unfold parsedAt.
  destruct (Fs.existsSync w _); [| reflexivity]. cbn [negb].
  unfold try_catch, bind. rewrite io_readFileSync.
  destruct (fault w _); [reflexivity |].
  destruct (Fs.lookupNode _ _) as [[[[t|d|]|] ?]|]; reflexivity.
Qed.

Lemma forEachRef_spec array value body m (s : Sys) :
  forEachRef array value body m s
  = (andThen (refsOf array value) (fun l => Ret (fold_left body l m)), s).
Proof. destruct value; reflexivity. Qed.

(** Without a live query [getPlayers] returns the static roster, empties the
    list of online names and refreshes the public file; when one of the four
    lists is not an array it throws before it has changed anything. *)
Lemma getPlayers_static s w dir :
  serverDir s = Some dir ->
  status s <> ONLINE \/ rcon s = None ->
  getPlayers (s, w)
  = match rosterOf (users s) w dir with
    | Ret players => (Ret players, (updatePublicFile (set_onlinePlayers [] s, w)).2)
    | Throw e => (Throw e, (s, w))
    end.
Proof.
  intros Hdir Hlive. unfold getPlayers. rewrite bind_this. cbn [fst]. rewrite Hdir.
  rewrite !(bind_Ret _ _ _ _ _ (readJsonSafe_spec _ _ _)).
  rewrite (bind_Ret _ _ _ _ _ (getLaplaceMeta_spec _ _)).
  rewrite Hdir, bind_this. cbn [fst]. unfold rosterOf. cbv zeta.
  repeat
    (unfold bind at 1; rewrite forEachRef_spec;
     destruct (refsOf _ _) as [?l | ?e]; cbn [andThen]; [| reflexivity]).
  rewrite bind_assign, !bind_this. cbn [fst snd].
  change (status (set_onlinePlayers [] s)) with (status s).
  change (rcon (set_onlinePlayers [] s)) with (rcon s).
  replace (bool_decide (status s = ONLINE) && bool_decide (is_Some (rcon s)))
    with false.
  2: { destruct Hlive as [H | H].
       - rewrite (bool_decide_eq_false_2 _ H). reflexivity.
       - rewrite H. rewrite andb_comm. reflexivity. }
  erewrite bind_Ret by reflexivity.
  rewrite (bind_total updatePublicFile) by frame. reflexivity.
Qed.

Lemma getPublicInfo_readonly : keeps (fun s : Sys => s) getPublicInfo.
Proof. frame. Qed.

Lemma getPublicInfo_total : total getPublicInfo.
Proof. frame. Qed.

(** [updatePublicFile] is one [writeJsonAtomic] of the public file, whose
    failure is swallowed. *)
Lemma updatePublicFile_spec s :
  exists data,
    (updatePublicFile s).2
    = (s.1, (writeJsonAtomic (publicPath s.1) (DPublic data) s.2).2).
Proof.
  destruct (getPublicInfo_total s) as [data Hdata].
  pose proof (getPublicInfo_readonly s) as Hsame. cbv beta in Hsame.
  exists data. unfold updatePublicFile.
  destruct (getPublicInfo s) as [r s'] eqn:E. cbn [fst snd] in *. subst r s'.
  unfold try_catch. rewrite (bind_Ret _ _ _ _ _ E). rewrite bind_this.
  unfold io, zoom. destruct s as [s w]. cbn [fst snd].
  destruct (writeJsonAtomic _ _ w) as [[[]|e] w']; reflexivity.
Qed.

Lemma removelast_snoc {A} (l : list A) (x : A) : removelast (l ++ [x]) = l.
Proof. apply removelast_last. Qed.

Lemma tmpPath_snoc (l : path) (name : jsstring) :
  tmpPath (l ++ [name]) = l ++ [name ++ js ".tmp"].
Proof. unfold tmpPath. rewrite last_snoc, removelast_snoc. reflexivity. Qed.

Lemma publicPath_snoc s :
  publicPath s = removelast (serversDir s) ++ [js "laplace.public.json"].
Proof. reflexivity. Qed.

(** The names of the sources are plain: joining one to a directory appends
    it, and none is the name of the public file or of its temporary. *)
Lemma join_source dir name :
  name ∈ sourceNames ->
  Path.join dir [name] = dir ++ [name]
  /\ name <> js "laplace.public.json"
  /\ name <> js "laplace.public.json" ++ js ".tmp".
Proof.
  unfold sourceNames. intros H.
  repeat (apply elem_of_cons in H; destruct H as [-> | H]);
    try (apply elem_of_nil in H; destruct H);
    (split; [reflexivity | split; vm_compute; discriminate]).
Qed.

Lemma parsedAt_same fallback (w w' : World) (p : path) :
  Fs.lookupNode (files w') p = Fs.lookupNode (files w) p ->
  fault w' (OpRead p) = fault w (OpRead p) ->
  parsedAt fallback w' p = parsedAt fallback w p.
Proof. intros H1 H2. unfold parsedAt, Fs.existsSync. rewrite H1, H2. reflexivity. Qed.

(** The roster is a function of the source files. *)
Lemma rosterOf_same users dir (w w' : World) :
  sameSources dir w w' -> rosterOf users w' dir = rosterOf users w dir.
Proof.
  intros H. unfold rosterOf. cbv zeta.
  assert (Hr : forall fallback name, name ∈ sourceNames ->
            parsedAt fallback w' (Path.join dir [name])
            = parsedAt fallback w (Path.join dir [name])).
  { intros fallback name Hn. destruct (join_source dir name Hn) as (-> & _).
    apply parsedAt_same; apply (H name Hn). }
  rewrite !Hr by (unfold sourceNames; rewrite !elem_of_cons; auto 10).
  reflexivity.
Qed.

(** Refreshing the public file leaves the sources alone, wherever they are. *)
Lemma updatePublicFile_sources dir s :
  sameSources dir s.2 (updatePublicFile s).2.2.
Proof.
  destruct (updatePublicFile_spec s) as [data ->]. cbn [snd].
  destruct (writeJsonAtomic_spec (publicPath s.1) (DPublic data) s.2)
    as (Hother & _ & _ & Hfault). cbv zeta in *.
  intros name Hn. destruct (join_source dir name Hn) as (_ & N1 & N2).
  split; [| rewrite Hfault; reflexivity].
  apply lookupNode_eq, Hother.
  - rewrite publicPath_snoc. intros E. apply app_inj_tail in E. tauto.
  - rewrite publicPath_snoc, tmpPath_snoc. intros E. apply app_inj_tail in E. tauto.
Qed.

Lemma updatePublicFile_self s : (updatePublicFile s).2.1 = s.1.
Proof. destruct (updatePublicFile_spec s) as [data ->]. reflexivity. Qed.

(** Nobody is online in a static roster. *)
Lemma touch_offline users laplaceMeta update (m : playerMap) (p : Player.ref) :
  (forall q, Player.isOnline (update q) = Player.isOnline q) ->
  Forall (fun kv => Player.isOnline kv.2 = false) m ->
  Forall (fun kv => Player.isOnline kv.2 = false) (touch users laplaceMeta update m p).
Proof.
  intros Hup Hm. unfold touch.
  destruct (lookupKey _ m) as [q|] eqn:Hq.
  - assert (Hoff : Player.isOnline q = false).
    { clear Hup. induction m as [|[k v] m IH]; [discriminate |].
      cbn [lookupKey] in Hq. inversion Hm; subst.
      destruct (bool_decide _); [injection Hq as <-; assumption | auto]. }
    clear Hq. induction m as [|[k v] m IH]; cbn [assignKey].
    + constructor; [cbn; rewrite Hup; exact Hoff | constructor].
    + inversion Hm; subst. destruct (bool_decide _).
      * constructor; [cbn; rewrite Hup; exact Hoff | assumption].
      * constructor; [assumption | auto].
  - apply Forall_app. split; [exact Hm |].
    constructor; [cbn; rewrite Hup; reflexivity | constructor].
Qed.

Lemma fold_touch_offline users laplaceMeta update (l : list Player.ref) (m : playerMap) :
  (forall q, Player.isOnline (update q) = Player.isOnline q) ->
  Forall (fun kv => Player.isOnline kv.2 = false) m ->
  Forall (fun kv => Player.isOnline kv.2 = false)
    (fold_left (touch users laplaceMeta update) l m).
Proof.
  intros Hup. revert m. induction l as [|p l IH]; intros m Hm; [exact Hm |].
  cbn [fold_left]. apply IH, touch_offline; assumption.
Qed.

Lemma insertBy_Forall {A} (P : A -> Prop) cmp x (l : list A) :
  P x -> Forall P l -> Forall P (insertBy cmp x l).
Proof.
  intros Hx Hl. induction Hl as [|y l Hy Hl IH]; cbn [insertBy].
  - constructor; [assumption | constructor].
  - destruct (_ <=? _)%Z; constructor; auto.
Qed.

Lemma sortBy_Forall {A} (P : A -> Prop) cmp (l : list A) :
  Forall P l -> Forall P (sortBy cmp l).
Proof.
  unfold sortBy. induction 1 as [|x l Hx Hl IH]; cbn [foldr].
  - constructor.
  - apply insertBy_Forall; assumption.
Qed.

Lemma rosterOf_offline users w dir players :
  rosterOf users w dir = Ret players ->
  Forall (fun p => Player.isOnline p = false) players.
Proof.
  unfold rosterOf. cbv zeta.
  repeat (destruct (refsOf _ _) as [?l | ?e]; cbn [andThen]; [| discriminate]).
  intros [= <-]. apply sortBy_Forall. apply Forall_map.
  unfold staticRoster.
  repeat (apply fold_touch_offline; [intros q; reflexivity |]).
  constructor.
Qed.

Lemma rosterOf_returns users w dir :
  listsAreArrays w dir -> exists players, rosterOf users w dir = Ret players.
Proof.
  intros H. unfold rosterOf. cbv zeta.
  destruct (H (js "usercache.json")) as [l1 ->]; [rewrite !elem_of_cons; auto 10 |].
  destruct (H (js "ops.json")) as [l2 ->]; [rewrite !elem_of_cons; auto 10 |].
  destruct (H (js "banned-players.json")) as [l3 ->]; [rewrite !elem_of_cons; auto 10 |].
  destruct (H (js "whitelist.json")) as [l4 ->]; [rewrite !elem_of_cons; auto 10 |].
  eexists. reflexivity.
Qed.

(** C9. When no live query runs (the state is not ONLINE or there is no
    session), a second [getPlayers] right after the first, or any later one
    that finds the same source files, gives what the first gave: the same
    records with the same flags in the same order.  Every record of the list
    has its online flag false.  The call returns a list whenever each of the
    four lists of the game, where it can be read, holds an array; when one
    does not, both calls fail with the same error. *)
Theorem getPlayers_deterministic (s : MinecraftServer) (w : World) :
  status s <> ONLINE \/ rcon s = None ->
  let first := getPlayers (s, w) in
  (getPlayers first.2).1 = first.1
  /\ (forall dir w2,
         serverDir s = Some dir -> sameSources dir w w2 ->
         (getPlayers (first.2.1, w2)).1 = first.1)
  /\ (forall players,
         first.1 = Ret players ->
         Forall (fun p => Player.isOnline p = false) players)
  /\ ((forall dir, serverDir s = Some dir -> listsAreArrays w dir) ->
      exists players, first.1 = Ret players).
Proof.
  intros Hlive. cbv zeta.
  destruct (serverDir s) as [dir|] eqn:Hdir.
  - rewrite (getPlayers_static s w dir Hdir Hlive).
    destruct (rosterOf (users s) w dir) as [players | e] eqn:Hroster; cbn [fst snd].
    + set (after := (updatePublicFile (set_onlinePlayers [] s, w)).2).
      assert (Hself : after.1 = set_onlinePlayers [] s)
        by apply (updatePublicFile_self (set_onlinePlayers [] s, w)).
      assert (Hsrc : sameSources dir w after.2)
        by apply (updatePublicFile_sources dir (set_onlinePlayers [] s, w)).
      split; [| split; [| split]].
      * rewrite (surjective_pairing after), Hself.
        rewrite (getPlayers_static _ _ dir); [| exact Hdir | exact Hlive].
        change (users (set_onlinePlayers [] s)) with (users s).
        rewrite (rosterOf_same _ _ _ _ Hsrc), Hroster. reflexivity.
      * intros dir' w2 [= <-] Hsame. rewrite Hself.
        rewrite (getPlayers_static _ _ dir); [| exact Hdir | exact Hlive].
        change (users (set_onlinePlayers [] s)) with (users s).
        rewrite (rosterOf_same _ _ _ _ Hsame), Hroster. reflexivity.
      * intros players' [= <-]. apply (rosterOf_offline _ _ _ _ Hroster).
      * intros _. eexists. reflexivity.
    + split; [| split; [| split]].
      * rewrite (getPlayers_static s w dir Hdir Hlive), Hroster. reflexivity.
      * intros dir' w2 [= <-] Hsame.
        rewrite (getPlayers_static s w2 dir Hdir Hlive).
        rewrite (rosterOf_same _ _ _ _ Hsame), Hroster. reflexivity.
      * intros players H. discriminate H.
      * intros Harr. destruct (rosterOf_returns (users s) w dir (Harr dir eq_refl))
          as [players H]. congruence.
  - assert (E : forall s' w', serverDir s' = None -> getPlayers (s', w') = (Ret [], (s', w'))).
    { intros s' w' H. unfold getPlayers. rewrite bind_this. cbn [fst]. rewrite H.
      reflexivity. }
    rewrite (E s w Hdir). cbn [fst snd].
    split; [rewrite (E s w Hdir); reflexivity |].
    split; [intros dir w2 H; discriminate H |].
    split; [intros players [= <-]; constructor |].
    intros _. eexists. reflexivity.
Qed.

Lemma getPlayers_deterministic_witness :
  let first := getPlayers (Demo.stopped, Demo.world) in
  (getPlayers first.2).1 = first.1.
Proof.
  apply (getPlayers_deterministic Demo.stopped Demo.world).
  left. discriminate.
Defined.

(** An operator list that holds an object where an array is expected stops
    the call before anything is changed. *)
Example roster_not_an_array :
  let ops := Demo.servers ++ [js "main"; js "ops.json"] in
  let w := set_files <[ops := Demo.file (Json (DMeta []))]> Demo.world in
  (getPlayers (Demo.stopped, w)).1
  = Throw (Error (js "TypeError: ops.forEach is not a function")).
Proof. vm_compute. reflexivity. Qed.

(** The roster of the concrete installation: Steve and Alex from the name
    cache, in that order, Alex an operator. *)
Example roster_ex :
  andThen (getPlayers (Demo.stopped, Demo.world)).1
    (fun players =>
       Ret (map (fun p => (Player.name p, Player.isOp p, Player.isOnline p)) players))
  = Ret [(js "Steve", false, false); (js "Alex", true, false)].
Proof. vm_compute. reflexivity. Qed.

(** * Further properties of the supervisor *)

Lemma keeps_at {S A B} (f : S -> B) (m : M S A) s : keeps f m -> f (m s).2 = f s.
Proof. intros H. apply H. Qed.

(** ** Exits that are not crashes *)

(** What [cleanup] leaves behind it. *)
Lemma cleanup_after (s : Sys) :
  let r := (cleanup s).2 in
  process r.1 = None /\ rcon r.1 = None /\ startTime r.1 = None
  /\ statusInterval r.1 = None.
Proof.
  destruct s as [s w]. cbv zeta. unfold cleanup, stopStatusPoller.
  rewrite bind_assign, bind_this. cbn [fst snd].
  change (rcon (set_statusInterval None s)) with (rcon s).
  destruct (rcon s) as [session|] eqn:E; cbn; rewrite ?E; auto.
Qed.

(** The state in which the [close] handler takes its decision. *)
Lemma onClose_decision code s w :
  exists s1 : Sys,
    onClose code (s, w)
    = (if negb (intentionToStop s) && negb (bool_decide (status s = RESTARTING))
          && abnormal code
       then updateState CRASHED ;; handleCrash
       else if negb (bool_decide (status s = RESTARTING)) then updateState OFFLINE
       else ret tt) s1
    /\ process s1.1 = None /\ rcon s1.1 = None /\ startTime s1.1 = None
    /\ statusInterval s1.1 = None
    /\ status s1.1 = status s /\ crashCount s1.1 = crashCount s
    /\ intentionToStop s1.1 = intentionToStop s /\ config s1.1 = config s
    /\ timers s1.2 = timers w /\ respawnsScheduled s1.2 = respawnsScheduled w
    /\ spawns s1.2 = spawns w.
Proof.
  unfold onClose.
  rewrite (bind_total (logSystem _)) by frame. cbv beta.
  rewrite (bind_total cleanup) by frame. cbv beta.
  match goal with |- context [bind (this intentionToStop) _ ?x] => set (s1 := x) end.
  exists s1.
  assert (K : forall {B} (f : Sys -> B),
             keeps f cleanup -> (forall m, keeps f (logSystem m)) -> f s1 = f (s, w)).
  { intros B f H1 H2. subst s1. rewrite (keeps_at f cleanup _ H1). apply H2. }
  pose proof (K _ (fun s : Sys => status s.1) ltac:(frame) ltac:(intros; frame)) as H1.
  pose proof (K _ (fun s : Sys => crashCount s.1) ltac:(frame) ltac:(intros; frame)) as H2.
  pose proof (K _ (fun s : Sys => intentionToStop s.1) ltac:(frame) ltac:(intros; frame)) as H3.
  pose proof (K _ (fun s : Sys => config s.1) ltac:(frame) ltac:(intros; frame)) as H4.
  pose proof (K _ (fun s : Sys => timers s.2) ltac:(frame) ltac:(intros; frame)) as H5.
  pose proof (K _ (fun s : Sys => respawnsScheduled s.2) ltac:(frame) ltac:(intros; frame)) as H6.
  pose proof (K _ (fun s : Sys => spawns s.2) ltac:(frame) ltac:(intros; frame)) as H7.
  cbn [fst snd] in H1, H2, H3, H4, H5, H6, H7.
  destruct (cleanup_after (logSystem
              (js "Process exited with code "
               ++ match code with Some c => ofZ c | None => js "null" end) (s, w)).2)
    as (C1 & C2 & C3 & C4).
  fold s1 in C1, C2, C3, C4. clearbody s1.
  rewrite !bind_this, H1, H3.
  repeat split; assumption.
Qed.

(** What [updateState] leaves alone. *)
Lemma updateState_frame st (s : Sys) :
  let r := (updateState st s).2 in
  process r.1 = process s.1 /\ rcon r.1 = rcon s.1 /\ startTime r.1 = startTime s.1
  /\ crashCount r.1 = crashCount s.1 /\ intentionToStop r.1 = intentionToStop s.1
  /\ config r.1 = config s.1 /\ serverDir r.1 = serverDir s.1
  /\ logs r.1 = logs s.1
  /\ timers r.2 = timers s.2 /\ respawnsScheduled r.2 = respawnsScheduled s.2
  /\ spawns r.2 = spawns s.2 /\ connects r.2 = connects s.2.
Proof.
  cbv zeta.
  repeat split;
    match goal with
    | |- ?g = _ =>
        match eval pattern (updateState st s).2 in g with
        | ?f _ => apply (keeps_at f (updateState st) s); frame
        end
    end.
Qed.

Lemma updateState_poller st (s : Sys) :
  statusInterval (updateState st s).2.1
  = match st with
    | ONLINE => Some 5000%Z
    | OFFLINE | CRASHED | STOPPING => None
    | _ => statusInterval s.1
    end.
Proof.
  unfold updateState. rewrite bind_assign.
  rewrite (bind_total emitStatus) by frame. cbv beta.
  rewrite (bind_total updatePublicFile) by frame. cbv beta.
  match goal with |- context [(?m ?x).2] => set (s1 := x) end.
  assert (H : statusInterval s1.1 = statusInterval s.1).
  { subst s1.
    rewrite (keeps_at (fun s : Sys => statusInterval s.1) updatePublicFile)
      by frame.
    rewrite (keeps_at (fun s : Sys => statusInterval s.1) emitStatus) by frame.
    reflexivity. }
  clearbody s1. destruct s1 as [s1 w1].
  destruct st; cbn in *; auto.
Qed.

(** X1. An exit that follows a request to stop, or whose code is 0, 130 or
    143, is not a crash: the [close] handler leaves the state OFFLINE, the
    crash counter as it was, no respawn scheduled, and no process, session,
    start time or poller.  An exit while the state is RESTARTING changes
    neither the state, nor the counter, nor the timers. *)
Theorem close_without_crash (code : option Z) (s : MinecraftServer) (w : World) :
  let r := (onClose code (s, w)).2 in
  (status s <> RESTARTING ->
   intentionToStop s = true \/ abnormal code = false ->
   status r.1 = OFFLINE /\ crashCount r.1 = crashCount s
   /\ timers r.2 = timers w /\ respawnsScheduled r.2 = respawnsScheduled w
   /\ process r.1 = None /\ rcon r.1 = None /\ startTime r.1 = None
   /\ statusInterval r.1 = None)
  /\ (status s = RESTARTING ->
      status r.1 = RESTARTING /\ crashCount r.1 = crashCount s
      /\ timers r.2 = timers w /\ process r.1 = None).
Proof.
  cbv zeta.
  destruct (onClose_decision code s w)
    as (s1 & E & P1 & P2 & P3 & P4 & P5 & P6 & P7 & P8 & P9 & P10 & P11).
  rewrite E. clear E. split.
  - intros Hnr Hwhy.
    rewrite (bool_decide_eq_false_2 _ Hnr).
    replace (negb (intentionToStop s) && negb false && abnormal code) with false
      by (destruct Hwhy as [-> | ->]; [reflexivity | rewrite andb_false_r; reflexivity]).
    cbn [negb].
    destruct (updateState_frame OFFLINE s1)
      as (F1 & F2 & F3 & F4 & F5 & F6 & F7 & F8 & F9 & F10 & F11 & F12).
    cbv zeta in *.
    rewrite updateState_status, updateState_poller.
    repeat split; congruence.
  - intros Hr. rewrite Hr, (bool_decide_eq_true_2 _ eq_refl).
    rewrite andb_false_r. cbn [negb andb ret fst snd].
    repeat split; congruence.
Qed.

Lemma close_without_crash_witness :
  let r := (onClose (Some 0%Z) (Demo.online, Demo.world)).2 in
  status r.1 = OFFLINE /\ crashCount r.1 = crashCount Demo.online
  /\ timers r.2 = timers Demo.world.
Proof.
  destruct (close_without_crash (Some 0%Z) Demo.online Demo.world) as [H _].
  destruct H as (H1 & H2 & H3 & _); [discriminate | right; reflexivity |].
  exact (conj H1 (conj H2 H3)).
Defined.

(** ** Crashes with auto-restart off *)

Lemma run_cons e es s : run (e :: es) s = run es (step e s).2.
Proof. reflexivity. Qed.

(** X2. With auto-restart switched off in the descriptor, no abnormal exit
    ever schedules a respawn: after any number of them in a row the state is
    CRASHED, each was counted, and the timers are as they were. *)
Theorem crash_without_autoRestart (codes : list (option Z)) (s : MinecraftServer)
  (w : World) :
  intentionToStop s = false -> status s <> RESTARTING ->
  autoRestartEnabled s = false ->
  Forall (fun code => abnormal code = true) codes ->
  let r := run (map Close codes) (s, w) in
  crashCount r.1 = (crashCount s + Z.of_nat (length codes))%Z
  /\ timers r.2 = timers w
  /\ respawnsScheduled r.2 = respawnsScheduled w
  /\ (codes <> [] -> status r.1 = CRASHED).
Proof.
  intros Hstop Hnr Hauto Hcodes. cbv zeta.
  revert s w Hstop Hnr Hauto.
  induction Hcodes as [|code codes Hcode _ IH]; intros s w Hstop Hnr Hauto.
  - cbn. repeat split; [lia | congruence].
  - cbn [map]. rewrite run_cons.
    change (step (Close code) (s, w)) with (onClose code (s, w)).
    destruct (onClose_crash code s w Hstop Hnr Hcode) as (C1 & C2 & C3 & C4 & C5).
    cbv zeta in *. rewrite Hauto, andb_false_r, app_nil_r in *.
    destruct (onClose code (s, w)).2 as [s1 w1] eqn:E. cbn [fst snd] in *.
    destruct (crashScene_autoRestart _ _ C3) as [D1 D2]. cbn [fst snd] in *.
    destruct (IH s1 w1) as (I1 & I2 & I3 & I4);
      [congruence | unfold notRestarting; rewrite C1; discriminate | congruence |].
    split; [rewrite I1, C2; cbn [length]; lia |].
    split; [congruence |]. split; [lia |].
    intros _. destruct codes as [|c codes]; [exact C1 | apply I4; discriminate].
Qed.

Lemma crash_without_autoRestart_witness :
  let r := run [Close (Some 1%Z); Close None] (Scene.unattended, Demo.world) in
  crashCount r.1 = 2%Z /\ timers r.2 = [] /\ status r.1 = CRASHED.
Proof.
  destruct (crash_without_autoRestart [Some 1%Z; None] Scene.unattended Demo.world)
    as (H1 & H2 & _ & H4);
    [reflexivity | discriminate | reflexivity | repeat constructor |].
  split; [exact H1 |]. split; [exact H2 | apply H4; discriminate].
Defined.

(** ** Selecting an instance *)

Lemma selectServer_eq serverId s w :
  selectServer serverId (s, w)
  = if negb (Fs.existsSync w (instanceDir s serverId))
    then (Throw (Error (js "Server ID not found")), (s, w))
    else if negb (Fs.existsSync w (descriptorPath (instanceDir s serverId)))
    then (Throw (Error (js "Server configuration corrupted")), (s, w))
    else
      match fault w (OpRead (descriptorPath (instanceDir s serverId))),
            Fs.lookupNode (files w) (descriptorPath (instanceDir s serverId)) with
      | None, Some {| node_of := File (Json (DConfig cfg)) |} =>
          (Ret tt,
           (selected s serverId cfg,
            set_trace (cons (EmitStatus (getStatus (selected s serverId cfg)))) w))
      | _, _ => (Throw (Error (js "Failed to parse server config")), (s, w))
      end.
Proof.
  unfold selectServer, instanceDir, descriptorPath.
  rewrite bind_this, bind_ask. cbn [fst snd].
  destruct (Fs.existsSync w _); cbn [negb]; [| reflexivity].
  rewrite bind_ask. cbn [snd].
  destruct (Fs.existsSync w _); cbn [negb]; [| reflexivity].
  unfold try_catch. unfold bind at 1. rewrite io_readFileSync.
  destruct (fault w _); [reflexivity |].
  destruct (Fs.lookupNode _ _) as [[[[t|[]|]|] ?]|]; reflexivity.
Qed.

Lemma selectServer_ok serverId s w cfg :
  Fs.existsSync w (instanceDir s serverId) = true ->
  holds w (descriptorPath (instanceDir s serverId)) (DConfig cfg) ->
  selectServer serverId (s, w)
  = (Ret tt,
     (selected s serverId cfg,
      set_trace (cons (EmitStatus (getStatus (selected s serverId cfg)))) w)).
Proof.
  intros Hdir (Hfault & b & Hfile). rewrite selectServer_eq.
  rewrite Hdir, Hfault, Hfile. unfold Fs.existsSync. rewrite Hfile. reflexivity.
Qed.

(** X3. [selectServer] on an instance whose descriptor file, if it holds a
    JSON document, holds a descriptor: the call either fails with one of its
    three errors and then has changed nothing at all, or it returns, and then
    the selection is the descriptor the file of the instance holds and the
    directory of the instance; it touches no other field and no file,
    whatever the state of the process.  It returns exactly when the directory
    and the file are there and the file can be read and holds a
    descriptor. *)
Theorem selectServer_all_or_nothing (serverId : jsstring) (s : MinecraftServer)
  (w : World) :
  descriptorIfJson w (descriptorPath (instanceDir s serverId)) ->
  let r := selectServer serverId (s, w) in
  (forall e, r.1 = Throw e ->
     r.2 = (s, w)
     /\ (e = Error (js "Server ID not found")
         \/ e = Error (js "Server configuration corrupted")
         \/ e = Error (js "Failed to parse server config")))
  /\ (r.1 = Ret tt ->
      exists cfg,
        holds w (descriptorPath (instanceDir s serverId)) (DConfig cfg)
        /\ r.2.1 = selected s serverId cfg
        /\ files r.2.2 = files w)
  /\ (forall cfg,
        Fs.existsSync w (instanceDir s serverId) = true ->
        holds w (descriptorPath (instanceDir s serverId)) (DConfig cfg) ->
        r.1 = Ret tt /\ r.2.1 = selected s serverId cfg)
  /\ (Fs.existsSync w (instanceDir s serverId) = false ->
      r.1 = Throw (Error (js "Server ID not found")))
  /\ (Fs.existsSync w (instanceDir s serverId) = true ->
      Fs.existsSync w (descriptorPath (instanceDir s serverId)) = false ->
      r.1 = Throw (Error (js "Server configuration corrupted"))).
Proof.
  intros _. cbv zeta.
  split; [| split; [| split; [| split]]].
  5: { intros H1 H2. rewrite selectServer_eq, H1, H2. reflexivity. }
  4: { intros H1. rewrite selectServer_eq, H1. reflexivity. }
  3: { intros cfg H1 H2. rewrite (selectServer_ok serverId s w cfg H1 H2).
       split; reflexivity. }
  - rewrite selectServer_eq.
    destruct (Fs.existsSync w (instanceDir s serverId)); cbn [negb];
      [| intros e [= <-]; auto].
    destruct (Fs.existsSync w (descriptorPath _)); cbn [negb];
      [| intros e [= <-]; auto].
    destruct (fault w _); [intros e [= <-]; auto |].
    destruct (Fs.lookupNode _ _) as [[[[t|[cfg| | | |]|]|] b]|];
      intros e H; try discriminate H; injection H as <-; auto.
  - rewrite selectServer_eq.
    destruct (Fs.existsSync w (instanceDir s serverId)); cbn [negb]; [| discriminate].
    destruct (Fs.existsSync w (descriptorPath _)); cbn [negb]; [| discriminate].
    destruct (fault w _) eqn:Hfault; [discriminate |].
    destruct (Fs.lookupNode _ _) as [[[[t|[cfg| | | |]|]|] b]|] eqn:Hnode;
      try discriminate.
    intros _. exists cfg. split; [| split; reflexivity].
    split; [exact Hfault | exists b; exact Hnode].
Qed.

Lemma selectServer_all_or_nothing_witness :
  descriptorIfJson Demo.world (descriptorPath (instanceDir Demo.online (js "other")))
  /\ (selectServer (js "other") (Demo.online, Demo.world)).1 = Ret tt
  /\ (selectServer (js "other") (Demo.online, Demo.world)).2.1
     = selected Demo.online (js "other") (Demo.descriptor "other").
Proof.
  assert (H : descriptorIfJson Demo.world
                (descriptorPath (instanceDir Demo.online (js "other")))).
  { intros d b Hd. vm_compute in Hd. injection Hd as <- _. eexists. reflexivity. }
  split; [exact H |].
  destruct (selectServer_all_or_nothing (js "other") Demo.online Demo.world H)
    as (_ & _ & Hok & _).
  apply (Hok (Demo.descriptor "other")).
  - vm_compute. reflexivity.
  - split; [reflexivity | exists 1000%Z; vm_compute; reflexivity].
Defined.

(** ** Starting without a jar *)

(** [updateState] writes the public file and its temporary, nothing else. *)
Lemma updateState_files st (s : Sys) (q : path) :
  q <> publicPath s.1 -> q <> tmpPath (publicPath s.1) ->
  files (updateState st s).2.2 !! q = files s.2 !! q.
Proof.
  intros H1 H2. unfold updateState. rewrite bind_assign.
  rewrite (bind_total emitStatus) by frame. cbv beta.
  rewrite (keeps_after (fun s : Sys => files s.2))
    by (intros []; destruct st; frame).
  match goal with |- context [updatePublicFile ?x] => set (s1 := x) end.
  assert (Hp : publicPath s1.1 = publicPath s.1).
  { unfold publicPath. f_equal. }
  assert (Hf : files s1.2 = files s.2).
  { subst s1. rewrite (keeps_at (fun s : Sys => files s.2) emitStatus) by frame.
    reflexivity. }
  destruct (updatePublicFile_spec s1) as [data ->]. cbn [snd].
  destruct (writeJsonAtomic_spec (publicPath s1.1) (DPublic data) s1.2)
    as (Hother & _). cbv zeta in Hother.
  rewrite Hother, Hf by (rewrite Hp; assumption). reflexivity.
Qed.

Lemma existsSync_same (w w' : World) (q : path) :
  files w' !! q = files w !! q -> Fs.existsSync w' q = Fs.existsSync w q.
Proof.
  intros H. unfold Fs.existsSync. rewrite (lookupNode_eq _ _ _ H). reflexivity.
Qed.

(** A start of the process that finds no jar. *)
Lemma spawnProcess_missing_jar (s : Sys) cfg :
  config s.1 = Some cfg ->
  let jarPath := Path.join (dirPath (serverDir s.1)) [ServerConfig.jarFile cfg] in
  Fs.existsSync s.2 jarPath = false ->
  jarPath <> publicPath s.1 -> jarPath <> tmpPath (publicPath s.1) ->
  let r := spawnProcess s in
  r.1 = Ret tt /\ status r.2.1 = CRASHED
  /\ process r.2.1 = process s.1 /\ startTime r.2.1 = startTime s.1
  /\ crashCount r.2.1 = crashCount s.1
  /\ intentionToStop r.2.1 = intentionToStop s.1
  /\ config r.2.1 = config s.1
  /\ spawns r.2.2 = spawns s.2 /\ timers r.2.2 = timers s.2.
Proof.
  intros Hcfg jarPath Hjar Hp1 Hp2. cbv zeta.
  unfold spawnProcess. rewrite bind_this, Hcfg.
  rewrite (bind_total (updateState _)) by frame. cbv beta.
  rewrite (bind_total (logSystem _)) by frame. cbv beta.
  match goal with |- context [bind (this _) _ ?x] => set (s2 := x) end.
  assert (K : forall {B} (f : Sys -> B),
             (forall m, keeps f (logSystem m)) -> (forall st, keeps f (updateState st)) ->
             f s2 = f s).
  { intros B f H1 H2. subst s2. rewrite (keeps_at f (logSystem _) _ (H1 _)).
    apply H2. }
  assert (Hdir : serverDir s2.1 = serverDir s.1)
    by apply (K _ (fun s : Sys => serverDir s.1) ltac:(intros; frame) ltac:(intros; frame)).
  assert (Hroot : serversDir s2.1 = serversDir s.1)
    by apply (K _ (fun s : Sys => serversDir s.1) ltac:(intros; frame) ltac:(intros; frame)).
  assert (Hfiles : files s2.2 !! jarPath = files s.2 !! jarPath).
  { subst s2.
    rewrite (keeps_at (fun s : Sys => files s.2) (logSystem _)) by frame.
    apply updateState_files; assumption. }
  rewrite bind_this, bind_ask, Hdir. fold jarPath.
  rewrite (existsSync_same _ _ _ Hfiles), Hjar. cbn [negb].
  rewrite (bind_total (logError _)) by frame. cbv beta.
  match goal with |- context [updateState CRASHED ?x] => set (s3 := x) end.
  assert (K3 : forall {B} (f : Sys -> B),
             (forall m, keeps f (logSystem m)) -> (forall m, keeps f (logError m)) ->
             (forall st, keeps f (updateState st)) ->
             f (updateState CRASHED s3).2 = f s).
  { intros B f H1 H1' H2. rewrite (keeps_at f (updateState _) _ (H2 _)).
    subst s3. rewrite (keeps_at f (logError _) _ (H1' _)). apply K; assumption. }
  split; [destruct (ltac:(frame) : total (updateState CRASHED)) with s3 as [[] E];
          exact E |].
  split; [apply updateState_status |].
  rewrite <- Hcfg.
  repeat split;
    match goal with
    | |- ?g = _ =>
        match eval pattern (updateState CRASHED s3).2 in g with
        | ?f _ => apply (K3 _ f); intros; frame
        end
    end.
Qed.

(** X4. A start whose jar is missing does not fail: [loadAndStart] returns
    normally, and what tells the caller is the state, which is CRASHED; no
    process was spawned, no timer set, and the crash counter is 0. *)
Theorem loadAndStart_missing_jar (serverId actor : jsstring) (s : MinecraftServer)
  (w : World) (cfg : ServerConfig.t) :
  status s = OFFLINE \/ status s = CRASHED ->
  Fs.existsSync w (instanceDir s serverId) = true ->
  holds w (descriptorPath (instanceDir s serverId)) (DConfig cfg) ->
  let jarPath := Path.join (instanceDir s serverId) [ServerConfig.jarFile cfg] in
  Fs.existsSync w jarPath = false ->
  jarPath <> publicPath s -> jarPath <> tmpPath (publicPath s) ->
  let r := loadAndStart serverId actor (s, w) in
  r.1 = Ret tt /\ status r.2.1 = CRASHED /\ config r.2.1 = Some cfg
  /\ process r.2.1 = process s /\ spawns r.2.2 = spawns w
  /\ timers r.2.2 = timers w /\ crashCount r.2.1 = 0%Z.
Proof.
  intros Hst Hdir Hcfg jarPath Hjar Hp1 Hp2. cbv zeta.
  unfold loadAndStart. rewrite bind_this. cbn [fst].
  replace (negb (bool_decide (status s = OFFLINE)) && negb (bool_decide (status s = CRASHED)))
    with false by (destruct Hst as [-> | ->]; reflexivity).
  rewrite (bind_Ret _ _ _ _ _ (selectServer_ok serverId s w cfg Hdir Hcfg)).
  rewrite !bind_assign. cbn [fst snd].
  rewrite (bind_total (updateState _)) by frame. cbv beta.
  rewrite (bind_total (logSystem _)) by frame. cbv beta.
  match goal with |- context [spawnProcess ?x] => set (s4 := x) end.
  set (s2 := set_intentionToStop false (set_crashCount 0 (selected s serverId cfg))) in *.
  set (w2 := set_trace (cons (EmitStatus (getStatus (selected s serverId cfg)))) w) in *.
  assert (K : forall {B} (f : Sys -> B),
             (forall m, keeps f (logSystem m)) -> (forall st, keeps f (updateState st)) ->
             f s4 = f (s2, w2)).
  { intros B f H1 H2. subst s4. rewrite (keeps_at f (logSystem _) _ (H1 _)).
    apply H2. }
  assert (A1 : config s4.1 = Some cfg)
    by apply (K _ (fun s : Sys => config s.1) ltac:(intros; frame) ltac:(intros; frame)).
  assert (A2 : serverDir s4.1 = Some (instanceDir s serverId))
    by apply (K _ (fun s : Sys => serverDir s.1) ltac:(intros; frame) ltac:(intros; frame)).
  assert (A3 : publicPath s4.1 = publicPath s).
  { unfold publicPath. f_equal.
    apply (K _ (fun s : Sys => serversDir s.1) ltac:(intros; frame) ltac:(intros; frame)). }
  assert (A4 : files s4.2 !! jarPath = files w !! jarPath).
  { subst s4.
    rewrite (keeps_at (fun s : Sys => files s.2) (logSystem _)) by frame.
    rewrite updateState_files by assumption. reflexivity. }
  destruct (spawnProcess_missing_jar s4 cfg A1) as (R1 & R2 & R3 & R4 & R5 & R6 & R7 & R8 & R9).
  - rewrite A2.
    change (dirPath (Some (instanceDir s serverId))) with (instanceDir s serverId).
    fold jarPath. rewrite (existsSync_same _ _ _ A4). exact Hjar.
  - rewrite A2, A3. exact Hp1.
  - rewrite A2, A3. exact Hp2.
  - cbv zeta in *.
    split; [exact R1 |]. split; [exact R2 |]. split; [congruence |].
    split; [rewrite R3;
            apply (K _ (fun s : Sys => process s.1) ltac:(intros; frame) ltac:(intros; frame)) |].
    split; [rewrite R8;
            apply (K _ (fun s : Sys => spawns s.2) ltac:(intros; frame) ltac:(intros; frame)) |].
    split; [rewrite R9;
            apply (K _ (fun s : Sys => timers s.2) ltac:(intros; frame) ltac:(intros; frame)) |].
    rewrite R5.
    apply (K _ (fun s : Sys => crashCount s.1) ltac:(intros; frame) ltac:(intros; frame)).
Qed.

Lemma loadAndStart_missing_jar_witness :
  let r := loadAndStart (js "other") (js "admin") (Demo.stopped, Demo.world) in
  r.1 = Ret tt /\ status r.2.1 = CRASHED /\ spawns r.2.2 = spawns Demo.world.
Proof.
  destruct (loadAndStart_missing_jar (js "other") (js "admin") Demo.stopped Demo.world
              (Demo.descriptor "other"))
    as (H1 & H2 & _ & _ & H3 & _).
  - left. reflexivity.
  - vm_compute. reflexivity.
  - split; [reflexivity | exists 1000%Z; vm_compute; reflexivity].
  - vm_compute. reflexivity.
  - vm_compute. discriminate.
  - vm_compute. discriminate.
  - exact (conj H1 (conj H2 H3)).
Defined.

(** ** The properties file *)

Lemma trimStart_length s : (length (trimStart s) <= length s)%nat.
Proof.
  induction s as [|c s IH]; [reflexivity |]. cbn [trimStart].
  destruct (isSpace c); cbn [length]; lia.
Qed.

Lemma trimStart_fixed s : trimStart s = s -> head s = None \/ exists c, head s = Some c /\ isSpace c = false.
Proof.
  destruct s as [|c s]; [left; reflexivity |]. right. exists c. split; [reflexivity |].
  cbn [trimStart] in H. destruct (isSpace c); [| reflexivity].
  pose proof (trimStart_length s) as L. rewrite H in L. cbn [length] in L. lia.
Qed.

Lemma trimStart_full s : length (trimStart s) = length s -> trimStart s = s.
Proof.
  destruct s as [|c s]; [reflexivity |]. cbn [trimStart].
  destruct (isSpace c); [| reflexivity].
  pose proof (trimStart_length s). cbn [length]. lia.
Qed.

Lemma trimStart_head c s : isSpace c = false -> trimStart (c :: s) = c :: s.
Proof. intros H. cbn [trimStart]. rewrite H. reflexivity. Qed.

Lemma trim_fixed s : trim s = s <-> trimStart s = s /\ trimStart (rev s) = rev s.
Proof.
  unfold trim, trimEnd. split.
  - intros H.
    assert (L1 := trimStart_length s).
    assert (L2 := trimStart_length (rev (trimStart s))).
    apply (f_equal length) in H as HL. rewrite length_rev in HL.
    rewrite length_rev in L2.
    assert (E : trimStart s = s) by (apply trimStart_full; lia).
    clear L1 L2 HL.
    split; [exact E |]. rewrite E in H.
    apply (f_equal (@rev N)) in H. rewrite rev_involutive in H. exact H.
  - intros [E1 E2]. rewrite E1, E2. apply rev_involutive.
Qed.

Lemma trim_key_value k v :
  k <> [] -> trim k = k -> trim v = v -> trim (k ++ 61 :: v) = k ++ 61 :: v.
Proof.
  intros Hk Tk Tv. apply trim_fixed in Tk as [K1 K2]. apply trim_fixed in Tv as [V1 V2].
  apply trim_fixed. split.
  - destruct k as [|c k]; [congruence |].
    destruct (trimStart_fixed _ K1) as [H | (c' & H & Hc)]; [discriminate |].
    injection H as <-. cbn [app]. apply trimStart_head, Hc.
  - rewrite rev_app_distr. cbn [rev]. rewrite <- app_assoc. cbn [app].
    destruct (rev v) as [|c r] eqn:E; [reflexivity |].
    destruct (trimStart_fixed _ V2) as [H | (c' & H & Hc)]; [discriminate |].
    injection H as <-. cbn [app]. apply trimStart_head, Hc.
Qed.

Lemma indexOf_key k v : 61 ∉ k -> indexOf 61 (k ++ 61 :: v) = Some (length k).
Proof.
  induction k as [|c k IH]; intros H; cbn [app indexOf length].
  - reflexivity.
  - assert (Hc : (c =? 61) = false)
      by (apply N.eqb_neq; intros ->; apply H; left).
    rewrite Hc, IH; [reflexivity |]. intros Hin. apply H. right. exact Hin.
Qed.

(** A line written for a clean property reads back as that property. *)
Lemma parseProperty_line props kv :
  cleanProperty kv ->
  parseProperty props (kv.1 ++ js "=" ++ kv.2) = assignProperty kv.1 kv.2 props.
Proof.
  destruct kv as [k v]. intros (Hk & Tk & Tv & Hc & He & _ & _). cbn [fst snd] in *.
  change (js "=") with [61]. cbn [app].
  unfold parseProperty. rewrite (trim_key_value k v Hk Tk Tv).
  destruct k as [|c k]; [congruence |].
  assert (H35 : (35 =? c) = false)
    by (apply N.eqb_neq; intros <-; apply Hc; reflexivity).
  replace (bool_decide ((c :: k) ++ 61 :: v = [])) with false
    by (symmetry; apply bool_decide_eq_false_2; discriminate).
  replace (startsWith (js "#") ((c :: k) ++ 61 :: v)) with false
    by (change (js "#") with [35]; cbn [app startsWith]; rewrite H35; reflexivity).
  cbn [orb]. rewrite (indexOf_key (c :: k) v He).
  rewrite take_app_length.
  replace (drop (Datatypes.S (length (c :: k))) ((c :: k) ++ 61 :: v)) with v.
  2: { change (61 :: v) with ([61] ++ v). rewrite app_assoc.
       replace (Datatypes.S (length (c :: k))) with (length ((c :: k) ++ [61]))
         by (rewrite length_app; cbn [length]; lia).
       rewrite drop_app_length. reflexivity. }
  rewrite Tk, Tv. reflexivity.
Qed.

(** Splitting at a one-unit separator. *)
Lemma split_go_line c cur l rest :
  c ∉ l ->
  split_go [c] 0 cur (l ++ c :: rest) = (rev cur ++ l) :: split_go [c] 0 [] rest.
Proof.
  revert cur. induction l as [|d l IH]; intros cur H; cbn [app split_go startsWith].
  - rewrite N.eqb_refl. cbn [andb length Nat.sub]. rewrite app_nil_r. reflexivity.
  - assert (Hd : (c =? d) = false)
      by (apply N.eqb_neq; intros ->; apply H; left).
    rewrite Hd. cbn [andb]. rewrite IH by (intros Hin; apply H; right; exact Hin).
    cbn [rev]. rewrite <- app_assoc. reflexivity.
Qed.

Lemma split_lines (lines : list jsstring) :
  Forall (fun l => 10 ∉ l) lines ->
  split [10] (flat_map (fun l => l ++ [10]) lines) = lines ++ [[]].
Proof.
  unfold split. induction 1 as [|l lines Hl _ IH]; [reflexivity |].
  cbn [flat_map app]. rewrite <- app_assoc. cbn [app].
  rewrite (split_go_line 10 [] l _ Hl). cbn [rev app]. rewrite IH. reflexivity.
Qed.

Lemma assignKey_fresh {V} (k : jsstring) (v : V) (o : list (jsstring * V)) :
  k ∉ o.*1 -> assignKey k v o = o ++ [(k, v)].
Proof.
  induction o as [|[k' v'] o IH]; intros H; cbn [assignKey app]; [reflexivity |].
  cbn [fmap list_fmap fst] in H.
  rewrite bool_decide_eq_false_2 by (intros ->; apply H; left).
  rewrite IH; [reflexivity |]. intros Hin. apply H. right. exact Hin.
Qed.

Lemma fold_assignKey {V} (props acc : list (jsstring * V)) :
  NoDup (acc.*1 ++ props.*1) ->
  fold_left (fun acc kv => assignKey kv.1 kv.2 acc) props acc = acc ++ props.
Proof.
  revert acc. induction props as [|[k v] props IH]; intros acc H; cbn [fold_left].
  - rewrite app_nil_r. reflexivity.
  - cbn [fst snd fmap list_fmap] in *.
    apply NoDup_app in H as (H1 & H2 & H3). apply NoDup_cons in H3 as [H3 H4].
    rewrite assignKey_fresh by (intros Hin; apply (H2 k Hin); left).
    rewrite IH.
    + rewrite <- app_assoc. reflexivity.
    + rewrite fmap_app. cbn [fmap list_fmap fst].
      apply NoDup_app. split; [| split; [| exact H4]].
      * apply NoDup_app. split; [exact H1 |]. split; [| apply NoDup_singleton].
        intros x Hx Hx'. apply list_elem_of_singleton in Hx'. subst x.
        apply (H2 k Hx). left.
      * intros x Hx Hx'. apply elem_of_app in Hx as [Hx | Hx].
        -- apply (H2 x Hx). right. exact Hx'.
        -- apply list_elem_of_singleton in Hx. subst x. apply H3, Hx'.
Qed.

(** For a key that is neither [__proto__] nor an array index the object
    behaves as a list of entries in the order of creation. *)
Lemma assignProperty_plain (k v : jsstring) (o : list (jsstring * jsstring)) :
  plainKey k -> assignProperty k v o = assignKey k v o.
Proof.
  intros [H1 H2]. unfold assignProperty.
  rewrite (bool_decide_eq_false_2 _ H1), H2. reflexivity.
Qed.

Lemma fold_assignProperty (props acc : list (jsstring * jsstring)) :
  Forall (fun kv => plainKey kv.1) props ->
  fold_left (fun acc kv => assignProperty kv.1 kv.2 acc) props acc
  = fold_left (fun acc kv => assignKey kv.1 kv.2 acc) props acc.
Proof.
  intros H. revert acc. induction H as [|kv ps Hkv _ IH]; intros acc; [reflexivity |].
  cbn [fold_left]. rewrite (assignProperty_plain _ _ _ Hkv). apply IH.
Qed.

Lemma objectOf_plain (properties : list (jsstring * jsstring)) :
  NoDup properties.*1 -> Forall (fun kv => plainKey kv.1) properties ->
  objectOf properties = properties.
Proof.
  intros Hnodup Hplain. unfold objectOf.
  rewrite (fold_assignProperty _ _ Hplain). apply (fold_assignKey properties []), Hnodup.
Qed.

(** The text [writePropertiesFile] writes, line by line. *)
Lemma properties_text (properties : list (jsstring * jsstring)) header :
  fold_left (fun acc kv => acc ++ kv.1 ++ js "=" ++ kv.2 ++ [10]) properties header
  = header
    ++ flat_map (fun l => l ++ [10])
         (map (fun kv => kv.1 ++ js "=" ++ kv.2) properties).
Proof.
  revert header. induction properties as [|kv ps IH]; intros header; cbn [fold_left map flat_map].
  - rewrite app_nil_r. reflexivity.
  - rewrite IH. rewrite <- !app_assoc. reflexivity.
Qed.

Lemma parse_written (properties acc : list (jsstring * jsstring)) :
  Forall cleanProperty properties ->
  fold_left parseProperty (map (fun kv => kv.1 ++ js "=" ++ kv.2) properties) acc
  = fold_left (fun acc kv => assignProperty kv.1 kv.2 acc) properties acc.
Proof.
  intros H. revert acc. induction H as [|kv ps Hkv _ IH]; intros acc; [reflexivity |].
  cbn [map fold_left]. rewrite (parseProperty_line acc kv Hkv). apply IH.
Qed.

(** Reading what was written for clean properties. *)
Lemma read_written (properties : list (jsstring * jsstring)) :
  Forall cleanProperty properties ->
  fold_left parseProperty
    (split [10]
       (fold_left (fun acc kv => acc ++ kv.1 ++ js "=" ++ kv.2 ++ [10]) properties
          (js "# Minecraft server properties" ++ [10]
           ++ js "# Edited by Laplace Panel" ++ [10])))
    []
  = objectOf properties.
Proof.
  intros Hclean. rewrite properties_text.
  change (js "# Minecraft server properties" ++ [10]
          ++ js "# Edited by Laplace Panel" ++ [10])
    with (flat_map (fun l => l ++ [10])
            [js "# Minecraft server properties"; js "# Edited by Laplace Panel"]).
  rewrite <- flat_map_app. rewrite split_lines.
  - rewrite fold_left_app. cbn [app fold_left].
    change (parseProperty (parseProperty [] (js "# Minecraft server properties"))
              (js "# Edited by Laplace Panel")) with (@nil (jsstring * jsstring)).
    rewrite (parse_written _ _ Hclean). reflexivity.
  - apply Forall_app. split.
    + repeat constructor; vm_compute; intros H;
        repeat (apply elem_of_cons in H as [H | H]; [discriminate H |]);
        apply elem_of_nil in H; exact H.
    + apply Forall_map. eapply Forall_impl; [exact Hclean |].
      intros [k v] (_ & _ & _ & _ & _ & Hk & Hv). cbn [fst snd] in *.
      change (js "=") with [61]. intros Hin.
      apply elem_of_app in Hin as [Hin | Hin]; [exact (Hk Hin) |].
      apply elem_of_cons in Hin as [Hin | Hin]; [discriminate Hin | exact (Hv Hin)].
Qed.

(** X5. What [writePropertiesFile] wrote, [readPropertiesFile] reads back:
    for properties that are clean (see [cleanProperty]), after a write that
    succeeded a read returns the object that the assignment of these
    properties, one after the other, builds.  When the keys are distinct and
    none of them is [__proto__] or an array index, that object has exactly
    these properties, in their order: every key with its value and no other
    key.  [getProperty] gives the value of a key that the object has, the
    member of [Object.prototype] for a key that it only inherits, and the
    default for any other key. *)
Theorem properties_round_trip (properties : list (jsstring * jsstring))
  (s : MinecraftServer) (w : World) :
  Forall cleanProperty properties ->
  (forall dir, serverDir s = Some dir ->
     fault w (OpRead (Path.join dir [js "server.properties"])) = None) ->
  (writePropertiesFile properties (s, w)).1 = Ret tt ->
  let after := (writePropertiesFile properties (s, w)).2 in
  (readPropertiesFile after).1 = Ret (objectOf properties)
  /\ (NoDup properties.*1 -> Forall (fun kv => plainKey kv.1) properties ->
      (readPropertiesFile after).1 = Ret properties)
  /\ (forall key,
        (getProperty key (js "unset") after).1
        = Ret (match lookupKey key (objectOf properties) with
               | Some v => Str v
               | None => if bool_decide (key ∈ inheritedKeys) then Member key
                         else Str (js "unset")
               end)).
Proof.
  intros Hclean Hread Hwrite. cbv zeta.
  unfold writePropertiesFile in *. rewrite bind_this in *. cbn [fst] in *.
  destruct (serverDir s) as [dir|] eqn:Hdir; [| discriminate Hwrite].
  specialize (Hread dir eq_refl).
  change (Path.join dir [js "server.properties"]) with (dir ++ [js "server.properties"]) in *.
  set (p := dir ++ [js "server.properties"]) in *.
  set (text := fold_left _ properties _) in *.
  unfold io, zoom in *. cbn [fst snd] in *.
  destruct (writeFileSync_spec p (Text text) w) as (_ & Hnew & Hfault). cbv zeta in *.
  destruct (Fs.writeFileSync p (Text text) w) as [[[]|e] w'] eqn:E; [| discriminate Hwrite].
  cbn [fst snd] in *. destruct (Hnew eq_refl) as [b Hfiles]. clear Hnew Hwrite.
  assert (Hnode : Fs.lookupNode (files w') p
                  = Some {| node_of := File (Text text); birthtimeMs := b |}).
  { unfold Fs.lookupNode. subst p. destruct dir; cbn [app];
      rewrite Hfiles; apply lookup_insert_eq. }
  assert (R : readPropertiesFile (s, w') = (Ret (objectOf properties), (s, w'))).
  { unfold readPropertiesFile. rewrite bind_this. cbn [fst]. rewrite Hdir.
    change (Path.join dir [js "server.properties"]) with p.
    rewrite bind_ask. cbn [snd]. unfold Fs.existsSync at 1. rewrite Hnode.
    unfold bind. rewrite io_readFileSync. rewrite Hfault, Hread, Hnode.
    unfold ret. cbn [textOf]. subst text.
    rewrite (read_written properties Hclean). reflexivity. }
  split; [rewrite R; reflexivity |]. split.
  - intros Hnodup Hplain. rewrite R, (objectOf_plain _ Hnodup Hplain). reflexivity.
  - intros key. unfold getProperty. rewrite bind_this. cbn [fst]. rewrite Hdir.
    unfold try_catch. rewrite (bind_Ret _ _ _ _ _ R). unfold ret, readProperty.
    cbn [fst]. destruct (lookupKey key (objectOf properties)); [reflexivity |].
    destruct (bool_decide (key ∈ inheritedKeys)); reflexivity.
Qed.

Ltac decided := refine (bool_decide_unpack _ _); vm_compute; exact I.

Lemma properties_round_trip_witness :
  let properties :=
    [(js "motd", js "Hello = world"); (js "25565", js "port"); (js "__proto__", js "x");
     (js "7", js "seven")] in
  let after := (writePropertiesFile properties (Demo.stopped, Demo.world)).2 in
  (readPropertiesFile after).1
  = Ret [(js "7", js "seven"); (js "25565", js "port"); (js "motd", js "Hello = world")]
  /\ (getProperty (js "toString") (js "unset") after).1 = Ret (Member (js "toString"))
  /\ (getProperty (js "motd") (js "unset") after).1 = Ret (Str (js "Hello = world")).
Proof.
  destruct (properties_round_trip
              [(js "motd", js "Hello = world"); (js "25565", js "port");
               (js "__proto__", js "x"); (js "7", js "seven")]
              Demo.stopped Demo.world)
    as (H1 & _ & H2).
  - repeat constructor; cbn [fst snd]; try decided; vm_compute; congruence.
  - intros dir _. reflexivity.
  - vm_compute. reflexivity.
  - split; [exact H1 |]. split; [exact (H2 (js "toString")) | exact (H2 (js "motd"))].
Defined.

(** ** Settings *)

Lemma io_run {A} (m : M World A) s w : io m (s, w) = ((m w).1, (s, (m w).2)).
Proof. unfold io, zoom. cbn [fst snd]. destruct (m w); reflexivity. Qed.

Lemma updatePublicFile_files (s : Sys) (q : path) :
  q <> publicPath s.1 -> q <> tmpPath (publicPath s.1) ->
  files (updatePublicFile s).2.2 !! q = files s.2 !! q.
Proof.
  intros H1 H2. destruct (updatePublicFile_spec s) as [data ->]. cbn [snd].
  destruct (writeJsonAtomic_spec (publicPath s.1) (DPublic data) s.2) as (Hother & _).
  apply Hother; assumption.
Qed.

(** A file of an instance is neither the public file nor its temporary. *)
Lemma instance_file_private (s : MinecraftServer) (dir : path) (name : jsstring) :
  name <> js "laplace.public.json" -> name <> js "laplace.public.json" ++ js ".tmp" ->
  dir ++ [name] <> publicPath s /\ dir ++ [name] <> tmpPath (publicPath s).
Proof.
  intros H1 H2. rewrite publicPath_snoc, tmpPath_snoc.
  split; intros E; apply app_inj_tail in E; tauto.
Qed.

Lemma removelast_tmpPath (p : path) : removelast (tmpPath p) = removelast p.
Proof.
  unfold tmpPath. destruct (last p) as [name|] eqn:E.
  - apply removelast_snoc.
  - apply last_None in E. subst p. reflexivity.
Qed.

(** An atomic write that succeeds found the directory of its target. *)
Lemma writeJsonAtomic_parent p d w :
  (writeJsonAtomic p d w).1 = Ret tt -> Fs.isDir (files w) (removelast p) = true.
Proof.
  unfold writeJsonAtomic.
  destruct (Fs.writeFileSync (tmpPath p) (Json d) w) as [[[]|e] w1] eqn:E1.
  - intros _. unfold Fs.writeFileSync in E1. rewrite removelast_tmpPath in E1.
    destruct (Fs.isDir (files w) (removelast p)); [reflexivity |].
    cbn [negb] in E1. destruct (fault w _) as [[]|]; discriminate E1.
  - erewrite try_catch_Throw by (erewrite bind_Throw by exact E1; reflexivity).
    unfold bind, emit, modify, throw. cbn [fst]. discriminate.
Qed.

(** What a [saveSettings] that returned has done. *)
Lemma saveSettings_Ret actor data s w dir cfg after :
  serverDir s = Some dir -> config s = Some cfg ->
  saveSettings actor data (s, w) = (Ret tt, after) ->
  let merged := mergeConfig cfg (ServerSettingsPayload.config data) in
  config after.1 = Some merged /\ serverDir after.1 = Some dir
  /\ serversDir after.1 = serversDir s
  /\ fault after.2 = fault w
  /\ (exists b, files after.2 !! (dir ++ [js "laplace.server.json"])
                = Some {| node_of := File (Json (DConfig merged)); birthtimeMs := b |})
  /\ (exists w1 w2,
       writePropertiesFile (ServerSettingsPayload.properties data)
         (set_config (Some merged) s, w1) = (Ret tt, (set_config (Some merged) s, w2))
       /\ fault w1 = fault w
       /\ files after.2 !! (dir ++ [js "server.properties"])
          = files w2 !! (dir ++ [js "server.properties"]))
  /\ Fs.isDir (files w) dir = true
  /\ (forall q,
        q <> dir ++ [js "laplace.server.json"] ->
        q <> tmpPath (dir ++ [js "laplace.server.json"]) ->
        q <> dir ++ [js "server.properties"] ->
        q <> publicPath s -> q <> tmpPath (publicPath s) ->
        files after.2 !! q = files w !! q).
Proof.
  intros Hdir Hcfg E. cbv zeta. unfold saveSettings in E.
  rewrite !bind_this in E. cbn [fst] in E. rewrite Hdir, Hcfg in E.
  set (merged := mergeConfig cfg (ServerSettingsPayload.config data)) in *.
  rewrite bind_assign in E. cbn [fst snd] in E.
  set (s1 := set_config (Some merged) s) in *.
  inv_ret E. rewrite io_run in E0.
  destruct (writeJsonAtomic_spec (descriptorPath dir) (DConfig merged) w)
    as (Hother1 & _ & Hnew & Hfault1).
  pose proof (writeJsonAtomic_parent (descriptorPath dir) (DConfig merged) w) as Hparent.
  cbv zeta in *.
  destruct (writeJsonAtomic (descriptorPath dir) (DConfig merged) w) as [r1 w1].
  cbn [fst snd] in *. injection E0 as -> <-.
  destruct a, a0, a1.
  destruct (Hnew eq_refl) as [b Hb]. clear Hnew.
  assert (F2 : s2.1 = s1 /\ fault s2.2 = fault w1
               /\ forall q, q <> dir ++ [js "server.properties"] ->
                            files s2.2 !! q = files w1 !! q).
  { unfold writePropertiesFile in E1. rewrite bind_this in E1. cbn [fst] in E1.
    change (serverDir s1) with (serverDir s) in E1. rewrite Hdir in E1.
    rewrite io_run in E1.
    change (Path.join dir [js "server.properties"])
      with (dir ++ [js "server.properties"]) in E1.
    match type of E1 with
    | context [Fs.writeFileSync ?p ?c w1] =>
        destruct (writeFileSync_spec p c w1) as (Ho & _ & Hf)
    end.
    cbv zeta in *. injection E1 as _ <-. cbn [fst snd]. auto. }
  destruct F2 as (F21 & F22 & F23).
  assert (K : forall {B} (f : Sys -> B),
             keeps f updatePublicFile -> (forall m, keeps f (logSystem m)) ->
             f after = f s2).
  { intros B f H1 H2. rewrite (keeps_eq f _ _ _ _ H1 E).
    apply (keeps_eq f _ _ _ _ (H2 _) E2). }
  assert (Hfiles : forall name,
             name <> js "laplace.public.json" ->
             name <> js "laplace.public.json" ++ js ".tmp" ->
             files after.2 !! (dir ++ [name]) = files s2.2 !! (dir ++ [name])).
  { intros name N1 N2.
    assert (Hs3 : serversDir s3.1 = serversDir s).
    { transitivity (serversDir s2.1); [| rewrite F21; reflexivity].
      kept (fun s : Sys => serversDir s.1) E2. }
    destruct (instance_file_private s3.1 dir name N1 N2) as [P1 P2].
    pose proof (updatePublicFile_files s3 _ P1 P2) as U. rewrite E in U. cbn [snd] in U.
    rewrite U.
    f_equal. kept (fun s : Sys => files s.2) E2. }
  split; [rewrite (K _ (fun s : Sys => config s.1) ltac:(frame) ltac:(intros; frame)), F21;
          reflexivity |].
  split; [rewrite (K _ (fun s : Sys => serverDir s.1) ltac:(frame) ltac:(intros; frame)), F21;
          exact Hdir |].
  split; [rewrite (K _ (fun s : Sys => serversDir s.1) ltac:(frame) ltac:(intros; frame)), F21;
          reflexivity |].
  split; [rewrite (K _ (fun s : Sys => fault s.2) ltac:(frame) ltac:(intros; frame)), F22;
          exact Hfault1 |].
  split.
  { exists b. rewrite Hfiles by (vm_compute; discriminate).
    rewrite F23 by (intros E'; apply app_inj_tail in E' as [_ E']; vm_compute in E'; discriminate E').
    exact Hb. }
  split.
  { exists w1, s2.2. split; [| split; [exact Hfault1 |]].
    - rewrite E1. destruct s2 as [s2 w0]. cbn [fst snd] in *. subst s2.
      reflexivity.
    - apply Hfiles; vm_compute; discriminate. }
  split.
  { specialize (Hparent eq_refl).
    change (descriptorPath dir) with (dir ++ [js "laplace.server.json"]) in Hparent.
    rewrite removelast_snoc in Hparent. exact Hparent. }
  intros q Q1 Q2 Q3 Q4 Q5.
  assert (Hs3 : publicPath s3.1 = publicPath s).
  { unfold publicPath. f_equal. transitivity (serversDir s2.1); [| rewrite F21; reflexivity].
    kept (fun s : Sys => serversDir s.1) E2. }
  pose proof (updatePublicFile_files s3 q) as U. rewrite E, Hs3 in U. cbn [snd] in U.
  rewrite (U Q4 Q5).
  transitivity (files s2.2 !! q); [f_equal; kept (fun s : Sys => files s.2) E2 |].
  rewrite (F23 q Q3). apply Hother1; assumption.
Qed.

Lemma writePropertiesFile_Ret properties s w dir after :
  serverDir s = Some dir ->
  writePropertiesFile properties (s, w) = (Ret tt, after) ->
  after.1 = s /\ fault after.2 = fault w
  /\ (exists b, files after.2 !! (dir ++ [js "server.properties"])
                = Some {| node_of := File (Text (propertiesText properties));
                          birthtimeMs := b |})
  /\ (forall q, q <> dir ++ [js "server.properties"] ->
                files after.2 !! q = files w !! q).
Proof.
  intros Hdir E. unfold writePropertiesFile in E. rewrite bind_this in E.
  cbn [fst] in E. rewrite Hdir in E. rewrite io_run in E.
  change (Path.join dir [js "server.properties"])
    with (dir ++ [js "server.properties"]) in E.
  fold (propertiesText properties) in E.
  destruct (writeFileSync_spec (dir ++ [js "server.properties"])
              (Text (propertiesText properties)) w) as (Ho & Hnew & Hf).
  cbv zeta in *. injection E as E <-. cbn [fst snd].
  destruct (Hnew E) as [b Hb].
  split; [reflexivity |]. split; [exact Hf |]. split; [| exact Ho].
  exists b. rewrite Hb. apply lookup_insert_eq.
Qed.

Lemma readPropertiesFile_written properties s w dir b :
  serverDir s = Some dir ->
  fault w (OpRead (dir ++ [js "server.properties"])) = None ->
  files w !! (dir ++ [js "server.properties"])
  = Some {| node_of := File (Text (propertiesText properties)); birthtimeMs := b |} ->
  Forall cleanProperty properties ->
  readPropertiesFile (s, w) = (Ret (objectOf properties), (s, w)).
Proof.
  intros Hdir Hfault Hfile Hclean.
  assert (Hnode : Fs.lookupNode (files w) (dir ++ [js "server.properties"])
                  = Some {| node_of := File (Text (propertiesText properties));
                            birthtimeMs := b |})
    by (destruct dir; exact Hfile).
  unfold readPropertiesFile. rewrite bind_this. cbn [fst]. rewrite Hdir.
  change (Path.join dir [js "server.properties"])
    with (dir ++ [js "server.properties"]).
  rewrite bind_ask. cbn [snd]. unfold Fs.existsSync at 1. rewrite Hnode.
  unfold bind. rewrite io_readFileSync, Hfault, Hnode.
  unfold ret. cbn [textOf]. unfold propertiesText.
  rewrite (read_written properties Hclean). reflexivity.
Qed.

(** X6. What [saveSettings] saved, [getSettings] returns: after a
    [saveSettings] that succeeded, the configuration in memory is the old one
    overlaid with the payload's, and [getSettings] returns it together with
    the object that the assignment of the payload's properties (clean ones)
    builds; when their keys are distinct and none is [__proto__] or an array
    index, these are the payload's properties themselves. *)
Theorem saveSettings_then_getSettings (actor : jsstring)
  (data : ServerSettingsPayload.t) (s : MinecraftServer) (w : World)
  (dir : path) (cfg : ServerConfig.t) :
  serverDir s = Some dir -> config s = Some cfg ->
  Forall cleanProperty (ServerSettingsPayload.properties data) ->
  fault w (OpRead (dir ++ [js "server.properties"])) = None ->
  (saveSettings actor data (s, w)).1 = Ret tt ->
  let after := (saveSettings actor data (s, w)).2 in
  let merged := mergeConfig cfg (ServerSettingsPayload.config data) in
  config after.1 = Some merged
  /\ (getSettings after).1
     = Ret {| ServerSettingsPayload.config := merged;
              ServerSettingsPayload.properties :=
                objectOf (ServerSettingsPayload.properties data) |}
  /\ (NoDup (ServerSettingsPayload.properties data).*1 ->
      Forall (fun kv => plainKey kv.1) (ServerSettingsPayload.properties data) ->
      (getSettings after).1
      = Ret {| ServerSettingsPayload.config := merged;
               ServerSettingsPayload.properties := ServerSettingsPayload.properties data |}).
Proof.
  intros Hdir Hcfg Hclean Hfault Hret. cbv zeta.
  apply outcome_eq in Hret.
  destruct (saveSettings_Ret _ _ _ _ _ _ _ Hdir Hcfg Hret)
    as (A1 & A2 & A3 & A4 & _ & (w1 & w2 & A5 & A6 & A7) & _).
  cbv zeta in *.
  destruct (saveSettings actor data (s, w)).2 as [s' w'] eqn:E. cbn [fst snd] in *.
  split; [exact A1 |].
  destruct (writePropertiesFile_Ret _ (set_config _ s) _ dir _ Hdir A5) as (_ & _ & [b Hb] & _).
  cbn [fst snd] in Hb.
  assert (R : (getSettings (s', w')).1
              = Ret {| ServerSettingsPayload.config :=
                         mergeConfig cfg (ServerSettingsPayload.config data);
                       ServerSettingsPayload.properties :=
                         objectOf (ServerSettingsPayload.properties data) |}).
  { unfold getSettings. rewrite !bind_this. cbn [fst]. rewrite A1, A2.
    erewrite bind_Ret; [reflexivity |].
    apply (readPropertiesFile_written _ s' w' dir b A2); try assumption.
    - rewrite A4. exact Hfault.
    - rewrite A7. exact Hb. }
  split; [exact R |].
  intros Hnodup Hplain. rewrite R, (objectOf_plain _ Hnodup Hplain). reflexivity.
Qed.

Lemma saveSettings_then_getSettings_witness :
  let after := (saveSettings (js "admin") Demo.settings (Demo.stopped, Demo.world)).2 in
  (getSettings after).1
  = Ret {| ServerSettingsPayload.config := Demo.descriptor "main";
           ServerSettingsPayload.properties := [(js "motd", js "hi")] |}.
Proof.
  destruct (saveSettings_then_getSettings (js "admin") Demo.settings Demo.stopped
              Demo.world (Demo.servers ++ [js "main"]) (Demo.descriptor "main"))
    as (_ & _ & H).
  - reflexivity.
  - reflexivity.
  - repeat constructor; cbn [fst snd]; try decided; vm_compute; congruence.
  - reflexivity.
  - vm_compute. reflexivity.
  - apply H; [decided |].
    repeat constructor; cbn [fst]; try discriminate; vm_compute; reflexivity.
Defined.

Lemma snoc_neq {A} (l : list A) (x : A) : l <> l ++ [x].
Proof.
  intros E. apply (f_equal length) in E. rewrite length_app in E. cbn in E. lia.
Qed.

(** X7. Settings survive a reload: after a [saveSettings] that succeeded the
    descriptor file of the instance holds the configuration that is in
    memory, and selecting the instance again reads that very configuration
    back. *)
Theorem saveSettings_survives_reload (actor : jsstring)
  (data : ServerSettingsPayload.t) (s : MinecraftServer) (w : World)
  (serverId : jsstring) (cfg : ServerConfig.t) :
  let dir := instanceDir s serverId in
  serverDir s = Some dir -> config s = Some cfg ->
  dir <> publicPath s -> dir <> tmpPath (publicPath s) ->
  fault w (OpRead (descriptorPath dir)) = None ->
  (saveSettings actor data (s, w)).1 = Ret tt ->
  let after := (saveSettings actor data (s, w)).2 in
  let merged := mergeConfig cfg (ServerSettingsPayload.config data) in
  config after.1 = Some merged
  /\ holds after.2 (descriptorPath dir) (DConfig merged)
  /\ (selectServer serverId after).1 = Ret tt
  /\ config (selectServer serverId after).2.1 = Some merged.
Proof.
  intros dir Hdir Hcfg Hp1 Hp2 Hfault Hret. cbv zeta.
  apply outcome_eq in Hret.
  destruct (saveSettings_Ret _ _ _ _ _ _ _ Hdir Hcfg Hret)
    as (A1 & A2 & A3 & A4 & [b A5] & _ & A6 & A7).
  cbv zeta in *.
  destruct (saveSettings actor data (s, w)).2 as [s' w'] eqn:E. cbn [fst snd] in *.
  assert (Hinst : instanceDir s' serverId = dir) by (unfold instanceDir, dir; rewrite A3; reflexivity).
  assert (Hholds : holds w' (descriptorPath dir)
                     (DConfig (mergeConfig cfg (ServerSettingsPayload.config data)))).
  { split; [rewrite A4; exact Hfault |]. exists b.
    change (descriptorPath dir) with (dir ++ [js "laplace.server.json"]).
    destruct dir; exact A5. }
  assert (Hex : Fs.existsSync w' dir = true).
  { unfold Fs.existsSync.
    rewrite (lookupNode_eq (files w) (files w') dir).
    - unfold Fs.isDir in A6. destruct (Fs.lookupNode (files w) dir); [reflexivity | discriminate].
    - apply A7; try assumption; try apply snoc_neq.
      rewrite tmpPath_snoc. apply snoc_neq. }
  split; [exact A1 |]. split; [exact Hholds |].
  rewrite (selectServer_ok serverId s' w'
             (mergeConfig cfg (ServerSettingsPayload.config data)));
    rewrite ?Hinst; try assumption.
  split; reflexivity.
Qed.

Lemma saveSettings_survives_reload_witness :
  let after := (saveSettings (js "admin") Demo.settings (Demo.stopped, Demo.world)).2 in
  (selectServer (js "main") after).1 = Ret tt
  /\ config (selectServer (js "main") after).2.1 = Some (Demo.descriptor "main").
Proof.
  destruct (saveSettings_survives_reload (js "admin") Demo.settings Demo.stopped
              Demo.world (js "main") (Demo.descriptor "main"))
    as (_ & _ & H1 & H2).
  - reflexivity.
  - reflexivity.
  - vm_compute. discriminate.
  - vm_compute. discriminate.
  - reflexivity.
  - vm_compute. reflexivity.
  - exact (conj H1 H2).
Defined.

(** ** Creating an instance *)

Lemma copyFileSync_Ret src dst w w' :
  Fs.copyFileSync src dst w = (Ret tt, w') ->
  exists c b b',
    Fs.lookupNode (files w) src = Some {| node_of := File c; birthtimeMs := b |}
    /\ files w' = <[dst := {| node_of := File c; birthtimeMs := b' |}]> (files w)
    /\ fault w' = fault w.
Proof.
  intros H. unfold Fs.copyFileSync in H.
  apply bind_Ret_inv in H as ([] & w1 & G & H).
  assert (w1 = w) by (unfold Fs.guard in G; destruct (fault w _); congruence).
  subst w1. clear G.
  apply bind_Ret_inv in H as (c & w1 & R & H).
  unfold Fs.readFileSync in R.
  apply bind_Ret_inv in R as ([] & w2 & G & R).
  assert (w2 = w) by (unfold Fs.guard in G; destruct (fault w _); congruence).
  subst w2. clear G.
  destruct (Fs.lookupNode (files w) src) as [[[c'|] b]|] eqn:Hsrc; try discriminate R.
  injection R as -> <-.
  destruct (writeFileSync_spec dst c w) as (_ & Hnew & Hf). cbv zeta in *.
  rewrite H in *. cbn [fst snd] in *. destruct (Hnew eq_refl) as [b' Hb'].
  exists c, b, b'. auto.
Qed.

Lemma io_Ret {A} (m : M World A) s w a s' w' :
  io m (s, w) = (Ret a, (s', w')) -> s' = s /\ m w = (Ret a, w').
Proof.
  rewrite io_run. intros [= H1 H2 H3]. split; [symmetry; exact H2 |].
  destruct (m w); cbn [fst snd] in *. congruence.
Qed.

Lemma mkdirs_isDir (birth : Z) (ps : list path) (fs fs' : gmap path inode) (p : path) :
  Fs.mkdirs birth ps fs = Some fs' -> last ps = Some p -> p <> [] ->
  Fs.isDir fs' p = true.
Proof.
  revert fs. induction ps as [|q ps IH]; intros fs H Hl Hp; [discriminate Hl |].
  cbn [Fs.mkdirs] in H.
  destruct ps as [|q' ps].
  - cbn [last] in Hl. injection Hl as ->. cbn [Fs.mkdirs] in H.
    unfold Fs.isDir, Fs.lookupNode. destruct p as [|x p]; [congruence |].
    destruct (fs !! (x :: p)) as [[[c|] b]|] eqn:E; try discriminate H;
      injection H as <-; [rewrite E | rewrite lookup_insert_eq]; reflexivity.
  - assert (Hl' : last (q' :: ps) = Some p) by exact Hl.
    destruct (fs !! q) as [[[c|] b]|]; try discriminate H; eapply IH; eassumption.
Qed.

Lemma last_ancestors (p : path) : p <> [] -> last (Fs.ancestors p) = Some p.
Proof.
  intros Hp. unfold Fs.ancestors.
  destruct (length p) as [|n] eqn:E; [destruct p; [congruence | discriminate E] |].
  rewrite List.seq_S, map_app, last_app. cbn [map last Nat.add].
  rewrite <- E, firstn_all. reflexivity.
Qed.

(** What a [createServer] that returned has done. *)
Lemma createServer_result params s w id after :
  createServer params (s, w) = (Ret id, after) ->
  let dir := Path.join (serversDir s) [slug (ServerCreationParams.name params)] in
  exists cfg c,
    id = slug (ServerCreationParams.name params)
    /\ config after.1 = Some cfg /\ serverDir after.1 = Some dir
    /\ serversDir after.1 = serversDir s /\ status after.1 = status s
    /\ process after.1 = process s
    /\ ServerConfig.id cfg = id
    /\ ServerConfig.name cfg = ServerCreationParams.name params
    /\ ServerConfig.jarFile cfg = js "server.jar"
    /\ ServerConfig.rconPort cfg = 25575%Z
    /\ ServerConfig.autoRestart cfg = true
    /\ ServerConfig.javaArgs cfg
       = {| JavaArgs.xmx := orElse (ServerCreationParams.xmx params) (js "4G");
            JavaArgs.xms := orElse (ServerCreationParams.xms params) (js "1G");
            JavaArgs.args := [] |}
    /\ holds after.2 (descriptorPath dir) (DConfig cfg)
    /\ Fs.existsSync after.2 dir = true
    /\ (exists b, Fs.lookupNode (files w)
                    (ofString (ServerCreationParams.sourceJarPath params))
                  = Some {| node_of := File c; birthtimeMs := b |})
    /\ (exists b, files after.2 !! (dir ++ [js "server.jar"])
                  = Some {| node_of := File c; birthtimeMs := b |})
    /\ (ServerCreationParams.eulaAccepted params = true ->
        exists b, files after.2 !! (dir ++ [js "eula.txt"])
                  = Some {| node_of := File (Text (js "eula=true")); birthtimeMs := b |})
    /\ fault after.2 = fault w.
Proof.
  intros H dir. unfold createServer in H.
  rewrite bind_ask in H. cbn [snd] in H.
  destruct (Fs.existsSync w (ofString _)) eqn:Hsrc; cbn [negb] in H;
    [| unfold throw in H; discriminate H].
  rewrite bind_this, bind_ask in H. cbn [fst snd] in H.
  destruct (Fs.existsSync w (Path.join (serversDir s) _)) eqn:Hfree;
    [unfold throw in H; discriminate H |].
  apply try_catch_Ret_inv in H. destruct H as [H | (e & s1 & _ & H)].
  2: { inv_ret H. unfold throw in H. discriminate H. }
  fold dir in H, Hfree.
  change (Path.join dir [js "server.jar"]) with (dir ++ [js "server.jar"]) in H.
  change (Path.join dir [js "eula.txt"]) with (dir ++ [js "eula.txt"]) in H.
  change (Path.join dir [js "server.properties"]) with (dir ++ [js "server.properties"]) in H.
  change (Path.join dir [js "laplace.server.json"]) with (dir ++ [js "laplace.server.json"]) in H.
  inv_ret H. injection H as <- <-.
  destruct a, a0, a1, a3, a5, a6, a7.
  destruct s0 as [o0 w0], s1 as [o1 w1], s2 as [o2 w2], s3 as [o3 w3],
           s4 as [o4 w4], s5 as [o5 w5], s6 as [o6 w6], s7 as [o7 w7].
  (* the directory *)
  apply io_Ret in E as [-> E].
  assert (M0 : files w ⊆ files w0)
    by (pose proof (mkdirSync_subseteq dir w) as M; rewrite E in M; exact M).
  assert (F0 : fault w0 = fault w)
    by (apply (keeps_eq fault _ _ _ _ (mkdirSync_keeps fault dir ltac:(intros ? ?; reflexivity)) E)).
  assert (D0 : Fs.isDir (files w0) dir = true).
  { unfold Fs.mkdirSync in E. apply bind_Ret_inv in E as ([] & wg & G & E).
    assert (wg = w) by (unfold Fs.guard in G; destruct (fault w _); congruence).
    subst wg. destruct (Fs.mkdirs _ _ _) as [fs'|] eqn:Emk; [| discriminate E].
    injection E as <-. cbn [files set_files].
    assert (Hne : dir <> [])
      by (intros Q; rewrite Q in Hfree; discriminate Hfree).
    apply (mkdirs_isDir _ _ _ _ _ Emk (last_ancestors dir Hne) Hne). }
  (* the jar *)
  apply io_Ret in E0 as [-> E0].
  apply copyFileSync_Ret in E0 as (c & b & b1 & J0 & J1 & F1).
  (* the licence *)
  assert (L : o2 = s /\ fault w2 = fault w1
              /\ (forall q, q <> dir ++ [js "eula.txt"] -> files w2 !! q = files w1 !! q)
              /\ (ServerCreationParams.eulaAccepted params = true ->
                  exists b, files w2 !! (dir ++ [js "eula.txt"])
                            = Some {| node_of := File (Text (js "eula=true"));
                                      birthtimeMs := b |})).
  { destruct (ServerCreationParams.eulaAccepted params); cbn [when] in E1.
    - apply io_Ret in E1 as [-> E1].
      destruct (writeFileSync_spec (dir ++ [js "eula.txt"]) (Text (js "eula=true")) w1)
        as (Ho & Hn & Hf). cbv zeta in *. rewrite E1 in *. cbn [fst snd] in *.
      destruct (Hn eq_refl) as [b2 Hb2].
      split; [reflexivity |]. split; [exact Hf |]. split; [exact Ho |].
      intros _. exists b2. rewrite Hb2. apply lookup_insert_eq.
    - injection E1 as <- <-. split; [reflexivity |]. split; [reflexivity |].
      split; [reflexivity | discriminate]. }
  destruct L as (-> & F2 & L2 & L3).
  (* the password *)
  apply io_Ret in E2 as [-> E2].
  assert (R3 : files w3 = files w2 /\ fault w3 = fault w2)
    by (unfold randomBytesHex in E2; injection E2 as _ <-; split; reflexivity).
  destruct R3 as [R3 F3].
  (* the properties *)
  apply io_Ret in E3 as [-> E3].
  match type of E3 with
  | Fs.writeFileSync ?p ?t w3 = _ =>
      destruct (writeFileSync_spec p t w3) as (P4 & _ & F4)
  end.
  cbv zeta in *. rewrite E3 in *. cbn [fst snd] in *.
  (* the descriptor *)
  unfold ask, gets in E4. injection E4 as <- <- <-. cbn [snd] in *.
  apply io_Ret in E5 as [-> E5].
  match type of E5 with
  | writeJsonAtomic ?p (DConfig ?d) w4 = _ =>
      set (cfg := d) in *;
      destruct (writeJsonAtomic_spec p (DConfig cfg) w4) as (P6 & _ & N6 & F6)
  end.
  cbv zeta in *. rewrite E5 in *. cbn [fst snd] in *.
  destruct (N6 eq_refl) as [b6 Hb6]. clear N6.
  (* the log line and the selection *)
  assert (K : forall {B} (f : Sys -> B), (forall m, keeps f (logSystem m)) ->
                f (o7, w7) = f (s, w6))
    by (intros B f Hk; apply (keeps_eq f _ _ _ _ (Hk _) E6)).
  pose proof (K _ (fun s : Sys => files s.2) ltac:(intros; frame)) as K1.
  pose proof (K _ (fun s : Sys => fault s.2) ltac:(intros; frame)) as K2.
  pose proof (K _ (fun s : Sys => serversDir s.1) ltac:(intros; frame)) as K3.
  pose proof (K _ (fun s : Sys => status s.1) ltac:(intros; frame)) as K4.
  pose proof (K _ (fun s : Sys => process s.1) ltac:(intros; frame)) as K5.
  cbn [fst snd] in K1, K2, K3, K4, K5. clear K.
  assert (Hdesc : Fs.lookupNode (files w7) (descriptorPath (instanceDir o7 (ServerConfig.id cfg)))
                  = Some {| node_of := File (Json (DConfig cfg)); birthtimeMs := b6 |}).
  { unfold instanceDir. rewrite K3. subst cfg. cbn [ServerConfig.id]. fold dir.
    change (descriptorPath dir) with (dir ++ [js "laplace.server.json"]).
    rewrite K1. destruct dir; exact Hb6. }
  rewrite selectServer_eq in E7.
  change (slug (ServerCreationParams.name params)) with (ServerConfig.id cfg) in E7.
  rewrite Hdesc in E7.
  destruct (negb (Fs.existsSync w7 _)) eqn:Hex7; [discriminate E7 |].
  destruct (negb (Fs.existsSync w7 (descriptorPath _))); [discriminate E7 |].
  destruct (fault w7 _) eqn:Hf7; [discriminate E7 |].
  injection E7 as <-.
  exists cfg, c. cbn [fst snd].
  change (files (set_trace ?f w7)) with (files w7).
  change (fault (set_trace ?f w7)) with (fault w7).
  assert (Hinst : instanceDir o7 (ServerConfig.id cfg) = dir)
    by (unfold instanceDir; rewrite K3; reflexivity).
  rewrite Hinst in *.
  split; [reflexivity |]. split; [reflexivity |].
  split; [exact (f_equal Some Hinst) |].
  split; [exact K3 |]. split; [exact K4 |]. split; [exact K5 |].
  do 6 (split; [reflexivity |]).
  split; [split; [exact Hf7 | exists b6; exact Hdesc] |].
  split; [apply negb_false_iff in Hex7; exact Hex7 |].
  split.
  { exists b. destruct (files w !! ofString (ServerCreationParams.sourceJarPath params))
      as [i|] eqn:Ei.
    - destruct (ofString _) as [|x p'] eqn:Eo; [discriminate J0 |].
      cbn [Fs.lookupNode] in *.
      pose proof (lookup_weaken _ _ _ _ Ei M0) as Ei'. congruence.
    - unfold Fs.existsSync in Hsrc.
      destruct (ofString _) as [|x p'] eqn:Eo; [discriminate J0 |].
      cbn [Fs.lookupNode] in Hsrc. rewrite Ei in Hsrc. discriminate Hsrc. }
  split.
  { exists b1. rewrite K1, P6, P4, R3, L2, J1.
    - apply lookup_insert_eq.
    - intros Q; apply app_inj_tail in Q as [_ Q]; vm_compute in Q; discriminate Q.
    - intros Q; apply app_inj_tail in Q as [_ Q]; vm_compute in Q; discriminate Q.
    - intros Q; apply app_inj_tail in Q as [_ Q]; vm_compute in Q; discriminate Q.
    - rewrite tmpPath_snoc. intros Q; apply app_inj_tail in Q as [_ Q];
        vm_compute in Q; discriminate Q. }
  split.
  { intros Heula. destruct (L3 Heula) as [b2 Hb2]. exists b2.
    rewrite K1, P6, P4, R3.
    - exact Hb2.
    - intros Q; apply app_inj_tail in Q as [_ Q]; vm_compute in Q; discriminate Q.
    - intros Q; apply app_inj_tail in Q as [_ Q]; vm_compute in Q; discriminate Q.
    - rewrite tmpPath_snoc. intros Q; apply app_inj_tail in Q as [_ Q];
        vm_compute in Q; discriminate Q. }
  cbn [set_trace fault]. congruence.
Qed.

(** ** Starting with the jar in place *)

Lemma spawn_ok command argv cwd s w :
  spawnThrows w = None ->
  spawn command argv cwd (s, w)
  = (Ret {| pid := nextPid w; stdin := true |},
     (s, set_trace (cons (Spawned command argv cwd)) (set_nextPid Datatypes.S w))).
Proof.
  intros H. unfold spawn. rewrite bind_ask. cbn [snd]. rewrite H.
  rewrite bind_ask. reflexivity.
Qed.

Lemma spawnProcess_spawns (s : Sys) cfg :
  config s.1 = Some cfg ->
  let dir := dirPath (serverDir s.1) in
  let jarPath := Path.join dir [ServerConfig.jarFile cfg] in
  Fs.existsSync s.2 jarPath = true ->
  jarPath <> publicPath s.1 -> jarPath <> tmpPath (publicPath s.1) ->
  spawnThrows s.2 = None ->
  let r := spawnProcess s in
  r.1 = Ret tt /\ status r.2.1 = STARTING
  /\ process r.2.1 = Some {| pid := nextPid s.2; stdin := true |}
  /\ startTime r.2.1 = Some (now s.2)
  /\ head (trace r.2.2) = Some (Spawned (js "java") (javaArguments cfg jarPath) dir)
  /\ crashCount r.2.1 = crashCount s.1
  /\ config r.2.1 = config s.1
  /\ timers r.2.2 = timers s.2.
Proof.
  intros Hcfg dir jarPath Hjar Hp1 Hp2 Hspawn. cbv zeta.
  unfold spawnProcess. rewrite bind_this, Hcfg.
  rewrite (bind_total (updateState _)) by frame. cbv beta.
  rewrite (bind_total (logSystem _)) by frame. cbv beta.
  match goal with |- context [bind (this _) _ ?x] => set (s2 := x) end.
  assert (K : forall {B} (f : Sys -> B),
             (forall m, keeps f (logSystem m)) -> (forall st, keeps f (updateState st)) ->
             f s2 = f s).
  { intros B f H1 H2. subst s2. rewrite (keeps_at f (logSystem _) _ (H1 _)).
    apply H2. }
  assert (Hdir : serverDir s2.1 = serverDir s.1)
    by apply (K _ (fun s : Sys => serverDir s.1) ltac:(intros; frame) ltac:(intros; frame)).
  assert (Hfiles : files s2.2 !! jarPath = files s.2 !! jarPath).
  { subst s2.
    rewrite (keeps_at (fun s : Sys => files s.2) (logSystem _)) by frame.
    apply updateState_files; assumption. }
  assert (Hst : status s2.1 = STARTING).
  { subst s2. rewrite (keeps_at (fun s : Sys => status s.1) (logSystem _)) by frame.
    apply updateState_status. }
  pose proof (K _ (fun s : Sys => spawnThrows s.2) ltac:(intros; frame) ltac:(intros; frame)) as G1.
  pose proof (K _ (fun s : Sys => nextPid s.2) ltac:(intros; frame) ltac:(intros; frame)) as G2.
  pose proof (K _ (fun s : Sys => now s.2) ltac:(intros; frame) ltac:(intros; frame)) as G3.
  pose proof (K _ (fun s : Sys => crashCount s.1) ltac:(intros; frame) ltac:(intros; frame)) as G4.
  pose proof (K _ (fun s : Sys => config s.1) ltac:(intros; frame) ltac:(intros; frame)) as G5.
  pose proof (K _ (fun s : Sys => timers s.2) ltac:(intros; frame) ltac:(intros; frame)) as G6.
  cbn [fst snd] in G1, G2, G3, G4, G5, G6. clear K.
  clearbody s2. destruct s2 as [o2 w2]. cbn [fst snd] in *.
  rewrite bind_this, bind_ask. cbn [fst snd]. rewrite Hdir. fold dir. fold jarPath.
  rewrite (existsSync_same _ _ _ Hfiles), Hjar. cbn [negb].
  rewrite bind_ask, bind_assign. cbn [fst snd].
  erewrite try_catch_Ret
    by (erewrite bind_Ret by (apply spawn_ok; rewrite G1; exact Hspawn); reflexivity).
  cbn [fst snd]. fold (javaArguments cfg jarPath).
  change (status (set_process ?p (set_startTime ?t o2))) with (status o2).
  change (crashCount (set_process ?p (set_startTime ?t o2))) with (crashCount o2).
  change (config (set_process ?p (set_startTime ?t o2))) with (config o2).
  cbn [process startTime set_process set_startTime trace set_trace head
       timers set_nextPid].
  rewrite <- Hcfg, G2, G3, G4, G5, G6.
  repeat split; try assumption; try reflexivity.
Qed.

Lemma loadAndStart_ok serverId actor s w cfg :
  status s = OFFLINE \/ status s = CRASHED ->
  Fs.existsSync w (instanceDir s serverId) = true ->
  holds w (descriptorPath (instanceDir s serverId)) (DConfig cfg) ->
  let jarPath := Path.join (instanceDir s serverId) [ServerConfig.jarFile cfg] in
  Fs.existsSync w jarPath = true ->
  jarPath <> publicPath s -> jarPath <> tmpPath (publicPath s) ->
  spawnThrows w = None ->
  let r := loadAndStart serverId actor (s, w) in
  r.1 = Ret tt /\ status r.2.1 = STARTING /\ config r.2.1 = Some cfg
  /\ serverDir r.2.1 = Some (instanceDir s serverId)
  /\ process r.2.1 = Some {| pid := nextPid w; stdin := true |}
  /\ startTime r.2.1 = Some (now w)
  /\ head (trace r.2.2)
     = Some (Spawned (js "java") (javaArguments cfg jarPath) (instanceDir s serverId))
  /\ crashCount r.2.1 = 0%Z /\ intentionToStop r.2.1 = false
  /\ timers r.2.2 = timers w.
Proof.
  intros Hst Hdir Hcfg jarPath Hjar Hp1 Hp2 Hspawn. cbv zeta.
  unfold loadAndStart. rewrite bind_this. cbn [fst].
  replace (negb (bool_decide (status s = OFFLINE)) && negb (bool_decide (status s = CRASHED)))
    with false by (destruct Hst as [-> | ->]; reflexivity).
  rewrite (bind_Ret _ _ _ _ _ (selectServer_ok serverId s w cfg Hdir Hcfg)).
  rewrite !bind_assign. cbn [fst snd].
  rewrite (bind_total (updateState _)) by frame. cbv beta.
  rewrite (bind_total (logSystem _)) by frame. cbv beta.
  match goal with |- context [spawnProcess ?x] => set (s4 := x) end.
  set (s2 := set_intentionToStop false (set_crashCount 0 (selected s serverId cfg))) in *.
  set (w2 := set_trace (cons (EmitStatus (getStatus (selected s serverId cfg)))) w) in *.
  assert (K : forall {B} (f : Sys -> B),
             (forall m, keeps f (logSystem m)) -> (forall st, keeps f (updateState st)) ->
             f s4 = f (s2, w2)).
  { intros B f H1 H2. subst s4. rewrite (keeps_at f (logSystem _) _ (H1 _)).
    apply H2. }
  assert (A1 : config s4.1 = Some cfg)
    by apply (K _ (fun s : Sys => config s.1) ltac:(intros; frame) ltac:(intros; frame)).
  assert (A2 : serverDir s4.1 = Some (instanceDir s serverId))
    by apply (K _ (fun s : Sys => serverDir s.1) ltac:(intros; frame) ltac:(intros; frame)).
  assert (A3 : publicPath s4.1 = publicPath s).
  { unfold publicPath. f_equal.
    apply (K _ (fun s : Sys => serversDir s.1) ltac:(intros; frame) ltac:(intros; frame)). }
  assert (A4 : files s4.2 !! jarPath = files w !! jarPath).
  { subst s4.
    rewrite (keeps_at (fun s : Sys => files s.2) (logSystem _)) by frame.
    rewrite updateState_files by assumption. reflexivity. }
  pose proof (K _ (fun s : Sys => spawnThrows s.2) ltac:(intros; frame) ltac:(intros; frame)) as G1.
  pose proof (K _ (fun s : Sys => nextPid s.2) ltac:(intros; frame) ltac:(intros; frame)) as G2.
  pose proof (K _ (fun s : Sys => now s.2) ltac:(intros; frame) ltac:(intros; frame)) as G3.
  pose proof (K _ (fun s : Sys => crashCount s.1) ltac:(intros; frame) ltac:(intros; frame)) as G4.
  pose proof (K _ (fun s : Sys => intentionToStop s.1) ltac:(intros; frame) ltac:(intros; frame)) as G5.
  pose proof (K _ (fun s : Sys => timers s.2) ltac:(intros; frame) ltac:(intros; frame)) as G6.
  cbn [fst snd] in G1, G2, G3, G4, G5, G6.
  destruct (spawnProcess_spawns s4 cfg A1)
    as (R1 & R2 & R3 & R4 & R5 & R6 & R7 & R8).
  - rewrite A2.
    change (dirPath (Some (instanceDir s serverId))) with (instanceDir s serverId).
    fold jarPath. rewrite (existsSync_same _ _ _ A4). exact Hjar.
  - rewrite A2, A3. exact Hp1.
  - rewrite A2, A3. exact Hp2.
  - rewrite G1. exact Hspawn.
  - cbv zeta in *. rewrite A2 in R5.
    change (dirPath (Some (instanceDir s serverId))) with (instanceDir s serverId) in R5.
    fold jarPath in R5.
    split; [exact R1 |]. split; [exact R2 |]. split; [congruence |].
    split.
    { rewrite <- A2. unfold spawnProcess.
      apply (keeps_at (fun s : Sys => serverDir s.1) spawnProcess). frame. }
    split; [rewrite R3, G2; reflexivity |].
    split; [rewrite R4, G3; reflexivity |].
    split; [exact R5 |].
    split; [rewrite R6; exact G4 |].
    split; [| rewrite R8; exact G6].
    transitivity (intentionToStop s4.1); [| rewrite G5; reflexivity].
    apply (keeps_at (fun s : Sys => intentionToStop s.1) spawnProcess). frame.
Qed.

(** X8. After a [createServer] that returned, the new instance is the
    selected one, and what is in memory is what is on disk: the descriptor
    file holds the selected configuration (identifier, name, [server.jar],
    RCON port 25575, auto-restart on), [server.jar] in the instance directory
    has the content of the uploaded jar, [eula.txt] is there when the licence
    was accepted; the lifecycle state and the process are untouched. *)
Theorem createServer_installs (params : ServerCreationParams.t)
  (s : MinecraftServer) (w : World) (id : jsstring) :
  (createServer params (s, w)).1 = Ret id ->
  let after := (createServer params (s, w)).2 in
  let dir := instanceDir s id in
  exists cfg c,
    config after.1 = Some cfg /\ serverDir after.1 = Some dir
    /\ holds after.2 (descriptorPath dir) (DConfig cfg)
    /\ ServerConfig.id cfg = id
    /\ ServerConfig.name cfg = ServerCreationParams.name params
    /\ ServerConfig.jarFile cfg = js "server.jar"
    /\ ServerConfig.rconPort cfg = 25575%Z
    /\ ServerConfig.autoRestart cfg = true
    /\ (exists b, Fs.lookupNode (files w)
                    (ofString (ServerCreationParams.sourceJarPath params))
                  = Some {| node_of := File c; birthtimeMs := b |})
    /\ (exists b, files after.2 !! (dir ++ [js "server.jar"])
                  = Some {| node_of := File c; birthtimeMs := b |})
    /\ (ServerCreationParams.eulaAccepted params = true ->
        exists b, files after.2 !! (dir ++ [js "eula.txt"])
                  = Some {| node_of := File (Text (js "eula=true")); birthtimeMs := b |})
    /\ status after.1 = status s /\ process after.1 = process s.
Proof.
  intros H. cbv zeta. apply outcome_eq in H.
  destruct (createServer_result _ _ _ _ _ H)
    as (cfg & c & -> & R1 & R2 & R3 & R4 & R5 & R6 & R7 & R8 & R9 & R10 & R11
        & R12 & R13 & R14 & R15 & R16 & R17).
  exists cfg, c. unfold instanceDir. auto 20.
Qed.

Lemma createServer_installs_witness :
  let after := (createServer (Demo.params "My Test!") (Demo.fresh, Demo.world)).2 in
  exists cfg,
    config after.1 = Some cfg
    /\ holds after.2 (descriptorPath (Demo.servers ++ [js "my-test-"])) (DConfig cfg)
    /\ ServerConfig.id cfg = js "my-test-".
Proof.
  destruct (createServer_installs (Demo.params "My Test!") Demo.fresh Demo.world
              (js "my-test-"))
    as (cfg & c & H1 & _ & H2 & H3 & _); [vm_compute; reflexivity |].
  exists cfg. split; [exact H1 |]. split; [exact H2 | exact H3].
Defined.

(** X9. A start that finds the descriptor and the jar and whose [spawn]
    does not throw: [loadAndStart] returns with the state STARTING, the
    instance selected, the crash counter at 0 and no intention to stop; one
    [java] process was spawned in the instance directory with the heap
    options of the descriptor, its extra arguments, [-jar], the jar and
    [nogui]; no timer was set. *)
Theorem loadAndStart_spawns (serverId actor : jsstring) (s : MinecraftServer)
  (w : World) (cfg : ServerConfig.t) :
  status s = OFFLINE \/ status s = CRASHED ->
  Fs.existsSync w (instanceDir s serverId) = true ->
  holds w (descriptorPath (instanceDir s serverId)) (DConfig cfg) ->
  let jarPath := Path.join (instanceDir s serverId) [ServerConfig.jarFile cfg] in
  Fs.existsSync w jarPath = true ->
  jarPath <> publicPath s -> jarPath <> tmpPath (publicPath s) ->
  spawnThrows w = None ->
  let r := loadAndStart serverId actor (s, w) in
  r.1 = Ret tt /\ status r.2.1 = STARTING /\ config r.2.1 = Some cfg
  /\ serverDir r.2.1 = Some (instanceDir s serverId)
  /\ process r.2.1 = Some {| pid := nextPid w; stdin := true |}
  /\ startTime r.2.1 = Some (now w)
  /\ head (trace r.2.2)
     = Some (Spawned (js "java") (javaArguments cfg jarPath) (instanceDir s serverId))
  /\ crashCount r.2.1 = 0%Z /\ intentionToStop r.2.1 = false
  /\ timers r.2.2 = timers w.
Proof. apply loadAndStart_ok. Qed.

Lemma loadAndStart_spawns_witness :
  let r := loadAndStart (js "main") (js "admin") (Demo.stopped, Demo.world) in
  r.1 = Ret tt /\ status r.2.1 = STARTING
  /\ head (trace r.2.2)
     = Some (Spawned (js "java")
               [js "-Xmx4G"; js "-Xms1G"; js "-jar";
                js "/srv/servers/main/server.jar"; js "nogui"]
               (Demo.servers ++ [js "main"])).
Proof.
  destruct (loadAndStart_spawns (js "main") (js "admin") Demo.stopped Demo.world
              (Demo.descriptor "main"))
    as (H1 & H2 & _ & _ & _ & _ & H3 & _).
  - left. reflexivity.
  - vm_compute. reflexivity.
  - split; [reflexivity | exists 1000%Z; vm_compute; reflexivity].
  - vm_compute. reflexivity.
  - vm_compute. discriminate.
  - vm_compute. discriminate.
  - reflexivity.
  - split; [exact H1 |]. split; [exact H2 |]. exact H3.
Defined.

Lemma createServer_keeps_env params :
  keeps (fun s : Sys => (spawnThrows s.2, nextPid s.2, now s.2, intentionToStop s.1))
    (createServer params).
Proof. frame. Qed.

(** X10. An instance that was just created can be started: with the
    supervisor OFFLINE (or CRASHED), after a [createServer] that returned the
    identifier [id], [loadAndStart id] returns with the state STARTING and has
    spawned [java] in the new instance directory on the copied jar, with the
    heap sizes asked for at creation (4G and 1G by default). *)
Theorem created_server_starts (params : ServerCreationParams.t) (actor : jsstring)
  (s : MinecraftServer) (w : World) (id : jsstring) :
  status s = OFFLINE \/ status s = CRASHED ->
  spawnThrows w = None ->
  (createServer params (s, w)).1 = Ret id ->
  let created := (createServer params (s, w)).2 in
  let dir := instanceDir s id in
  let r := loadAndStart id actor created in
  r.1 = Ret tt /\ status r.2.1 = STARTING
  /\ serverDir r.2.1 = Some dir
  /\ process r.2.1 = Some {| pid := nextPid w; stdin := true |}
  /\ head (trace r.2.2)
     = Some (Spawned (js "java")
               [js "-Xmx" ++ orElse (ServerCreationParams.xmx params) (js "4G");
                js "-Xms" ++ orElse (ServerCreationParams.xms params) (js "1G");
                js "-jar"; Path.toString (dir ++ [js "server.jar"]); js "nogui"]
               dir).
Proof.
  intros Hst Hspawn H. cbv zeta. apply outcome_eq in H.
  pose proof (keeps_eq _ _ _ _ _ (createServer_keeps_env params) H) as Henv.
  cbn [fst snd] in Henv. injection Henv as E1 E2 E3 E4.
  destruct (createServer_result _ _ _ _ _ H)
    as (cfg & c & -> & R1 & R2 & R3 & R4 & R5 & R6 & R7 & R8 & R9 & R10 & R11
        & R12 & R13 & R14 & [b R15] & R16 & R17).
  cbv zeta in *.
  destruct (createServer params (s, w)).2 as [s' w'] eqn:E. cbn [fst snd] in *.
  set (dir := Path.join (serversDir s) [slug (ServerCreationParams.name params)]) in *.
  assert (Hinst : instanceDir s' (slug (ServerCreationParams.name params)) = dir)
    by (unfold instanceDir; rewrite R3; reflexivity).
  assert (Hjar : Path.join dir [ServerConfig.jarFile cfg] = dir ++ [js "server.jar"])
    by (rewrite R8; reflexivity).
  destruct (instance_file_private s' dir (js "server.jar")) as [P1 P2];
    [vm_compute; discriminate | vm_compute; discriminate |].
  destruct (loadAndStart_ok (slug (ServerCreationParams.name params)) actor s' w' cfg)
    as (L1 & L2 & L3 & L4 & L5 & L6 & L7 & _).
  - rewrite R4. exact Hst.
  - rewrite Hinst. exact R13.
  - rewrite Hinst. exact R12.
  - rewrite Hinst, Hjar. unfold Fs.existsSync.
    assert (Hn : Fs.lookupNode (files w') (dir ++ [js "server.jar"])
                 = Some {| node_of := File c; birthtimeMs := b |})
      by (destruct dir; exact R15).
    rewrite Hn. reflexivity.
  - rewrite Hinst, Hjar. exact P1.
  - rewrite Hinst, Hjar. exact P2.
  - rewrite E1. exact Hspawn.
  - cbv zeta in *. rewrite Hinst, Hjar in *.
    split; [exact L1 |]. split; [exact L2 |].
    split; [exact L4 |]. split; [rewrite L5, E2; reflexivity |].
    rewrite L7. unfold javaArguments. rewrite R11. reflexivity.
Qed.

Lemma created_server_starts_witness :
  let created := (createServer (Demo.params "My Test!") (Demo.fresh, Demo.world)).2 in
  let r := loadAndStart (js "my-test-") (js "admin") created in
  r.1 = Ret tt /\ status r.2.1 = STARTING
  /\ head (trace r.2.2)
     = Some (Spawned (js "java")
               [js "-Xmx2G"; js "-Xms1G"; js "-jar";
                js "/srv/servers/my-test-/server.jar"; js "nogui"]
               (Demo.servers ++ [js "my-test-"])).
Proof.
  destruct (created_server_starts (Demo.params "My Test!") (js "admin") Demo.fresh
              Demo.world (js "my-test-"))
    as (H1 & H2 & _ & _ & H3).
  - left. reflexivity.
  - reflexivity.
  - vm_compute. reflexivity.
  - split; [exact H1 |]. split; [exact H2 |]. exact H3.
Defined.

(** ** Names that become paths *)

(** Replacing every match of a one-unit class. *)
Lemma replace_go_class fuel p by_ s :
  (length s < fuel)%nat ->
  replace_go fuel (Cls p) by_ s = flat_map (fun c => if p c then by_ else [c]) s.
Proof.
  revert s. induction fuel as [|fuel IH]; intros s H; [lia |].
  destruct s as [|c s]; [reflexivity |].
  cbn [replace_go flat_map]. unfold matchAt. cbn [backtrack length] in *.
  destruct (p c).
  - replace (length s <? Datatypes.S (length s))%nat with true
      by (symmetry; apply Nat.ltb_lt; lia).
    rewrite IH by lia. reflexivity.
  - rewrite IH by lia. reflexivity.
Qed.

Lemma replaceAll_class p by_ s :
  replaceAll (Cls p) by_ s = flat_map (fun c => if p c then by_ else [c]) s.
Proof. unfold replaceAll. apply replace_go_class. lia. Qed.

Lemma Forall_flat_map {A B} (P : B -> Prop) (f : A -> list B) (l : list A) :
  (forall x, x ∈ l -> Forall P (f x)) -> Forall P (flat_map f l).
Proof.
  induction l as [|x l IH]; intros H; cbn [flat_map]; [constructor |].
  apply Forall_app. split; [apply H; left |]. apply IH. intros y Hy. apply H. right. exact Hy.
Qed.

Lemma slug_units name : Forall (fun c => idUnit c = true) (slug name).
Proof.
  unfold slug, slugPattern. rewrite replaceAll_class.
  apply Forall_flat_map. intros c _. unfold idUnit.
  destruct (in_range 97 122 c || in_range 48 57 c) eqn:E; cbn [negb].
  - repeat constructor. rewrite E. reflexivity.
  - repeat constructor.
Qed.

Lemma slug_nonempty name : name <> [] -> slug name <> [].
Proof.
  unfold slug, slugPattern. rewrite replaceAll_class.
  destruct name as [|c name]; [congruence |]. intros _.
  unfold toLowerCase. cbn [flat_map].
  assert (H : exists d l, lowerUnit c = d :: l)
    by (unfold lowerUnit; repeat case_if; eauto).
  destruct H as (d & l & ->). cbn [app flat_map].
  destruct (negb _); discriminate.
Qed.

(** A name without a slash is one component. *)
Lemma split_go_plain c cur (l : jsstring) :
  c ∉ l -> split_go [c] 0 cur l = [rev cur ++ l].
Proof.
  revert cur. induction l as [|d l IH]; intros cur H; cbn [split_go startsWith].
  - rewrite app_nil_r. reflexivity.
  - assert (Hd : (c =? d) = false)
      by (apply N.eqb_neq; intros ->; apply H; left).
    rewrite Hd. cbn [andb]. rewrite IH by (intros Hin; apply H; right; exact Hin).
    cbn [rev]. rewrite <- app_assoc. reflexivity.
Qed.

Lemma join_plain (root : path) (name : jsstring) :
  47 ∉ name -> name <> [] -> name <> js "." -> name <> js ".." ->
  Path.join root [name] = root ++ [name].
Proof.
  intros H1 H2 H3 H4. unfold Path.join. cbn [flat_map].
  change (js "/") with [47]. unfold split. rewrite (split_go_plain 47 [] name H1).
  cbn [rev app fold_left]. unfold push.
  rewrite bool_decide_eq_false_2 by (intros [? | ?]; congruence).
  rewrite bool_decide_eq_false_2 by assumption. reflexivity.
Qed.

Lemma idUnits_plain (name : jsstring) :
  Forall (fun c => idUnit c = true) name ->
  (47 ∉ name) /\ name <> js "." /\ name <> js "..".
Proof.
  intros H. split; [| split].
  - intros Hin. rewrite Forall_forall in H. specialize (H _ Hin). discriminate H.
  - intros ->. inversion H as [|? ? Hc _]. discriminate Hc.
  - intros ->. inversion H as [|? ? Hc _]. discriminate Hc.
Qed.

(** X11. The identifier [createServer] derives is made of lower-case
    letters, digits and dashes only, whatever the name; so the directory of
    the new instance is always a direct child of the servers directory (the
    servers directory itself for the empty name): no name, with slashes or
    dots in it, leads [path.join] out of the servers directory. *)
Theorem createServer_identifier_is_plain (name : jsstring) (root : path) :
  Forall (fun c => idUnit c = true) (slug name)
  /\ (name <> [] -> Path.join root [slug name] = root ++ [slug name])
  /\ (name = [] -> Path.join root [slug name] = root).
Proof.
  split; [apply slug_units |]. split.
  - intros Hne. destruct (idUnits_plain _ (slug_units name)) as (H1 & H2 & H3).
    apply join_plain; try assumption. apply slug_nonempty, Hne.
  - intros ->. reflexivity.
Qed.

Lemma createServer_identifier_is_plain_witness :
  Path.join Demo.servers [slug (js "../../etc/Passwd")]
  = Demo.servers ++ [js "------etc-passwd"].
Proof.
  rewrite (proj1 (proj2 (createServer_identifier_is_plain (js "../../etc/Passwd")
                           Demo.servers)));
    [reflexivity | discriminate].
Defined.

(** ** Reading JSON files back *)

Lemma corruptPath_neq (p : path) : Utils.corruptPath p <> p.
Proof.
  unfold Utils.corruptPath. destruct (last p) as [name|] eqn:Hlast.
  - intros H. apply (f_equal last) in H. rewrite last_snoc, Hlast in H.
    injection H as H. apply (f_equal length) in H. rewrite length_app in H.
    cbn in H. lia.
  - apply last_None in Hlast. subst p. discriminate.
Qed.

Lemma guard_run op w : Fs.guard op w = (match fault w op with Some _ => Throw Fs.EIO | None => Ret tt end, w).
Proof. unfold Fs.guard. destruct (fault w op); reflexivity. Qed.

Lemma readFileSync_run p w :
  Fs.readFileSync p w
  = (match fault w (OpRead p), Fs.lookupNode (files w) p with
     | Some _, _ => Throw Fs.EIO
     | None, Some {| node_of := File c |} => Ret c
     | None, Some {| node_of := Dir |} => Throw Fs.EISDIR
     | None, None => Throw Fs.ENOENT
     end, w).
Proof.
  unfold Fs.readFileSync, bind. rewrite guard_run.
  destruct (fault w _); [reflexivity |].
  destruct (Fs.lookupNode _ _) as [[[c|] b]|]; reflexivity.
Qed.

Lemma copyFileSync_run src dst w :
  Fs.copyFileSync src dst w
  = match fault w (OpCopy src dst) with
    | Some _ => (Throw Fs.EIO, w)
    | None =>
        match fault w (OpRead src), Fs.lookupNode (files w) src with
        | Some _, _ => (Throw Fs.EIO, w)
        | None, Some {| node_of := File c |} => Fs.writeFileSync dst c w
        | None, Some {| node_of := Dir |} => (Throw Fs.EISDIR, w)
        | None, None => (Throw Fs.ENOENT, w)
        end
    end.
Proof.
  unfold Fs.copyFileSync. unfold bind at 1. rewrite guard_run.
  destruct (fault w (OpCopy _ _)); [reflexivity |].
  unfold bind. rewrite readFileSync_run.
  destruct (fault w (OpRead src)); [reflexivity |].
  destruct (Fs.lookupNode _ _) as [[[c|] b]|]; reflexivity.
Qed.

(** The copy kept of a file that did not parse changes nothing but the
    copy. *)
Lemma copy_aside p w :
  let r := try_catch (Fs.copyFileSync p (Utils.corruptPath p)) (fun _ => ret tt) w in
  r.1 = Ret tt
  /\ (forall q, q <> Utils.corruptPath p -> files r.2 !! q = files w !! q)
  /\ fault r.2 = fault w.
Proof.
  cbv zeta. unfold try_catch. rewrite copyFileSync_run.
  destruct (fault w (OpCopy _ _)); [cbn; auto |].
  destruct (fault w (OpRead p)); [cbn; auto |].
  destruct (Fs.lookupNode _ _) as [[[c|] b]|]; [| cbn; auto ..].
  destruct (writeFileSync_spec (Utils.corruptPath p) c w) as (Ho & _ & Hf).
  cbv zeta in *.
  destruct (Fs.writeFileSync _ c w) as [[[]|e] w1]; cbn [fst snd ret] in *; auto.
Qed.

(** What [readJsonSafe] does when the file is there and does not parse. *)
Lemma fallback_run (p : path) (dflt : document) (e : exn) (w : World) :
  bind (emit (ConsoleError
          (js "[System] Warning: Failed to parse JSON at " ++ toString p
           ++ js ". Using default value. Error: " ++ exn_message e)))
    (fun _ => bind (try_catch (Fs.copyFileSync p (Utils.corruptPath p))
                      (fun _ => ret tt))
                (fun _ => ret dflt)) w
  = (Ret dflt,
     (try_catch (Fs.copyFileSync p (Utils.corruptPath p)) (fun _ => ret tt)
        (set_trace (cons (ConsoleError
           (js "[System] Warning: Failed to parse JSON at " ++ toString p
            ++ js ". Using default value. Error: " ++ exn_message e))) w)).2).
Proof.
  unfold bind at 1. unfold emit, modify. cbn [fst snd].
  match goal with |- bind _ _ ?x = _ => set (w1 := x) end.
  destruct (copy_aside p w1) as (C1 & _). cbv zeta in C1.
  unfold bind. destruct (try_catch _ _ w1) as [[[]|e'] w2]; cbn [fst snd] in *;
    [reflexivity | discriminate C1].
Qed.

Lemma readJsonSafe_eq (p : path) (dflt : document) (w : World) :
  Utils.readJsonSafe p dflt w
  = if negb (Fs.existsSync w p) then (Ret dflt, w)
    else
      let aside e :=
        (Ret dflt,
         (try_catch (Fs.copyFileSync p (Utils.corruptPath p)) (fun _ => ret tt)
            (set_trace (cons (ConsoleError
               (js "[System] Warning: Failed to parse JSON at " ++ toString p
                ++ js ". Using default value. Error: " ++ exn_message e))) w)).2) in
      match fault w (OpRead p), Fs.lookupNode (files w) p with
      | Some _, _ => aside Fs.EIO
      | None, Some {| node_of := File (Json d) |} => (Ret d, w)
      | None, Some {| node_of := File (Text t) |} =>
          if bool_decide (trim t = []) then (Ret dflt, w)
          else aside (Error (js "Unexpected token in JSON"))
      | None, Some {| node_of := File Torn |} =>
          aside (Error (js "Unexpected end of JSON input"))
      | None, Some {| node_of := Dir |} => aside Fs.EISDIR
      | None, None => aside Fs.ENOENT
      end.
Proof.
  unfold Utils.readJsonSafe, gets. unfold bind at 1. cbn [fst snd].
  destruct (Fs.existsSync w p); cbn [negb]; [| reflexivity].
  unfold try_catch at 1. unfold bind at 1. rewrite readFileSync_run. cbv zeta.
  destruct (fault w (OpRead p)); [apply fallback_run |].
  destruct (Fs.lookupNode (files w) p) as [[[[t|d|]|] b]|];
    try apply fallback_run; try reflexivity.
  destruct (bool_decide (trim t = [])); [reflexivity | apply fallback_run].
Qed.

Lemma readJsonSafe_run p dflt w :
  let r := Utils.readJsonSafe p dflt w in
  (exists d, r.1 = Ret d)
  /\ (forall q, q <> Utils.corruptPath p -> files r.2 !! q = files w !! q)
  /\ fault r.2 = fault w
  /\ (Fs.existsSync w p = false -> r = (Ret dflt, w))
  /\ (forall d, holds w p d -> r = (Ret d, w)).
Proof.
  cbv zeta. rewrite readJsonSafe_eq.
  assert (Aside : forall e,
            let w' := (try_catch (Fs.copyFileSync p (Utils.corruptPath p)) (fun _ => ret tt)
                         (set_trace (cons (ConsoleError
                            (js "[System] Warning: Failed to parse JSON at " ++ toString p
                             ++ js ". Using default value. Error: " ++ exn_message e))) w)).2 in
            (forall q, q <> Utils.corruptPath p -> files w' !! q = files w !! q)
            /\ fault w' = fault w).
  { intros e. cbv zeta.
    match goal with |- context [try_catch _ _ ?x] => destruct (copy_aside p x) as (_ & C2 & C3) end.
    cbv zeta in *. split; [exact C2 | exact C3]. }
  destruct (Fs.existsSync w p) eqn:Hex; cbn [negb].
  2: { cbn [fst snd]. repeat split; eauto.
       intros d (_ & b & H). unfold Fs.existsSync in Hex. rewrite H in Hex. discriminate. }
  cbv zeta.
  destruct (fault w (OpRead p)) eqn:Hf.
  { destruct (Aside Fs.EIO) as (F2 & F3). cbv zeta in *. cbn [fst snd].
    repeat split; eauto; try discriminate. intros d (Hf' & _). congruence. }
  destruct (Fs.lookupNode (files w) p) as [[[[t|d|]|] b]|] eqn:Hn.
  - destruct (bool_decide (trim t = [])).
    + cbn [fst snd]. repeat split; eauto; try discriminate.
      intros d (_ & b' & H). congruence.
    + destruct (Aside (Error (js "Unexpected token in JSON"))) as (F2 & F3).
      cbv zeta in *. cbn [fst snd]. repeat split; eauto; try discriminate.
      intros d (_ & b' & H). congruence.
  - cbn [fst snd]. repeat split; eauto; try discriminate.
    intros d' (_ & b' & H). congruence.
  - destruct (Aside (Error (js "Unexpected end of JSON input"))) as (F2 & F3).
    cbv zeta in *. cbn [fst snd]. repeat split; eauto; try discriminate.
    intros d (_ & b' & H). congruence.
  - destruct (Aside Fs.EISDIR) as (F2 & F3). cbv zeta in *. cbn [fst snd].
    repeat split; eauto; try discriminate. intros d (_ & b' & H). congruence.
  - unfold Fs.existsSync in Hex. rewrite Hn in Hex. discriminate Hex.
Qed.

Lemma writeJsonAtomic_root d w : (writeJsonAtomic [] d w).1 <> Ret tt.
Proof.
  unfold writeJsonAtomic.
  destruct (Fs.writeFileSync (tmpPath []) (Json d) w) as [[[]|e] w1] eqn:E1.
  - destruct (Fs.renameSync (tmpPath []) [] w1) as [[[]|e] w2] eqn:E2.
    + exfalso.
      destruct (writeFileSync_spec (tmpPath []) (Json d) w) as (_ & Hnew & _).
      cbv zeta in Hnew. rewrite E1 in Hnew. cbn [fst snd] in Hnew.
      destruct (Hnew eq_refl) as [b Hb].
      unfold Fs.renameSync in E2.
      apply bind_Ret_inv in E2 as ([] & wg & G & E2).
      rewrite guard_run in G.
      assert (wg = w1) by (destruct (fault w1 _); congruence). subst wg.
      cbv beta in E2. unfold Fs.lookupNode at 1 in E2.
      change (tmpPath []) with [js ".tmp"] in *.
      rewrite Hb, lookup_insert_eq in E2. cbn in E2. discriminate E2.
    + erewrite try_catch_Throw by (erewrite bind_Ret by exact E1; exact E2).
      unfold bind, emit, modify, throw. cbn [fst]. discriminate.
  - erewrite try_catch_Throw by (erewrite bind_Throw by exact E1; reflexivity).
    unfold bind, emit, modify, throw. cbn [fst]. discriminate.
Qed.

Lemma writeJsonAtomic_holds p d w :
  (writeJsonAtomic p d w).1 = Ret tt -> fault w (OpRead p) = None ->
  holds (writeJsonAtomic p d w).2 p d.
Proof.
  intros H Hf. destruct (writeJsonAtomic_spec p d w) as (_ & _ & Hnew & Hfault).
  cbv zeta in *. destruct (Hnew H) as [b Hb]. split; [rewrite Hfault; exact Hf |].
  exists b. destruct p as [|x p]; [| exact Hb].
  exfalso. apply (writeJsonAtomic_root d w H).
Qed.

(** X12. What [writeJsonAtomic] wrote, [readJsonSafe] of the utilities reads
    back: after a write that succeeded, reading the file returns the document
    written, not the default, and changes nothing.  In particular
    [getConfig] returns the panel configuration [saveConfig] saved. *)
Theorem written_json_reads_back :
  (forall p d dflt w,
      (writeJsonAtomic p d w).1 = Ret tt -> fault w (OpRead p) = None ->
      let w' := (writeJsonAtomic p d w).2 in
      Utils.readJsonSafe p dflt w' = (Ret d, w'))
  /\ (forall CONFIG_FILE data w,
         (saveConfig CONFIG_FILE data w).1 = Ret tt ->
         fault w (OpRead CONFIG_FILE) = None ->
         let w' := (saveConfig CONFIG_FILE data w).2 in
         Server.getConfig CONFIG_FILE w' = (Ret (DPanel data), w')).
Proof.
  assert (H : forall p d dflt w,
             (writeJsonAtomic p d w).1 = Ret tt -> fault w (OpRead p) = None ->
             Utils.readJsonSafe p dflt (writeJsonAtomic p d w).2
             = (Ret d, (writeJsonAtomic p d w).2)).
  { intros p d dflt w Hw Hf.
    destruct (readJsonSafe_run p dflt (writeJsonAtomic p d w).2) as (_ & _ & _ & _ & R).
    apply R, writeJsonAtomic_holds; assumption. }
  split; [exact H |].
  intros C data w Hw Hf. apply H; assumption.
Qed.

Lemma written_json_reads_back_witness :
  let data := {| PanelConfig.panelPort := 8080;
                 PanelConfig.activeServer := Some (js "other");
                 PanelConfig.theme := js "light" |} in
  (Server.getConfig [js "srv"; js "config.json"]
     (saveConfig [js "srv"; js "config.json"] data Demo.world).2).1
  = Ret (DPanel data).
Proof.
  cbv zeta.
  rewrite (proj2 written_json_reads_back [js "srv"; js "config.json"] _ Demo.world);
    [reflexivity | vm_compute; reflexivity | reflexivity].
Defined.

Lemma removelast_corruptPath (p : path) :
  removelast (Utils.corruptPath p) = removelast p.
Proof.
  unfold Utils.corruptPath. destruct (last p) as [name|] eqn:E.
  - apply removelast_snoc.
  - apply last_None in E. subst p. reflexivity.
Qed.

(** X13. [readJsonSafe] of the utilities never throws and never touches the
    file it reads.  A missing file gives the default.  A file that does not
    parse gives the default too, and when nothing fails on the way a copy
    of its content is left beside it, under the same name with [.corrupt]
    appended. *)
Theorem readJsonSafe_falls_back (p : path) (dflt : document) (w : World) :
  let r := Utils.readJsonSafe p dflt w in
  (exists d, r.1 = Ret d)
  /\ files r.2 !! p = files w !! p
  /\ (Fs.existsSync w p = false -> r = (Ret dflt, w))
  /\ (forall c b,
        Fs.lookupNode (files w) p = Some {| node_of := File c; birthtimeMs := b |} ->
        unparsable c ->
        (forall op, fault w op = None) ->
        Fs.isDir (files w) (removelast p) = true ->
        Fs.isDir (files w) (Utils.corruptPath p) = false ->
        r.1 = Ret dflt
        /\ exists b', files r.2 !! Utils.corruptPath p
                      = Some {| node_of := File c; birthtimeMs := b' |}).
Proof.
  cbv zeta.
  destruct (readJsonSafe_run p dflt w) as (R1 & R2 & _ & R4 & _). cbv zeta in *.
  split; [exact R1 |].
  split; [apply R2; intros E; symmetry in E; exact (corruptPath_neq p E) |].
  split; [exact R4 |].
  intros c b Hn Hbad Hfault Hparent Hfree.
  rewrite readJsonSafe_eq.
  replace (Fs.existsSync w p) with true by (unfold Fs.existsSync; rewrite Hn; reflexivity).
  cbn [negb]. cbv zeta. rewrite (Hfault (OpRead p)), Hn.
  assert (Copy : forall msg,
            exists b',
              files (try_catch (Fs.copyFileSync p (Utils.corruptPath p)) (fun _ => ret tt)
                       (set_trace (cons (ConsoleError msg)) w)).2
              !! Utils.corruptPath p
              = Some {| node_of := File c; birthtimeMs := b' |}).
  { intros msg. unfold try_catch. rewrite copyFileSync_run.
    change (fault (set_trace ?f w)) with (fault w).
    change (files (set_trace ?f w)) with (files w).
    rewrite !Hfault, Hn. unfold Fs.writeFileSync.
    change (fault (set_trace ?f w)) with (fault w).
    change (files (set_trace ?f w)) with (files w).
    rewrite Hfault, removelast_corruptPath, Hparent, Hfree. cbn [negb fst snd].
    eexists. cbn [files set_files]. apply lookup_insert_eq. }
  destruct Hbad as [-> | (t & -> & Ht)].
  - cbn [fst snd]. split; [reflexivity | apply Copy].
  - rewrite (bool_decide_eq_false_2 _ Ht). cbn [fst snd].
    split; [reflexivity | apply Copy].
Qed.

Lemma readJsonSafe_falls_back_witness :
  (Utils.readJsonSafe [js "srv"; js "servers"; js "main"; js "server.jar"]
     (DRefs []) Demo.world).1
  = Ret (DRefs []).
Proof.
  apply (proj2 (proj2 (proj2 (readJsonSafe_falls_back
           [js "srv"; js "servers"; js "main"; js "server.jar"] (DRefs []) Demo.world)))
           (Text (js "PK")) 1000%Z).
  - vm_compute. reflexivity.
  - right. exists (js "PK"). split; [reflexivity | vm_compute; discriminate].
  - reflexivity.
  - vm_compute. reflexivity.
  - vm_compute. reflexivity.
Defined.

(** ** Tokens *)

Lemma indexOf_at c (a b : jsstring) : c ∉ a -> indexOf c (a ++ c :: b) = Some (length a).
Proof.
  induction a as [|d a IH]; intros H; cbn [app indexOf length].
  - rewrite N.eqb_refl. reflexivity.
  - assert (Hd : (d =? c) = false)
      by (apply N.eqb_neq; intros ->; apply H; left).
    rewrite Hd, IH; [reflexivity |]. intros Hin. apply H. right. exact Hin.
Qed.

Lemma indexOf_None c (s : jsstring) : c ∉ s -> indexOf c s = None.
Proof.
  induction s as [|d s IH]; intros H; cbn [indexOf]; [reflexivity |].
  assert (Hd : (d =? c) = false)
    by (apply N.eqb_neq; intros ->; apply H; left).
  rewrite Hd, IH; [reflexivity |]. intros Hin. apply H. right. exact Hin.
Qed.

(** X14. A token [type@value] is split at its first [@]: a type without
    [@] and any value, joined by [@], are given back as they were (the value
    may itself contain [@]); a token without [@] that is not empty is a
    [laplace] token; the empty token has neither type nor value. *)
Theorem parseTokenString_splits_at_first_at :
  (forall type value : jsstring,
      (64 ∉ type) ->
      Server.parseTokenString (type ++ js "@" ++ value) = (type, value))
  /\ (forall rawToken : jsstring,
         (64 ∉ rawToken) -> rawToken <> [] ->
         Server.parseTokenString rawToken = (js "laplace", rawToken))
  /\ Server.parseTokenString [] = ([], []).
Proof.
  split; [| split; [| reflexivity]].
  - intros type value H. unfold Server.parseTokenString.
    change (js "@") with [64]. cbn [app].
    rewrite bool_decide_eq_false_2 by (destruct type; discriminate).
    rewrite (indexOf_at 64 type value H), take_app_length.
    change (64 :: value) with ([64] ++ value). rewrite app_assoc.
    replace (Datatypes.S (length type)) with (length (type ++ [64]))
      by (rewrite length_app; cbn [length]; lia).
    rewrite drop_app_length. reflexivity.
  - intros rawToken H Hne. unfold Server.parseTokenString.
    rewrite bool_decide_eq_false_2 by exact Hne.
    rewrite (indexOf_None 64 rawToken H). reflexivity.
Qed.

Lemma parseTokenString_splits_at_first_at_witness :
  Server.parseTokenString (js "discord" ++ js "@" ++ js "1234@5678")
  = (js "discord", js "1234@5678").
Proof.
  apply (proj1 parseTokenString_splits_at_first_at). decided.
Defined.

(** ** Paths asked for by the file manager *)

Lemma startsWith_prefix (p s : jsstring) :
  startsWith p s = true <-> exists k, s = p ++ k.
Proof.
  revert s. induction p as [|a p IH]; intros s; cbn [startsWith].
  - split; [intros _; exists s; reflexivity | reflexivity].
  - destruct s as [|b s].
    + split; [discriminate | intros [k H]; discriminate H].
    + rewrite andb_true_iff, N.eqb_eq, IH. split.
      * intros [-> [k ->]]. exists k. reflexivity.
      * intros [k H]. injection H as -> ->. eauto.
Qed.

Lemma prefix_plain (a c k X : jsstring) :
  (47 ∉ a) -> a ++ k = c ++ X -> X = [] \/ head X = Some 47 ->
  exists b, c = a ++ b.
Proof.
  revert c. induction a as [|x a IH]; intros c Ha H HX.
  - exists c. reflexivity.
  - destruct c as [|y c].
    + cbn [app] in H. destruct HX as [-> | HX]; [discriminate H |].
      destruct X as [|z X]; [discriminate HX |]. injection HX as ->.
      injection H as -> _. exfalso. apply Ha. left.
    + injection H as -> H.
      destruct (IH c) as [b ->]; [intros Hin; apply Ha; right; exact Hin | exact H | exact HX |].
      exists b. reflexivity.
Qed.

Lemma split_at_first (a c u v : jsstring) :
  (47 ∉ a) -> (47 ∉ c) -> a ++ 47 :: u = c ++ 47 :: v -> a = c /\ u = v.
Proof.
  revert c. induction a as [|x a IH]; intros c Ha Hc H.
  - destruct c as [|y c]; [injection H as ->; auto |].
    injection H as <- _. exfalso. apply Hc. left.
  - destruct c as [|y c].
    + injection H as -> _. exfalso. apply Ha. left.
    + injection H as -> H.
      destruct (IH c) as [-> ->];
        [intros Hin; apply Ha; right; exact Hin
        | intros Hin; apply Hc; right; exact Hin | exact H |].
      auto.
Qed.

Lemma join_cons (c : jsstring) (p : path) :
  JsString.join [47] (c :: p)
  = c ++ match p with [] => [] | _ => 47 :: JsString.join [47] p end.
Proof. destruct p; cbn [JsString.join app]; [rewrite app_nil_r |]; reflexivity. Qed.

Lemma joined_prefix (r t : path) (k : jsstring) :
  normalised r -> normalised t -> r <> [] ->
  JsString.join [47] t = JsString.join [47] r ++ k ->
  exists parent name more rest,
    r = parent ++ [name] /\ t = parent ++ (name ++ more) :: rest.
Proof.
  intros Hr. revert t k. induction Hr as [|a r [Ha1 Ha2] Hr IH]; intros t k Ht Hne H;
    [congruence |].
  destruct t as [|c t].
  { exfalso. rewrite join_cons in H. destruct a; [congruence | discriminate H]. }
  inversion Ht as [|? ? [Hc1 Hc2] Ht']; subst.
  rewrite !join_cons in H. destruct r as [|a' r].
  - rewrite app_nil_r in H. symmetry in H.
    destruct (prefix_plain a c k _ Ha2 H) as [b ->];
      [destruct t; [left | right]; reflexivity |].
    exists [], a, b, t. split; reflexivity.
  - rewrite <- app_assoc in H. cbn [app] in H.
    destruct t as [|c' t].
    + exfalso. rewrite app_nil_r in H. apply Hc2. rewrite H.
      apply elem_of_app. right. left.
    + destruct (split_at_first c a _ _ Hc2 Ha2 H) as [-> H'].
      destruct (IH (c' :: t) k Ht' ltac:(discriminate) H')
        as (parent & name & more & rest & E1 & E2).
      exists (a :: parent), name, more, rest. rewrite E1, E2. split; reflexivity.
Qed.

Lemma not_elem_of_rev {A} (x : A) (l : list A) : x ∉ l -> x ∉ rev l.
Proof.
  intros H Hin. apply H. apply list_elem_of_In, in_rev, list_elem_of_In. exact Hin.
Qed.

Lemma split_go_noslash (cur s : jsstring) :
  (47 ∉ cur) -> Forall (fun c : jsstring => 47 ∉ c) (split_go [47] 0 cur s).
Proof.
  revert cur. induction s as [|d s IH]; intros cur H; cbn [split_go startsWith].
  - constructor; [| constructor]. apply not_elem_of_rev, H.
  - destruct (47 =? d) eqn:E; cbn [andb length Nat.sub].
    + constructor; [apply not_elem_of_rev, H |].
      apply IH. apply not_elem_of_nil.
    + apply IH. intros Hin. apply elem_of_cons in Hin as [Hd | Hin]; [| exact (H Hin)].
      rewrite <- Hd, N.eqb_refl in E. discriminate E.
Qed.

Lemma push_normalised (acc : path) (seg : jsstring) :
  normalised acc -> (47 ∉ seg) -> normalised (push acc seg).
Proof.
  intros Hacc Hseg. unfold push.
  destruct (bool_decide (seg = [] ∨ seg = js ".")) eqn:E1; [exact Hacc |].
  destruct (bool_decide (seg = js "..")); [| apply Forall_app; split; [exact Hacc |]].
  - clear E1. induction Hacc as [|c acc Hc Hacc IH]; [constructor |].
    destruct acc as [|c' acc]; [constructor |]. cbn [removelast] in *.
    constructor; [exact Hc | exact IH].
  - constructor; [| constructor]. split; [| exact Hseg].
    apply bool_decide_eq_false_1 in E1. intros ->. apply E1. left. reflexivity.
Qed.

Lemma join_normalised (base : path) (parts : list jsstring) :
  normalised base -> normalised (Path.join base parts).
Proof.
  intros Hbase. unfold Path.join.
  assert (Hsegs : Forall (fun c : jsstring => 47 ∉ c) (flat_map (split (js "/")) parts)).
  { apply Forall_flat_map. intros part _. apply split_go_noslash, not_elem_of_nil. }
  revert base Hbase. induction Hsegs as [|seg segs Hseg _ IH]; intros base Hbase;
    cbn [fold_left]; [exact Hbase |].
  apply IH, push_normalised; assumption.
Qed.

Lemma toString_prefix (r t : path) :
  r `prefix_of` t -> startsWith (Path.toString r) (Path.toString t) = true.
Proof.
  intros [k ->]. apply startsWith_prefix. unfold Path.toString.
  change (js "/") with [47]. cbn [app].
  induction r as [|c r IH].
  - exists (JsString.join [47] k). reflexivity.
  - destruct IH as [u IH]. injection IH as IH. cbn [app].
    rewrite !join_cons. destruct r as [|c' r].
    + cbn [app]. rewrite app_nil_r. eexists. cbn [app]. reflexivity.
    + cbn [app] in *. rewrite IH. exists u. cbn [app]. rewrite <- !app_assoc. reflexivity.
Qed.

(** X15. What [validatePath] lets through.  With an active instance in the
    panel configuration and its directory [root], a requested path is
    resolved against [root] and then either returned or refused as a
    traversal.  Every target at or below [root] is returned.  A target that
    is returned is at or below [root], or at or below a sibling directory
    whose name begins with the name of [root] (the test compares the two
    paths as strings).  Without an active instance every request is
    refused. *)
Theorem validatePath_scope (SERVERS_DIR CONFIG_FILE : path)
  (requestedPath : jsstring) (w : World) (config : document) :
  normalised SERVERS_DIR ->
  (Server.getConfig CONFIG_FILE w).1 = Ret config ->
  let r := Server.validatePath SERVERS_DIR CONFIG_FILE requestedPath w in
  match Server.activeServerOf config with
  | None => r.1 = Throw (Error (js "No active server selected"))
  | Some activeServer =>
      let root := Path.join SERVERS_DIR [activeServer] in
      let target := Path.join root [requestedPath] in
      (r.1 = Ret target
       \/ r.1 = Throw (Error (js "Access denied: Path traversal detected")))
      /\ (root `prefix_of` target -> r.1 = Ret target)
      /\ (r.1 = Ret target -> withinOrBeside root target)
  end.
Proof.
  intros Hnorm Hcfg. cbv zeta. unfold Server.validatePath.
  apply outcome_eq in Hcfg. rewrite (bind_Ret _ _ _ _ _ Hcfg).
  destruct (Server.activeServerOf config) as [activeServer|]; [| reflexivity].
  set (root := Path.join SERVERS_DIR [activeServer]).
  set (target := Path.join root [requestedPath]).
  destruct (startsWith (Path.toString root) (Path.toString target)) eqn:E; cbn [negb].
  - split; [left; reflexivity |]. split; [reflexivity |]. intros _.
    destruct root as [|c root'] eqn:Er; [left; reflexivity |]. right.
    apply startsWith_prefix in E as [k E]. unfold Path.toString in E.
    change (js "/") with [47] in E. cbn [app] in E. injection E as E.
    assert (Hroot : normalised (c :: root'))
      by (rewrite <- Er; apply join_normalised, Hnorm).
    apply (joined_prefix (c :: root') target k Hroot);
      [apply join_normalised, Hroot | discriminate | exact E].
  - split; [right; reflexivity |]. split; [| discriminate].
    intros Hin. rewrite (toString_prefix _ _ Hin) in E. discriminate E.
Qed.

Lemma validatePath_scope_witness :
  (Server.validatePath Demo.servers [js "srv"; js "config.json"]
     (js "/world/../server.properties") Demo.world).1
  = Ret (Demo.servers ++ [js "main"; js "server.properties"]).
Proof.
  pose proof (validatePath_scope Demo.servers [js "srv"; js "config.json"]
                (js "/world/../server.properties") Demo.world
                (DPanel {| PanelConfig.panelPort := 11228;
                           PanelConfig.activeServer := Some (js "main");
                           PanelConfig.theme := js "dark" |})) as H.
  cbv zeta in H. apply H.
  - repeat constructor; try discriminate; decided.
  - vm_compute. reflexivity.
  - exists [js "server.properties"]. vm_compute. reflexivity.
Defined.

(** The second alternative of [withinOrBeside] does occur: the instance
    [main] being active, a request that climbs to the sibling [main-old] is
    let through. *)
Example validatePath_beside :
  (Server.validatePath Demo.servers [js "srv"; js "config.json"]
     (js "../main-old/world") Demo.world).1
  = Ret (Demo.servers ++ [js "main-old"; js "world"]).
Proof. vm_compute. reflexivity. Qed.

(** ** Deleting an instance *)

Lemma rmSync_Ret p w w' :
  Fs.rmSync p w = (Ret tt, w') ->
  (forall q, p `prefix_of` q -> files w' !! q = None)
  /\ (forall q, ~ p `prefix_of` q -> files w' !! q = files w !! q)
  /\ fault w' = fault w.
Proof.
  intros H. unfold Fs.rmSync in H. apply bind_Ret_inv in H as ([] & wg & G & H).
  rewrite guard_run in G. assert (wg = w) by (destruct (fault w _); congruence). subst wg.
  unfold modify in H. injection H as <-. cbn [files set_files fault].
  split; [| split; [| reflexivity]].
  - intros q Hq. apply map_lookup_filter_None. right. intros i _ Hn. apply Hn, Hq.
  - intros q Hq. destruct (files w !! q) as [i|] eqn:E.
    + apply map_lookup_filter_Some. split; [exact E | exact Hq].
    + apply map_lookup_filter_None. left. exact E.
Qed.

(** A removal never brings a path into being. *)
Lemma rmSync_gone p q w w' :
  Fs.rmSync p w = (Ret tt, w') -> files w !! q = None -> files w' !! q = None.
Proof.
  intros H Hq. destruct (rmSync_Ret _ _ _ H) as (Hin & Hout & _).
  destruct (decide (p `prefix_of` q)) as [Hp | Hp]; [apply Hin, Hp |].
  rewrite (Hout q Hp). exact Hq.
Qed.

Lemma existsSync_false w q : q <> [] -> files w !! q = None <-> Fs.existsSync w q = false.
Proof.
  intros Hq. unfold Fs.existsSync, Fs.lookupNode. destruct q as [| a q]; [congruence |].
  destruct (files w !! (a :: q)); split; congruence.
Qed.

(** What a [deleteServer] that returns has done. *)
Lemma deleteServer_Ret (serverId : jsstring) (action : BackupAction)
    (s : MinecraftServer) (w : World) :
  let target := instanceDir s serverId in
  let backups := Path.join (Path.dirname (serversDir s)) [js "backups"; serverId] in
  let r := deleteServer serverId action (s, w) in
  r.1 = Ret tt -> target <> [] ->
  Fs.existsSync w target = true
  /\ (forall q, target `prefix_of` q -> files r.2.2 !! q = None)
  /\ (if isActive s serverId
      then status s = OFFLINE
           /\ config r.2.1 = None /\ serverDir r.2.1 = None /\ logs r.2.1 = []
      else config r.2.1 = config s /\ serverDir r.2.1 = serverDir s)
  /\ status r.2.1 = status s
  /\ (action = KEEP_ALL ->
      forall q, ~ target `prefix_of` q -> files r.2.2 !! q = files w !! q)
  /\ (action = DELETE_ALL -> backups <> [] -> Fs.existsSync r.2.2 backups = false)
  /\ (selectServer serverId r.2).1 = Throw (Error (js "Server ID not found")).
Proof.
  intros target backups r Hr Hroot.
  destruct r as [o after] eqn:Er. cbn [fst snd] in *. subst o.
  pose proof Er as H. subst r. unfold deleteServer in H.
  rewrite bind_this, bind_ask in H. cbn [fst snd] in H.
  fold (instanceDir s serverId) in H. fold target in H.
  destruct (Fs.existsSync w target) eqn:Hex; cbn [negb] in H;
    [| unfold throw in H; discriminate H].
  rewrite !bind_this in H. cbn [fst] in H.
  destruct (isActive s serverId && negb (bool_decide (status s = OFFLINE))) eqn:Hgate;
    [unfold throw in H; discriminate H |].
  rewrite bind_ask in H. cbn [snd] in H. fold backups in H.
  inv_ret H.
  destruct s0 as [s0 w0], s1 as [s1 w1], s2 as [s2 w2], s3 as [s3 w3], after as [s' w'].
  destruct a, a0, a1. apply io_Ret in E1 as [Hs Hrm]. subst s1.
  destruct (rmSync_Ret _ _ _ Hrm) as (Hin & Hout & _).
  unfold this, gets in E2. injection E2 as <- <- <-.
  assert (Hfiles : files w' = files w2) by (kept (fun s : Sys => files s.2) H).
  assert (Hdirs : serversDir s' = serversDir s).
  { transitivity (serversDir s2); [kept (fun s : Sys => serversDir s.1) H |].
    transitivity (serversDir s0); [kept (fun s : Sys => serversDir s.1) E0 |].
    kept (fun s : Sys => serversDir s.1) E. }
  assert (Hst : status s' = status s).
  { transitivity (status s2); [kept (fun s : Sys => status s.1) H |].
    transitivity (status s0); [kept (fun s : Sys => status s.1) E0 |].
    kept (fun s : Sys => status s.1) E. }
  assert (Hcfg : config s2 = config s).
  { transitivity (config s0); [kept (fun s : Sys => config s.1) E0 |].
    kept (fun s : Sys => config s.1) E. }
  assert (Hsd : serverDir s2 = serverDir s).
  { transitivity (serverDir s0); [kept (fun s : Sys => serverDir s.1) E0 |].
    kept (fun s : Sys => serverDir s.1) E. }
  assert (Hact : isActive s2 serverId = isActive s serverId)
    by (unfold isActive; rewrite Hcfg; reflexivity).
  assert (Hgone : forall q, target `prefix_of` q -> files w' !! q = None)
    by (intros q Hq; rewrite Hfiles; apply Hin, Hq).
  cbn [fst snd]. split; [reflexivity |]. split; [exact Hgone |].
  split; [| split; [exact Hst |]].
  - rewrite Hact in H. destruct (isActive s serverId) eqn:Ea.
    + cbn [andb] in Hgate. apply negb_false_iff, bool_decide_eq_true in Hgate.
      split; [exact Hgate |]. unfold when in H.
      rewrite !bind_assign in H.
      split; [| split].
      * kept (fun s : Sys => config s.1) H.
      * kept (fun s : Sys => serverDir s.1) H.
      * kept (fun s : Sys => logs s.1) H.
    + unfold when, ret in H. injection H as <- <-. split; assumption.
  - split; [| split].
    + intros -> q Hq. rewrite Hfiles, (Hout q Hq).
      transitivity (files w0 !! q); [f_equal; kept (fun s : Sys => files s.2) E0 |].
      f_equal. destruct (Fs.existsSync w backups); unfold ret in E; congruence.
    + intros -> Hb. apply existsSync_false; [exact Hb |]. rewrite Hfiles.
      apply (rmSync_gone _ _ _ _ Hrm).
      replace (files w1) with (files w0) by (symmetry; kept (fun s : Sys => files s.2) E0).
      destruct (Fs.existsSync w backups) eqn:Eb.
      * inv_ret E. destruct s1 as [s1 w4]. apply io_Ret in E as [_ Hrb].
        apply (rmSync_Ret _ _ _ Hrb). reflexivity.
      * unfold ret in E. injection E as <- <-.
        apply existsSync_false; assumption.
    + rewrite selectServer_eq. unfold instanceDir. rewrite Hdirs.
      fold (instanceDir s serverId). fold target.
      replace (Fs.existsSync w' target) with false; [reflexivity |].
      symmetry. apply existsSync_false; [exact Hroot |]. apply Hgone. reflexivity.
Qed.

(** X16. A [deleteServer] that returns has removed the directory of the
    instance and everything under it; the instance was on disk, and if it was
    the selected one the supervisor was offline and now has no selection and an
    empty log buffer, while the selection of another instance is left alone.
    Keeping the backups leaves every path outside the directory as it was,
    the log file of the selected instance apart, to which the line that the
    call logs is appended; deleting them leaves no backup directory of the
    instance.  Selecting the deleted instance afterwards fails with "Server
    ID not found". *)
Theorem deleteServer_removes (serverId : jsstring) (action : BackupAction)
    (s : MinecraftServer) (w : World) :
  let target := instanceDir s serverId in
  let backups := Path.join (Path.dirname (serversDir s)) [js "backups"; serverId] in
  let r := deleteServer serverId action (s, w) in
  r.1 = Ret tt -> target <> [] ->
  Fs.existsSync w target = true
  /\ (forall q, target `prefix_of` q -> files r.2.2 !! q = None)
  /\ (if isActive s serverId
      then status s = OFFLINE
           /\ config r.2.1 = None /\ serverDir r.2.1 = None /\ logs r.2.1 = []
      else config r.2.1 = config s /\ serverDir r.2.1 = serverDir s)
  /\ status r.2.1 = status s
  /\ (action = KEEP_ALL ->
      forall q, ~ target `prefix_of` q -> logFile s <> Some q ->
                files r.2.2 !! q = files w !! q)
  /\ (action = DELETE_ALL -> backups <> [] -> Fs.existsSync r.2.2 backups = false)
  /\ (selectServer serverId r.2).1 = Throw (Error (js "Server ID not found")).
Proof.
  intros target backups r Hr Hroot.
  destruct (deleteServer_Ret serverId action s w Hr Hroot)
    as (H1 & H2 & H3 & H4 & H5 & H6 & H7).
  split; [exact H1 |]. split; [exact H2 |]. split; [exact H3 |]. split; [exact H4 |].
  split; [| split; [exact H6 | exact H7]].
  intros Ha q Hq _. apply (H5 Ha q Hq).
Qed.

Lemma deleteServer_removes_witness :
  let r := deleteServer (js "main") DELETE_ALL (Demo.stopped, Demo.world) in
  files r.2.2 !! (Demo.servers ++ [js "main"; js "server.jar"]) = None
  /\ config r.2.1 = None
  /\ Fs.existsSync r.2.2 [js "srv"; js "backups"; js "main"] = false
  /\ (selectServer (js "main") r.2).1 = Throw (Error (js "Server ID not found")).
Proof.
  destruct (deleteServer_removes (js "main") DELETE_ALL Demo.stopped Demo.world)
    as (_ & H1 & H2 & _ & _ & H3 & H4);
    [vm_compute; reflexivity | vm_compute; discriminate |].
  split; [apply H1; exists [js "server.jar"]; vm_compute; reflexivity |].
  split; [apply H2 |]. split; [apply H3; [reflexivity | vm_compute; discriminate] | exact H4].
Defined.

(** ** Output of the game *)

Lemma onStdout_quiet data s w :
  ready data = false \/ status s = ONLINE ->
  onStdout data (s, w) = (Ret tt, (log data LogEntry.info (s, w)).2).
Proof.
  intros H. unfold onStdout.
  rewrite (bind_total (log _ _)) by frame. cbv beta.
  fold (ready data). destruct (ready data) eqn:Hready; [| reflexivity].
  destruct H as [H | H]; [discriminate H |].
  rewrite bind_this.
  rewrite (ltac:(frame) : keeps (fun s : Sys => status s.1) (log data LogEntry.info)).
  cbn [fst]. rewrite H. reflexivity.
Qed.

(** X17. The readiness test is made on every chunk of output and in every
    state: a chunk that holds "Done" and "!", or "Listening on port", makes
    any state other than ONLINE (STARTING, but also STOPPING, CRASHED or
    OFFLINE) ONLINE, starts the status poller and, with a descriptor and no
    session, sets the timer of the first RCON attempt.  Any other chunk, and
    any chunk while ONLINE, is only logged: state, poller, timers and files
    stay as they are. *)
Theorem stdout_readiness (str : jsstring) (s : MinecraftServer) (w : World) :
  let r := onStdout str (s, w) in
  (ready str = true -> status s <> ONLINE ->
   status r.2.1 = ONLINE /\ statusInterval r.2.1 = Some 5000%Z
   /\ (rcon s = None -> is_Some (config s) ->
       r.1 = Ret tt /\ timers r.2.2 = timers w ++ [(RconAttempt 0, 3000%Z)]))
  /\ (ready str = false \/ status s = ONLINE ->
      r.1 = Ret tt /\ status r.2.1 = status s
      /\ statusInterval r.2.1 = statusInterval s
      /\ timers r.2.2 = timers w /\ files r.2.2 = files w
      /\ process r.2.1 = process s /\ rcon r.2.1 = rcon s).
Proof.
  cbv zeta. split.
  - intros Hready Hst. rewrite (onStdout_ready _ _ _ Hst Hready).
    set (s1 := (log str LogEntry.info (s, w)).2).
    set (s2 := (updateState ONLINE s1).2).
    assert (H1 : status s2.1 = ONLINE) by apply updateState_status.
    assert (H2 : statusInterval s2.1 = Some 5000%Z) by apply (updateState_poller ONLINE).
    destruct (updateState_frame ONLINE s1)
      as (_ & Hrcon & _ & _ & _ & Hcfg & _ & _ & Htimers & _).
    fold s2 in Hrcon, Hcfg, Htimers.
    assert (Hrcon1 : rcon s1.1 = rcon s)
      by apply (keeps_at (fun s : Sys => rcon s.1) (log str LogEntry.info) (s, w)
                  ltac:(frame)).
    assert (Hcfg1 : config s1.1 = config s)
      by apply (keeps_at (fun s : Sys => config s.1) (log str LogEntry.info) (s, w)
                  ltac:(frame)).
    assert (Htimers1 : timers s1.2 = timers w)
      by apply (keeps_at (fun s : Sys => timers s.2) (log str LogEntry.info) (s, w)
                  ltac:(frame)).
    clearbody s2. destruct s2 as [t2 w2]. cbn [fst snd] in *.
    split; [| split].
    + rewrite <- H1. apply (keeps_at (fun s : Sys => status s.1) (connectRcon 0)). frame.
    + rewrite <- H2.
      apply (keeps_at (fun s : Sys => statusInterval s.1) (connectRcon 0)). frame.
    + intros Hnone [cfg Hsome]. unfold connectRcon. rewrite !bind_this. cbn [fst snd].
      rewrite Hrcon, Hrcon1, Hnone, Hcfg, Hcfg1, Hsome.
      rewrite bool_decide_eq_false_2 by (intros [x Hx]; discriminate Hx).
      rewrite bool_decide_eq_true_2 by (eexists; reflexivity).
      cbn [orb negb Nat.ltb Nat.leb]. rewrite io_run.
      unfold setTimeout, emit, bind, modify. cbn [fst snd timers set_timers set_trace].
      split; [reflexivity |]. rewrite Htimers, Htimers1. reflexivity.
  - intros H. rewrite (onStdout_quiet _ _ _ H). cbn [fst snd].
    split; [reflexivity |].
    repeat split;
      match goal with
      | |- ?g = _ =>
          match eval pattern (log str LogEntry.info (s, w)).2 in g with
          | ?f _ => apply (keeps_at f (log str LogEntry.info) (s, w)); frame
          end
      end.
Qed.

Lemma stdout_readiness_witness :
  let r := onStdout (js "[12:00:01] [Async Chat Thread/INFO]: <Steve> Done!")
             (set_status STOPPING Demo.online, Demo.world) in
  status r.2.1 = ONLINE /\ statusInterval r.2.1 = Some 5000%Z
  /\ timers r.2.2 = [(RconAttempt 0, 3000%Z)].
Proof.
  destruct (stdout_readiness (js "[12:00:01] [Async Chat Thread/INFO]: <Steve> Done!")
              (set_status STOPPING Demo.online) Demo.world) as [H _].
  destruct H as (H1 & H2 & H3); [vm_compute; reflexivity | discriminate |].
  destruct H3 as [_ H3]; [reflexivity | eexists; reflexivity |].
  split; [exact H1 |]. split; [exact H2 | exact H3].
Defined.

(** ** Commands that fail *)

Lemma executeCommand_active actor cmd s w :
  status s = ONLINE \/ status s = STARTING ->
  executeCommand actor cmd (s, w)
  = let s1 := (log (js "[" ++ actor ++ js "] /" ++ cmd) LogEntry.info (s, w)).2 in
    match rcon s, process s with
    | Some {| socket := true |}, _ =>
        try_catch
          (bind (rconSend cmd) (fun response => ret (replaceAll colorPattern [] response)))
          (fun e => bind (logError (js "RCON Error: " ++ exn_message e)) (fun _ => throw e))
          s1
    | _, Some {| stdin := true |} =>
        try_catch
          (bind (stdinWrite (cmd ++ [10]))
             (fun _ => ret (js "Command sent to process stdin (RCON unavailable).")))
          (fun _ => throw (Error (js "Failed to write to stdin")))
          s1
    | _, _ => (Throw (Error (js "No execution interface available.")), s1)
    end.
Proof.
  intros Hst. cbv zeta. unfold executeCommand.
  rewrite bind_this. cbn [fst].
  replace (negb (bool_decide (status s = ONLINE)) && negb (bool_decide (status s = STARTING)))
    with false
    by (destruct Hst as [-> | ->]; reflexivity).
  rewrite (bind_total (log _ _)) by frame.
  set (s1 := (log _ _ _).2).
  assert (H1 : rcon s1.1 = rcon s)
    by apply (ltac:(frame) : keeps (fun s : Sys => rcon s.1) (log _ _)).
  assert (H2 : process s1.1 = process s)
    by apply (ltac:(frame) : keeps (fun s : Sys => process s.1) (log _ _)).
  rewrite !bind_this. rewrite H1, H2.
  destruct (rcon s) as [[[]]|], (process s) as [[? []]|]; reflexivity.
Qed.

(** X18. How [executeCommand] fails.  In a state other than ONLINE and
    STARTING it throws before doing anything: nothing is logged or sent.  With
    a session, an error of the RCON exchange is thrown on to the caller as it
    is, and the command is not retried over the standard input.  Without a
    session, a broken pipe gives "Failed to write to stdin", and a process
    without standard input, or no process, gives "No execution interface
    available."; nothing reaches the standard input in either case. *)
Theorem executeCommand_failures (actor cmd : jsstring) (s : MinecraftServer) (w : World) :
  let r := executeCommand actor cmd (s, w) in
  (status s <> ONLINE -> status s <> STARTING ->
   r = (Throw (Error (js "Server not active. Start it first.")), (s, w)))
  /\ (status s = ONLINE \/ status s = STARTING ->
      (forall e, rcon s = Some {| socket := true |} -> rconReply w cmd = Throw e ->
         r.1 = Throw e /\ stdinWrites r.2.2 = stdinWrites w)
      /\ (rcon s <> Some {| socket := true |} ->
          (forall p, process s = Some p -> stdin p = true -> stdinThrows w = true ->
             r.1 = Throw (Error (js "Failed to write to stdin"))
             /\ stdinWrites r.2.2 = stdinWrites w)
          /\ ((forall p, process s = Some p -> stdin p = false) ->
              r.1 = Throw (Error (js "No execution interface available."))
              /\ stdinWrites r.2.2 = stdinWrites w))).
Proof.
  cbv zeta. split.
  - intros H1 H2. unfold executeCommand. rewrite bind_this. cbn [fst].
    rewrite !bool_decide_eq_false_2 by assumption. reflexivity.
  - intros Hst. rewrite (executeCommand_active _ _ _ _ Hst). cbv zeta.
    set (s1 := (log _ _ _).2).
    assert (H1 : stdinWrites s1.2 = stdinWrites w)
      by apply (ltac:(frame) : keeps (fun s : Sys => stdinWrites s.2) (log _ _)).
    assert (H2 : rconReply s1.2 = rconReply w)
      by apply (ltac:(frame) : keeps (fun s : Sys => rconReply s.2) (log _ _)).
    assert (H3 : stdinThrows s1.2 = stdinThrows w)
      by apply (ltac:(frame) : keeps (fun s : Sys => stdinThrows s.2) (log _ _)).
    clearbody s1. destruct s1 as [t1 w1]. cbn [fst snd] in *.
    split.
    + intros e Hrcon Hreply. rewrite Hrcon.
      assert (E : bind (rconSend cmd)
                    (fun response => ret (replaceAll colorPattern [] response)) (t1, w1)
                  = (Throw e, (t1, set_trace (cons (RconSend cmd)) w1))).
      { unfold rconSend, bind. rewrite io_run. unfold emit, modify.
        cbn [fst snd set_trace rconReply]. rewrite H2, Hreply. reflexivity. }
      rewrite (try_catch_Throw _ _ _ _ _ E).
      rewrite (bind_total (logError _)) by frame. unfold throw. cbn [fst snd].
      split; [reflexivity |].
      rewrite (keeps_at (fun s : Sys => stdinWrites s.2) (logError _)) by frame.
      cbn [snd]. exact H1.
    + intros Hrcon. split.
      * intros p Hp Hin Hpipe. rewrite Hp. destruct p as [n i]. cbn [stdin] in Hin. subst i.
        assert (E : bind (stdinWrite (cmd ++ [10]))
                      (fun _ => ret (js "Command sent to process stdin (RCON unavailable)."))
                      (t1, w1)
                    = (Throw (Error (js "write EPIPE")), (t1, w1))).
        { apply bind_Throw. unfold stdinWrite. rewrite bind_ask. cbn [snd]. rewrite H3, Hpipe. reflexivity. }
        destruct (rcon s) as [[[]]|]; [congruence | |];
          rewrite (try_catch_Throw _ _ _ _ _ E); unfold throw; cbn [fst snd];
          (split; [reflexivity | exact H1]).
      * intros Hnone.
        destruct (rcon s) as [[[]]|]; [congruence | |];
          (destruct (process s) as [[n []]|];
           [specialize (Hnone _ eq_refl); discriminate Hnone | |]);
          cbn [fst snd]; (split; [reflexivity | exact H1]).
Qed.

Lemma executeCommand_failures_witness :
  let silent :=
    {| files := Demo.disk; fault := fun _ => None; now := 1709210096789;
       entropy := N.of_nat; drawn := 0; timers := []; appends := []; trace := [];
       nextPid := 4000; spawnThrows := None; rconListening := true;
       rconReply := fun _ => Throw (Error (js "read ECONNRESET"));
       stdinThrows := false |} in
  let r := executeCommand (js "admin") (js "say hi") (Demo.connected, silent) in
  r.1 = Throw (Error (js "read ECONNRESET")) /\ stdinWrites r.2.2 = 0%nat.
Proof.
  cbv zeta.
  match goal with |- context [executeCommand _ _ (_, ?w)] => set (silent := w) end.
  destruct (executeCommand_failures (js "admin") (js "say hi") Demo.connected silent)
    as [_ H].
  destruct H as [H _]; [left; reflexivity |].
  apply H; reflexivity.
Defined.

(** ** Actions on players *)

Lemma executeCommand_rcon_run actor cmd s w reply :
  status s = ONLINE \/ status s = STARTING ->
  rcon s = Some {| socket := true |} -> rconReply w cmd = Ret reply ->
  exists after,
    executeCommand actor cmd (s, w) = (Ret (replaceAll colorPattern [] reply), after)
    /\ rconSent after.2 = cmd :: rconSent w.
Proof.
  intros Hst Hrcon Hreply. rewrite (executeCommand_active _ _ _ _ Hst). cbv zeta.
  rewrite Hrcon.
  set (s1 := (log _ _ _).2).
  assert (H1 : rconSent s1.2 = rconSent w)
    by apply (ltac:(frame) : keeps (fun s : Sys => rconSent s.2) (log _ _)).
  assert (H2 : rconReply s1.2 = rconReply w)
    by apply (ltac:(frame) : keeps (fun s : Sys => rconReply s.2) (log _ _)).
  clearbody s1. destruct s1 as [t1 w1]. cbn [fst snd] in *.
  exists (t1, set_trace (cons (RconSend cmd)) w1). split.
  - apply try_catch_Ret. unfold rconSend, bind. rewrite io_run. unfold emit, modify.
    cbn [fst snd set_trace rconReply]. rewrite H2, Hreply. reflexivity.
  - cbn [snd]. rewrite <- H1. reflexivity.
Qed.

(** The part of [performPlayerAction] after the [switch]. *)
Lemma action_sent actor name action cmd s w reply :
  status s = ONLINE ->
  rcon s = Some {| socket := true |} -> rconReply w cmd = Ret reply ->
  let r := bind (executeCommand actor cmd)
             (fun response =>
                bind (logSystem (js "[Action] " ++ actor ++ js ": " ++ action ++ js " on "
                                 ++ name ++ js " -> " ++ response))
                  (fun _ => ret response)) (s, w) in
  r.1 = Ret (replaceAll colorPattern [] reply) /\ rconSent r.2.2 = cmd :: rconSent w.
Proof.
  intros Hst Hrcon Hreply. cbv zeta.
  destruct (executeCommand_rcon_run actor cmd s w reply (or_introl Hst) Hrcon Hreply)
    as (after & E & Hsent).
  rewrite (bind_Ret _ _ _ _ _ E). rewrite (bind_total (logSystem _)) by frame.
  unfold ret. cbn [fst snd]. split; [reflexivity |].
  rewrite (keeps_at (fun s : Sys => rconSent s.2) (logSystem _)) by frame. exact Hsent.
Qed.

(** X19. [performPlayerAction] works in the state ONLINE only: in any other
    state, STARTING included, it throws and nothing is logged or sent.  An
    action that is none of the eight known ones, and a message without
    payload, throw in the same way.  Over an RCON session each of the seven
    moderation actions sends exactly one command, built from the action and
    the name as they are, a kick or a ban without reason (or with an empty
    one) carrying the standard reason; the answer of the game is the
    result. *)
Theorem performPlayerAction_commands (actor name action : jsstring)
  (payload : option jsstring) (s : MinecraftServer) (w : World) :
  let r := performPlayerAction actor name action payload (s, w) in
  let sends cmd :=
    forall reply, rcon s = Some {| socket := true |} -> rconReply w cmd = Ret reply ->
      r.1 = Ret (replaceAll colorPattern [] reply) /\ rconSent r.2.2 = cmd :: rconSent w in
  (status s <> ONLINE ->
   r = (Throw (Error (js "Server must be online to perform actions")), (s, w)))
  /\ (status s = ONLINE ->
      (action ∉ [js "kick"; js "ban"; js "pardon"; js "op"; js "deop";
                 js "whitelist_add"; js "whitelist_remove"; js "message"] ->
       r = (Throw (Error (js "Unknown action")), (s, w)))
      /\ (action = js "message" -> default [] payload = [] ->
          r = (Throw (Error (js "Message payload required")), (s, w)))
      /\ (action = js "kick" ->
          sends (js "kick " ++ name ++ js " "
                 ++ orElse (default [] payload) (js "Kicked by operator")))
      /\ (action = js "ban" ->
          sends (js "ban " ++ name ++ js " "
                 ++ orElse (default [] payload) (js "Banned by operator")))
      /\ (action ∈ [js "pardon"; js "op"; js "deop"] -> sends (action ++ js " " ++ name))
      /\ (action = js "whitelist_add" -> sends (js "whitelist add " ++ name))
      /\ (action = js "whitelist_remove" -> sends (js "whitelist remove " ++ name))).
Proof.
  cbv zeta. split.
  - intros Hst. unfold performPlayerAction. rewrite bind_this. cbn [fst].
    rewrite bool_decide_eq_false_2 by assumption. reflexivity.
  - intros Hst. unfold performPlayerAction. rewrite bind_this. cbn [fst].
    rewrite Hst. change (negb (bool_decide (ONLINE = ONLINE))) with false. cbv iota.
    split; [| split].
    + intros Hno. unfold eqb.
      rewrite !bool_decide_eq_false_2
        by (intros ->; apply Hno; repeat first [left | right]).
      reflexivity.
    + intros -> ->. reflexivity.
    + split; [| split; [| split; [| split]]].
      * intros -> reply Hrcon Hreply.
        apply (action_sent actor name (js "kick") _ s w reply Hst Hrcon Hreply).
      * intros -> reply Hrcon Hreply.
        apply (action_sent actor name (js "ban") _ s w reply Hst Hrcon Hreply).
      * intros Hin reply Hrcon Hreply.
        repeat (apply elem_of_cons in Hin as [-> | Hin]);
          [| | | apply elem_of_nil in Hin; destruct Hin].
        -- apply (action_sent actor name (js "pardon") _ s w reply Hst Hrcon Hreply).
        -- apply (action_sent actor name (js "op") _ s w reply Hst Hrcon Hreply).
        -- apply (action_sent actor name (js "deop") _ s w reply Hst Hrcon Hreply).
      * intros -> reply Hrcon Hreply.
        apply (action_sent actor name (js "whitelist_add") _ s w reply Hst Hrcon Hreply).
      * intros -> reply Hrcon Hreply.
        apply (action_sent actor name (js "whitelist_remove") _ s w reply Hst Hrcon Hreply).
Qed.

Lemma performPlayerAction_commands_witness :
  let r := performPlayerAction (js "admin") (js "Steve") (js "kick") (Some [])
             (Demo.connected, Demo.talkative) in
  r.1 = Ret (167 :: js "aHello")
  /\ rconSent r.2.2 = [js "kick Steve Kicked by operator"]
  /\ performPlayerAction (js "admin") (js "Steve") (js "op") None
       (Demo.starting, Demo.world)
     = (Throw (Error (js "Server must be online to perform actions")),
        (Demo.starting, Demo.world)).
Proof.
  destruct (performPlayerAction_commands (js "admin") (js "Steve") (js "kick") (Some [])
              Demo.connected Demo.talkative) as [_ H].
  destruct H as (_ & _ & H & _); [reflexivity |].
  destruct (H eq_refl (167 :: js "aHello") eq_refl eq_refl) as [H1 H2].
  split; [exact H1 |]. split; [exact H2 |].
  apply (performPlayerAction_commands (js "admin") (js "Steve") (js "op") None
           Demo.starting Demo.world).
  discriminate.
Defined.

(** ** The log as the panel reads it *)

Lemma last_drop {A} (n : nat) (l : list A) : (n < length l)%nat -> last (drop n l) = last l.
Proof.
  revert n. induction l as [|x l IH]; intros n H; [cbn in H; lia |].
  destruct n as [|n]; [reflexivity |]. cbn [drop length] in *.
  rewrite IH by lia. destruct l; [cbn in H; lia | reflexivity].
Qed.

Lemma last_pushLog entry buffer : last (pushLog entry buffer) = Some entry.
Proof.
  unfold pushLog. cbv zeta. destruct (_ <? _)%nat eqn:E.
  - destruct buffer as [|x buffer]; [cbn in E; discriminate E |].
    cbn [app tail]. apply last_snoc.
  - apply last_snoc.
Qed.

(** X20. [getRecentLogs] gives the end of the buffer, at most 200 entries
    and all of them when the buffer is that short; the entry of a message
    just logged (one that is not blank once cleaned) is its last element. *)
Theorem getRecentLogs_latest (message : jsstring) (type : LogEntry.kind)
  (s : MinecraftServer) (w : World) :
  let recent := getRecentLogs s in
  let cleanMsg := trim (replaceAll ansiPattern [] message) in
  (length recent <= 200)%nat
  /\ recent `suffix_of` logs s
  /\ ((length (logs s) <= 200)%nat -> recent = logs s)
  /\ (cleanMsg <> [] ->
      exists entry,
        last (getRecentLogs (log message type (s, w)).2.1) = Some entry
        /\ LogEntry.message entry = cleanMsg /\ LogEntry.type entry = type).
Proof.
  cbv zeta. unfold getRecentLogs. split; [| split; [| split]].
  - rewrite length_drop. lia.
  - apply suffix_drop.
  - intros H. replace (length (logs s) - 200)%nat with 0%nat by lia. reflexivity.
  - intros Hc. rewrite log_logs. cbv zeta.
    rewrite bool_decide_eq_false_2 by exact Hc.
    set (entry := {| LogEntry.timestamp := JsDate.toISOString (now w);
                     LogEntry.message := trim (replaceAll ansiPattern [] message);
                     LogEntry.type := type |}).
    exists entry. split; [| split; reflexivity].
    rewrite last_drop; [apply last_pushLog |].
    pose proof (last_pushLog entry (logs s)) as H.
    destruct (pushLog _ _); [discriminate H | cbn [length]; lia].
Qed.

Lemma getRecentLogs_latest_witness :
  exists entry,
    last (getRecentLogs (log (js "  hello ") LogEntry.info (Demo.online, Demo.world)).2.1)
    = Some entry
    /\ LogEntry.message entry = js "hello".
Proof.
  destruct (getRecentLogs_latest (js "  hello ") LogEntry.info Demo.online Demo.world)
    as (_ & _ & _ & H).
  destruct H as (entry & H1 & H2 & _); [vm_compute; discriminate |].
  exists entry. split; [exact H1 |]. rewrite H2. vm_compute. reflexivity.
Defined.

(** ** Snapshots *)

Lemma includes_prefix (sub p k : jsstring) :
  includes sub p = true -> includes sub (p ++ k) = true.
Proof.
  induction p as [|c p IH]; cbn [includes app].
  - rewrite orb_false_r. destruct sub; [| discriminate]. intros _.
    destruct k; reflexivity.
  - intros H. apply orb_true_iff in H as [H | H]; apply orb_true_iff.
    + left. apply startsWith_prefix in H as [u H]. apply startsWith_prefix.
      exists (u ++ k). change (c :: p ++ k) with ((c :: p) ++ k). rewrite H.
      symmetry. apply app_assoc.
    + right. apply IH, H.
Qed.

(** The filter of [createBackup] lets a path through when none of the paths
    down to it holds "session.lock". *)
Lemma passes_clean (src k : path) :
  includes (js "session.lock") (Path.toString k) = false ->
  Fs.passes (fun p => negb (includes (js "session.lock") (Path.toString p))) src k = true.
Proof.
  intros H. unfold Fs.passes. apply forallb_forall. intros n _.
  apply negb_true_iff. destruct (includes _ (Path.toString (take n k))) eqn:E; [| reflexivity].
  assert (Hp : take n k `prefix_of` k) by (exists (drop n k); symmetry; apply take_drop).
  apply toString_prefix, startsWith_prefix in Hp as [u Hu].
  rewrite Hu in H. rewrite (includes_prefix _ _ u E) in H. discriminate H.
Qed.

Lemma passes_self keep (src k : path) :
  src `prefix_of` k -> k <> src -> Fs.passes keep src k = true -> keep k = true.
Proof.
  intros [rest ->] Hne H. unfold Fs.passes in H. rewrite forallb_forall in H.
  assert (Hlen : (0 < length rest)%nat)
    by (destruct rest; [rewrite app_nil_r in Hne; congruence | cbn; lia]).
  specialize (H (length (src ++ rest))).
  rewrite firstn_all in H. apply H. apply in_seq. rewrite length_app. lia.
Qed.

Lemma copy_hit (src dst : path) (keep : path -> bool) (birth : Z)
  (l : list (path * inode)) (base : gmap path inode) k i :
  NoDup l.*1 -> (k, i) ∈ l ->
  src `prefix_of` k -> k <> src -> Fs.passes keep src k = true ->
  foldr (copyEntry src dst keep birth) base l !! (dst ++ drop (length src) k)
  = Some {| node_of := node_of i; birthtimeMs := birth |}.
Proof.
  intros Hnd Hin Hpre Hne Hpass.
  induction l as [|[k' i'] l IH]; [apply elem_of_nil in Hin; destruct Hin |].
  cbn [fmap list_fmap fst] in Hnd. apply NoDup_cons in Hnd as [Hk' Hnd].
  cbn [foldr]. unfold copyEntry at 1. cbn [fst snd].
  apply elem_of_cons in Hin as [Heq | Hin].
  - injection Heq as <- <-. unfold Fs.under.
    rewrite (bool_decide_eq_true_2 _ Hpre), (bool_decide_eq_false_2 _ Hne), Hpass.
    cbn [andb negb]. apply lookup_insert_eq.
  - specialize (IH Hnd Hin).
    destruct (Fs.under src k' && negb (bool_decide (k' = src)) && Fs.passes keep src k')
      eqn:E; [| exact IH].
    rewrite lookup_insert_ne; [exact IH |].
    intros Heq. apply app_inv_head in Heq.
    apply andb_true_iff in E as [E _]. apply andb_true_iff in E as [E _].
    apply bool_decide_eq_true in E. destruct E as [r' ->]. destruct Hpre as [r ->].
    rewrite !drop_app_length in Heq. subst r'.
    apply Hk'. apply list_elem_of_fmap. exists (src ++ r, i). split; [reflexivity | exact Hin].
Qed.

Lemma copy_miss (src dst : path) (keep : path -> bool) (birth : Z)
  (l : list (path * inode)) (base : gmap path inode) q :
  (forall k i, (k, i) ∈ l -> src `prefix_of` k -> k <> src -> Fs.passes keep src k = true ->
               dst ++ drop (length src) k <> q) ->
  foldr (copyEntry src dst keep birth) base l !! q = base !! q.
Proof.
  induction l as [|[k' i'] l IH]; intros H; [reflexivity |].
  cbn [foldr]. unfold copyEntry at 1. cbn [fst snd].
  assert (IH' : foldr (copyEntry src dst keep birth) base l !! q = base !! q)
    by (apply IH; intros k i Hin; apply (H k i); right; exact Hin).
  destruct (Fs.under src k' && negb (bool_decide (k' = src)) && Fs.passes keep src k')
    eqn:E; [| exact IH'].
  apply andb_true_iff in E as [E E3]. apply andb_true_iff in E as [E1 E2].
  apply bool_decide_eq_true in E1. apply negb_true_iff, bool_decide_eq_false in E2.
  rewrite lookup_insert_ne; [exact IH' |].
  apply (H k' i'); [left | exact E1 | exact E2 | exact E3].
Qed.

Lemma children_elem (fs : gmap path inode) (p : path) (name : jsstring) i :
  fs !! (p ++ [name]) = Some i -> name ∈ Fs.children fs p.
Proof.
  intros H. unfold Fs.children. apply list_elem_of_omap.
  exists (p ++ [name], i). split; [apply elem_of_map_to_list, H |].
  cbn [fst]. rewrite bool_decide_eq_true_2.
  - apply last_snoc.
  - split; [destruct p; discriminate | apply removelast_snoc].
Qed.


(** *** The name of a snapshot *)

Lemma js_String (c : ascii) (s : string) : js (String c s) = N_of_ascii c :: js s.
Proof. reflexivity. Qed.

Lemma pretty_N_go_noslash (x : N) (s : string) :
  (47 ∉ js s) -> 47 ∉ js (pretty_N_go x s).
Proof.
  revert s. induction (N.lt_wf_0 x) as [x _ IH]; intros s Hs.
  destruct (decide (x = 0)) as [-> | Hx]; [rewrite pretty_N_go_0; exact Hs |].
  rewrite pretty_N_go_step by lia. apply IH; [apply N.div_lt; lia |].
  rewrite js_String. intros Hin. apply elem_of_cons in Hin as [Hc | Hin]; [| exact (Hs Hin)].
  revert Hc. unfold pretty_N_char. repeat case_match; discriminate.
Qed.

Lemma pretty_Z_noslash (z : Z) : 47 ∉ ofZ z.
Proof.
  assert (HN : forall n : N, 47 ∉ js (pretty n)).
  { intros n. unfold pretty, pretty_N. destruct (decide (n = 0)).
    - intros Hin. apply (proj1 (list_elem_of_singleton _ _)) in Hin. discriminate Hin.
    - apply pretty_N_go_noslash. apply not_elem_of_nil. }
  unfold ofZ. destruct z as [|p|p].
  - intros Hin. apply (proj1 (list_elem_of_singleton _ _)) in Hin. discriminate Hin.
  - apply (HN (Npos p)).
  - change (pretty (Zneg p)) with (String "-"%char (pretty (Npos p))). rewrite js_String.
    intros Hin. apply elem_of_cons in Hin as [Hc | Hin]; [discriminate Hc | exact (HN _ Hin)].
Qed.

Lemma pad_noslash width z : 47 ∉ JsDate.pad width z.
Proof.
  unfold JsDate.pad. cbv zeta. intros Hin. apply elem_of_app in Hin as [Hin | Hin].
  - apply list_elem_of_In, repeat_spec in Hin. discriminate Hin.
  - exact (pretty_Z_noslash z Hin).
Qed.

Lemma toISOString_shape (t : Z) :
  (47 ∉ JsDate.toISOString t) /\ last (JsDate.toISOString t) = Some 90.
Proof.
  unfold JsDate.toISOString. cbv zeta. destruct (JsDate.civil _) as [[y m] d].
  split.
  - rewrite !elem_of_app.
    assert (Hlit : forall c : N, c <> 47 -> 47 ∉ [c])
      by (intros c Hc Hin; apply list_elem_of_singleton in Hin; congruence).
    pose proof pad_noslash as Hpad.
    intros H.
    repeat match type of H with
           | _ \/ _ => destruct H as [H | H]
           end;
      try (apply Hpad in H; exact H);
      try (apply Hlit in H; [exact H | discriminate]).
    destruct ((0 <=? y)%Z && (y <=? 9999)%Z); [apply Hpad in H; exact H |].
    destruct (y <? 0)%Z; apply elem_of_app in H as [H | H];
      first [apply Hpad in H; exact H | apply Hlit in H; [exact H | discriminate]].
  - repeat rewrite last_app. reflexivity.
Qed.

Lemma last_flat_map {A} (f : A -> list A) (l : list A) (x : A) :
  last l = Some x -> f x = [x] -> last (flat_map f l) = Some x.
Proof.
  intros Hl Hf. apply last_Some in Hl as [l' ->].
  rewrite flat_map_app. cbn [flat_map]. rewrite Hf, app_nil_r. apply last_snoc.
Qed.

(** The name of a snapshot is one plain component of a path. *)
Lemma snapshotName_plain (name : option jsstring) (t : Z) :
  let n := snapshotName name t in
  (47 ∉ n) /\ n <> [] /\ n <> js "." /\ n <> js "..".
Proof.
  cbv zeta. destruct (toISOString_shape t) as [Hno Hlast].
  set (timestamp := replaceAll (oneOf (js ":.")) (js "-") (JsDate.toISOString t)).
  assert (Ht : (47 ∉ timestamp) /\ last timestamp = Some 90).
  { subst timestamp. unfold oneOf. rewrite replaceAll_class. split.
    - intros Hin. apply list_elem_of_In, in_flat_map in Hin as (c & Hc & Hin).
      destruct (bool_decide _).
      + apply list_elem_of_In, list_elem_of_singleton in Hin. discriminate Hin.
      + apply list_elem_of_In, list_elem_of_singleton in Hin. subst c.
        apply Hno, list_elem_of_In, Hc.
    - apply last_flat_map; [exact Hlast | reflexivity]. }
  destruct Ht as [Ht1 Ht2].
  assert (H : exists label, snapshotName name t = label ++ timestamp /\ (47 ∉ label)).
  { unfold snapshotName. cbv zeta. fold timestamp.
    destruct name as [[|c n]|].
    - exists (js "backup-"). split; [reflexivity |]. decided.
    - exists (replaceAll labelPattern [] (c :: n) ++ js "-").
      split; [rewrite <- app_assoc; reflexivity |].
      unfold labelPattern. rewrite replaceAll_class.
      intros Hin. apply elem_of_app in Hin as [Hin | Hin].
      + apply list_elem_of_In, in_flat_map in Hin as (u & _ & Hin).
        destruct (negb _) eqn:E; [destruct Hin |].
        destruct Hin as [-> | []]. discriminate E.
      + apply list_elem_of_singleton in Hin. discriminate Hin.
    - exists (js "backup-"). split; [reflexivity |]. decided. }
  destruct H as (label & -> & Hlabel).
  assert (Hl : last (label ++ timestamp) = Some 90) by (rewrite last_app, Ht2; reflexivity).
  split; [| split; [| split]].
  - intros Hin. apply elem_of_app in Hin as [Hin | Hin]; auto.
  - intros E. rewrite E in Hl. discriminate Hl.
  - intros E. rewrite E in Hl. discriminate Hl.
  - intros E. rewrite E in Hl. discriminate Hl.
Qed.


(** *** Directories made on the way *)

Lemma ancestors_prefix (p a : path) : a ∈ Fs.ancestors p <-> a `prefix_of` p /\ a <> [].
Proof.
  unfold Fs.ancestors. rewrite list_elem_of_fmap. split.
  - intros (n & -> & Hn). apply list_elem_of_In, in_seq in Hn. split.
    + exists (drop n p). symmetry. apply take_drop.
    + destruct p; [cbn in Hn; lia |]. destruct n; [lia | discriminate].
  - intros [[k ->] Ha]. exists (length a). split.
    + rewrite take_app_length. reflexivity.
    + apply list_elem_of_In, in_seq. rewrite length_app.
      destruct a; [congruence | cbn; lia].
Qed.

Lemma mkdirs_other (birth : Z) (ps : list path) (fs fs' : gmap path inode) (q : path) :
  Fs.mkdirs birth ps fs = Some fs' -> q ∉ ps -> fs' !! q = fs !! q.
Proof.
  revert fs. induction ps as [|a ps IH]; intros fs H Hq; cbn [Fs.mkdirs] in H.
  - injection H as <-. reflexivity.
  - assert (Hq' : q ∉ ps) by (intros Hin; apply Hq; right; exact Hin).
    destruct (fs !! a) as [[[c|] b]|] eqn:Ha; [discriminate H | apply IH; assumption |].
    rewrite (IH _ H Hq'). apply lookup_insert_ne. intros ->. apply Hq. left.
Qed.

Lemma mkdirs_dirs (birth : Z) (ps : list path) (fs fs' : gmap path inode) (p : path) :
  Fs.mkdirs birth ps fs = Some fs' -> p ∈ ps ->
  exists b, fs' !! p = Some {| node_of := Dir; birthtimeMs := b |}.
Proof.
  revert fs. induction ps as [|a ps IH]; intros fs H Hp; cbn [Fs.mkdirs] in H;
    [apply elem_of_nil in Hp; destruct Hp |].
  destruct (fs !! a) as [[[c|] b]|] eqn:Ha; [discriminate H | |].
  - apply elem_of_cons in Hp as [-> | Hp]; [| eapply IH; eassumption].
    exists b. eapply lookup_weaken; [exact Ha | eapply mkdirs_subseteq, H].
  - apply elem_of_cons in Hp as [-> | Hp]; [| eapply IH; eassumption].
    exists birth. eapply lookup_weaken; [apply lookup_insert_eq | eapply mkdirs_subseteq, H].
Qed.

Lemma mkdirSync_Ret (p : path) (w w1 : World) :
  Fs.mkdirSync p w = (Ret tt, w1) ->
  files w ⊆ files w1
  /\ (forall q, ~ (q `prefix_of` p) -> files w1 !! q = files w !! q)
  /\ (forall a, a `prefix_of` p -> Fs.isDir (files w1) a = true)
  /\ now w1 = now w /\ fault w1 = fault w.
Proof.
  intros H. unfold Fs.mkdirSync in H. apply bind_Ret_inv in H as ([] & wg & G & H).
  rewrite guard_run in G. assert (wg = w) by (destruct (fault w _); congruence). subst wg.
  destruct (Fs.mkdirs _ _ _) as [fs'|] eqn:E; [| discriminate H].
  injection H as <-. cbn [files set_files now fault].
  split; [eapply mkdirs_subseteq, E |]. split; [| split; [| split; reflexivity]].
  - intros q Hq. apply (mkdirs_other _ _ _ _ _ E).
    intros Hin. apply ancestors_prefix in Hin as [Hin _]. exact (Hq Hin).
  - intros a Ha. unfold Fs.isDir, Fs.lookupNode. destruct a as [|x a]; [reflexivity |].
    destruct (mkdirs_dirs _ _ _ _ (x :: a) E) as [b ->]; [| reflexivity].
    apply ancestors_prefix. split; [exact Ha | discriminate].
Qed.

Lemma getBackupDir_Ret (s s' : MinecraftServer) (w w' : World) (d : path) :
  getBackupDir (s, w) = (Ret d, (s', w')) ->
  d = backupDirOf s /\ s' = s /\ files w ⊆ files w'
  /\ (forall q, ~ (q `prefix_of` d) -> files w' !! q = files w !! q)
  /\ now w' = now w /\ fault w' = fault w.
Proof.
  intros H. unfold getBackupDir in H. rewrite !bind_this, bind_ask in H. cbn [fst snd] in H.
  fold (backupDirOf s) in H.
  destruct (Fs.existsSync w (backupDirOf s)); cbn [negb when] in H.
  - rewrite (bind_total (ret tt)) in H by (intros ?; eexists; reflexivity).
    unfold ret in H. cbn [snd] in H. injection H as <- <- <-.
    repeat split; reflexivity.
  - inv_ret H. destruct a, s0 as [s0 w0]. apply io_Ret in E as [-> E].
    unfold ret in H. injection H as <- <- <-.
    destruct (mkdirSync_Ret _ _ _ E) as (H1 & H2 & _ & H3 & H4).
    repeat split; assumption.
Qed.

(** A recursive copy of a directory that returned. *)
Lemma cpSync_dir (src dst : path) (keep : path -> bool) (w w' : World) :
  Fs.cpSync src dst keep w = (Ret tt, w') ->
  Fs.isDir (files w) src = true -> keep src = true ->
  ~ (src `prefix_of` dst)
  /\ exists w1,
       Fs.mkdirSync dst w = (Ret tt, w1)
       /\ files w'
          = foldr (copyEntry src dst keep (now w1)) (files w1) (map_to_list (files w1))
       /\ fault w' = fault w1.
Proof.
  intros H Hdir Hkeep. unfold Fs.cpSync in H.
  apply bind_Ret_inv in H as ([] & wg & G & H).
  rewrite guard_run in G. assert (wg = w) by (destruct (fault w _); congruence). subst wg.
  apply bind_Ret_inv in H as (i & ws & S & H).
  unfold Fs.statSync in S. unfold Fs.isDir in Hdir.
  destruct (Fs.lookupNode (files w) src) as [[[c|] b]|]; try discriminate Hdir.
  injection S as <- <-. rewrite Hkeep in H. cbn [negb node_of] in H.
  destruct (Fs.under src dst) eqn:U; [unfold throw in H; discriminate H |].
  split; [apply bool_decide_eq_false in U; exact U |].
  apply bind_Ret_inv in H as ([] & w1 & M & H).
  exists w1. split; [exact M |]. injection H as <-. split; reflexivity.
Qed.


(** *** Taking a snapshot *)


(** *** Taking a snapshot *)

Lemma createBackup_Ret actor name s w dir cfg after :
  serverDir s = Some dir -> config s = Some cfg ->
  createBackup actor name (s, w) = (Ret tt, after) ->
  status s = OFFLINE
  /\ exists wb wc,
       files w ⊆ files wb
       /\ (forall q, ~ (q `prefix_of` backupDirOf s) -> files wb !! q = files w !! q)
       /\ now wb = now w /\ fault wb = fault w
       /\ Fs.cpSync dir (Path.join (backupDirOf s) [snapshotName name (now w)]) notLocked wb
          = (Ret tt, wc)
       /\ files after.2 = files wc /\ fault after.2 = fault wc /\ now after.2 = now wc.
Proof.
  intros Hdir Hcfg H. unfold createBackup in H.
  rewrite !bind_this in H. cbn [fst] in H. rewrite Hdir, Hcfg in H.
  rewrite bind_this in H. cbn [fst] in H.
  destruct (bool_decide (status s = OFFLINE)) eqn:Hst; cbn [negb] in H;
    [| unfold throw in H; discriminate H].
  apply bool_decide_eq_true in Hst. split; [exact Hst |].
  inv_ret H. destruct a, s0 as [s0 w0], s1 as [s1 w1], s2 as [s2 wb].
  unfold ask, gets in E0. injection E0 as <- <- <-.
  assert (Hs0 : s0.(serversDir) = serversDir s /\ config s0 = config s).
  { split; [kept (fun s : Sys => serversDir s.1) E | kept (fun s : Sys => config s.1) E]. }
  assert (Hw0 : files w0 = files w /\ now w0 = now w /\ fault w0 = fault w).
  { split; [| split];
      [kept (fun s : Sys => files s.2) E | kept (fun s : Sys => now s.2) E
      | kept (fun s : Sys => fault s.2) E]. }
  destruct Hs0 as [Hs0 Hc0]. destruct Hw0 as (Hf0 & Hn0 & Hx0).
  apply getBackupDir_Ret in E1 as (-> & -> & Hsub & Hother & Hnow & Hfault).
  assert (Hb : backupDirOf s0 = backupDirOf s)
    by (unfold backupDirOf; rewrite Hs0, Hc0; reflexivity).
  rewrite Hb in *. rewrite Hn0 in *. rewrite Hf0 in *.
  apply try_catch_Ret_inv in H as [H | (e & s3 & _ & H)].
  - inv_ret H. destruct a, s1 as [s1 wc], after as [s' w']. apply io_Ret in E0 as [-> E0].
    exists wb, wc. cbn [fst snd].
    split; [exact Hsub |]. split; [exact Hother |].
    split; [congruence |]. split; [congruence |]. split; [exact E0 |].
    split; [kept (fun s : Sys => files s.2) H |].
    split; [kept (fun s : Sys => fault s.2) H | kept (fun s : Sys => now s.2) H].
  - inv_ret H. unfold throw in H. discriminate H.
Qed.

Lemma createBackup_frame actor name (s : Sys) :
  let r := (createBackup actor name s).2 in
  serversDir r.1 = serversDir s.1 /\ serverDir r.1 = serverDir s.1
  /\ config r.1 = config s.1 /\ status r.1 = status s.1.
Proof.
  cbv zeta.
  repeat split;
    match goal with
    | |- ?g = _ =>
        match eval pattern (createBackup actor name s).2 in g with
        | ?f _ => apply (keeps_at f (createBackup actor name) s); frame
        end
    end.
Qed.

Lemma isDir_same (fs fs' : gmap path inode) (p : path) :
  fs' !! p = fs !! p -> Fs.isDir fs' p = Fs.isDir fs p.
Proof. intros H. unfold Fs.isDir. rewrite (lookupNode_eq _ _ _ H). reflexivity. Qed.

Lemma isDir_weaken (fs fs' : gmap path inode) (p : path) :
  fs ⊆ fs' -> Fs.isDir fs p = true -> Fs.isDir fs' p = true.
Proof.
  intros Hsub H. unfold Fs.isDir, Fs.lookupNode in *. destruct p as [|x p]; [exact H |].
  destruct (fs !! (x :: p)) as [i|] eqn:E; [| discriminate H].
  rewrite (lookup_weaken _ _ _ _ E Hsub). exact H.
Qed.

Lemma isDir_lookup (fs : gmap path inode) (p : path) :
  p <> [] -> Fs.isDir fs p = true -> exists i, fs !! p = Some i.
Proof.
  intros Hp H. unfold Fs.isDir, Fs.lookupNode in H. destruct p as [|x p]; [congruence |].
  destruct (fs !! (x :: p)) as [i|]; [exists i; reflexivity | discriminate H].
Qed.

Lemma snoc_not_prefix {A} (l rest : list A) : rest <> [] -> ~ ((l ++ rest) `prefix_of` l).
Proof.
  intros Hr [u Hu]. apply (f_equal length) in Hu. rewrite !length_app in Hu.
  destruct rest; [congruence | cbn in Hu; lia].
Qed.

(** The snapshot a [createBackup] that returned has taken. *)
Lemma createBackup_result actor name s w dir cfg after :
  serverDir s = Some dir -> config s = Some cfg ->
  Fs.isDir (files w) dir = true ->
  includes (js "session.lock") (Path.toString dir) = false ->
  createBackup actor name (s, w) = (Ret tt, after) ->
  let snapshot := backupDirOf s ++ [snapshotName name (now w)] in
  let copied (i : inode) := {| node_of := node_of i; birthtimeMs := now w |} in
  status s = OFFLINE
  /\ ~ (dir `prefix_of` snapshot)
  /\ (forall p, p `prefix_of` snapshot -> Fs.isDir (files after.2) p = true)
  /\ (forall rest,
        rest <> [] -> includes (js "session.lock") (Path.toString (dir ++ rest)) = false ->
        files after.2 !! (snapshot ++ rest) = copied <$> files w !! (dir ++ rest)
        \/ (files w !! (dir ++ rest) = None
            /\ files after.2 !! (snapshot ++ rest) = files w !! (snapshot ++ rest)))
  /\ (forall rest,
        rest <> [] -> includes (js "session.lock") (Path.toString (dir ++ rest)) = true ->
        files after.2 !! (snapshot ++ rest) = files w !! (snapshot ++ rest))
  /\ (forall q i,
        ~ (snapshot `prefix_of` q) -> files w !! q = Some i -> files after.2 !! q = Some i)
  /\ (forall q,
        ~ (snapshot `prefix_of` q) -> ~ (q `prefix_of` snapshot) ->
        files after.2 !! q = files w !! q)
  /\ fault after.2 = fault w /\ now after.2 = now w.
Proof.
  intros Hdir Hcfg Hisdir Hclean Er snapshot copied.
  destruct (createBackup_Ret _ _ _ _ _ _ _ Hdir Hcfg Er)
    as (Hst & wb & wc & Hsub & Hother & Hnow & Hfault & Hcp & Hfiles & Hfault' & Hnow').
  destruct (snapshotName_plain name (now w)) as (P1 & P2 & P3 & P4).
  rewrite (join_plain _ _ P1 P2 P3 P4) in Hcp. fold snapshot in Hcp.
  destruct (cpSync_dir _ _ _ _ _ Hcp) as (Hnot & w1 & Hmk & Hcopy & Hfault1);
    [eapply isDir_weaken; eassumption | unfold notLocked; rewrite Hclean; reflexivity |].
  destruct (mkdirSync_Ret _ _ _ Hmk) as (Hsub1 & Hother1 & Hdirs1 & Hnow1 & Hfault2).
  assert (Hnowc : now wc = now w1).
  { apply (keeps_eq now (Fs.cpSync dir snapshot notLocked) wb (Ret tt) wc) in Hcp as Hc;
      [| frame]. congruence. }
  rewrite Hnow1, Hnow in Hcopy. rewrite <- Hfiles in Hcopy. fold copied in Hcopy.
  assert (Hmiss : forall q, (forall rest, rest <> [] -> snapshot ++ rest <> q) ->
                            files after.2 !! q = files w1 !! q).
  { intros q Hq. rewrite Hcopy. apply copy_miss.
    intros k i _ [rest ->] Hne _. rewrite drop_app_length. apply Hq.
    intros ->. apply Hne. apply app_nil_r. }
  assert (Hbelow : forall rest, rest <> [] ->
                                files w1 !! (snapshot ++ rest) = files w !! (snapshot ++ rest)).
  { intros rest Hrest. rewrite Hother1 by (apply snoc_not_prefix, Hrest).
    apply Hother. subst snapshot. rewrite <- app_assoc. apply snoc_not_prefix. discriminate. }
  assert (Hsrc : forall rest, files w1 !! (dir ++ rest) = files w !! (dir ++ rest)).
  { intros rest.
    assert (Hp : ~ (dir ++ rest) `prefix_of` snapshot).
    { intros [u Hu]. apply Hnot. exists (rest ++ u). rewrite app_assoc. exact Hu. }
    rewrite (Hother1 _ Hp). apply Hother. intros [u Hu]. apply Hp.
    exists (u ++ [snapshotName name (now w)]). subst snapshot. rewrite Hu.
    symmetry. apply app_assoc. }
  split; [exact Hst |]. split; [exact Hnot |].
  split; [| split; [| split; [| split; [| split; [| split]]]]].
  - intros p Hp. rewrite (isDir_same (files w1)); [apply Hdirs1, Hp |].
    apply Hmiss. intros rest Hrest <-. exact (snoc_not_prefix _ _ Hrest Hp).
  - intros rest Hrest Hok.
    destruct (files w !! (dir ++ rest)) as [i|] eqn:Ei; [left | right; split; [reflexivity |]].
    + cbn [fmap option_fmap option_map]. rewrite Hcopy.
      rewrite <- (drop_app_length dir rest) at 1.
      apply copy_hit.
      * apply NoDup_fst_map_to_list.
      * apply elem_of_map_to_list. rewrite Hsrc. exact Ei.
      * exists rest. reflexivity.
      * intros E. apply Hrest. rewrite <- (app_nil_r dir) in E at 2.
        apply app_inv_head in E. exact E.
      * apply passes_clean, Hok.
    + rewrite <- (Hbelow rest Hrest). rewrite Hcopy. apply copy_miss.
      intros k i Hk [rest' ->] _ _. rewrite drop_app_length. intros E.
      apply app_inv_head in E. subst rest'.
      apply elem_of_map_to_list in Hk. rewrite Hsrc, Ei in Hk. discriminate Hk.
  - intros rest Hrest Hlock. rewrite <- (Hbelow rest Hrest). rewrite Hcopy.
    apply copy_miss.
    intros k i _ [rest' ->] Hne Hpass. rewrite drop_app_length. intros E.
    apply app_inv_head in E. subst rest'.
    apply (passes_self notLocked) in Hpass; [| exists rest; reflexivity | exact Hne].
    unfold notLocked in Hpass. rewrite Hlock in Hpass. discriminate Hpass.
  - intros q i Hq Hi. rewrite Hmiss.
    + eapply lookup_weaken; [| exact Hsub1]. eapply lookup_weaken; [exact Hi | exact Hsub].
    + intros rest _ <-. apply Hq. exists rest. reflexivity.
  - intros q Hq Hq'. rewrite Hmiss.
    + rewrite (Hother1 _ Hq'). apply Hother. intros [u Hu]. apply Hq'.
      exists (u ++ [snapshotName name (now w)]). subst snapshot. rewrite Hu.
      symmetry. apply app_assoc.
    + intros rest _ <-. apply Hq. exists rest. reflexivity.
  - congruence.
  - congruence.
Qed.


(** *** Restoring a snapshot *)

Lemma forEach_rmSync {A} (f : A -> path) (names : list A)
  (s s' : MinecraftServer) (w w' : World) :
  forEach names (fun file => io (Fs.rmSync (f file))) (s, w) = (Ret tt, (s', w')) ->
  s' = s /\ fault w' = fault w /\ now w' = now w
  /\ (forall q, (exists n, n ∈ names /\ f n `prefix_of` q) -> files w' !! q = None)
  /\ (forall q, (forall n, n ∈ names -> ~ (f n `prefix_of` q)) ->
                files w' !! q = files w !! q).
Proof.
  revert w. induction names as [|n names IH]; intros w H; cbn [forEach] in H.
  - unfold ret in H. injection H as <- <-.
    repeat split; try reflexivity.
    intros q (n & Hn & _). apply elem_of_nil in Hn. destruct Hn.
  - inv_ret H. destruct a, s0 as [s0 w0]. apply io_Ret in E as [-> E].
    destruct (rmSync_Ret _ _ _ E) as (Hin & Hout & Hfault).
    assert (Hnow : now w0 = now w)
      by (apply (keeps_eq now (Fs.rmSync (f n)) w (Ret tt) w0); [frame | exact E]).
    destruct (IH _ H) as (-> & Hf & Hn & Hgone & Hkept).
    split; [reflexivity |]. split; [congruence |]. split; [congruence |]. split.
    + intros q (m & Hm & Hq). apply elem_of_cons in Hm as [-> | Hm].
      * destruct (decide (Exists (fun m => f m `prefix_of` q) names)) as [Hex | Hno].
        -- apply Hgone. apply Exists_exists in Hex. exact Hex.
        -- rewrite Hkept; [apply Hin, Hq |].
           intros m Hm Hp. apply Hno, Exists_exists. exists m. split; assumption.
      * apply Hgone. exists m. split; assumption.
    + intros q Hq. rewrite Hkept by (intros m Hm; apply Hq; right; exact Hm).
      apply Hout, Hq. left.
Qed.

Lemma children_inv (fs : gmap path inode) (p : path) (name : jsstring) :
  name ∈ Fs.children fs p -> exists i, fs !! (p ++ [name]) = Some i.
Proof.
  unfold Fs.children. intros H. apply list_elem_of_omap in H as ([k i] & Hk & H).
  cbn [fst] in H. destruct (bool_decide _) eqn:E; [| discriminate H].
  apply bool_decide_eq_true in E as [_ E]. apply last_Some in H as [l' ->].
  rewrite removelast_snoc in E. subst l'. exists i. apply elem_of_map_to_list, Hk.
Qed.

(** A file is not copied onto a directory. *)
Lemma cpSync_onto_dir (src dst : path) (keep : path -> bool) (w w' : World) :
  Fs.cpSync src dst keep w = (Ret tt, w') -> keep src = true ->
  Fs.isDir (files w) dst = true -> Fs.isDir (files w) src = true.
Proof.
  intros H Hkeep Hdst. unfold Fs.cpSync in H.
  apply bind_Ret_inv in H as ([] & wg & G & H).
  rewrite guard_run in G. assert (wg = w) by (destruct (fault w _); congruence). subst wg.
  apply bind_Ret_inv in H as (i & ws & S & H).
  unfold Fs.statSync in S. unfold Fs.isDir at 1.
  destruct (Fs.lookupNode (files w) src) as [[[c|] b]|]; [| reflexivity | discriminate S].
  injection S as <- <-. rewrite Hkeep in H. cbn [negb node_of] in H.
  apply bind_Ret_inv in H as ([] & w1 & M & H).
  pose proof (mkdirSync_subseteq (removelast dst) w) as Hsub. rewrite M in Hsub.
  cbn [snd] in Hsub. pose proof (isDir_weaken _ _ _ Hsub Hdst) as Hd.
  unfold Fs.writeFileSync in H. rewrite Hd in H.
  destruct (fault w1 (OpWrite dst)) as [[]|]; try discriminate H;
    destruct (negb _); discriminate H.
Qed.

(** What a [restoreBackup] that returned has done, for an instance directory
    below which every entry bears a plain name and lies in an entry of the
    directory. *)
Lemma restoreBackup_Ret actor id s w dir after :
  serverDir s = Some dir ->
  Fs.existsSync w (backupDirOf s) = true ->
  let source := Path.join (backupDirOf s) [id] in
  ~ (dir `prefix_of` source) ->
  (forall r0 rest i, files w !! (dir ++ r0 :: rest) = Some i ->
     plainName r0 /\ exists j, files w !! (dir ++ [r0]) = Some j) ->
  restoreBackup actor id (s, w) = (Ret tt, after) ->
  status s = OFFLINE
  /\ (forall rest, rest <> [] ->
        files after.2 !! (dir ++ rest)
        = (fun i => {| node_of := node_of i; birthtimeMs := now w |})
            <$> files w !! (source ++ rest))
  /\ (forall q i, ~ (dir `prefix_of` q) -> files w !! q = Some i ->
                  files after.2 !! q = Some i).
Proof.
  intros Hdir Hbdir source Hnot Hbelow H. unfold restoreBackup in H.
  rewrite bind_this in H. cbn [fst] in H.
  destruct (bool_decide (status s = OFFLINE)) eqn:Hst; cbn [negb] in H;
    [| unfold throw in H; discriminate H].
  apply bool_decide_eq_true in Hst. split; [exact Hst |].
  rewrite (bind_Ret _ _ _ _ _ (getBackupDir_existing s w Hbdir)) in H.
  rewrite bind_ask in H. cbn [snd] in H. fold source in H.
  destruct (Fs.existsSync w source); cbn [negb] in H; [| unfold throw in H; discriminate H].
  inv_ret H. destruct a, a0, s0 as [s0 w0], s1 as [s1 w1], s2 as [s2 w2].
  unfold this, gets in E1. injection E1 as <- <- <-.
  assert (Hsd : serverDir s1 = Some dir).
  { rewrite <- Hdir. transitivity (serverDir s0);
      [kept (fun s : Sys => serverDir s.1) E0 | kept (fun s : Sys => serverDir s.1) E]. }
  assert (Hf1 : files w1 = files w).
  { transitivity (files w0);
      [kept (fun s : Sys => files s.2) E0 | kept (fun s : Sys => files s.2) E]. }
  assert (Hn1 : now w1 = now w).
  { transitivity (now w0);
      [kept (fun s : Sys => now s.2) E0 | kept (fun s : Sys => now s.2) E]. }
  rewrite Hsd in H. clear E E0.
  apply bind_Ret_inv in H as (a & [t3 w3] & E & H).
  apply bind_Ret_inv in H as ([] & [t4 w4] & E0 & H).
  apply bind_Ret_inv in H as ([] & [t5 w5] & E1 & H).
  apply io_Ret in E as [-> Hread]. apply io_Ret in E1 as [-> Hcp].
  (* the listing *)
  unfold Fs.readdirSync in Hread. apply bind_Ret_inv in Hread as ([] & wg & G & Hread).
  rewrite guard_run in G. assert (wg = w1) by (destruct (fault w1 _); congruence). subst wg.
  assert (Hdirdir : Fs.isDir (files w1) dir = true).
  { unfold Fs.isDir. destruct (Fs.lookupNode (files w1) dir) as [[[c|] b]|];
      [discriminate Hread | reflexivity | discriminate Hread]. }
  assert (a = Fs.children (files w1) dir /\ w3 = w1) as [-> ->].
  { destruct (Fs.lookupNode (files w1) dir) as [[[c|] b]|];
      [discriminate Hread | | discriminate Hread].
    injection Hread as <- <-. split; reflexivity. }
  (* the removals *)
  apply forEach_rmSync in E0 as (-> & Hfault & Hnow & Hgone & Hkept).
  assert (Hplain : forall n, n ∈ Fs.children (files w1) dir ->
                             Path.join dir [n] = dir ++ [n]).
  { intros n Hn. apply children_inv in Hn as [i Hi]. rewrite Hf1 in Hi.
    destruct (Hbelow n [] i Hi) as [(P1 & P2 & P3 & P4) _]. apply join_plain; assumption. }
  assert (Hempty : forall rest, rest <> [] -> files w4 !! (dir ++ rest) = None).
  { intros [|r0 rest] Hrest; [congruence |].
    destruct (files w1 !! (dir ++ r0 :: rest)) as [i|] eqn:Ei.
    - rewrite Hf1 in Ei. destruct (Hbelow _ _ _ Ei) as [_ [j Hj]].
      assert (Hr0 : r0 ∈ Fs.children (files w1) dir)
        by (apply (children_elem _ _ _ j); rewrite Hf1; exact Hj).
      apply Hgone. exists r0. split; [exact Hr0 |].
      rewrite (Hplain _ Hr0). exists rest. rewrite <- app_assoc. reflexivity.
    - destruct (decide (Exists (fun n => Path.join dir [n] `prefix_of` dir ++ r0 :: rest)
                          (Fs.children (files w1) dir))) as [Hex | Hno].
      + apply Hgone. apply Exists_exists in Hex. exact Hex.
      + rewrite Hkept; [exact Ei |].
        intros n Hn Hp. apply Hno, Exists_exists. exists n. split; assumption. }
  assert (Hrest : forall q, ~ (dir `prefix_of` q) \/ q = dir ->
                            files w4 !! q = files w !! q).
  { intros q Hq. rewrite <- Hf1. apply Hkept. intros n Hn. rewrite (Hplain _ Hn).
    intros Hp. destruct Hq as [Hq | ->].
    - apply Hq. destruct Hp as [u ->]. exists ([n] ++ u). rewrite app_assoc. reflexivity.
    - exact (snoc_not_prefix dir [n] ltac:(discriminate) Hp). }
  (* the copy *)
  assert (Hdir4 : Fs.isDir (files w4) dir = true).
  { rewrite (isDir_same (files w1)); [exact Hdirdir |].
    rewrite Hf1. apply Hrest. right. reflexivity. }
  pose proof (cpSync_onto_dir _ _ _ _ _ Hcp eq_refl Hdir4) as Hsrc.
  destruct (cpSync_dir _ _ _ _ _ Hcp Hsrc eq_refl) as (Hnot' & wm & Hmk & Hcopy & _).
  destruct (mkdirSync_Ret _ _ _ Hmk) as (Hsub & Hother & _ & Hnowm & _).
  assert (Hfinal : files after.2 = files w5)
    by (destruct after; kept (fun s : Sys => files s.2) H).
  rewrite Hnowm, Hnow, Hn1 in Hcopy. rewrite <- Hfinal in Hcopy.
  assert (Hapart : forall rest, ~ (dir `prefix_of` source ++ rest)).
  { intros rest Hp.
    destruct (prefix_weak_total dir source (source ++ rest) Hp
                ltac:(exists rest; reflexivity)) as [Hc | Hc]; auto. }
  assert (Hsame : forall rest, files wm !! (source ++ rest) = files w !! (source ++ rest)).
  { intros rest. rewrite Hother.
    - apply Hrest. left. apply Hapart.
    - intros [u Hu]. apply Hnot'. exists (rest ++ u). rewrite app_assoc. exact Hu. }
  split.
  - intros rest Hne. rewrite Hcopy.
    destruct (files w !! (source ++ rest)) as [i|] eqn:Ei; cbn [fmap option_fmap option_map].
    + rewrite <- (drop_app_length source rest) at 1. apply copy_hit.
      * apply NoDup_fst_map_to_list.
      * apply elem_of_map_to_list. rewrite Hsame. exact Ei.
      * exists rest. reflexivity.
      * intros E. apply Hne. rewrite <- (app_nil_r source) in E at 2.
        apply app_inv_head in E. exact E.
      * unfold Fs.passes. apply forallb_forall. reflexivity.
    + rewrite copy_miss.
      * rewrite Hother by (apply snoc_not_prefix, Hne).
        apply Hempty, Hne.
      * intros k i Hk [rest' ->] _ _. rewrite drop_app_length. intros E.
        apply app_inv_head in E. subst rest'.
        apply elem_of_map_to_list in Hk. rewrite Hsame, Ei in Hk. discriminate Hk.
  - intros q i Hq Hi. rewrite Hcopy, copy_miss.
    + eapply lookup_weaken; [| exact Hsub]. rewrite Hrest by (left; exact Hq). exact Hi.
    + intros k j _ _ _ _ <-. apply Hq. eexists. reflexivity.
Qed.


(** X21. A [createBackup] that returns, for an instance directory whose path
    does not hold "session.lock": the supervisor was OFFLINE; the snapshot is
    a directory of the backup directory named after the label and the time;
    every entry below the instance directory whose path does not hold
    "session.lock" has a copy with the same content at the same place below
    the snapshot, and no entry whose path holds it has one; every entry that
    is not below the snapshot is still there as it was; and
    [getBackupsForServer] lists the snapshot. *)
Theorem createBackup_snapshot (actor : jsstring) (name : option jsstring)
  (s : MinecraftServer) (w : World) (dir : path) (cfg : ServerConfig.t) :
  serverDir s = Some dir -> config s = Some cfg ->
  Fs.isDir (files w) dir = true ->
  includes (js "session.lock") (Path.toString dir) = false ->
  let r := createBackup actor name (s, w) in
  let snapshot := backupDirOf s ++ [snapshotName name (now w)] in
  r.1 = Ret tt ->
  status s = OFFLINE
  /\ Fs.isDir (files r.2.2) snapshot = true
  /\ (forall rest i,
        rest <> [] -> files w !! (dir ++ rest) = Some i ->
        includes (js "session.lock") (Path.toString (dir ++ rest)) = false ->
        files r.2.2 !! (snapshot ++ rest)
        = Some {| node_of := node_of i; birthtimeMs := now w |})
  /\ (forall rest,
        rest <> [] -> files w !! (snapshot ++ rest) = None ->
        includes (js "session.lock") (Path.toString (dir ++ rest)) = true ->
        files r.2.2 !! (snapshot ++ rest) = None)
  /\ (forall q i,
        ~ (snapshot `prefix_of` q) -> files w !! q = Some i -> files r.2.2 !! q = Some i)
  /\ (fault w (OpList (backupDirOf s)) = None ->
      exists names,
        (getBackupsForServer (orElse (ServerConfig.id cfg) (js "unknown")) r.2).1
        = Ret names
        /\ snapshotName name (now w) ∈ names).
Proof.
  intros Hdir Hcfg Hisdir Hclean r snapshot Hr.
  destruct r as [o after] eqn:Er. cbn [fst snd] in *. subst o.
  change (createBackup actor name (s, w) = (Ret tt, after)) in Er.
  destruct (createBackup_result _ _ _ _ _ _ _ Hdir Hcfg Hisdir Hclean Er)
    as (Hst & _ & Hdirs & Hcopy & Hlocked & Hkept & _ & Hfault & _).
  fold snapshot in Hdirs, Hcopy, Hlocked, Hkept.
  split; [exact Hst |]. split; [apply Hdirs; reflexivity |].
  split; [| split; [| split; [exact Hkept |]]].
  - intros rest i Hrest Hi Hok.
    destruct (Hcopy rest Hrest Hok) as [-> | [Hnone _]]; [rewrite Hi; reflexivity |].
    rewrite Hi in Hnone. discriminate Hnone.
  - intros rest Hrest Hnone Hlock. rewrite (Hlocked rest Hrest Hlock). exact Hnone.
  - intros Hlist.
    pose proof (createBackup_frame actor name (s, w)) as (Hroot & _). rewrite Er in Hroot.
    destruct after as [s' w']. cbn [fst snd] in *.
    unfold getBackupsForServer. rewrite bind_this, bind_ask. cbn [fst snd].
    rewrite Hroot.
    assert (Hb : Path.join (Path.dirname (serversDir s))
                   [js "backups"; orElse (ServerConfig.id cfg) (js "unknown")]
                 = backupDirOf s)
      by (unfold backupDirOf; rewrite Hcfg; reflexivity).
    rewrite Hb.
    assert (Hbdir : Fs.isDir (files w') (backupDirOf s) = true)
      by (apply Hdirs; exists [snapshotName name (now w)]; reflexivity).
    assert (Hex : Fs.existsSync w' (backupDirOf s) = true).
    { unfold Fs.existsSync. unfold Fs.isDir in Hbdir.
      destruct (Fs.lookupNode _ _); [reflexivity | discriminate Hbdir]. }
    rewrite Hex. cbn [negb]. rewrite io_run. cbn [fst].
    unfold Fs.readdirSync, bind. rewrite guard_run. rewrite Hfault, Hlist.
    unfold Fs.isDir in Hbdir.
    destruct (Fs.lookupNode (files w') (backupDirOf s)) as [[[c|] b]|];
      try discriminate Hbdir.
    cbn [fst]. eexists. split; [reflexivity |].
    assert (Hsnap : snapshot <> [])
      by (subst snapshot; destruct (backupDirOf s); discriminate).
    destruct (isDir_lookup _ _ Hsnap (Hdirs snapshot ltac:(reflexivity))) as [i Hi].
    eapply children_elem. exact Hi.
Qed.

Lemma createBackup_snapshot_witness :
  let r := createBackup (js "admin") (Some (js "pre update")) (Demo.stopped, Demo.world) in
  let snapshot :=
    backupDirOf Demo.stopped ++ [snapshotName (Some (js "pre update")) (now Demo.world)] in
  snapshot = [js "srv"; js "backups"; js "main"; js "preupdate-2024-02-29T12-34-56-789Z"]
  /\ files r.2.2 !! (snapshot ++ [js "server.jar"])
     = Some {| node_of := File (Text (js "PK")); birthtimeMs := 1709210096789 |}.
Proof.
  cbv zeta. split; [vm_compute; reflexivity |].
  destruct (createBackup_snapshot (js "admin") (Some (js "pre update")) Demo.stopped
              Demo.world (Demo.servers ++ [js "main"]) (Demo.descriptor "main"))
    as (_ & _ & H & _);
    [reflexivity | reflexivity | vm_compute; reflexivity | vm_compute; reflexivity
    | vm_compute; reflexivity |].
  apply (H [js "server.jar"] (Demo.file (Text (js "PK"))));
    [discriminate | vm_compute; reflexivity | vm_compute; reflexivity].
Defined.

Lemma wellFormed_below (fs : gmap path inode) (dir : path) (r0 : jsstring) (rest : path)
  (i : inode) :
  wellFormed fs -> fs !! (dir ++ r0 :: rest) = Some i ->
  plainName r0 /\ exists j, fs !! (dir ++ [r0]) = Some j.
Proof.
  intros Hwf Hi. destruct (Hwf _ _ Hi) as [Hplain Hanc]. split.
  - apply Forall_app in Hplain as [_ Hplain]. apply Forall_cons in Hplain as [H _]. exact H.
  - destruct rest as [|r1 rest]; [exists i; exact Hi |].
    rewrite Forall_forall in Hanc.
    apply (isDir_lookup fs); [destruct dir; discriminate |].
    apply Hanc, ancestors_prefix. split; [| destruct dir; discriminate].
    rewrite removelast_app by discriminate.
    change (removelast (r0 :: r1 :: rest)) with (r0 :: removelast (r1 :: rest)).
    exists (removelast (r1 :: rest)). rewrite <- app_assoc. reflexivity.
Qed.

(** X22. A [restoreBackup] that returns, on a well-formed tree whose backup
    directory exists, for a snapshot that does not lie in the instance
    directory: the supervisor was OFFLINE, and the instance directory now
    holds what the snapshot holds: below it, and apart from [laplace.log], to
    which the lines that the call logs are appended, an entry is there if and
    only if the snapshot has one at the same place, with the same content;
    what the directory held before is gone.  Every entry outside the
    instance directory is still there as it was. *)
Theorem restoreBackup_copies (actor id : jsstring) (s : MinecraftServer) (w : World)
  (dir : path) :
  serverDir s = Some dir -> wellFormed (files w) ->
  Fs.existsSync w (backupDirOf s) = true ->
  let source := Path.join (backupDirOf s) [id] in
  ~ (dir `prefix_of` source) ->
  let r := restoreBackup actor id (s, w) in
  r.1 = Ret tt ->
  status s = OFFLINE
  /\ (forall name rest, name <> js "laplace.log" ->
        files r.2.2 !! (dir ++ name :: rest)
        = (fun i => {| node_of := node_of i; birthtimeMs := now w |})
            <$> files w !! (source ++ name :: rest))
  /\ (forall q i, ~ (dir `prefix_of` q) -> files w !! q = Some i ->
                  files r.2.2 !! q = Some i).
Proof.
  intros Hdir Hwf Hbdir source Hnot r Hr.
  destruct r as [o after] eqn:Er. cbn [fst snd] in *. subst o.
  change (restoreBackup actor id (s, w) = (Ret tt, after)) in Er.
  destruct (restoreBackup_Ret actor id s w dir after Hdir Hbdir Hnot) as (H1 & H2 & H3);
    [| exact Er |].
  - intros r0 rest i. apply wellFormed_below, Hwf.
  - split; [exact H1 |]. split; [| exact H3].
    intros name rest _. apply H2. discriminate.
Qed.

Lemma restoreBackup_copies_witness :
  let r := restoreBackup (js "admin") (js "backup-2024") (Demo.stopped, Demo.world) in
  files r.2.2 !! (Demo.servers ++ [js "main"; js "server.jar"]) = None
  /\ files r.2.2 !! (Demo.servers ++ [js "other"; js "laplace.server.json"])
     = Some (Demo.file (Json (DConfig (Demo.descriptor "other")))).
Proof.
  destruct (restoreBackup_copies (js "admin") (js "backup-2024") Demo.stopped Demo.world
              (Demo.servers ++ [js "main"]))
    as (_ & H1 & H2);
    [reflexivity | unfold wellFormed, plainName; decided | vm_compute; reflexivity
    | decided | vm_compute; reflexivity |].
  split.
  - etransitivity; [exact (H1 (js "server.jar") [] ltac:(discriminate)) |].
    vm_compute. reflexivity.
  - apply H2; [decided | vm_compute; reflexivity].
Defined.


Lemma isDir_exists (w : World) (p : path) :
  Fs.isDir (files w) p = true -> Fs.existsSync w p = true.
Proof.
  unfold Fs.isDir, Fs.existsSync. destruct (Fs.lookupNode _ _); [reflexivity | discriminate].
Qed.

(** X23. Backup, then restore.  On a well-formed tree, take a snapshot under
    a name that is not in use and restore it: when both calls return, the
    instance directory holds what it held when the snapshot was taken, except
    the entries whose path holds "session.lock", which are gone, and apart
    from [laplace.log], to which the lines that the two calls log are
    appended; the contents are the same and the entries are new ones, born at
    the time of the call.  What is outside the instance directory and the
    snapshot is still there as it was. *)
Theorem backup_restore_round_trip (actor restorer : jsstring) (name : option jsstring)
  (s : MinecraftServer) (w : World) (dir : path) (cfg : ServerConfig.t) :
  serverDir s = Some dir -> config s = Some cfg ->
  wellFormed (files w) ->
  Fs.isDir (files w) dir = true ->
  includes (js "session.lock") (Path.toString dir) = false ->
  let snapshot := backupDirOf s ++ [snapshotName name (now w)] in
  vacant (files w) snapshot ->
  let b := createBackup actor name (s, w) in
  let r := restoreBackup restorer (snapshotName name (now w)) b.2 in
  b.1 = Ret tt -> r.1 = Ret tt ->
  (forall name rest, name <> js "laplace.log" ->
     files r.2.2 !! (dir ++ name :: rest)
     = if includes (js "session.lock") (Path.toString (dir ++ name :: rest)) then None
       else (fun i => {| node_of := node_of i; birthtimeMs := now w |})
              <$> files w !! (dir ++ name :: rest))
  /\ (forall q i, ~ (dir `prefix_of` q) -> ~ (snapshot `prefix_of` q) ->
                  files w !! q = Some i -> files r.2.2 !! q = Some i).
Proof.
  intros Hdir Hcfg Hwf Hisdir Hclean snapshot Hvacant b r Hb Hr.
  destruct b as [o [sb wb]] eqn:Eb. cbn [fst snd] in *. subst o.
  change (createBackup actor name (s, w) = (Ret tt, (sb, wb))) in Eb.
  destruct r as [o after] eqn:Er. cbn [fst snd] in *. subst o.
  change (restoreBackup restorer (snapshotName name (now w)) (sb, wb) = (Ret tt, after))
    in Er.
  destruct (createBackup_result _ _ _ _ _ _ _ Hdir Hcfg Hisdir Hclean Eb)
    as (_ & Hnot & Hdirs & Hcopy & Hlocked & Hkept & Hsame & _ & Hnow).
  fold snapshot in Hnot, Hdirs, Hcopy, Hlocked, Hkept, Hsame. cbn [snd] in *.
  pose proof (createBackup_frame actor name (s, w)) as (F1 & F2 & F3 & _).
  rewrite Eb in F1, F2, F3. cbn [fst snd] in F1, F2, F3.
  assert (Hbd : backupDirOf sb = backupDirOf s)
    by (unfold backupDirOf; rewrite F1, F3; reflexivity).
  destruct (snapshotName_plain name (now w)) as (P1 & P2 & P3 & P4).
  assert (Hnone : forall q, snapshot `prefix_of` q -> files w !! q = None).
  { intros q Hq. destruct (files w !! q) as [i|] eqn:Ei; [| reflexivity].
    destruct (Hvacant _ _ Ei Hq). }
  assert (Hsnap : snapshot <> [])
    by (subst snapshot; destruct (backupDirOf s); discriminate).
  assert (Hout : ~ (snapshot `prefix_of` dir)).
  { intros Hp.
    assert (Hd : dir <> []).
    { intros ->. destruct Hp as [u Hu]. destruct snapshot; [congruence | discriminate Hu]. }
    destruct (isDir_lookup _ _ Hd Hisdir) as [i Hi].
    rewrite (Hnone _ Hp) in Hi. discriminate Hi. }
  assert (Hinside : forall x, files wb !! (dir ++ x) = files w !! (dir ++ x)).
  { intros x. apply Hsame.
    - intros Hp.
      destruct (prefix_weak_total snapshot dir (dir ++ x) Hp ltac:(exists x; reflexivity));
        auto.
    - intros [u Hu]. apply Hnot. exists (x ++ u). rewrite app_assoc. exact Hu. }
  destruct (restoreBackup_Ret restorer (snapshotName name (now w)) sb wb dir after)
    as (_ & Hrestored & Hothers).
  - rewrite F2. exact Hdir.
  - rewrite Hbd. apply isDir_exists, Hdirs. exists [snapshotName name (now w)]. reflexivity.
  - rewrite Hbd, (join_plain _ _ P1 P2 P3 P4). exact Hnot.
  - intros r0 rest i. rewrite !Hinside. apply wellFormed_below, Hwf.
  - exact Er.
  - rewrite Hbd, (join_plain _ _ P1 P2 P3 P4) in Hrestored. fold snapshot in Hrestored.
    rewrite Hnow in Hrestored. split.
    + intros name0 rest0 _. set (rest := name0 :: rest0).
      assert (Hrest : rest <> []) by discriminate.
      rewrite (Hrestored rest Hrest).
      destruct (includes (js "session.lock") (Path.toString (dir ++ rest))) eqn:Hl.
      * rewrite (Hlocked rest Hrest Hl), Hnone by (exists rest; reflexivity). reflexivity.
      * destruct (Hcopy rest Hrest Hl) as [-> | [Hmiss ->]].
        -- destruct (files w !! (dir ++ rest)); reflexivity.
        -- rewrite Hmiss, Hnone by (exists rest; reflexivity). reflexivity.
    + intros q i Hq Hq' Hi. apply Hothers; [exact Hq |]. apply Hkept; assumption.
Qed.

Lemma backup_restore_round_trip_witness :
  let b := createBackup (js "admin") None (Demo.stopped, Demo.world) in
  let r := restoreBackup (js "admin") (snapshotName None (now Demo.world)) b.2 in
  files r.2.2 !! (Demo.servers ++ [js "main"; js "ops.json"])
  = Some {| node_of := File (Json (DRefs [Demo.alex])); birthtimeMs := now Demo.world |}.
Proof.
  destruct (backup_restore_round_trip (js "admin") (js "admin") None Demo.stopped
              Demo.world (Demo.servers ++ [js "main"]) (Demo.descriptor "main"))
    as [H _];
    [reflexivity | reflexivity | unfold wellFormed, plainName; decided
    | vm_compute; reflexivity | vm_compute; reflexivity | unfold vacant; decided
    | vm_compute; reflexivity | vm_compute; reflexivity |].
  etransitivity; [exact (H (js "ops.json") [] ltac:(discriminate)) |].
  vm_compute. reflexivity.
Defined.



(** ** Stopping and restarting *)

Lemma inSys_run {A} (m : M Sys A) (x : Sys) (sh : Shell) :
  inSys m (x, sh) = ((m x).1, ((m x).2, sh)).
Proof. unfold inSys, zoom. cbn [fst snd]. destruct (m x); reflexivity. Qed.

Lemma bind_inSys_this {A B} (f : MinecraftServer -> A) (k : A -> M Host B) (x : Sys)
  (sh : Shell) :
  bind (inSys (this f)) k (x, sh) = k (f x.1) (x, sh).
Proof. unfold bind. rewrite inSys_run. destruct x; reflexivity. Qed.

Lemma bind_inSys_total {B} (m : M Sys unit) (k : unit -> M Host B) (x : Sys) (sh : Shell) :
  total m -> bind (inSys m) k (x, sh) = k tt ((m x).2, sh).
Proof.
  intros H. unfold bind. rewrite inSys_run. destruct (H x) as [[] Ha].
  destruct (m x) as [r x']. cbn [fst snd] in *. subst r. reflexivity.
Qed.

Lemma bind_inSys_Ret {A B} (m : M Sys A) (k : A -> M Host B) (x x' : Sys) (sh : Shell) a :
  m x = (Ret a, x') -> bind (inSys m) k (x, sh) = k a (x', sh).
Proof. intros H. unfold bind. rewrite inSys_run, H. reflexivity. Qed.

Lemma bind_inSys_Throw {A B} (m : M Sys A) (k : A -> M Host B) (x x' : Sys) (sh : Shell) e :
  m x = (Throw e, x') -> bind (inSys m) k (x, sh) = (Throw e, (x', sh)).
Proof. intros H. unfold bind. rewrite inSys_run, H. reflexivity. Qed.

(** The synchronous part of [stop], in a state other than OFFLINE. *)
Lemma stop_run actor caller (s : MinecraftServer) (w : World) (sh : Shell) :
  status s <> OFFLINE ->
  exists x1 : Sys,
    stop actor caller ((s, w), sh)
    = match rcon s with
      | Some _ =>
          (Ret tt,
           ((x1.1, set_trace (cons (RconSend (js "stop"))) x1.2),
            {| kills := kills sh; waiting := waiting sh ++ [StopLoop 0 caller] |}))
      | None =>
          stopDone caller
            (x1, match process s with
                 | Some p => {| kills := (pid p, SIGTERM) :: kills sh;
                                waiting := waiting sh |}
                 | None => sh
                 end)
      end
    /\ status x1.1 = STOPPING /\ intentionToStop x1.1 = true
    /\ process x1.1 = process s /\ rcon x1.1 = rcon s /\ config x1.1 = config s
    /\ crashCount x1.1 = crashCount s /\ serversDir x1.1 = serversDir s
    /\ timers x1.2 = timers w /\ spawns x1.2 = spawns w
    /\ respawnsScheduled x1.2 = respawnsScheduled w
    /\ (forall q, q <> publicPath s -> q <> tmpPath (publicPath s) ->
                  files x1.2 !! q = files w !! q)
    /\ fault x1.2 = fault w /\ spawnThrows x1.2 = spawnThrows w
    /\ nextPid x1.2 = nextPid w.
Proof.
  intros Hst. unfold stop.
  rewrite bind_inSys_this. cbn [fst].
  rewrite (bool_decide_eq_false_2 _ Hst).
  rewrite (bind_inSys_total (assign _)) by frame.
  rewrite (bind_inSys_total (updateState _)) by frame.
  rewrite (bind_inSys_total (logSystem _)) by frame.
  change ((assign (set_intentionToStop true) (s, w)).2)
    with (set_intentionToStop true s, w).
  set (x0 := (set_intentionToStop true s, w)).
  set (xa := (updateState STOPPING x0).2).
  set (x1 := (logSystem _ xa).2).
  assert (K : forall {B} (f : Sys -> B),
             (forall m, keeps f (logSystem m)) -> keeps f (updateState STOPPING) ->
             f x1 = f x0).
  { intros B f H1 H2. subst x1 xa. rewrite (keeps_at f (logSystem _) _ (H1 _)).
    apply H2. }
  assert (H1 : status x1.1 = STOPPING).
  { subst x1. rewrite (keeps_at (fun s : Sys => status s.1) (logSystem _)) by frame.
    apply updateState_status. }
  pose proof (K _ (fun s : Sys => intentionToStop s.1) ltac:(intros; frame) ltac:(frame)) as H2.
  pose proof (K _ (fun s : Sys => process s.1) ltac:(intros; frame) ltac:(frame)) as H3.
  pose proof (K _ (fun s : Sys => rcon s.1) ltac:(intros; frame) ltac:(frame)) as H4.
  pose proof (K _ (fun s : Sys => config s.1) ltac:(intros; frame) ltac:(frame)) as H5.
  pose proof (K _ (fun s : Sys => crashCount s.1) ltac:(intros; frame) ltac:(frame)) as H6.
  pose proof (K _ (fun s : Sys => serversDir s.1) ltac:(intros; frame) ltac:(frame)) as H7.
  pose proof (K _ (fun s : Sys => timers s.2) ltac:(intros; frame) ltac:(frame)) as H8.
  pose proof (K _ (fun s : Sys => spawns s.2) ltac:(intros; frame) ltac:(frame)) as H9.
  pose proof (K _ (fun s : Sys => respawnsScheduled s.2) ltac:(intros; frame) ltac:(frame))
    as H10.
  pose proof (K _ (fun s : Sys => fault s.2) ltac:(intros; frame) ltac:(frame)) as H11.
  pose proof (K _ (fun s : Sys => spawnThrows s.2) ltac:(intros; frame) ltac:(frame)) as H12.
  pose proof (K _ (fun s : Sys => nextPid s.2) ltac:(intros; frame) ltac:(frame)) as H13.
  assert (H14 : forall q, q <> publicPath s -> q <> tmpPath (publicPath s) ->
                          files x1.2 !! q = files w !! q).
  { intros q Q1 Q2. subst x1 xa.
    transitivity (files (updateState STOPPING x0).2.2 !! q).
    - f_equal. apply (keeps_at (fun s : Sys => files s.2) (logSystem _)). frame.
    - apply (updateState_files STOPPING x0 q); assumption. }
  subst x0.
  cbn [fst snd process rcon config crashCount serversDir intentionToStop
       set_intentionToStop] in H2, H3, H4, H5, H6, H7, H8, H9, H10, H11, H12, H13.
  clearbody x1. clear K xa. destruct x1 as [s1 w1]. cbn [fst snd] in *.
  exists (s1, w1). cbn [fst snd].
  split; [| auto 20].
  rewrite bind_inSys_this. cbn [fst]. rewrite H4.
  destruct (rcon s) as [session|].
  - assert (E : try_catch (bind (rconSend (js "stop")) (fun _ => ret tt)) (fun _ => ret tt)
                  (s1, w1)
                = (Ret tt, (s1, set_trace (cons (RconSend (js "stop"))) w1))).
    { cbv [try_catch bind rconSend io zoom emit modify ret fst snd].
      match goal with |- context [rconReply ?a ?b] => destruct (rconReply a b) end;
        reflexivity. }
    rewrite (bind_inSys_Ret _ _ _ _ _ _ E). reflexivity.
  - rewrite bind_inSys_this. cbn [fst]. rewrite H3.
    destruct (process s) as [p|]; reflexivity.
Qed.


Lemma onClose_stopping code (s : MinecraftServer) (w : World) :
  intentionToStop s = true -> status s <> RESTARTING ->
  let r := (onClose code (s, w)).2 in
  (onClose code (s, w)).1 = Ret tt
  /\ status r.1 = OFFLINE /\ process r.1 = None /\ rcon r.1 = None
  /\ crashCount r.1 = crashCount s /\ intentionToStop r.1 = true
  /\ config r.1 = config s
  /\ timers r.2 = timers w /\ respawnsScheduled r.2 = respawnsScheduled w
  /\ spawns r.2 = spawns w.
Proof.
  intros Hstop Hnr. cbv zeta.
  destruct (onClose_decision code s w)
    as (s1 & E & P1 & P2 & P3 & P4 & P5 & P6 & P7 & P8 & P9 & P10 & P11).
  rewrite E. clear E.
  rewrite (bool_decide_eq_false_2 _ Hnr), Hstop. cbn [negb andb].
  destruct (updateState_frame OFFLINE s1)
    as (F1 & F2 & F3 & F4 & F5 & F6 & F7 & F8 & F9 & F10 & F11 & F12).
  cbv zeta in *.
  split; [rewrite (total_run (updateState OFFLINE)) by frame; reflexivity |].
  rewrite updateState_status.
  repeat split; congruence.
Qed.

Lemma restartLoop_run checks actor (x : Sys) (sh : Shell) :
  restartLoop checks actor (x, sh)
  = (Ret tt,
     (x, {| kills := kills sh;
            waiting :=
              waiting sh
              ++ (if bool_decide (is_Some (process x.1)) && (checks <? 20)%nat
                  then [RestartLoop (checks + 1) actor]
                  else match ServerConfig.id <$> config x.1 with
                       | Some (_ :: _) => [RestartStart actor]
                       | _ => []
                       end) |})).
Proof.
  unfold restartLoop. rewrite bind_inSys_this.
  destruct (bool_decide (is_Some (process x.1)) && (checks <? 20)%nat); [reflexivity |].
  unfold restartEnd. rewrite bind_inSys_this.
  destruct (ServerConfig.id <$> config x.1) as [[|c id]|]; try reflexivity;
    destruct sh as [k wt]; unfold ret; cbn [kills waiting]; rewrite app_nil_r; reflexivity.
Qed.

Lemma stopDone_run caller (x : Sys) (sh : Shell) :
  exists sh',
    stopDone caller (x, sh) = (Ret tt, (x, sh'))
    /\ kills sh' = kills sh /\ (caller = None -> sh' = sh).
Proof.
  destruct caller as [actor|]; cbn [stopDone].
  - rewrite restartLoop_run. eexists. split; [reflexivity |]. split; [reflexivity |].
    discriminate.
  - exists sh. repeat split; reflexivity.
Qed.

(** X24. A stop is never taken for a crash.  In any state but OFFLINE,
    [stop] notes the intention and makes the state STOPPING before anything
    else; when the process then exits, with whatever code or signal, the
    [close] handler makes the state OFFLINE: the exit is not counted as a
    crash and no respawn is scheduled.  The loop of [stop] that resumes after
    the exit finds no process and sends no signal. *)
Theorem stop_then_exit (actor : jsstring) (caller : option jsstring) (code : option Z)
  (s : MinecraftServer) (w : World) (sh : Shell) :
  status s <> OFFLINE ->
  let stopped := (stop actor caller ((s, w), sh)).2 in
  let exited := (deliver (Close code) stopped).2 in
  status stopped.1.1 = STOPPING /\ intentionToStop stopped.1.1 = true
  /\ status exited.1.1 = OFFLINE /\ process exited.1.1 = None
  /\ crashCount exited.1.1 = crashCount s
  /\ timers exited.1.2 = timers w
  /\ respawnsScheduled exited.1.2 = respawnsScheduled w
  /\ spawns exited.1.2 = spawns w
  /\ (forall i, kills (stopLoop i None exited).2.2 = kills exited.2).
Proof.
  intros Hst. cbv zeta.
  destruct (stop_run actor caller s w sh Hst)
    as ([s1 w1] & E & H1 & H2 & H3 & H4 & H5 & H6 & H7 & H8 & H9 & H10 & _).
  cbn [fst snd] in *.
  assert (Hh : exists w1' sh',
             (stop actor caller ((s, w), sh)).2 = ((s1, w1'), sh')
             /\ timers w1' = timers w1 /\ respawnsScheduled w1' = respawnsScheduled w1
             /\ spawns w1' = spawns w1).
  { rewrite E. destruct (rcon s).
    - eexists _, _. split; [reflexivity |]. repeat split; reflexivity.
    - match goal with |- context [stopDone caller (?x, ?h)] =>
        destruct (stopDone_run caller x h) as (sh' & -> & _)
      end.
      exists w1, sh'. repeat split; reflexivity. }
  destruct Hh as (w1' & sh' & -> & T1 & T2 & T3). cbn [fst snd].
  split; [exact H1 |]. split; [exact H2 |].
  unfold deliver. rewrite inSys_run. cbn [fst snd step].
  destruct (onClose_stopping code s1 w1' H2 ltac:(congruence))
    as (_ & C1 & C2 & C3 & C4 & C5 & C6 & C7 & C8 & C9).
  cbv zeta in *.
  split; [exact C1 |]. split; [exact C2 |]. split; [congruence |].
  split; [congruence |]. split; [congruence |]. split; [congruence |].
  intros i. unfold stopLoop. rewrite bind_inSys_this. rewrite C2. reflexivity.
Qed.

Lemma stop_then_exit_witness :
  let stopped := (stop (js "admin") None ((Demo.online, Demo.world),
                                          {| kills := []; waiting := [] |})).2 in
  let exited := (deliver (Close None) stopped).2 in
  kills stopped.2 = [(3999%nat, SIGTERM)]
  /\ status exited.1.1 = OFFLINE /\ timers exited.1.2 = [].
Proof.
  destruct (stop_then_exit (js "admin") None None Demo.online Demo.world
              {| kills := []; waiting := [] |})
    as (_ & _ & H1 & _ & _ & H2 & _); [discriminate |].
  split; [vm_compute; reflexivity |]. split; [exact H1 | exact H2].
Defined.


Lemma wake_stopLoop i caller (x : Sys) (sh : Shell) p :
  waiting sh = [StopLoop i caller] -> process x.1 = Some p ->
  wake 0 (x, sh)
  = if (i <? 20)%nat
    then (Ret tt, (x, {| kills := kills sh; waiting := [StopLoop (i + 1) caller] |}))
    else stopDone caller
           ((logSystem (js "[System] Force killing process...") x).2,
            {| kills := (pid p, SIGKILL) :: kills sh; waiting := [] |}).
Proof.
  intros Hw Hp. unfold wake, bind at 1, gets. cbn [snd]. rewrite Hw. cbn [lookup list_lookup].
  unfold bind at 1, modify. cbn [fst snd kills waiting]. rewrite Hw.
  cbn [take drop app resume]. unfold stopLoop. rewrite bind_inSys_this. rewrite Hp.
  destruct (i <? 20)%nat; [reflexivity |].
  rewrite (bind_inSys_total (logSystem _)) by frame.
  unfold bind at 1, kill, modify. cbn [fst snd kills waiting]. reflexivity.
Qed.

(** X25. How [stop] ends the process.  Without an RCON session the process
    is sent SIGTERM at once and [stop] does not wait.  With a session the
    command [stop] is sent to the game and no signal; [stop] then looks for
    the process every half second, and while the process is there the first
    twenty looks send nothing; at the twenty-first the process is sent
    SIGKILL, once. *)
Theorem stop_grace_period (actor : jsstring) (s : MinecraftServer) (w : World)
  (sh : Shell) (p : ChildProcess) :
  status s <> OFFLINE -> process s = Some p -> waiting sh = [] ->
  let stopped := (stop actor None ((s, w), sh)).2 in
  let looks n := Nat.iter n (fun h : Host => (wake 0 h).2) stopped in
  (rcon s = None ->
   kills stopped.2 = (pid p, SIGTERM) :: kills sh /\ waiting stopped.2 = [])
  /\ (is_Some (rcon s) ->
      head (trace stopped.1.2) = Some (RconSend (js "stop"))
      /\ (forall n, (n <= 20)%nat ->
            kills (looks n).2 = kills sh /\ waiting (looks n).2 = [StopLoop n None])
      /\ kills (looks 21%nat).2 = (pid p, SIGKILL) :: kills sh
      /\ waiting (looks 21%nat).2 = []).
Proof.
  intros Hst Hp Hw. cbv zeta.
  destruct (stop_run actor None s w sh Hst)
    as ([s1 w1] & E & H1 & H2 & H3 & H4 & _).
  cbn [fst snd] in *. rewrite E. clear E. split.
  - intros Hr. rewrite Hr, Hp. cbn [stopDone ret snd kills waiting]. auto.
  - intros [session Hr]. rewrite Hr. cbn [fst snd trace set_trace head].
    split; [reflexivity |]. rewrite Hw. cbn [app].
    set (x := (s1, set_trace (cons (RconSend (js "stop"))) w1)).
    assert (Hx : process x.1 = Some p) by (unfold x; cbn [fst]; congruence).
    assert (Hlooks : forall n, (n <= 20)%nat ->
              Nat.iter n (fun h : Host => (wake 0 h).2)
                (x, {| kills := kills sh; waiting := [StopLoop 0 None] |})
              = (x, {| kills := kills sh; waiting := [StopLoop n None] |})).
    { induction n as [|n IH]; intros Hn; [reflexivity |].
      rewrite Nat.iter_succ, IH by lia. cbv beta.
      etransitivity;
        [exact (f_equal snd
                  (wake_stopLoop n None x
                     {| kills := kills sh; waiting := [StopLoop n None] |} p eq_refl Hx)) |].
      replace (n <? 20)%nat with true by (symmetry; apply Nat.ltb_lt; lia).
      cbn [snd kills]. rewrite Nat.add_1_r. reflexivity. }
    split; [intros n Hn; rewrite (Hlooks n Hn); split; reflexivity |].
    change 21%nat with (Datatypes.S 20). rewrite Nat.iter_succ, (Hlooks 20%nat) by lia.
    cbv beta.
    pose proof (f_equal snd
                  (wake_stopLoop 20 None x
                     {| kills := kills sh; waiting := [StopLoop 20 None] |} p eq_refl Hx))
      as Hlast.
    cbn [Nat.ltb Nat.leb stopDone ret snd kills waiting] in Hlast.
    split; [exact (f_equal (fun h : Host => kills h.2) Hlast)
           | exact (f_equal (fun h : Host => waiting h.2) Hlast)].
Qed.

Lemma stop_grace_period_witness :
  let stopped := (stop (js "admin") None ((Demo.connected, Demo.talkative),
                                          {| kills := []; waiting := [] |})).2 in
  let looks n := Nat.iter n (fun h : Host => (wake 0 h).2) stopped in
  kills (looks 20%nat).2 = [] /\ kills (looks 21%nat).2 = [(3999%nat, SIGKILL)].
Proof.
  destruct (stop_grace_period (js "admin") Demo.connected Demo.talkative
              {| kills := []; waiting := [] |} {| pid := 3999; stdin := true |})
    as [_ H]; [discriminate | reflexivity | reflexivity |].
  destruct H as (_ & H1 & H2 & _); [eexists; reflexivity |].
  split; [apply (H1 20%nat); lia | exact H2].
Defined.


Lemma loadAndStart_busy serverId actor (x : Sys) :
  status x.1 <> OFFLINE -> status x.1 <> CRASHED ->
  loadAndStart serverId actor x = (Throw (Error (js "Server is already running or busy")), x).
Proof.
  intros H1 H2. destruct x as [s w]. unfold loadAndStart. rewrite bind_this. cbn [fst] in *.
  rewrite !bool_decide_eq_false_2 by assumption. reflexivity.
Qed.

(** X26. A [stop] with nothing to stop gets stuck.  In a state other than
    OFFLINE with no process and no RCON session (after a crash, while the
    respawn is pending or after the last attempt), [stop] makes the state
    STOPPING, sends no signal and waits for nothing; no exit will follow to
    make the state OFFLINE.  From then on [loadAndStart] is refused as busy,
    and the pending respawn does nothing. *)
Theorem stop_without_process (actor : jsstring) (s : MinecraftServer) (w : World)
  (sh : Shell) :
  status s <> OFFLINE -> process s = None -> rcon s = None ->
  let stopped := (stop actor None ((s, w), sh)).2 in
  status stopped.1.1 = STOPPING /\ intentionToStop stopped.1.1 = true
  /\ process stopped.1.1 = None /\ stopped.2 = sh
  /\ (forall serverId starter,
        loadAndStart serverId starter stopped.1
        = (Throw (Error (js "Server is already running or busy")), stopped.1))
  /\ respawn stopped.1 = (Ret tt, stopped.1).
Proof.
  intros Hst Hp Hr. cbv zeta.
  destruct (stop_run actor None s w sh Hst) as ([s1 w1] & E & H1 & H2 & H3 & _).
  cbn [fst snd] in *. rewrite E, Hr, Hp. cbn [stopDone ret fst snd].
  split; [exact H1 |]. split; [exact H2 |]. split; [congruence |]. split; [reflexivity |].
  split.
  - intros serverId starter. apply loadAndStart_busy; cbn [fst]; congruence.
  - unfold respawn. rewrite bind_this. cbn [fst]. rewrite H2. reflexivity.
Qed.

Lemma stop_without_process_witness :
  let stopped := (stop (js "admin") None
                    ((set_status CRASHED Demo.stopped, Demo.world),
                     {| kills := []; waiting := [] |})).2 in
  status stopped.1.1 = STOPPING
  /\ (loadAndStart (js "main") (js "admin") stopped.1).1
     = Throw (Error (js "Server is already running or busy")).
Proof.
  destruct (stop_without_process (js "admin") (set_status CRASHED Demo.stopped) Demo.world
              {| kills := []; waiting := [] |})
    as (H1 & _ & _ & _ & H2 & _); [discriminate | reflexivity | reflexivity |].
  split; [exact H1 |]. rewrite H2. reflexivity.
Defined.

(** [restart] in a state other than OFFLINE, up to its call of [stop]. *)
Lemma restart_run actor (s : MinecraftServer) (w : World) (sh : Shell) :
  status s <> OFFLINE ->
  exists x0 : Sys,
    restart actor ((s, w), sh) = stop actor (Some actor) (x0, sh)
    /\ status x0.1 = RESTARTING /\ intentionToStop x0.1 = intentionToStop s
    /\ process x0.1 = process s /\ rcon x0.1 = rcon s /\ config x0.1 = config s
    /\ crashCount x0.1 = crashCount s /\ serversDir x0.1 = serversDir s
    /\ timers x0.2 = timers w /\ spawns x0.2 = spawns w
    /\ respawnsScheduled x0.2 = respawnsScheduled w
    /\ fault x0.2 = fault w /\ spawnThrows x0.2 = spawnThrows w
    /\ nextPid x0.2 = nextPid w
    /\ (forall q, q <> publicPath s -> q <> tmpPath (publicPath s) ->
                  files x0.2 !! q = files w !! q).
Proof.
  intros Hst. unfold restart. rewrite bind_inSys_this. cbn [fst].
  rewrite (bool_decide_eq_false_2 _ Hst).
  rewrite (bind_inSys_total (updateState _)) by frame.
  rewrite (bind_inSys_total (logSystem _)) by frame.
  set (xa := (updateState RESTARTING (s, w)).2).
  set (x0 := (logSystem _ xa).2).
  exists x0. split; [reflexivity |].
  assert (K : forall {B} (f : Sys -> B),
             (forall m, keeps f (logSystem m)) -> keeps f (updateState RESTARTING) ->
             f x0 = f (s, w)).
  { intros B f H1 H2. subst x0 xa. rewrite (keeps_at f (logSystem _) _ (H1 _)).
    apply H2. }
  split.
  { subst x0. rewrite (keeps_at (fun s : Sys => status s.1) (logSystem _)) by frame.
    apply updateState_status. }
  repeat (split;
          [match goal with
           | |- ?g = _ =>
               match eval pattern x0 in g with
               | ?f _ => apply (K _ f); [intros; frame | frame]
               end
           end |]).
  intros q Q1 Q2. subst x0 xa.
  transitivity (files (updateState RESTARTING (s, w)).2.2 !! q).
  - f_equal. apply (keeps_at (fun s : Sys => files s.2) (logSystem _)). frame.
  - apply (updateState_files RESTARTING (s, w) q); assumption.
Qed.

(** X27. Restarting a supervisor that has nothing to stop starts nothing.
    In a state other than OFFLINE with no process and no RCON session (after
    a crash, say) and an instance selected, [restart] leaves the state
    STOPPING and sets its timer; when the timer fires the start is refused
    as busy, the refusal is logged, and the state becomes CRASHED: no process
    was spawned and no signal sent. *)
Theorem restart_without_process (actor : jsstring) (s : MinecraftServer) (w : World)
  (sh : Shell) (cfg : ServerConfig.t) :
  status s <> OFFLINE -> process s = None -> rcon s = None ->
  config s = Some cfg -> ServerConfig.id cfg <> [] -> waiting sh = [] ->
  let restarted := (restart actor ((s, w), sh)).2 in
  let fired := wake 0 restarted in
  status restarted.1.1 = STOPPING
  /\ waiting restarted.2 = [RestartStart actor] /\ kills restarted.2 = kills sh
  /\ fired.1 = Ret tt
  /\ status fired.2.1.1 = CRASHED /\ process fired.2.1.1 = None
  /\ spawns fired.2.1.2 = spawns w
  /\ kills fired.2.2 = kills sh /\ waiting fired.2.2 = [].
Proof.
  intros Hst Hp Hr Hcfg Hid Hw restarted fired.
  destruct (restart_run actor s w sh Hst)
    as ([s0 w0] & E0 & R1 & R2 & R3 & R4 & R5 & R6 & R7 & R8 & R9 & R10 & _).
  cbn [fst snd] in *.
  destruct (stop_run actor (Some actor) s0 w0 sh ltac:(congruence))
    as ([s1 w1] & E & H1 & H2 & H3 & H4 & H5 & H6 & H7 & H8 & H9 & H10 & _).
  cbn [fst snd] in *.
  destruct (ServerConfig.id cfg) as [|c id] eqn:Eid; [congruence |].
  assert (Hres : restarted
                 = ((s1, w1), {| kills := kills sh; waiting := [RestartStart actor] |})).
  { subst restarted. unfold Sys in *. rewrite E0, E. clear E0 E.
    rewrite R4, Hr, R3, Hp. cbn [stopDone].
    pose proof (restartLoop_run 0 actor (s1, w1) sh) as Hloop. unfold Sys in Hloop.
    rewrite Hloop. clear Hloop. cbn [fst snd].
    rewrite H3, R3, Hp, H5, R5, Hcfg, Hw.
    rewrite bool_decide_eq_false_2 by (intros [? ?]; discriminate).
    cbn [andb fmap option_fmap option_map app]. rewrite Eid. reflexivity. }
  clearbody restarted. subst restarted.
  assert (Hbusy : loadAndStart (ServerConfig.id cfg) actor (s1, w1)
                  = (Throw (Error (js "Server is already running or busy")), (s1, w1)))
    by (apply loadAndStart_busy; cbn [fst]; congruence).
  set (x2 := (logError (js "Restart Failed: "
                        ++ exn_message (Error (js "Server is already running or busy")))
                (s1, w1)).2).
  assert (Hfired : fired
                   = (Ret tt, ((updateState CRASHED x2).2,
                               {| kills := kills sh; waiting := [] |}))).
  { subst fired. unfold wake, bind at 1, gets. cbn [fst snd waiting lookup list_lookup].
    unfold bind at 1, modify. cbn [fst snd kills waiting take drop app resume].
    rewrite bind_inSys_this. cbn [fst]. rewrite H5, R5, Hcfg.
    rewrite inSys_run.
    rewrite (try_catch_Throw _ _ _ _ _ Hbusy).
    rewrite (bind_total (logError _)) by frame. fold x2.
    rewrite (total_run (updateState CRASHED)) by frame. reflexivity. }
  clearbody fired. subst fired. cbn [fst snd kills waiting].
  assert (K : forall {B} (f : Sys -> B),
             (forall m, keeps f (logError m)) -> f x2 = f (s1, w1)).
  { intros B f H. subst x2. apply (keeps_at f (logError _) _ (H _)). }
  destruct (updateState_frame CRASHED x2)
    as (F1 & _ & _ & _ & _ & _ & _ & _ & _ & _ & F11 & _).
  cbv zeta in *.
  split; [exact H1 |]. split; [reflexivity |]. split; [reflexivity |].
  split; [reflexivity |].
  split; [apply updateState_status |].
  split; [rewrite F1, (K _ (fun s : Sys => process s.1)) by (intros; frame);
          cbn [fst]; congruence |].
  split; [rewrite F11, (K _ (fun s : Sys => spawns s.2)) by (intros; frame);
          cbn [snd]; congruence |].
  split; reflexivity.
Qed.

Lemma restart_without_process_witness :
  let restarted := (restart (js "admin")
                      ((set_status CRASHED Demo.stopped, Demo.world),
                       {| kills := []; waiting := [] |})).2 in
  let fired := wake 0 restarted in
  status restarted.1.1 = STOPPING /\ status fired.2.1.1 = CRASHED
  /\ process fired.2.1.1 = None.
Proof.
  destruct (restart_without_process (js "admin") (set_status CRASHED Demo.stopped)
              Demo.world {| kills := []; waiting := [] |} (Demo.descriptor "main"))
    as (H1 & _ & _ & _ & H2 & H3 & _);
    [discriminate | reflexivity | reflexivity | reflexivity | discriminate | reflexivity |].
  split; [exact H1 |]. split; [exact H2 | exact H3].
Defined.


Lemma publicPath_same (s s' : MinecraftServer) :
  serversDir s' = serversDir s -> publicPath s' = publicPath s.
Proof. intros H. unfold publicPath. rewrite H. reflexivity. Qed.

(** The [close] handler writes no file but the public summary. *)
Lemma onClose_env code (x : Sys) :
  let r := (onClose code x).2 in
  (forall q, q <> publicPath x.1 -> q <> tmpPath (publicPath x.1) ->
             files r.2 !! q = files x.2 !! q)
  /\ fault r.2 = fault x.2 /\ spawnThrows r.2 = spawnThrows x.2
  /\ nextPid r.2 = nextPid x.2 /\ serversDir r.1 = serversDir x.1.
Proof.
  cbv zeta. split; [| repeat split].
  - intros q Q1 Q2. unfold onClose.
    rewrite (bind_total (logSystem _)) by frame. cbv beta.
    rewrite (bind_total cleanup) by frame. cbv beta.
    rewrite !bind_this.
    match goal with |- context [cleanup ?y] => set (x1 := (cleanup y).2) end.
    assert (Hf : files x1.2 = files x.2).
    { subst x1. rewrite (keeps_at (fun s : Sys => files s.2) cleanup) by frame.
      apply (keeps_at (fun s : Sys => files s.2) (logSystem _)). frame. }
    assert (Hp : publicPath x1.1 = publicPath x.1).
    { apply publicPath_same. subst x1.
      rewrite (keeps_at (fun s : Sys => serversDir s.1) cleanup) by frame.
      apply (keeps_at (fun s : Sys => serversDir s.1) (logSystem _)). frame. }
    rewrite <- Hf. rewrite <- Hp in Q1, Q2. clearbody x1.
    destruct (negb (intentionToStop x1.1) && negb (bool_decide (status x1.1 = RESTARTING))
              && abnormal code).
    + rewrite (keeps_after (fun s : Sys => files s.2)) by (intros ?; frame).
      apply updateState_files; assumption.
    + destruct (negb (bool_decide (status x1.1 = RESTARTING))); [| reflexivity].
      apply updateState_files; assumption.
  - apply (keeps_at (fun s : Sys => fault s.2) (onClose code)). frame.
  - apply (keeps_at (fun s : Sys => spawnThrows s.2) (onClose code)). frame.
  - apply (keeps_at (fun s : Sys => nextPid s.2) (onClose code)). frame.
  - apply (keeps_at (fun s : Sys => serversDir s.1) (onClose code)). frame.
Qed.

Lemma descriptorPath_snoc (dir : path) :
  descriptorPath dir = dir ++ [js "laplace.server.json"].
Proof. reflexivity. Qed.

Lemma holds_same (w w' : World) (p : path) (d : document) :
  fault w' = fault w -> files w' !! p = files w !! p -> holds w p d -> holds w' p d.
Proof.
  intros Hf Hp [H1 H2]. split; [rewrite Hf; exact H1 |].
  rewrite (lookupNode_eq _ _ _ Hp). exact H2.
Qed.

Lemma wake_first (r : resumption) (x : Sys) (k : list (nat * signal)) :
  wake 0 (x, {| kills := k; waiting := [r] |})
  = resume r (x, {| kills := k; waiting := [] |}).
Proof. reflexivity. Qed.

(** X28. A restart that goes through.  With a process running, no RCON
    session and an instance selected whose directory, descriptor and jar are
    on disk: [restart] sends the process SIGTERM and leaves the state
    STOPPING; when the process has exited, with whatever code, the state is
    OFFLINE; the loop of [restart] then sets the timer, and when the timer
    fires the instance is started again: the descriptor is read from disk,
    the state is STARTING, the crash counter 0, the intention to stop
    withdrawn, and one [java] process is spawned on the jar. *)
Theorem restart_cycle (actor : jsstring) (code : option Z) (s : MinecraftServer)
  (w : World) (sh : Shell) (p : ChildProcess) (cfg disk : ServerConfig.t) :
  status s <> OFFLINE -> process s = Some p -> rcon s = None ->
  config s = Some cfg -> ServerConfig.id cfg <> [] -> waiting sh = [] ->
  let dir := instanceDir s (ServerConfig.id cfg) in
  let jarPath := Path.join dir [ServerConfig.jarFile disk] in
  Fs.existsSync w dir = true ->
  holds w (descriptorPath dir) (DConfig disk) ->
  Fs.existsSync w jarPath = true ->
  dir <> publicPath s -> dir <> tmpPath (publicPath s) ->
  jarPath <> publicPath s -> jarPath <> tmpPath (publicPath s) ->
  spawnThrows w = None ->
  let restarted := (restart actor ((s, w), sh)).2 in
  let exited := (deliver (Close code) restarted).2 in
  let ready := (wake 0 exited).2 in
  let started := wake 0 ready in
  kills restarted.2 = (pid p, SIGTERM) :: kills sh
  /\ status restarted.1.1 = STOPPING
  /\ status exited.1.1 = OFFLINE
  /\ waiting ready.2 = [RestartStart actor]
  /\ started.1 = Ret tt
  /\ status started.2.1.1 = STARTING /\ config started.2.1.1 = Some disk
  /\ process started.2.1.1 = Some {| pid := nextPid w; stdin := true |}
  /\ head (trace started.2.1.2)
     = Some (Spawned (js "java") (javaArguments disk jarPath) dir)
  /\ crashCount started.2.1.1 = 0%Z /\ intentionToStop started.2.1.1 = false
  /\ kills started.2.2 = (pid p, SIGTERM) :: kills sh
  /\ waiting started.2.2 = [].
Proof.
  intros Hst Hp Hr Hcfg Hid Hw dir jarPath Hdir Hdesc Hjar D1 D2 J1 J2 Hspawn
    restarted exited ready started.
  destruct (restart_run actor s w sh Hst)
    as ([s0 w0] & E0 & R1 & R2 & R3 & R4 & R5 & R6 & R7 & R8 & R9 & R10
        & R11 & R12 & R13 & R14).
  cbn [fst snd] in *.
  destruct (stop_run actor (Some actor) s0 w0 sh ltac:(congruence))
    as ([s1 w1] & E & H1 & H2 & H3 & H4 & H5 & H6 & H7 & H8 & H9 & H10
        & H11 & H12 & H13 & H14).
  cbn [fst snd] in *.
  destruct (ServerConfig.id cfg) as [|c id] eqn:Eid; [congruence |].
  pose proof (publicPath_same s s0 R7) as P0.
  pose proof (publicPath_same s0 s1 H7) as P1.
  set (k := (pid p, SIGTERM) :: kills sh).
  (* the call *)
  assert (Hres : restarted = ((s1, w1), {| kills := k; waiting := [RestartLoop 1 actor] |})).
  { subst restarted. unfold Sys in *. rewrite E0, E. clear E0 E.
    rewrite R4, Hr, R3, Hp. cbn [stopDone].
    match goal with |- context [restartLoop 0 actor (?x, ?h)] =>
      pose proof (restartLoop_run 0 actor x h) as Hloop
    end.
    unfold Sys in Hloop. rewrite Hloop. clear Hloop. cbn [fst snd kills waiting].
    rewrite H3, R3, Hp, Hw.
    rewrite bool_decide_eq_true_2 by (eexists; reflexivity). reflexivity. }
  clearbody restarted. subst restarted.
  (* the exit *)
  destruct (onClose_stopping code s1 w1 H2 ltac:(congruence))
    as (_ & C1 & C2 & C3 & C4 & C5 & C6 & C7 & C8 & C9).
  destruct (onClose_env code (s1, w1)) as (V1 & V2 & V3 & V4 & V5).
  cbv zeta in *. cbn [fst snd] in *.
  assert (Hex : exited = ((onClose code (s1, w1)).2,
                          {| kills := k; waiting := [RestartLoop 1 actor] |})).
  { subst exited. unfold deliver. rewrite inSys_run. reflexivity. }
  clearbody exited. subst exited.
  destruct (onClose code (s1, w1)).2 as [s2 w2] eqn:Ex. cbn [fst snd] in *.
  (* the loop of [restart] *)
  assert (Hready : ready = ((s2, w2), {| kills := k; waiting := [RestartStart actor] |})).
  { subst ready. rewrite wake_first. cbn [resume].
    pose proof (restartLoop_run 1 actor (s2, w2) {| kills := k; waiting := [] |}) as Hloop.
    unfold Sys in *. rewrite Hloop. clear Hloop. cbn [fst snd kills waiting].
    rewrite C2, C6, H5, R5, Hcfg.
    rewrite bool_decide_eq_false_2 by (intros [? ?]; discriminate).
    cbn [andb fmap option_fmap option_map app]. rewrite Eid. reflexivity. }
  clearbody ready. subst ready.
  (* the start *)
  assert (Hinst : instanceDir s2 (ServerConfig.id cfg) = dir)
    by (unfold dir, instanceDir; congruence).
  assert (Hpub : publicPath s2 = publicPath s)
    by (rewrite (publicPath_same s1 s2 V5); congruence).
  assert (Hfiles : forall q, q <> publicPath s -> q <> tmpPath (publicPath s) ->
                             files w2 !! q = files w !! q).
  { intros q Q1 Q2.
    rewrite V1 by (rewrite P1, P0; assumption).
    rewrite H11 by (rewrite P0; assumption).
    apply R14; assumption. }
  assert (Hfault : fault w2 = fault w) by congruence.
  destruct (instance_file_private s dir (js "laplace.server.json")) as [F1 F2];
    [vm_compute; discriminate | vm_compute; discriminate |].
  rewrite <- descriptorPath_snoc in F1, F2.
  destruct (loadAndStart_ok (ServerConfig.id cfg) actor s2 w2 disk)
    as (L1 & L2 & L3 & L4 & L5 & L6 & L7 & L8 & L9 & L10).
  - left. exact C1.
  - rewrite Hinst, <- Hdir. apply existsSync_same, Hfiles; assumption.
  - rewrite Hinst. apply (holds_same w); [exact Hfault | apply Hfiles; assumption | exact Hdesc].
  - rewrite Hinst. fold jarPath. rewrite <- Hjar. apply existsSync_same, Hfiles; assumption.
  - rewrite Hinst, Hpub. exact J1.
  - rewrite Hinst, Hpub. exact J2.
  - congruence.
  - cbv zeta in *. rewrite Hinst in *. fold jarPath in L7.
    assert (Hstarted : started
                       = (Ret tt, ((loadAndStart (ServerConfig.id cfg) actor (s2, w2)).2,
                                   {| kills := k; waiting := [] |}))).
    { subst started. rewrite wake_first. cbn [resume].
      rewrite bind_inSys_this. cbn [fst]. rewrite C6, H5, R5, Hcfg.
      rewrite inSys_run.
      rewrite (try_catch_Ret _ _ _ _ _ (outcome_eq _ _ _ L1)). reflexivity. }
    clearbody started. subst started. cbn [fst snd kills waiting].
    split; [reflexivity |]. split; [exact H1 |]. split; [exact C1 |].
    split; [reflexivity |]. split; [reflexivity |].
    split; [exact L2 |]. split; [exact L3 |].
    split; [rewrite L5; congruence |].
    split; [exact L7 |]. split; [exact L8 |]. split; [exact L9 |].
    split; reflexivity.
Qed.

Lemma restart_cycle_witness :
  let h0 : Host := ((Demo.online, Demo.world), {| kills := []; waiting := [] |}) in
  let restarted := (restart (js "admin") h0).2 in
  let exited := (deliver (Close (Some 143%Z)) restarted).2 in
  let ready := (wake 0 exited).2 in
  let started := wake 0 ready in
  kills restarted.2 = [(3999%nat, SIGTERM)]
  /\ status exited.1.1 = OFFLINE
  /\ status started.2.1.1 = STARTING
  /\ process started.2.1.1 = Some {| pid := 4000; stdin := true |}.
Proof.
  destruct (restart_cycle (js "admin") (Some 143%Z) Demo.online Demo.world
              {| kills := []; waiting := [] |} {| pid := 3999; stdin := true |}
              (Demo.descriptor "main") (Demo.descriptor "main"))
    as (H1 & _ & H2 & _ & _ & H3 & _ & H4 & _);
    [discriminate | reflexivity | reflexivity | reflexivity | discriminate | reflexivity
    | vm_compute; reflexivity
    | split; [reflexivity | eexists; vm_compute; reflexivity]
    | vm_compute; reflexivity
    | vm_compute; discriminate | vm_compute; discriminate
    | vm_compute; discriminate | vm_compute; discriminate
    | reflexivity |].
  split; [exact H1 |]. split; [exact H2 |]. split; [exact H3 | exact H4].
Defined.


(** X29. A restart does not wait for ever.  With a process running, no RCON
    session and an instance selected, [restart] sends SIGTERM and looks for
    the process every half second; if the process is still there at the
    twentieth look it sets its timer all the same, and when the timer fires
    the start is refused as busy: the state becomes CRASHED while the process
    is still there, having been sent nothing but the one SIGTERM, and no
    process is spawned. *)
Theorem restart_timeout (actor : jsstring) (s : MinecraftServer) (w : World)
  (sh : Shell) (p : ChildProcess) (cfg : ServerConfig.t) :
  status s <> OFFLINE -> process s = Some p -> rcon s = None ->
  config s = Some cfg -> ServerConfig.id cfg <> [] -> waiting sh = [] ->
  let restarted := (restart actor ((s, w), sh)).2 in
  let looks n := Nat.iter n (fun h : Host => (wake 0 h).2) restarted in
  let fired := wake 0 (looks 20%nat) in
  (forall n, (n <= 19)%nat ->
     waiting (looks n).2 = [RestartLoop (n + 1) actor]
     /\ kills (looks n).2 = (pid p, SIGTERM) :: kills sh
     /\ (looks n).1 = restarted.1)
  /\ waiting (looks 20%nat).2 = [RestartStart actor]
  /\ fired.1 = Ret tt
  /\ status fired.2.1.1 = CRASHED /\ process fired.2.1.1 = Some p
  /\ spawns fired.2.1.2 = spawns w
  /\ kills fired.2.2 = (pid p, SIGTERM) :: kills sh /\ waiting fired.2.2 = [].
Proof.
  intros Hst Hp Hr Hcfg Hid Hw restarted looks fired.
  destruct (restart_run actor s w sh Hst)
    as ([s0 w0] & E0 & R1 & R2 & R3 & R4 & R5 & R6 & R7 & R8 & R9 & R10 & _).
  cbn [fst snd] in *.
  destruct (stop_run actor (Some actor) s0 w0 sh ltac:(congruence))
    as ([s1 w1] & E & H1 & H2 & H3 & H4 & H5 & H6 & H7 & H8 & H9 & H10 & _).
  cbn [fst snd] in *.
  destruct (ServerConfig.id cfg) as [|c id] eqn:Eid; [congruence |].
  set (k := (pid p, SIGTERM) :: kills sh).
  assert (Hres : restarted = ((s1, w1), {| kills := k; waiting := [RestartLoop 1 actor] |})).
  { subst restarted. unfold Sys in *. rewrite E0, E. clear E0 E.
    rewrite R4, Hr, R3, Hp. cbn [stopDone].
    match goal with |- context [restartLoop 0 actor (?x, ?h)] =>
      pose proof (restartLoop_run 0 actor x h) as Hloop
    end.
    unfold Sys in Hloop. rewrite Hloop. clear Hloop. cbn [fst snd kills waiting].
    rewrite H3, R3, Hp, Hw.
    rewrite bool_decide_eq_true_2 by (eexists; reflexivity). reflexivity. }
  assert (Hproc : is_Some (process s1)) by (rewrite H3, R3, Hp; eexists; reflexivity).
  assert (Hlooks : forall n, (n <= 19)%nat ->
            looks n = ((s1, w1), {| kills := k; waiting := [RestartLoop (n + 1) actor] |})).
  { subst looks. cbv beta. rewrite Hres. clear Hres.
    induction n as [|n IH]; intros Hn; [reflexivity |].
    rewrite Nat.iter_succ, IH by lia. cbv beta. rewrite wake_first. cbn [resume].
    pose proof (restartLoop_run (n + 1) actor (s1, w1) {| kills := k; waiting := [] |})
      as Hloop.
    unfold Sys in *. rewrite Hloop. clear Hloop. cbn [fst snd kills waiting app].
    rewrite (bool_decide_eq_true_2 _ Hproc).
    replace (n + 1 <? 20)%nat with true by (symmetry; apply Nat.ltb_lt; lia).
    cbn [andb]. replace (Datatypes.S n + 1)%nat with (n + 1 + 1)%nat by lia.
    reflexivity. }
  assert (Hlast : looks 20%nat
                  = ((s1, w1), {| kills := k; waiting := [RestartStart actor] |})).
  { pose proof (Hlooks 19%nat ltac:(lia)) as H19. subst looks. cbv beta in *.
    change 20%nat with (Datatypes.S 19). rewrite Nat.iter_succ, H19. cbv beta.
    rewrite wake_first. cbn [resume]. change (19 + 1)%nat with 20%nat.
    pose proof (restartLoop_run 20 actor (s1, w1) {| kills := k; waiting := [] |})
      as Hloop.
    unfold Sys in *. rewrite Hloop. clear Hloop. cbn [fst snd kills waiting app].
    rewrite andb_false_r, H5, R5, Hcfg.
    cbn [fmap option_fmap option_map]. rewrite Eid. reflexivity. }
  assert (Hbusy : loadAndStart (ServerConfig.id cfg) actor (s1, w1)
                  = (Throw (Error (js "Server is already running or busy")), (s1, w1)))
    by (apply loadAndStart_busy; cbn [fst]; congruence).
  set (x2 := (logError (js "Restart Failed: "
                        ++ exn_message (Error (js "Server is already running or busy")))
                (s1, w1)).2).
  assert (Hfired : fired
                   = (Ret tt, ((updateState CRASHED x2).2,
                               {| kills := k; waiting := [] |}))).
  { subst fired. rewrite Hlast, wake_first. cbn [resume].
    rewrite bind_inSys_this. cbn [fst]. rewrite H5, R5, Hcfg.
    rewrite inSys_run.
    rewrite (try_catch_Throw _ _ _ _ _ Hbusy).
    rewrite (bind_total (logError _)) by frame. fold x2.
    rewrite (total_run (updateState CRASHED)) by frame. reflexivity. }
  clearbody fired. subst fired. cbn [fst snd kills waiting].
  assert (K : forall {B} (f : Sys -> B),
             (forall m, keeps f (logError m)) -> f x2 = f (s1, w1)).
  { intros B f H. subst x2. apply (keeps_at f (logError _) _ (H _)). }
  destruct (updateState_frame CRASHED x2)
    as (F1 & _ & _ & _ & _ & _ & _ & _ & _ & _ & F11 & _).
  cbv zeta in *.
  split.
  { intros n Hn. rewrite (Hlooks n Hn), Hres. repeat split; reflexivity. }
  split; [rewrite Hlast; reflexivity |].
  split; [reflexivity |].
  split; [apply updateState_status |].
  split; [rewrite F1, (K _ (fun s : Sys => process s.1)) by (intros; frame);
          cbn [fst]; congruence |].
  split; [rewrite F11, (K _ (fun s : Sys => spawns s.2)) by (intros; frame);
          cbn [snd]; congruence |].
  split; reflexivity.
Qed.

Lemma restart_timeout_witness :
  let h0 : Host := ((Demo.online, Demo.world), {| kills := []; waiting := [] |}) in
  let restarted := (restart (js "admin") h0).2 in
  let looks n := Nat.iter n (fun h : Host => (wake 0 h).2) restarted in
  let fired := wake 0 (looks 20%nat) in
  status fired.2.1.1 = CRASHED
  /\ process fired.2.1.1 = Some {| pid := 3999; stdin := true |}
  /\ kills fired.2.2 = [(3999%nat, SIGTERM)].
Proof.
  destruct (restart_timeout (js "admin") Demo.online Demo.world
              {| kills := []; waiting := [] |} {| pid := 3999; stdin := true |}
              (Demo.descriptor "main"))
    as (_ & _ & _ & H1 & H2 & _ & H3 & _);
    [discriminate | reflexivity | reflexivity | reflexivity | discriminate | reflexivity |].
  split; [exact H1 |]. split; [exact H2 | exact H3].
Defined.


(** ** Pruning the snapshots *)

Lemma insertBy_Permutation {A} (cmp : A -> A -> Z) (x : A) (l : list A) :
  insertBy cmp x l ≡ₚ x :: l.
Proof.
  induction l as [|y l IH]; cbn [insertBy]; [reflexivity |].
  destruct (cmp x y <=? 0)%Z; [reflexivity |].
  rewrite IH. apply Permutation_swap.
Qed.

Lemma sortBy_Permutation {A} (cmp : A -> A -> Z) (l : list A) : sortBy cmp l ≡ₚ l.
Proof.
  unfold sortBy. induction l as [|x l IH]; cbn [foldr]; [reflexivity |].
  rewrite insertBy_Permutation, IH. reflexivity.
Qed.

(** Sorted by time, latest first, nothing in the list is later than its
    head. *)
Lemma sortBy_latest_first (l : list (path * Z)) (h : path * Z) (t : list (path * Z)) :
  sortBy (fun a b : path * Z => (b.2 - a.2)%Z) l = h :: t ->
  Forall (fun b : path * Z => (b.2 <= h.2)%Z) t.
Proof.
  unfold sortBy. revert h t. induction l as [|x l IH]; cbn [foldr]; [discriminate |].
  revert IH. generalize (foldr (insertBy (fun a b : path * Z => (b.2 - a.2)%Z)) [] l).
  clear l. intros [|y l] IH h t; cbn [insertBy].
  - intros [= <- <-]. constructor.
  - specialize (IH y l eq_refl). destruct (y.2 - x.2 <=? 0)%Z eqn:E.
    + apply Z.leb_le in E. intros [= <- <-].
      constructor; [lia |]. eapply Forall_impl; [exact IH |]. cbv beta. intros b Hb. lia.
    + apply Z.leb_gt in E. intros [= <- <-].
      apply insertBy_Forall; [lia | exact IH].
Qed.

Lemma NoDup_omap_inj {A B} (g : A -> option B) (l : list A) :
  NoDup l ->
  (forall x y z, x ∈ l -> y ∈ l -> g x = Some z -> g y = Some z -> x = y) ->
  NoDup (omap g l).
Proof.
  induction 1 as [|x l Hx Hl IH]; intros Hinj; [constructor |].
  change (omap g (x :: l))
    with (match g x with Some z => z :: omap g l | None => omap g l end).
  assert (IH' : NoDup (omap g l)).
  { apply IH. intros a b z Ha Hb. apply Hinj; right; assumption. }
  destruct (g x) as [z|] eqn:E; [| exact IH'].
  constructor; [| exact IH'].
  intros Hin. apply list_elem_of_omap in Hin as (y & Hy & Hgy).
  apply Hx. rewrite (Hinj x y z); [exact Hy | left | right; exact Hy | exact E | exact Hgy].
Qed.

Lemma children_NoDup (fs : gmap path inode) (p : path) : NoDup (Fs.children fs p).
Proof.
  unfold Fs.children. apply NoDup_omap_inj; [apply NoDup_map_to_list |].
  intros [k i] [k' i'] n Hk Hk'. cbn [fst].
  destruct (bool_decide (k ≠ [] ∧ removelast k = p)) eqn:E; [| discriminate].
  destruct (bool_decide (k' ≠ [] ∧ removelast k' = p)) eqn:E'; [| discriminate].
  apply bool_decide_eq_true in E as [_ E]. apply bool_decide_eq_true in E' as [_ E'].
  intros Hl Hl'. apply last_Some in Hl as [l ->]. apply last_Some in Hl' as [l' ->].
  rewrite removelast_snoc in E, E'. subst l l'.
  apply elem_of_map_to_list in Hk, Hk'. congruence.
Qed.


Lemma mapM_stat (g : jsstring -> path) (names : list jsstring) (x x' : Sys)
  (l : list (path * Z)) :
  mapM (fun f => bind (io (Fs.statSync (g f))) (fun i => ret (g f, birthtimeMs i))) names x
  = (Ret l, x') ->
  x' = x
  /\ Forall2 (fun f (b : path * Z) =>
                b.1 = g f
                /\ exists i, Fs.lookupNode (files x.2) (g f) = Some i /\ b.2 = birthtimeMs i)
       names l.
Proof.
  revert l. induction names as [|f names IH]; intros l H; cbn [mapM] in H.
  - unfold ret in H. injection H as <- <-. split; [reflexivity | constructor].
  - apply bind_Ret_inv in H as (b & x1 & Hb & H).
    apply bind_Ret_inv in H as (bs & x2 & Hbs & H).
    unfold ret in H. injection H as <- <-.
    apply bind_Ret_inv in Hb as (i & x3 & Hi & Hb).
    unfold ret in Hb. injection Hb as <- <-.
    destruct x as [s w], x3 as [s3 w3]. apply io_Ret in Hi as [-> Hi].
    unfold Fs.statSync in Hi.
    destruct (Fs.lookupNode (files w) (g f)) as [j|] eqn:Ej; [| discriminate Hi].
    injection Hi as <- <-.
    destruct (IH _ Hbs) as [-> Hall]. split; [reflexivity |].
    constructor; [| exact Hall]. cbn [fst snd]. split; [reflexivity |].
    exists j. split; [exact Ej | reflexivity].
Qed.

Lemma lookupNode_snoc (fs : gmap path inode) (dir : path) (n : jsstring) :
  Fs.lookupNode fs (dir ++ [n]) = fs !! (dir ++ [n]).
Proof. destruct dir; reflexivity. Qed.

(** The pruning of [deleteServer]: the latest snapshot stays, the others
    go. *)
Lemma prune_Ret (dir : path) (msg latest : jsstring) (i : inode)
  (s s0 : MinecraftServer) (w w0 : World) :
  wellFormed (files w) ->
  files w !! (dir ++ [latest]) = Some i ->
  (forall n j, n <> latest -> files w !! (dir ++ [n]) = Some j ->
               (birthtimeMs j < birthtimeMs i)%Z) ->
  bind (logSystem msg)
    (fun _ =>
       bind (io (Fs.readdirSync dir))
         (fun names =>
            bind (mapM (fun f => bind (io (Fs.statSync (Path.join dir [f])))
                                   (fun i => ret (Path.join dir [f], birthtimeMs i)))
                    names)
              (fun backups =>
                 forEach (tail (sortBy (fun a b : path * Z => (b.2 - a.2)%Z) backups))
                   (fun b => io (Fs.rmSync b.1)))))
    (s, w)
  = (Ret tt, (s0, w0)) ->
  (forall q, (dir ++ [latest]) `prefix_of` q -> files w0 !! q = files w !! q)
  /\ (forall n q, n <> latest -> (dir ++ [n]) `prefix_of` q -> files w0 !! q = None)
  /\ (forall q, files w !! q = None -> files w0 !! q = None).
Proof.
  intros Hwf Hlatest Hnewest H.
  apply bind_Ret_inv in H as ([] & [s1 w1] & Hlog & H).
  assert (Hf1 : files w1 = files w) by (kept (fun s : Sys => files s.2) Hlog).
  clear Hlog.
  apply bind_Ret_inv in H as (names & [s2 w2] & Hread & H).
  apply io_Ret in Hread as [-> Hread].
  unfold Fs.readdirSync in Hread. apply bind_Ret_inv in Hread as ([] & wg & G & Hread).
  rewrite guard_run in G. assert (wg = w1) by (destruct (fault w1 _); congruence). subst wg.
  assert (names = Fs.children (files w1) dir /\ w2 = w1) as [-> ->].
  { destruct (Fs.lookupNode (files w1) dir) as [[[c|] b]|];
      [discriminate Hread | | discriminate Hread].
    injection Hread as <- <-. split; reflexivity. }
  clear Hread G. rewrite Hf1 in *.
  apply bind_Ret_inv in H as (backups & x3 & Hstat & H).
  apply mapM_stat in Hstat as [-> Hall]. cbn [snd] in Hall. rewrite Hf1 in Hall.
  apply forEach_rmSync in H as (_ & _ & _ & Hgone & Hkept).
  rewrite Hf1 in Hkept.
  (* the names are plain, and each snapshot has its time *)
  assert (Hname : forall n, n ∈ Fs.children (files w) dir ->
                            Path.join dir [n] = dir ++ [n]).
  { intros n Hn. apply children_inv in Hn as [j Hj].
    destruct (wellFormed_below _ _ _ [] _ Hwf Hj) as [(P1 & P2 & P3 & P4) _].
    apply join_plain; assumption. }
  assert (Hback : forall b, b ∈ backups ->
            exists n j, n ∈ Fs.children (files w) dir /\ b.1 = dir ++ [n]
                        /\ files w !! (dir ++ [n]) = Some j /\ b.2 = birthtimeMs j).
  { intros b Hb. apply list_elem_of_lookup in Hb as [k Hk].
    destruct (Forall2_lookup_r _ _ _ _ _ Hall Hk) as (n & Hn & Hb1 & j & Hj & Hb2).
    assert (Hin : n ∈ Fs.children (files w) dir) by (eapply list_elem_of_lookup_2, Hn).
    rewrite (Hname n Hin) in Hb1, Hj.
    rewrite lookupNode_snoc in Hj.
    exists n, j. split; [exact Hin |]. split; [exact Hb1 |]. split; [exact Hj | exact Hb2]. }
  assert (Hlist : forall n j, files w !! (dir ++ [n]) = Some j ->
                              (dir ++ [n], birthtimeMs j) ∈ backups).
  { intros n j Hj.
    assert (Hin : n ∈ Fs.children (files w) dir) by (eapply children_elem, Hj).
    apply list_elem_of_lookup in Hin as [k Hk].
    destruct (Forall2_lookup_l _ _ _ _ _ Hall Hk) as ([p t] & Hb & Hb1 & j' & Hj' & Hb2).
    cbn [fst snd] in *. apply list_elem_of_lookup_2 in Hk.
    rewrite (Hname n Hk) in Hb1, Hj'. subst p t.
    rewrite lookupNode_snoc in Hj'.
    assert (j' = j) by congruence. subst j'.
    eapply list_elem_of_lookup_2, Hb. }
  assert (Hnd : NoDup backups).
  { apply NoDup_alt. intros k1 k2 b Hk1 Hk2.
    destruct (Forall2_lookup_r _ _ _ _ _ Hall Hk1) as (n1 & Hn1 & Hb1 & _).
    destruct (Forall2_lookup_r _ _ _ _ _ Hall Hk2) as (n2 & Hn2 & Hb2 & _).
    pose proof (list_elem_of_lookup_2 _ _ _ Hn1) as I1.
    pose proof (list_elem_of_lookup_2 _ _ _ Hn2) as I2.
    rewrite (Hname _ I1) in Hb1. rewrite (Hname _ I2) in Hb2.
    rewrite Hb1 in Hb2. apply app_inv_head in Hb2. injection Hb2 as ->.
    eapply NoDup_lookup; [apply (children_NoDup (files w) dir) | exact Hn1 | exact Hn2]. }
  (* the head of the sorted list is the latest *)
  set (m := (dir ++ [latest], birthtimeMs i)).
  pose proof (Hlist _ _ Hlatest) as Hm. fold m in Hm.
  pose proof (sortBy_Permutation (fun a b : path * Z => (b.2 - a.2)%Z) backups) as Hperm.
  destruct (sortBy (fun a b : path * Z => (b.2 - a.2)%Z) backups) as [|h t] eqn:Es.
  { apply Permutation_nil_l in Hperm. subst backups. apply elem_of_nil in Hm. destruct Hm. }
  pose proof (sortBy_latest_first _ _ _ Es) as Hhead.
  assert (Hh : h = m).
  { assert (Hhin : h ∈ backups) by (rewrite <- Hperm; left).
    destruct (Hback h Hhin) as (n & j & _ & Hh1 & Hj & Hh2).
    destruct (decide (n = latest)) as [-> | Hne].
    - rewrite Hlatest in Hj. injection Hj as <-. destruct h. cbn in *. subst. reflexivity.
    - exfalso. pose proof (Hnewest n j Hne Hj) as Hlt.
      rewrite <- Hperm in Hm. apply elem_of_cons in Hm as [Hm | Hm].
      + rewrite <- Hm in Hh1. cbn [fst] in Hh1. apply app_inv_head in Hh1.
        injection Hh1 as Hh1. congruence.
      + rewrite Forall_forall in Hhead. specialize (Hhead m Hm).
        unfold m in Hhead. cbn [snd] in Hhead. rewrite Hh2 in Hhead. lia. }
  subst h. cbn [tail] in Hgone, Hkept.
  assert (Hnd' : NoDup (m :: t)) by (rewrite Hperm; exact Hnd).
  apply NoDup_cons in Hnd' as [Hmt _].
  split; [| split].
  - intros q Hq. apply Hkept. intros b Hb Hp.
    assert (Hbin : b ∈ backups) by (rewrite <- Hperm; right; exact Hb).
    destruct (Hback b Hbin) as (n & j & _ & Hb1 & Hj & Hb2).
    rewrite Hb1 in Hp.
    assert (n = latest).
    { destruct Hq as [u ->]. destruct Hp as [u' Hu']. rewrite <- !app_assoc in Hu'.
      apply app_inv_head in Hu'. injection Hu' as Hu' _. congruence. }
    subst n. rewrite Hlatest in Hj. injection Hj as <-.
    apply Hmt. destruct b. cbn in *. subst. exact Hb.
  - intros n q Hne Hq.
    destruct (files w !! q) as [j|] eqn:Ej.
    + destruct Hq as [u ->].
      assert (Hkey : exists j', files w !! (dir ++ [n]) = Some j').
      { rewrite <- app_assoc in Ej. cbn [app] in Ej.
        exact (proj2 (wellFormed_below _ _ _ _ _ Hwf Ej)). }
      destruct Hkey as [j' Hj'].
      apply Hgone. exists (dir ++ [n], birthtimeMs j'). cbn [fst].
      split; [| exists u; reflexivity].
      pose proof (Hlist _ _ Hj') as Hin. rewrite <- Hperm in Hin.
      apply elem_of_cons in Hin as [Hin | Hin]; [| exact Hin].
      unfold m in Hin. injection Hin as Hin _. apply app_inv_head in Hin.
      injection Hin as Hin. congruence.
    + destruct (decide (Exists (fun b : path * Z => b.1 `prefix_of` q) t)) as [Hex | Hno].
      * apply Hgone. apply Exists_exists in Hex. exact Hex.
      * rewrite Hkept; [exact Ej |].
        intros b Hb Hp. apply Hno, Exists_exists. exists b. split; assumption.
  - intros q Hq.
    destruct (decide (Exists (fun b : path * Z => b.1 `prefix_of` q) t)) as [Hex | Hno].
    + apply Hgone. apply Exists_exists in Hex. exact Hex.
    + rewrite Hkept; [exact Hq |].
      intros b Hb Hp. apply Hno, Exists_exists. exists b. split; assumption.
Qed.

(** X30. Keeping the latest snapshot.  On a well-formed tree in which one
    snapshot of the instance is later than every other, a [deleteServer]
    with KEEP_LATEST that returns has left that snapshot as it was, with
    everything in it (as far as it does not lie in the instance directory
    itself), and has removed every other snapshot of the instance with
    everything in it. *)
Theorem deleteServer_keeps_latest (serverId latest : jsstring) (i : inode)
  (s : MinecraftServer) (w : World) :
  wellFormed (files w) ->
  let target := instanceDir s serverId in
  let backups := Path.join (Path.dirname (serversDir s)) [js "backups"; serverId] in
  files w !! (backups ++ [latest]) = Some i ->
  (forall n j, n <> latest -> files w !! (backups ++ [n]) = Some j ->
               (birthtimeMs j < birthtimeMs i)%Z) ->
  let r := deleteServer serverId KEEP_LATEST (s, w) in
  r.1 = Ret tt ->
  (forall q, (backups ++ [latest]) `prefix_of` q -> ~ (target `prefix_of` q) ->
             files r.2.2 !! q = files w !! q)
  /\ (forall n q, n <> latest -> (backups ++ [n]) `prefix_of` q ->
                  files r.2.2 !! q = None).
Proof.
  intros Hwf target backups Hlatest Hnewest r Hr.
  destruct r as [o after] eqn:Er. cbn [fst snd] in *. subst o.
  pose proof Er as H. subst r. unfold deleteServer in H.
  rewrite bind_this, bind_ask in H. cbn [fst snd] in H.
  fold (instanceDir s serverId) in H. fold target in H.
  destruct (Fs.existsSync w target) eqn:Hex; cbn [negb] in H;
    [| unfold throw in H; discriminate H].
  rewrite !bind_this in H. cbn [fst] in H.
  destruct (isActive s serverId && negb (bool_decide (status s = OFFLINE))) eqn:Hgate;
    [unfold throw in H; discriminate H |].
  rewrite bind_ask in H. cbn [snd] in H. fold backups in H.
  assert (Hbdir : Fs.existsSync w backups = true).
  { destruct (Hwf _ _ Hlatest) as [_ Hanc]. rewrite removelast_snoc in Hanc.
    apply isDir_exists. destruct backups as [|b0 bs] eqn:Eb; [reflexivity |].
    rewrite Forall_forall in Hanc. apply Hanc, ancestors_prefix.
    split; [reflexivity | discriminate]. }
  rewrite Hbdir in H.
  apply bind_Ret_inv in H as ([] & [s0 w0] & E & H).
  destruct (prune_Ret _ _ _ _ _ _ _ _ Hwf Hlatest Hnewest E) as (Hkept & Hgone & Hnone).
  clear E.
  apply bind_Ret_inv in H as ([] & [s1 w1] & E0 & H).
  assert (Hf1 : files w1 = files w0) by (kept (fun s : Sys => files s.2) E0).
  clear E0.
  apply bind_Ret_inv in H as ([] & [s2 w2] & E1 & H).
  apply io_Ret in E1 as [-> Hrm].
  destruct (rmSync_Ret _ _ _ Hrm) as (_ & Hout & _).
  apply bind_Ret_inv in H as (active & [s3 w3] & E2 & H).
  unfold this, gets in E2. injection E2 as <- <- <-.
  assert (Hfiles : files after.2 = files w2)
    by (destruct after; kept (fun s : Sys => files s.2) H).
  rewrite Hfiles. split.
  - intros q Hq Hnt. rewrite (Hout q Hnt), Hf1. apply Hkept, Hq.
  - intros n q Hne Hq. apply (rmSync_gone _ _ _ _ Hrm). rewrite Hf1.
    apply (Hgone n q Hne Hq).
Qed.

Lemma newest_decided (fs : gmap path inode) (backups : path) (latest : jsstring)
  (i : inode) :
  map_Forall (fun (q : path) (j : inode) =>
                removelast q = backups -> last q <> Some latest -> last q <> None ->
                (birthtimeMs j < birthtimeMs i)%Z) fs ->
  forall n j, n <> latest -> fs !! (backups ++ [n]) = Some j ->
              (birthtimeMs j < birthtimeMs i)%Z.
Proof.
  intros H n j Hne Hj. apply (H _ _ Hj).
  - apply removelast_snoc.
  - rewrite last_snoc. congruence.
  - rewrite last_snoc. discriminate.
Qed.

Lemma deleteServer_keeps_latest_witness :
  let r := deleteServer (js "main") KEEP_LATEST (Demo.stopped, archived) in
  files r.2.2 !! [js "srv"; js "backups"; js "main"; js "backup-2025"; js "level.dat"]
  = Some {| node_of := File (Text (js "level")); birthtimeMs := 2000 |}
  /\ files r.2.2 !! [js "srv"; js "backups"; js "main"; js "backup-2024"] = None.
Proof.
  destruct (deleteServer_keeps_latest (js "main") (js "backup-2025")
              {| node_of := Dir; birthtimeMs := 2000 |} Demo.stopped archived)
    as [H1 H2];
    [unfold wellFormed, plainName; decided | vm_compute; reflexivity
    | apply newest_decided; decided | vm_compute; reflexivity |].
  split.
  - etransitivity; [apply H1; [exists [js "level.dat"]; reflexivity | decided] |].
    vm_compute. reflexivity.
  - apply (H2 (js "backup-2024")); [discriminate | exists []; reflexivity].
Defined.


(** * The properties of the specification that rest on the lemmas above *)

(** ** What a method can throw *)

Section Raises.
Context {S : Type} (P : exn -> Prop).

Lemma raises_ret {A} (a : A) : raises P (@ret S A a).
Proof. intros s e H. discriminate H. Qed.

Lemma raises_throw {A} e : P e -> raises P (@throw S A e).
Proof. intros H s e' [= <-]. exact H. Qed.

Lemma raises_total {A} (m : M S A) : total m -> raises P m.
Proof. intros H s e E. destruct (H s) as [a Ha]. congruence. Qed.

Lemma raises_bind {A B} (m : M S A) (k : A -> M S B) :
  raises P m -> (forall a, raises P (k a)) -> raises P (bind m k).
Proof.
  intros Hm Hk s e H. apply outcome_eq in H.
  apply bind_Throw_inv in H as [H | (a & s1 & _ & H)].
  - apply (Hm s). rewrite H. reflexivity.
  - apply (Hk a s1). rewrite H. reflexivity.
Qed.

Lemma raises_try_catch {A} (m : M S A) (h : exn -> M S A) :
  (forall e, raises P (h e)) -> raises P (try_catch m h).
Proof.
  intros Hh s e. unfold try_catch. destruct (m s) as [[a|e'] s1] eqn:E.
  - discriminate.
  - apply Hh.
Qed.

Lemma raises_when (c : bool) (m : M S unit) : raises P m -> raises P (when c m).
Proof. destruct c; [auto | intros _; apply raises_ret]. Qed.

Lemma raises_forEach {A} (l : list A) (body : A -> M S unit) :
  (forall x, raises P (body x)) -> raises P (forEach l body).
Proof.
  intros H. induction l as [|x l IH]; [apply raises_ret |].
  cbn [forEach]. apply raises_bind; [apply H | intros _; exact IH].
Qed.

Lemma raises_mapM {A B} (g : A -> M S B) (l : list A) :
  (forall x, raises P (g x)) -> raises P (mapM g l).
Proof.
  intros H. induction l as [|x l IH]; [apply raises_ret |].
  cbn [mapM]. apply raises_bind; [apply H | intros y].
  apply raises_bind; [exact IH | intros ys; apply raises_ret].
Qed.

End Raises.

Lemma raises_io {A} (P : exn -> Prop) (m : M World A) : raises P m -> raises P (io m).
Proof.
  intros H [s w] e. unfold io, zoom. cbn [fst snd].
  specialize (H w e). destruct (m w) as [[a|e'] w']; cbn [fst] in *; [discriminate |].
  exact H.
Qed.

Lemma raises_weaken {S A} (P Q : exn -> Prop) (m : M S A) :
  (forall e, Q e -> P e) -> raises Q m -> raises P m.
Proof. intros H Hm s e E. apply H, (Hm s e E). Qed.

Lemma guard_raises op : raises fsError (Fs.guard op).
Proof.
  intros w e. unfold Fs.guard. destruct (fault w op); [| discriminate].
  intros [= <-]. unfold fsError. set_solver.
Qed.

Lemma rmSync_raises p : raises fsError (Fs.rmSync p).
Proof.
  unfold Fs.rmSync. apply raises_bind; [apply guard_raises |].
  intros _. apply raises_total. frame.
Qed.

Lemma readdirSync_raises p : raises fsError (Fs.readdirSync p).
Proof.
  unfold Fs.readdirSync. apply raises_bind; [apply guard_raises |].
  intros _ w e. destruct (Fs.lookupNode (files w) p) as [[[c|] b]|];
    try discriminate; intros [= <-]; unfold fsError; set_solver.
Qed.

Lemma statSync_raises p : raises fsError (Fs.statSync p).
Proof.
  intros w e. unfold Fs.statSync. destruct (Fs.lookupNode (files w) p);
    try discriminate; intros [= <-]; unfold fsError; set_solver.
Qed.

Lemma fsError_not_active e : fsError e -> e <> activeServerError.
Proof.
  unfold fsError. intros H ->.
  repeat (apply elem_of_cons in H as [H | H]; [discriminate H |]).
  apply elem_of_nil in H. exact H.
Qed.

(** ** The lifecycle gate of the maintenance calls *)

(** [deleteServer] past its lifecycle gate. *)
Lemma deleteServer_other serverId action (s : MinecraftServer) (w : World) :
  isActive s serverId = false ->
  (deleteServer serverId action (s, w)).1 <> Throw activeServerError.
Proof.
  intros Hact H. revert H.
  assert (R : forall {A} (m : M Sys A), raises fsError m ->
                raises (fun e => e <> activeServerError) m)
    by (intros A m; apply raises_weaken, fsError_not_active).
  unfold deleteServer. rewrite bind_this, bind_ask. cbn [fst snd].
  destruct (Fs.existsSync w _); cbn [negb]; [| discriminate].
  rewrite !bind_this. cbn [fst]. rewrite Hact. cbn [andb].
  rewrite bind_ask. cbn [snd].
  match goal with |- (?m _).1 = _ -> False => enough (Hr : raises (fun e => e <> activeServerError) m) end.
  { intros H. exact (Hr _ _ H eq_refl). }
  apply raises_bind.
  - destruct (Fs.existsSync w _); [| apply raises_ret].
    destruct action.
    + apply raises_bind; [apply raises_total; frame | intros _].
      apply R, raises_io, rmSync_raises.
    + apply raises_ret.
    + apply raises_bind; [apply raises_total; frame | intros _].
      apply raises_bind; [apply R, raises_io, readdirSync_raises | intros names].
      apply raises_bind.
      * apply raises_mapM. intros f.
        apply raises_bind; [apply R, raises_io, statSync_raises | intros i; apply raises_ret].
      * intros backups. apply raises_forEach. intros b. apply R, raises_io, rmSync_raises.
  - intros _. apply raises_bind; [apply raises_total; frame | intros _].
    apply raises_bind; [apply R, raises_io, rmSync_raises | intros _].
    apply raises_total. frame.
Qed.

(** Without a fault, [deleteServer] goes through when the backups are kept,
    or deleted, or when there are none. *)
Lemma deleteServer_goes serverId action (s : MinecraftServer) (w : World) :
  let target := instanceDir s serverId in
  let backups := Path.join (Path.dirname (serversDir s)) [js "backups"; serverId] in
  Fs.existsSync w target = true ->
  isActive s serverId && negb (bool_decide (status s = OFFLINE)) = false ->
  (forall op, fault w op = None) ->
  action <> KEEP_LATEST \/ Fs.existsSync w backups = false ->
  (deleteServer serverId action (s, w)).1 = Ret tt.
Proof.
  intros target backups Hex Hgate Hfault Hact.
  unfold deleteServer. rewrite bind_this, bind_ask. cbn [fst snd].
  fold (instanceDir s serverId). fold target. rewrite Hex. cbn [negb].
  rewrite !bind_this. cbn [fst]. rewrite Hgate.
  rewrite bind_ask. cbn [snd]. fold backups.
  assert (T : forall p (x : Sys), fault x.2 = fault w -> (io (Fs.rmSync p) x).1 = Ret tt).
  { intros p [o v] Hf. rewrite io_run. cbn [fst snd] in *. unfold Fs.rmSync.
    unfold bind. rewrite guard_run, Hf, Hfault. reflexivity. }
  match goal with |- (bind ?m ?k _).1 = _ => set (first := m); set (rest := k) end.
  assert (H1 : (first (s, w)).1 = Ret tt /\ fault (first (s, w)).2.2 = fault w).
  { subst first. destruct (Fs.existsSync w backups) eqn:Eb; [| split; reflexivity].
    destruct action.
    - rewrite (bind_total (logSystem _)) by frame. cbv beta. split.
      + apply T. apply (keeps_at (fun s : Sys => fault s.2) (logSystem _)). frame.
      + rewrite (keeps_at (fun s : Sys => fault s.2) (io (Fs.rmSync _))) by frame.
        apply (keeps_at (fun s : Sys => fault s.2) (logSystem _)). frame.
    - split; reflexivity.
    - destruct Hact as [Hact | Hact]; congruence. }
  destruct H1 as [H1 H2]. apply outcome_eq in H1.
  rewrite (bind_Ret _ _ _ _ _ H1). subst rest. cbv beta.
  rewrite (bind_total (logSystem _)) by frame. cbv beta.
  match goal with |- (bind (io (Fs.rmSync ?p)) ?k ?x).1 = _ =>
    assert (H3 : (io (Fs.rmSync p) x).1 = Ret tt) end.
  { apply T. rewrite (keeps_at (fun s : Sys => fault s.2) (logSystem _)) by frame.
    exact H2. }
  apply outcome_eq in H3. rewrite (bind_Ret _ _ _ _ _ H3). cbv beta.
  match goal with |- (?m ?x).1 = Ret tt =>
    assert (Ht : total m) by frame; destruct (Ht x) as [[] ->] end.
  reflexivity.
Qed.


(** C3, as the code has it.  While the state is not OFFLINE: [restoreBackup]
    always throws "Server must be OFFLINE to restore."; [createBackup] always
    throws: "Server must be OFFLINE to create a backup." with an instance
    loaded, "No server loaded" without; [deleteServer] throws "Cannot delete
    the active server while it is running. Stop it first." when its target
    exists and is the selected instance.  None of the rejected calls changes
    anything.  The deletion of an instance that is not the selected one is
    never rejected with that error, whatever the state: when the directory
    of the instance is there, the file system reports no fault and the
    backups are kept or deleted, or there are none, [deleteServer] returns,
    the directory and all it held are gone, and the state and the selection
    are what they were. *)
Theorem offline_gate (s : MinecraftServer) (w : World) (actor : jsstring) :
  status s <> OFFLINE ->
  (forall id,
      restoreBackup actor id (s, w)
      = (Throw (Error (js "Server must be OFFLINE to restore.")), (s, w)))
  /\ (forall name, exists e, createBackup actor name (s, w) = (Throw e, (s, w)))
  /\ (forall name,
         is_Some (serverDir s) -> is_Some (config s) ->
         createBackup actor name (s, w)
         = (Throw (Error (js "Server must be OFFLINE to create a backup.")), (s, w)))
  /\ (forall name,
         serverDir s = None \/ config s = None ->
         createBackup actor name (s, w)
         = (Throw (Error (js "No server loaded")), (s, w)))
  /\ (forall serverId backupAction,
         Fs.existsSync w (instanceDir s serverId) = true ->
         isActive s serverId = true ->
         deleteServer serverId backupAction (s, w)
         = (Throw (Error (js "Cannot delete the active server while it is running. Stop it first.")),
            (s, w)))
  /\ (forall serverId backupAction,
         isActive s serverId = false ->
         (deleteServer serverId backupAction (s, w)).1 <> Throw activeServerError)
  /\ (forall serverId backupAction,
         let target := instanceDir s serverId in
         let backups :=
           Path.join (Path.dirname (serversDir s)) [js "backups"; serverId] in
         isActive s serverId = false ->
         Fs.existsSync w target = true -> target <> [] ->
         (forall op, fault w op = None) ->
         backupAction <> KEEP_LATEST \/ Fs.existsSync w backups = false ->
         let r := deleteServer serverId backupAction (s, w) in
         r.1 = Ret tt
         /\ (forall q, target `prefix_of` q -> files r.2.2 !! q = None)
         /\ status r.2.1 = status s
         /\ config r.2.1 = config s /\ serverDir r.2.1 = serverDir s).
Proof.
  intros Hst.
  assert (Hdec : bool_decide (status s = OFFLINE) = false)
    by (apply bool_decide_eq_false_2, Hst).
  split; [| split; [| split; [| split; [| split; [| split]]]]].
  - intros id. unfold restoreBackup. rewrite bind_this. cbn [fst].
    rewrite Hdec. reflexivity.
  - intros name. unfold createBackup. rewrite !bind_this. cbn [fst].
    destruct (serverDir s), (config s);
      rewrite ?bind_this; cbn [fst]; rewrite ?Hdec; eexists; reflexivity.
  - intros name [d Hd] [c Hc]. unfold createBackup. rewrite !bind_this. cbn [fst].
    rewrite Hd, Hc, bind_this. cbn [fst]. rewrite Hdec. reflexivity.
  - intros name H. unfold createBackup. rewrite !bind_this. cbn [fst].
    destruct H as [-> | ->]; [reflexivity |]. destruct (serverDir s); reflexivity.
  - intros serverId action Hex Hact.
    unfold deleteServer. rewrite bind_this, bind_ask. cbn [fst snd].
    unfold instanceDir in Hex. rewrite Hex. cbn [negb].
    rewrite !bind_this. cbn [fst]. rewrite Hact, Hdec. reflexivity.
  - intros serverId action Hact. apply deleteServer_other, Hact.
  - intros serverId action target backups Hact Hex Hroot Hfault Hkeep r.
    assert (Hr : r.1 = Ret tt).
    { apply deleteServer_goes; try assumption. rewrite Hact. reflexivity. }
    destruct (deleteServer_Ret serverId action s w Hr Hroot)
      as (_ & H2 & H3 & H4 & _). rewrite Hact in H3. destruct H3 as [H3 H5].
    auto.
Qed.

Lemma offline_gate_witness :
  status Demo.online <> OFFLINE
  /\ restoreBackup (js "admin") (js "backup-2024") (Demo.online, Demo.world)
     = (Throw (Error (js "Server must be OFFLINE to restore.")),
        (Demo.online, Demo.world))
  /\ createBackup (js "admin") None (Demo.online, Demo.world)
     = (Throw (Error (js "Server must be OFFLINE to create a backup.")),
        (Demo.online, Demo.world))
  /\ deleteServer (js "main") DELETE_ALL (Demo.online, Demo.world)
     = (Throw (Error (js "Cannot delete the active server while it is running. Stop it first.")),
        (Demo.online, Demo.world))
  /\ (let r := deleteServer (js "other") DELETE_ALL (Demo.online, Demo.world) in
      r.1 = Ret tt
      /\ files r.2.2 !! (Demo.servers ++ [js "other"; js "laplace.server.json"]) = None
      /\ status r.2.1 = ONLINE).
Proof.
  split; [discriminate |].
  destruct (offline_gate Demo.online Demo.world (js "admin"))
    as (Hrestore & _ & Hcreate & _ & Hdelete & _ & Hother); [discriminate |].
  split; [apply Hrestore |].
  split; [apply Hcreate; eexists; reflexivity |].
  split; [apply Hdelete; vm_compute; reflexivity |].
  destruct (Hother (js "other") DELETE_ALL) as (H1 & H2 & H3 & _).
  - vm_compute. reflexivity.
  - vm_compute. reflexivity.
  - vm_compute. discriminate.
  - reflexivity.
  - left. discriminate.
  - split; [exact H1 |]. split; [| exact H3].
    apply H2. exists [js "laplace.server.json"]. vm_compute. reflexivity.
Defined.

(** C3 as stated fails: with [main] ONLINE, [deleteServer] deletes the other
    instance and returns. *)
Lemma deleteServer_other_while_online :
  status Demo.online <> OFFLINE /\
  let r := deleteServer (js "other") KEEP_ALL (Demo.online, Demo.world) in
  r.1 = Ret tt /\
  Fs.existsSync Demo.world (instanceDir Demo.online (js "other")) = true /\
  Fs.existsSync r.2.2 (instanceDir Demo.online (js "other")) = false.
Proof. split; [discriminate |]. vm_compute. auto. Qed.

(** ** Creating an instance, step by step *)

Lemma mkdirs_goes (birth : Z) (ps : list path) (fs : gmap path inode) :
  (forall q, q ∈ ps ->
     forall c b, fs !! q <> Some {| node_of := File c; birthtimeMs := b |}) ->
  exists fs', Fs.mkdirs birth ps fs = Some fs'.
Proof.
  revert fs. induction ps as [|q ps IH]; intros fs H; cbn [Fs.mkdirs]; [eauto |].
  destruct (fs !! q) as [[[c|] b]|] eqn:E.
  - exfalso. apply (H q ltac:(left) c b E).
  - apply IH. intros q' Hq'. apply H. right. exact Hq'.
  - apply IH. intros q' Hq' c b. destruct (decide (q' = q)) as [-> | Hne].
    + rewrite lookup_insert_eq. discriminate.
    + rewrite lookup_insert_ne by congruence. apply H. right. exact Hq'.
Qed.

Lemma prefix_snoc_inv {A} (a l : list A) (x : A) :
  a `prefix_of` l ++ [x] -> a = l ++ [x] \/ a `prefix_of` l.
Proof.
  intros [k Hk]. destruct (decide (k = [])) as [-> | Hne].
  - left. rewrite app_nil_r in Hk. congruence.
  - right. destruct (exists_last Hne) as (k' & y & ->).
    rewrite app_assoc in Hk. apply app_inj_tail in Hk as [-> _]. exists k'. reflexivity.
Qed.

(** In a well-formed tree, what is above a directory is a directory. *)
Lemma wellFormed_above (fs : gmap path inode) (root a : path) :
  wellFormed fs -> Fs.isDir fs root = true -> a `prefix_of` root -> Fs.isDir fs a = true.
Proof.
  intros Hwf Hroot Ha.
  destruct a as [|a0 a]; [reflexivity |].
  destruct (decide (root = [])) as [-> | Hne].
  { destruct Ha as [k Hk]. discriminate Hk. }
  destruct (isDir_lookup _ _ Hne Hroot) as [i Hi].
  destruct (Hwf _ _ Hi) as [_ Hanc].
  rewrite (app_removelast_last [] Hne) in Ha.
  apply prefix_snoc_inv in Ha as [Ha | Ha].
  - rewrite Ha, <- (app_removelast_last [] Hne). exact Hroot.
  - rewrite Forall_forall in Hanc. apply Hanc, ancestors_prefix.
    split; [exact Ha | discriminate].
Qed.

(** In a well-formed tree, nothing is below a path that does not exist. *)
Lemma wellFormed_vacant (fs : gmap path inode) (dir : path) (n : jsstring) :
  wellFormed fs -> dir <> [] -> fs !! dir = None -> fs !! (dir ++ [n]) = None.
Proof.
  intros Hwf Hne Hdir. destruct (fs !! (dir ++ [n])) as [i|] eqn:E; [| reflexivity].
  destruct (Hwf _ _ E) as [_ Hanc]. rewrite removelast_snoc in Hanc.
  rewrite Forall_forall in Hanc.
  assert (H : Fs.isDir fs dir = true)
    by (apply Hanc, ancestors_prefix; split; [reflexivity | exact Hne]).
  destruct (isDir_lookup _ _ Hne H) as [j Hj]. congruence.
Qed.

(** [mkdirSync] of a path that is free, below a directory of a well-formed
    tree. *)
Lemma mkdirSync_goes (root : path) (n : jsstring) (w : World) :
  wellFormed (files w) -> Fs.isDir (files w) root = true ->
  files w !! (root ++ [n]) = None ->
  fault w (OpMkdir (root ++ [n])) = None ->
  exists w1, Fs.mkdirSync (root ++ [n]) w = (Ret tt, w1).
Proof.
  intros Hwf Hroot Hfree Hfault. unfold Fs.mkdirSync, bind.
  rewrite guard_run, Hfault.
  destruct (mkdirs_goes (now w) (Fs.ancestors (root ++ [n])) (files w)) as [fs' ->];
    [| eauto].
  intros q Hq c b Hfile. apply ancestors_prefix in Hq as [Hq Hne].
  apply prefix_snoc_inv in Hq as [-> | Hq]; [congruence |].
  pose proof (wellFormed_above _ _ _ Hwf Hroot Hq) as Hd.
  unfold Fs.isDir, Fs.lookupNode in Hd. destruct q; [congruence |].
  rewrite Hfile in Hd. discriminate Hd.
Qed.

(** The write of a new file of a directory. *)
Lemma write_child (dir : path) (n : jsstring) (c : content) (w : World) :
  fault w (OpWrite (dir ++ [n])) = None ->
  Fs.isDir (files w) dir = true ->
  files w !! (dir ++ [n]) = None ->
  exists w', Fs.writeFileSync (dir ++ [n]) c w = (Ret tt, w')
    /\ fault w' = fault w /\ now w' = now w
    /\ (forall q, q <> dir ++ [n] -> files w' !! q = files w !! q)
    /\ files w' !! (dir ++ [n])
       = Some {| node_of := File c; birthtimeMs := now w |}.
Proof.
  intros Hfault Hdir Hnone. unfold Fs.writeFileSync.
  rewrite Hfault, removelast_snoc, Hdir. cbn [negb].
  assert (Hnd : Fs.isDir (files w) (dir ++ [n]) = false).
  { unfold Fs.isDir. rewrite lookupNode_snoc, Hnone. reflexivity. }
  rewrite Hnd, Hnone. eexists. split; [reflexivity |].
  cbn [fault now files set_files].
  split; [reflexivity |]. split; [reflexivity |]. split.
  - intros q Hq. apply lookup_insert_ne. congruence.
  - apply lookup_insert_eq.
Qed.

Lemma isDir_kept (fs fs' : gmap path inode) (dir : path) (n : jsstring) :
  (forall q, q <> dir ++ [n] -> fs' !! q = fs !! q) ->
  Fs.isDir fs' dir = Fs.isDir fs dir.
Proof. intros H. apply isDir_same, H, snoc_neq. Qed.

Lemma try_bind_Ret {S A B} (m : M S A) (k : A -> M S B) (h : exn -> M S B) s a s1 :
  m s = (Ret a, s1) -> try_catch (bind m k) h s = try_catch (k a) h s1.
Proof. intros H. unfold try_catch, bind. rewrite H. reflexivity. Qed.

Lemma try_bind_Throw {S A B} (m : M S A) (k : A -> M S B) (h : exn -> M S B) s e s1 :
  m s = (Throw e, s1) -> try_catch (bind m k) h s = h e s1.
Proof. intros H. unfold try_catch, bind. rewrite H. reflexivity. Qed.

(** [writeJsonAtomic] of a new file of a directory: it goes through unless
    the rename is refused, and then it throws what the rename throws. *)
Lemma writeJsonAtomic_run (dir : path) (n : jsstring) (d : document) (w : World) :
  let p := dir ++ [n] in
  fault w (OpWrite (tmpPath p)) = None ->
  Fs.isDir (files w) dir = true ->
  files w !! p = None -> files w !! tmpPath p = None ->
  (writeJsonAtomic p d w).1
  = match fault w (OpRename (tmpPath p) p) with
    | None => Ret tt
    | Some _ => Throw Fs.EIO
    end.
Proof.
  intros p Hfault Hdir Hp Htmp. unfold writeJsonAtomic.
  assert (Et : tmpPath p = dir ++ [n ++ js ".tmp"]) by apply tmpPath_snoc.
  rewrite Et in *.
  destruct (write_child dir (n ++ js ".tmp") (Json d) w Hfault Hdir Htmp)
    as (w1 & E1 & F1 & _ & O1 & N1).
  assert (Hneq : p <> dir ++ [n ++ js ".tmp"]) by (rewrite <- Et; apply not_eq_sym, tmpPath_neq).
  unfold Fs.renameSync. unfold try_catch, bind at 1. rewrite E1.
  unfold bind. rewrite guard_run, F1.
  destruct (fault w (OpRename _ _)); [reflexivity |].
  rewrite lookupNode_snoc, N1. unfold p at 1. rewrite removelast_snoc.
  rewrite (isDir_kept _ _ _ _ O1), Hdir. cbn [negb node_of].
  assert (Hnd : Fs.isDir (files w1) p = false).
  { unfold Fs.isDir, p. rewrite lookupNode_snoc. fold p. rewrite (O1 p Hneq), Hp.
    reflexivity. }
  rewrite Hnd. reflexivity.
Qed.

(** [createServer] on a well-formed tree, for a jar that is a file and an
    identifier that is free, with no fault of the file system but possibly a
    refusal of the renames, of which the call makes one, that which puts the
    descriptor in place: without that
    refusal the call returns the identifier; with it the call throws what the
    rename throws, and there is no descriptor. *)
Lemma createServer_run (params : ServerCreationParams.t) (s : MinecraftServer)
  (w : World) :
  let source := ofString (ServerCreationParams.sourceJarPath params) in
  let id := slug (ServerCreationParams.name params) in
  let dir := instanceDir s id in
  let p := descriptorPath dir in
  wellFormed (files w) ->
  Fs.isDir (files w) (serversDir s) = true ->
  Fs.isFile (files w) source = true ->
  Fs.existsSync w dir = false ->
  (forall op, (forall a b, op <> OpRename a b) -> fault w op = None) ->
  let r := createServer params (s, w) in
  match fault w (OpRename (tmpPath p) p) with
  | None => r.1 = Ret id
  | Some _ => r.1 = Throw Fs.EIO /\ files r.2.2 !! p = None
  end.
Proof.
  intros source id dir p Hwf Hroot Hsrc Hfree Hfault r.
  (* the identifier is a plain name *)
  assert (Hname : ServerCreationParams.name params <> []).
  { intros E. subst dir id. rewrite E in Hfree.
    change (instanceDir s (slug [])) with (serversDir s) in Hfree.
    unfold Fs.isDir in Hroot. unfold Fs.existsSync in Hfree.
    destruct (Fs.lookupNode (files w) (serversDir s)); discriminate. }
  destruct (idUnits_plain id (slug_units _)) as (P1 & P3 & P4).
  pose proof (slug_nonempty _ Hname) as P2. fold id in P2.
  assert (Edir : dir = serversDir s ++ [id]) by apply (join_plain _ _ P1 P2 P3 P4).
  assert (Hdne : dir <> []) by (rewrite Edir; destruct (serversDir s); discriminate).
  assert (Hnone : files w !! dir = None) by (apply existsSync_false; assumption).
  assert (Ep : p = dir ++ [js "laplace.server.json"]) by reflexivity.
  assert (Etmp : tmpPath p = dir ++ [js "laplace.server.json.tmp"])
    by (rewrite Ep; apply tmpPath_snoc).
  assert (Hop : forall q, fault w (OpWrite q) = None /\ fault w (OpRead q) = None
                          /\ fault w (OpList q) = None /\ fault w (OpRemove q) = None
                          /\ fault w (OpMkdir q) = None)
    by (intros q; repeat split; apply Hfault; intros; discriminate).
  assert (Hcopy : forall a b, fault w (OpCopy a b) = None)
    by (intros a b; apply Hfault; intros; discriminate).
  assert (Hc : exists c b, Fs.lookupNode (files w) source
                           = Some {| node_of := File c; birthtimeMs := b |}).
  { unfold Fs.isFile in Hsrc.
    destruct (Fs.lookupNode (files w) source) as [[[c|] b]|];
      [eauto | discriminate | discriminate]. }
  destruct Hc as (c & b & Hc).
  assert (Hsne : source <> [])
    by (intros E; rewrite E in Hc; discriminate Hc).
  assert (Hex : Fs.existsSync w source = true)
    by (unfold Fs.existsSync; rewrite Hc; reflexivity).
  (* the run, step by step *)
  pose proof (eq_refl r) as Hr. unfold r at 2 in Hr. unfold createServer in Hr.
  rewrite bind_ask in Hr. cbn [snd] in Hr. fold source in Hr. rewrite Hex in Hr.
  cbn [negb] in Hr. rewrite bind_this, bind_ask in Hr. cbn [fst snd] in Hr.
  fold id in Hr. fold (instanceDir s id) in Hr. fold dir in Hr. rewrite Hfree in Hr.
  match type of Hr with _ = try_catch _ ?h _ => set (handler := h) in Hr end.
  (* the directory *)
  rewrite Edir in Hnone.
  destruct (mkdirSync_goes (serversDir s) id w Hwf Hroot Hnone (proj2 (proj2 (proj2 (proj2 (Hop _))))))
    as [w1 E1].
  rewrite <- Edir in E1, Hnone.
  destruct (mkdirSync_Ret _ _ _ E1) as (S1 & O1 & D1 & N1 & F1).
  rewrite (try_bind_Ret _ _ _ _ tt (s, w1)) in Hr by (rewrite io_run, E1; reflexivity).
  assert (Hd1 : Fs.isDir (files w1) dir = true) by (apply D1; reflexivity).
  assert (Hc1 : Fs.lookupNode (files w1) source
                = Some {| node_of := File c; birthtimeMs := b |}).
  { destruct source as [|x source']; [congruence |]. cbn [Fs.lookupNode] in *.
    apply (lookup_weaken _ _ _ _ Hc S1). }
  assert (V1 : forall n, files w1 !! (dir ++ [n]) = None).
  { intros n. rewrite O1 by (apply snoc_not_prefix; discriminate).
    apply wellFormed_vacant; assumption. }
  (* the jar *)
  change (Path.join dir [js "server.jar"]) with (dir ++ [js "server.jar"]) in Hr.
  destruct (write_child dir (js "server.jar") c w1) as (w2 & E2 & F2 & N2 & O2 & _).
  { rewrite F1. apply Hop. } { exact Hd1. } { apply V1. }
  rewrite (try_bind_Ret _ _ _ _ tt (s, w2)) in Hr
    by (rewrite io_run, copyFileSync_run, F1, Hcopy, (proj1 (proj2 (Hop _))), Hc1, E2;
        reflexivity).
  assert (Hd2 : Fs.isDir (files w2) dir = true)
    by (rewrite (isDir_kept _ _ _ _ O2); exact Hd1).
  assert (V2 : forall n, n <> js "server.jar" -> files w2 !! (dir ++ [n]) = None).
  { intros n Hn. rewrite O2; [apply V1 |]. intros E. apply app_inv_head in E. congruence. }
  (* the licence *)
  change (Path.join dir [js "eula.txt"]) with (dir ++ [js "eula.txt"]) in Hr.
  assert (H3 : exists w3,
             when (ServerCreationParams.eulaAccepted params)
               (io (Fs.writeFileSync (dir ++ [js "eula.txt"]) (Text (js "eula=true"))))
               (s, w2)
             = (Ret tt, (s, w3))
             /\ fault w3 = fault w /\ Fs.isDir (files w3) dir = true
             /\ (forall n, n <> js "server.jar" -> n <> js "eula.txt" ->
                           files w3 !! (dir ++ [n]) = None)).
  { destruct (ServerCreationParams.eulaAccepted params); cbn [when].
    - destruct (write_child dir (js "eula.txt") (Text (js "eula=true")) w2)
        as (w3 & E3 & F3 & _ & O3 & _).
      { rewrite F2, F1. apply Hop. } { exact Hd2. } { apply V2. discriminate. }
      exists w3. rewrite io_run, E3.
      split; [reflexivity |]. split; [congruence |].
      split; [rewrite (isDir_kept _ _ _ _ O3); exact Hd2 |].
      intros n Hn1 Hn2. rewrite O3; [apply V2, Hn1 |].
      intros E. apply app_inv_head in E. congruence.
    - exists w2. split; [reflexivity |]. split; [congruence |]. split; [exact Hd2 |].
      intros n Hn _. apply V2, Hn. }
  destruct H3 as (w3 & E3 & F3 & Hd3 & V3).
  rewrite (try_bind_Ret _ _ _ _ tt (s, w3) E3) in Hr.
  (* the password and the properties *)
  rewrite (try_bind_Ret _ _ _ _ _ (s, set_drawn (Nat.add 8) w3)) in Hr
    by (rewrite io_run; reflexivity).
  match type of Hr with
  | context [Fs.writeFileSync (Path.join dir [js "server.properties"]) ?t] =>
      set (text := t) in Hr
  end.
  change (Path.join dir [js "server.properties"])
    with (dir ++ [js "server.properties"]) in Hr.
  destruct (write_child dir (js "server.properties") text (set_drawn (Nat.add 8) w3))
    as (w4 & E4 & F4 & N4 & O4 & _).
  { cbn [fault set_drawn]. rewrite F3. apply Hop. } { exact Hd3. }
  { apply V3; discriminate. }
  cbn [fault set_drawn files] in F4, O4.
  rewrite (try_bind_Ret _ _ _ _ tt (s, w4)) in Hr by (rewrite io_run, E4; reflexivity).
  assert (Hd4 : Fs.isDir (files w4) dir = true)
    by (rewrite (isDir_kept _ _ _ _ O4); exact Hd3).
  assert (V4 : files w4 !! p = None /\ files w4 !! tmpPath p = None).
  { rewrite Etmp, Ep. split; (rewrite O4; [apply V3; discriminate |]);
      intros E; apply app_inv_head in E; discriminate E. }
  destruct V4 as [V4 V4'].
  (* the descriptor *)
  rewrite (try_bind_Ret _ _ _ _ (now w4) (s, w4)) in Hr by reflexivity.
  change (Path.join dir [js "laplace.server.json"]) with p in Hr.
  match type of Hr with
  | context [writeJsonAtomic p (DConfig ?c)] => set (cfg := c) in Hr
  end.
  clear E1 E2 E3 E4.
  assert (F : fault w4 = fault w) by congruence.
  pose proof (writeJsonAtomic_run dir (js "laplace.server.json") (DConfig cfg) w4) as Hw.
  cbv zeta in Hw. rewrite <- Ep, F in Hw.
  specialize (Hw (proj1 (Hop _)) Hd4 V4 V4').
  destruct (writeJsonAtomic_spec p (DConfig cfg) w4) as (Hother & Hthrow & Hret & Hfault6).
  cbv zeta in *.
  set (w6 := (writeJsonAtomic p (DConfig cfg) w4).2) in *.
  assert (Hd6 : Fs.isDir (files w6) dir = true).
  { rewrite (isDir_same (files w4)); [exact Hd4 |].
    apply Hother; [rewrite Ep | rewrite Etmp]; apply snoc_neq. }
  destruct (fault w (OpRename (tmpPath p) p)) as [f|] eqn:Er.
  - (* the rename is refused *)
    rewrite (try_bind_Throw _ _ _ _ Fs.EIO (s, w6)) in Hr
      by (rewrite io_run, Hw; reflexivity).
    subst handler. cbv beta in Hr. rewrite bind_ask in Hr. cbn [snd] in Hr.
    rewrite (isDir_exists _ _ Hd6) in Hr.
    assert (Hl : Fs.readdirSync dir w6 = (Ret (Fs.children (files w6) dir), w6)).
    { unfold Fs.readdirSync, bind. rewrite guard_run, Hfault6, F, (proj1 (proj2 (proj2 (Hop _)))).
      unfold Fs.isDir in Hd6.
      destruct (Fs.lookupNode (files w6) dir) as [[[c'|] b']|];
        [discriminate Hd6 | reflexivity | discriminate Hd6]. }
    assert (H7 : exists w7,
               bind (io (Fs.readdirSync dir))
                 (fun names =>
                    when (length names <? 3)%nat
                      (try_catch (io (Fs.rmSync dir)) (fun _ => ret tt))) (s, w6)
               = (Ret tt, (s, w7))
               /\ files w7 !! p = None).
    { rewrite (bind_Ret _ _ _ (Fs.children (files w6) dir) (s, w6))
        by (rewrite io_run, Hl; reflexivity).
      destruct (length _ <? 3)%nat; cbn [when].
      - assert (Erm : Fs.rmSync dir w6
                      = (Ret tt, set_files (filter (fun kv : path * inode =>
                                                      ~ dir `prefix_of` kv.1)) w6)).
        { unfold Fs.rmSync, bind. rewrite guard_run, Hfault6, F, (proj1 (proj2 (proj2 (proj2 (Hop _))))).
          reflexivity. }
        exists (set_files (filter (fun kv : path * inode => ~ dir `prefix_of` kv.1)) w6).
        split; [unfold try_catch; rewrite io_run, Erm; reflexivity |].
        apply (rmSync_Ret _ _ _ Erm). rewrite Ep. exists [js "laplace.server.json"].
        reflexivity.
      - exists w6. split; [reflexivity |].
        subst w6. rewrite (Hthrow Fs.EIO Hw). exact V4. }
    destruct H7 as (w7 & E7 & V7).
    rewrite (bind_Ret _ _ _ _ _ E7) in Hr.
    rewrite (bind_total (logError _)) in Hr by frame. cbv beta in Hr.
    rewrite Hr. unfold throw. cbn [fst snd]. split; [reflexivity |].
    rewrite (keeps_at (fun s : Sys => files s.2) (logError _)) by frame. exact V7.
  - (* the descriptor is in place *)
    rewrite (try_bind_Ret _ _ _ _ tt (s, w6)) in Hr by (rewrite io_run, Hw; reflexivity).
    rewrite (try_bind_Ret _ _ _ _ tt _ (total_run (logSystem _) (s, w6) ltac:(frame))) in Hr.
    cbv beta in Hr.
    match type of Hr with _ = try_catch _ _ ?x => set (x7 := x) in Hr end.
    assert (G1 : serversDir x7.1 = serversDir s)
      by (apply (keeps_at (fun s : Sys => serversDir s.1) (logSystem _)); frame).
    assert (G2 : files x7.2 = files w6)
      by (apply (keeps_at (fun s : Sys => files s.2) (logSystem _)); frame).
    assert (G3 : fault x7.2 = fault w6)
      by (apply (keeps_at (fun s : Sys => fault s.2) (logSystem _)); frame).
    clearbody x7. destruct x7 as [s7 w7]. cbn [fst snd] in *.
    assert (Hi : instanceDir s7 id = dir) by (unfold instanceDir, dir; rewrite G1; reflexivity).
    assert (Hsel : Fs.existsSync w7 (instanceDir s7 id) = true)
      by (rewrite Hi; apply isDir_exists; rewrite G2; exact Hd6).
    assert (Hholds : holds w7 (descriptorPath (instanceDir s7 id)) (DConfig cfg)).
    { rewrite Hi. fold p. split; [rewrite G3, Hfault6, F; apply Hop |].
      destruct (Hret Hw) as [b' Hb']. exists b'. rewrite G2, Ep, lookupNode_snoc, <- Ep.
      exact Hb'. }
    rewrite (try_bind_Ret _ _ _ _ tt _ (selectServer_ok id s7 w7 cfg Hsel Hholds)) in Hr.
    rewrite Hr. reflexivity.
Qed.

(** C4, as the code has it.  The identifier is the lowered name with every
    unit outside [a-z0-9] replaced by a dash, so "My Test!" gives "my-test-";
    a call that returns leaves the directory of that identifier behind it.
    A call is rejected, with nothing changed, when the jar it names does not
    exist ("Core file not found at: ...") and, the jar existing, when the
    identifier its name derives is already taken ("Server ID ... already
    exists"); the number of instances plays no part.  On a well-formed tree
    whose servers directory is a directory, with a jar that is a file, an
    identifier that is free and no fault of the file system, the call
    returns the identifier, whatever instances there are already.  The
    empty name derives the servers directory itself. *)
Theorem createServer_identifier :
  slug (js "My Test!") = js "my-test-"
  /\ (forall params s id,
         (createServer params s).1 = Ret id ->
         let s' := (createServer params s).2 in
         id = slug (ServerCreationParams.name params)
         /\ Fs.existsSync s'.2 (instanceDir s'.1 id) = true)
  /\ (forall params s w,
         Fs.existsSync w (ofString (ServerCreationParams.sourceJarPath params)) = true ->
         Fs.existsSync w (instanceDir s (slug (ServerCreationParams.name params))) = true ->
         createServer params (s, w)
         = (Throw (Error (js "Server ID '" ++ slug (ServerCreationParams.name params)
                          ++ js "' already exists. Please choose a different name.")),
            (s, w)))
  /\ (forall params s w,
         Fs.existsSync w (ofString (ServerCreationParams.sourceJarPath params)) = false ->
         createServer params (s, w)
         = (Throw (Error (js "Core file not found at: "
                          ++ ServerCreationParams.sourceJarPath params)),
            (s, w)))
  /\ (forall params s w,
         wellFormed (files w) ->
         Fs.isDir (files w) (serversDir s) = true ->
         Fs.isFile (files w) (ofString (ServerCreationParams.sourceJarPath params)) = true ->
         Fs.existsSync w (instanceDir s (slug (ServerCreationParams.name params))) = false ->
         (forall op, fault w op = None) ->
         (createServer params (s, w)).1 = Ret (slug (ServerCreationParams.name params)))
  /\ (forall s, instanceDir s (slug []) = serversDir s).
Proof.
  split; [vm_compute; reflexivity |]. split; [| split; [| split; [| split]]].
  5: { intros s. reflexivity. }
  - intros params s id H. apply outcome_eq in H. apply (createServer_Ret _ _ _ _ H).
  - intros params s w Hjar Hdir. unfold createServer.
    rewrite bind_ask. cbn [snd]. rewrite Hjar. cbn [negb].
    rewrite bind_this, bind_ask. cbn [fst snd].
    unfold instanceDir in Hdir. rewrite Hdir. reflexivity.
  - intros params s w Hjar. unfold createServer.
    rewrite bind_ask. cbn [snd]. rewrite Hjar. reflexivity.
  - intros params s w Hwf Hroot Hsrc Hfree Hfault.
    pose proof (createServer_run params s w Hwf Hroot Hsrc Hfree (fun op _ => Hfault op))
      as H.
    cbv zeta in H. rewrite Hfault in H. exact H.
Qed.

Lemma createServer_identifier_witness :
  createServer (Demo.params "Main") (Demo.fresh, Demo.world)
  = (Throw (Error (js "Server ID '" ++ slug (ServerCreationParams.name (Demo.params "Main"))
                   ++ js "' already exists. Please choose a different name.")),
     (Demo.fresh, Demo.world))
  /\ (createServer (Demo.params "Third one") (Demo.fresh, Demo.world)).1
     = Ret (js "third-one").
Proof.
  destruct createServer_identifier as (_ & _ & H1 & _ & H2 & _).
  split.
  - apply H1; vm_compute; reflexivity.
  - apply (H2 (Demo.params "Third one") Demo.fresh Demo.world).
    + unfold wellFormed, plainName. decided.
    + vm_compute. reflexivity.
    + vm_compute. reflexivity.
    + vm_compute. reflexivity.
    + reflexivity.
Defined.

(** C4 as stated fails: with the instances [main] and [other] on disk, a
    call with the name "My Test!" is accepted, and so is a further one with
    the name "Second". *)
Lemma createServer_second_accepted :
  let r1 := createServer (Demo.params "My Test!") (Demo.fresh, Demo.world) in
  let r2 := createServer (Demo.params "Second") r1.2 in
  Fs.existsSync Demo.world (instanceDir Demo.fresh (js "main")) = true
  /\ r1.1 = Ret (js "my-test-")
  /\ Fs.existsSync r1.2.2 (instanceDir r1.2.1 (js "my-test-")) = true
  /\ r2.1 = Ret (js "second").
Proof. vm_compute. repeat split; reflexivity. Qed.

(** ** Atomic replacement *)

(** [writeJsonAtomic] never returns when the rename is refused. *)
Lemma writeJsonAtomic_refused (p : path) (d : document) (w : World) (f : failure) :
  fault w (OpRename (tmpPath p) p) = Some f ->
  exists e, (writeJsonAtomic p d w).1 = Throw e.
Proof.
  intros Hf. unfold writeJsonAtomic, try_catch.
  destruct (bind (Fs.writeFileSync (tmpPath p) (Json d)) (fun _ => Fs.renameSync (tmpPath p) p) w)
    as [[[]|e] w1] eqn:E.
  - exfalso. apply bind_Ret_inv in E as ([] & w0 & E0 & E).
    unfold Fs.renameSync, bind in E. rewrite guard_run in E.
    assert (Hf0 : fault w0 = fault w).
    { destruct (writeFileSync_spec (tmpPath p) (Json d) w) as (_ & _ & H). cbv zeta in H.
      rewrite E0 in H. exact H. }
    rewrite Hf0, Hf in E. discriminate E.
  - exists e. reflexivity.
Qed.

(** C7, as the code has it.  A [writeJsonAtomic] that throws leaves the
    target as it was, and in every case the target is afterwards either as
    it was or the complete new document, never a torn file.  [saveSettings]
    and [createServer] persist the descriptor through it and [saveConfig],
    the writer of the panel configuration, is it: when the write throws,
    [saveSettings] throws the same error to its caller, having done nothing
    after the write, and the descriptor on disk is as it was; a [saveConfig]
    whose rename is refused throws and leaves the configuration file as it
    was, and one that returns leaves the document in the file; a
    [createServer] whose rename of the descriptor is refused throws the
    error of the rename and leaves no descriptor, whole or torn (on a
    well-formed tree, for a jar that is a file and an identifier that is
    free, no other operation failing).
    [restoreBackup] is not among these writers: it replaces the descriptor
    with the rest of the instance directory by removing and copying. *)
Theorem atomic_write_failure :
  (forall p d w e,
      (writeJsonAtomic p d w).1 = Throw e ->
      Fs.lookupNode (files (writeJsonAtomic p d w).2) p = Fs.lookupNode (files w) p)
  /\ (forall p d w,
         let r := writeJsonAtomic p d w in
         Fs.lookupNode (files r.2) p = Fs.lookupNode (files w) p
         \/ (r.1 = Ret tt /\ exists b,
                files r.2 !! p = Some {| node_of := File (Json d); birthtimeMs := b |}))
  /\ (forall actor data s w dir cfg e,
         serverDir s = Some dir -> config s = Some cfg ->
         let merged := mergeConfig cfg (ServerSettingsPayload.config data) in
         let written := writeJsonAtomic (descriptorPath dir) (DConfig merged) w in
         written.1 = Throw e ->
         saveSettings actor data (s, w)
         = (Throw e, (set_config (Some merged) s, written.2))
         /\ Fs.lookupNode (files written.2) (descriptorPath dir)
            = Fs.lookupNode (files w) (descriptorPath dir))
  /\ (forall CONFIG_FILE data w,
         let r := saveConfig CONFIG_FILE data w in
         (forall e, r.1 = Throw e ->
            Fs.lookupNode (files r.2) CONFIG_FILE = Fs.lookupNode (files w) CONFIG_FILE)
         /\ (forall f, fault w (OpRename (tmpPath CONFIG_FILE) CONFIG_FILE) = Some f ->
               exists e, r.1 = Throw e)
         /\ (r.1 = Ret tt -> fault w (OpRead CONFIG_FILE) = None ->
             holds r.2 CONFIG_FILE (DPanel data)))
  /\ (forall params s w f,
         let dir := instanceDir s (slug (ServerCreationParams.name params)) in
         wellFormed (files w) ->
         Fs.isDir (files w) (serversDir s) = true ->
         Fs.isFile (files w) (ofString (ServerCreationParams.sourceJarPath params)) = true ->
         Fs.existsSync w dir = false ->
         (forall op, (forall a b, op <> OpRename a b) -> fault w op = None) ->
         fault w (OpRename (tmpPath (descriptorPath dir)) (descriptorPath dir)) = Some f ->
         let r := createServer params (s, w) in
         r.1 = Throw Fs.EIO /\ files r.2.2 !! descriptorPath dir = None).
Proof.
  assert (Hfail : forall p d w e,
             (writeJsonAtomic p d w).1 = Throw e ->
             Fs.lookupNode (files (writeJsonAtomic p d w).2) p
             = Fs.lookupNode (files w) p).
  { intros p d w e H. apply lookupNode_eq.
    destruct (writeJsonAtomic_spec p d w) as (_ & Hthrow & _). cbv zeta in Hthrow.
    apply (Hthrow e H). }
  split; [exact Hfail |]. split; [| split; [| split]].
  - intros p d w r. subst r. destruct (writeJsonAtomic p d w).1 as [[]|e] eqn:E.
    + right. split; [reflexivity |].
      destruct (writeJsonAtomic_spec p d w) as (_ & _ & Hret & _). cbv zeta in Hret.
      apply Hret, E.
    + left. eapply Hfail, E.
  - intros actor data s w dir cfg e Hdir Hcfg merged written H.
    split; [| eapply Hfail, H].
    apply outcome_eq in H. fold written in H.
    unfold saveSettings. rewrite !bind_this. cbn [fst]. rewrite Hdir, Hcfg.
    fold merged. rewrite bind_assign. cbn [fst snd].
    erewrite bind_Throw; [reflexivity |].
    unfold io, zoom. cbn [fst snd]. fold written. rewrite H. reflexivity.
  - intros CONFIG_FILE data w r. subst r. unfold saveConfig.
    split; [| split].
    + intros e H. eapply Hfail, H.
    + intros f Hf. apply (writeJsonAtomic_refused _ _ _ f Hf).
    + intros H Hread. apply writeJsonAtomic_holds; assumption.
  - intros params s w f dir Hwf Hroot Hsrc Hfree Hfault Hf r.
    pose proof (createServer_run params s w Hwf Hroot Hsrc Hfree Hfault) as H.
    cbv zeta in H. fold dir in H. rewrite Hf in H. exact H.
Qed.

Lemma atomic_write_failure_witness :
  let dir := Demo.servers ++ [js "main"] in
  let merged :=
    mergeConfig (Demo.descriptor "main")
      (ServerSettingsPayload.config Demo.settings) in
  let written := writeJsonAtomic (descriptorPath dir) (DConfig merged) Demo.readonly in
  saveSettings (js "admin") Demo.settings (Demo.stopped, Demo.readonly)
  = (Throw Fs.EIO, (set_config (Some merged) Demo.stopped, written.2))
  /\ Fs.lookupNode (files written.2) (descriptorPath dir)
     = Fs.lookupNode (files Demo.readonly) (descriptorPath dir)
  /\ (let r := createServer (Demo.params "My Test!") (Demo.fresh, Demo.readonly) in
      r.1 = Throw Fs.EIO
      /\ files r.2.2 !! descriptorPath (Demo.servers ++ [js "my-test-"]) = None).
Proof.
  destruct atomic_write_failure as (_ & _ & H1 & _ & H2).
  split; [| split].
  - apply (H1 (js "admin") Demo.settings Demo.stopped Demo.readonly
             (Demo.servers ++ [js "main"]) (Demo.descriptor "main") Fs.EIO);
      [reflexivity | reflexivity | vm_compute; reflexivity].
  - apply (H1 (js "admin") Demo.settings Demo.stopped Demo.readonly
             (Demo.servers ++ [js "main"]) (Demo.descriptor "main") Fs.EIO);
      [reflexivity | reflexivity | vm_compute; reflexivity].
  - apply (H2 (Demo.params "My Test!") Demo.fresh Demo.readonly Refused).
    + unfold wellFormed, plainName. decided.
    + vm_compute. reflexivity.
    + vm_compute. reflexivity.
    + vm_compute. reflexivity.
    + intros [] H; try reflexivity. destruct (H src dst eq_refl).
    + reflexivity.
Defined.

(** C7 as stated fails: [restoreBackup] replaces the descriptor of the
    instance, with the rest of its directory, by removing it and copying the
    snapshot, not through [writeJsonAtomic]; when the copy fails the error
    reaches the caller and the descriptor that was there is gone. *)
Lemma restoreBackup_replaces_descriptor :
  let p := descriptorPath (Demo.servers ++ [js "main"]) in
  let r := restoreBackup (js "admin") (js "backup-2024") (Demo.stopped, uncopyable) in
  holds uncopyable p (DConfig (Demo.descriptor "main"))
  /\ r.1 = Throw Fs.EIO
  /\ files r.2.2 !! p = None.
Proof.
  cbv zeta. split; [| vm_compute; split; reflexivity].
  split; [reflexivity |]. exists 1000%Z. vm_compute. reflexivity.
Qed.

(** ** The respawns of the crash budget *)

Lemma canSpawn_same cfg (x y : Sys) :
  config y.1 = config x.1 -> serverDir y.1 = serverDir x.1 ->
  serversDir y.1 = serversDir x.1 -> spawnThrows y.2 = spawnThrows x.2 ->
  (forall q, q <> publicPath x.1 -> q <> tmpPath (publicPath x.1) ->
             files y.2 !! q = files x.2 !! q) ->
  canSpawn cfg x -> canSpawn cfg y.
Proof.
  intros H1 H2 H3 H4 H5 (C1 & C2 & C3 & C4 & C5).
  assert (Hj : jarPathOf y.1 cfg = jarPathOf x.1 cfg)
    by (unfold jarPathOf; rewrite H2; reflexivity).
  assert (Hp : publicPath y.1 = publicPath x.1) by apply publicPath_same, H3.
  unfold canSpawn. rewrite Hj, Hp, H1, H4.
  split; [exact C1 |]. split; [| auto].
  rewrite (existsSync_same _ _ _ (H5 _ C3 C4)). exact C2.
Qed.

Lemma canSpawn_onClose cfg code (x : Sys) :
  canSpawn cfg x -> canSpawn cfg (onClose code x).2.
Proof.
  intros H.
  destruct (onClose_env code x) as (E1 & _ & E3 & _ & E5). cbv zeta in *.
  apply (canSpawn_same cfg x); try assumption.
  - apply (keeps_at (fun s : Sys => config s.1) (onClose code)). frame.
  - apply (keeps_at (fun s : Sys => serverDir s.1) (onClose code)). frame.
Qed.

(** A start of the process that finds its jar, step by step. *)
Lemma spawnProcess_run (s : Sys) cfg :
  canSpawn cfg s ->
  let booted :=
    (logSystem (js "Booting core: " ++ ServerConfig.name cfg ++ js "...")
       (updateState STARTING s).2).2 in
  let dir := dirPath (serverDir s.1) in
  spawnProcess s
  = (Ret tt,
     (set_process (Some {| pid := nextPid booted.2; stdin := true |})
        (set_startTime (Some (now booted.2)) booted.1),
      set_trace (cons (Spawned (js "java") (javaArguments cfg (jarPathOf s.1 cfg)) dir))
        (set_nextPid Datatypes.S booted.2))).
Proof.
  intros (Hcfg & Hjar & Hp1 & Hp2 & Hspawn). cbv zeta.
  unfold spawnProcess. rewrite bind_this, Hcfg.
  rewrite (bind_total (updateState _)) by frame. cbv beta.
  rewrite (bind_total (logSystem _)) by frame. cbv beta.
  match goal with |- context [bind (this _) _ ?x] => set (s2 := x) end.
  assert (K : forall {B} (f : Sys -> B),
             (forall m, keeps f (logSystem m)) -> (forall st, keeps f (updateState st)) ->
             f s2 = f s).
  { intros B f H1 H2. subst s2. rewrite (keeps_at f (logSystem _) _ (H1 _)).
    apply H2. }
  assert (Hdir : serverDir s2.1 = serverDir s.1)
    by apply (K _ (fun s : Sys => serverDir s.1) ltac:(intros; frame) ltac:(intros; frame)).
  assert (Hfiles : files s2.2 !! jarPathOf s.1 cfg = files s.2 !! jarPathOf s.1 cfg).
  { subst s2.
    rewrite (keeps_at (fun s : Sys => files s.2) (logSystem _)) by frame.
    apply updateState_files; assumption. }
  pose proof (K _ (fun s : Sys => spawnThrows s.2) ltac:(intros; frame) ltac:(intros; frame))
    as G1.
  cbn [fst snd] in G1. clear K.
  destruct s2 as [o2 w2] eqn:E2. cbn [fst snd] in *.
  rewrite bind_this, bind_ask. cbn [fst snd]. rewrite Hdir.
  fold (jarPathOf s.1 cfg).
  rewrite (existsSync_same _ _ _ Hfiles), Hjar. cbn [negb].
  rewrite bind_ask, bind_assign. cbn [fst snd].
  erewrite try_catch_Ret
    by (erewrite bind_Ret by (apply spawn_ok; rewrite G1; exact Hspawn); reflexivity).
  reflexivity.
Qed.

(** A start of the process that finds its jar: one more process, and what a
    further start needs is still there. *)
Lemma spawnProcess_again (s : Sys) cfg :
  canSpawn cfg s ->
  let r := (spawnProcess s).2 in
  canSpawn cfg r /\ status r.1 = STARTING
  /\ is_Some (process r.1)
  /\ spawns r.2 = Datatypes.S (spawns s.2).
Proof.
  intros Hcan. pose proof Hcan as (Hcfg & Hjar & Hp1 & Hp2 & Hspawn). cbv zeta.
  rewrite (spawnProcess_run s cfg Hcan). cbv zeta. cbn [snd].
  set (s2 := (logSystem _ (updateState STARTING s).2).2).
  assert (K : forall {B} (f : Sys -> B),
             (forall m, keeps f (logSystem m)) -> (forall st, keeps f (updateState st)) ->
             f s2 = f s).
  { intros B f H1 H2. subst s2. rewrite (keeps_at f (logSystem _) _ (H1 _)).
    apply H2. }
  pose proof (K _ (fun s : Sys => serverDir s.1) ltac:(intros; frame) ltac:(intros; frame)) as G1.
  pose proof (K _ (fun s : Sys => serversDir s.1) ltac:(intros; frame) ltac:(intros; frame)) as G2.
  pose proof (K _ (fun s : Sys => spawnThrows s.2) ltac:(intros; frame) ltac:(intros; frame)) as G3.
  pose proof (K _ (fun s : Sys => config s.1) ltac:(intros; frame) ltac:(intros; frame)) as G4.
  pose proof (K _ (fun s : Sys => spawns s.2) ltac:(intros; frame) ltac:(intros; frame)) as G5.
  assert (G6 : status s2.1 = STARTING).
  { subst s2. rewrite (keeps_at (fun s : Sys => status s.1) (logSystem _)) by frame.
    apply updateState_status. }
  assert (G7 : forall q, q <> publicPath s.1 -> q <> tmpPath (publicPath s.1) ->
                         files s2.2 !! q = files s.2 !! q).
  { intros q Q1 Q2. subst s2.
    rewrite (keeps_at (fun s : Sys => files s.2) (logSystem _)) by frame.
    apply updateState_files; assumption. }
  cbn [fst snd] in G1, G2, G3, G4, G5. clear K.
  clearbody s2. destruct s2 as [o2 w2]. cbn [fst snd] in *.
  split; [| split; [exact G6 |]; split; [eexists; reflexivity |]].
  - apply (canSpawn_same cfg s); try assumption.
  - unfold spawns in *. cbn [trace set_trace set_nextPid List.filter isSpawn length].
    rewrite G5. reflexivity.
Qed.

Lemma respawn_again (s : Sys) cfg :
  canSpawn cfg s -> intentionToStop s.1 = false ->
  let r := (respawn s).2 in
  canSpawn cfg r /\ status r.1 = STARTING
  /\ is_Some (process r.1)
  /\ spawns r.2 = Datatypes.S (spawns s.2).
Proof.
  intros Hcan Hstop. cbv zeta. unfold respawn. rewrite bind_this, Hstop. cbn [negb].
  apply spawnProcess_again, Hcan.
Qed.

(** An exit leaves no process behind and spawns none. *)
Lemma onClose_process code (x : Sys) :
  process (onClose code x).2.1 = None /\ spawns (onClose code x).2.2 = spawns x.2.
Proof.
  split.
  - destruct x as [s w].
    destruct (onClose_decision code s w) as (s1 & -> & H & _).
    rewrite <- H.
    destruct (negb (intentionToStop s) && negb (bool_decide (status s = RESTARTING))
              && abnormal code).
    + apply (keeps_at (fun s : Sys => process s.1)). frame.
    + destruct (negb (bool_decide (status s = RESTARTING))); [| reflexivity].
      apply (keeps_at (fun s : Sys => process s.1)). frame.
  - apply (keeps_at (fun s : Sys => spawns s.2) (onClose code)). frame.
Qed.

(** A crash within the budget and the respawn that follows it, as far as
    the process goes. *)
Lemma crash_then_spawn cfg count pending scheduled code (s : Sys) :
  betweenCrashes count pending scheduled s -> canSpawn cfg s ->
  (count + 1 <= 3)%Z -> abnormal code = true ->
  let crashed := (step (Close code) s).2 in
  let respawned := (step (Elapsed (length pending)) crashed).2 in
  process crashed.1 = None /\ spawns crashed.2 = spawns s.2
  /\ canSpawn cfg respawned /\ status respawned.1 = STARTING
  /\ is_Some (process respawned.1)
  /\ spawns respawned.2 = Datatypes.S (spawns s.2).
Proof.
  intros Hb Hcan Hle Hcode. cbv zeta.
  destruct (crash_then_respawn count pending scheduled code s Hb Hle Hcode)
    as (_ & Htimers & _ & _). cbv zeta in Htimers.
  pose proof Hb as (Hstop & Hnr & _).
  destruct s as [s w]. cbn [fst snd] in *.
  change (step (Close code) (s, w)) with (onClose code (s, w)) in *.
  destruct (onClose_process code (s, w)) as [P1 P2].
  pose proof (canSpawn_onClose cfg code (s, w) Hcan) as Hcan1.
  destruct (onClose_crash code s w Hstop Hnr Hcode) as (_ & _ & C3 & _). cbv zeta in C3.
  destruct (crashScene_autoRestart _ _ C3) as [D1 _]. cbn [fst snd] in D1.
  destruct (onClose code (s, w)) as [o [s1 w1]]. cbn [fst snd] in *.
  split; [exact P1 |]. split; [exact P2 |].
  destruct (step_Elapsed_last pending Respawn 5000%Z s1 w1 Htimers) as [Estep _].
  cbv zeta in Estep. rewrite Estep. cbn [runTask].
  set (w1' := set_timers _ w1).
  destruct (respawn_again (s1, w1') cfg) as (R1 & R2 & R3 & R4).
  - exact Hcan1.
  - cbn [fst]. congruence.
  - cbv zeta in *. split; [exact R1 |]. split; [exact R2 |]. split; [exact R3 |].
    rewrite R4. cbn [snd]. subst w1'.
    change (spawns (set_timers _ w1)) with (spawns w1).
    rewrite P2. reflexivity.
Qed.

(** The crash past the budget, as far as the process goes. *)
Lemma crash_without_spawn code (s : Sys) :
  let crashed := (step (Close code) s).2 in
  process crashed.1 = None /\ spawns crashed.2 = spawns s.2.
Proof. apply onClose_process. Qed.

(** C2. A [loadAndStart] that goes through leaves the crash counter at 0,
    whatever it was.  From there, with auto-restart not off and nothing
    asking for a stop, four exits in a row with a code other than 0, 130 and
    143, each but the last followed by the firing of the respawn it
    scheduled: each of the first three leaves the state CRASHED with one
    respawn pending 5000 ms ahead; the fourth leaves the state CRASHED with
    no respawn pending; three respawns were scheduled in all.  When the jar
    of the instance is on disk and [spawn] does not throw, each of the three
    respawns, once its timer fires, brings up a new process in the state
    STARTING: three processes are spawned over the run, one after each of
    the first three exits, and after the fourth exit there is no process and
    none is spawned. *)
Theorem crash_budget (serverId actor : jsstring) (s : MinecraftServer) (w : World)
  (c1 c2 c3 c4 : option Z) :
  (loadAndStart serverId actor (s, w)).1 = Ret tt ->
  let started := (loadAndStart serverId actor (s, w)).2 in
  autoRestartEnabled started.1 = true ->
  abnormal c1 = true -> abnormal c2 = true ->
  abnormal c3 = true -> abnormal c4 = true ->
  let n := length (timers started.2) in
  let first := run [Close c1] started in
  let second := run [Close c1; Elapsed n; Close c2] started in
  let third := run [Close c1; Elapsed n; Close c2; Elapsed n; Close c3] started in
  let fourth :=
    run [Close c1; Elapsed n; Close c2; Elapsed n; Close c3; Elapsed n; Close c4]
      started in
  let respawned (k : nat) :=
    run (take (2 * k) [Close c1; Elapsed n; Close c2; Elapsed n; Close c3; Elapsed n])
      started in
  crashCount started.1 = 0%Z
  /\ (status first.1 = CRASHED
      /\ timers first.2 = timers started.2 ++ [(Respawn, 5000%Z)])
  /\ (status second.1 = CRASHED
      /\ timers second.2 = timers started.2 ++ [(Respawn, 5000%Z)])
  /\ (status third.1 = CRASHED
      /\ timers third.2 = timers started.2 ++ [(Respawn, 5000%Z)])
  /\ status fourth.1 = CRASHED
  /\ timers fourth.2 = timers started.2
  /\ crashCount fourth.1 = 4%Z
  /\ respawnsScheduled fourth.2 = (respawnsScheduled started.2 + 3)%nat
  /\ (forall cfg, canSpawn cfg started ->
        (forall k, (1 <= k <= 3)%nat ->
           status (respawned k).1 = STARTING
           /\ is_Some (process (respawned k).1)
           /\ timers (respawned k).2 = timers started.2
           /\ spawns (respawned k).2 = (spawns started.2 + k)%nat)
        /\ (process first.1 = None /\ spawns first.2 = spawns started.2)
        /\ (process second.1 = None /\ spawns second.2 = (spawns started.2 + 1)%nat)
        /\ (process third.1 = None /\ spawns third.2 = (spawns started.2 + 2)%nat)
        /\ (process fourth.1 = None /\ spawns fourth.2 = (spawns started.2 + 3)%nat)).
Proof.
  intros Hstart started Hauto H1 H2 H3 H4 n first second third fourth respawned.
  apply outcome_eq in Hstart. fold started in Hstart.
  destruct (loadAndStart_Ret _ _ _ _ Hstart) as (Hzero & Hstop & Hnr).
  clearbody started. destruct started as [s1 w1]. cbn [fst snd] in *.
  assert (B0 : betweenCrashes 0 (timers w1) (respawnsScheduled w1) (s1, w1))
    by (unfold betweenCrashes; cbn [fst snd];
        split; [| split; [| split; [| split; [| split]]]]; auto).
  destruct (crash_then_respawn 0 _ _ c1 _ B0 ltac:(lia) H1) as (A1 & A2 & A3 & B1).
  destruct (crash_then_respawn (0 + 1) _ _ c2 _ B1 ltac:(lia) H2) as (A4 & A5 & A6 & B2).
  destruct (crash_then_respawn (0 + 1 + 1) _ _ c3 _ B2 ltac:(lia) H3)
    as (A7 & A8 & A9 & B3).
  destruct (crash_past_budget (0 + 1 + 1 + 1) _ _ c4 _ B3 ltac:(lia) H4)
    as (A10 & A11 & A12 & A13).
  cbv zeta in *. fold n in A4, A5, A6, A7, A8, A9, A10, A11, A12, A13, B1, B2, B3.
  subst first second third fourth respawned. unfold run. cbn [fold_left].
  split; [exact Hzero |].
  split; [split; assumption |].
  split; [split; assumption |].
  split; [split; assumption |].
  split; [exact A10 |]. split; [exact A12 |].
  split; [rewrite A11; reflexivity |].
  split; [rewrite A13; lia |].
  intros cfg Hcan.
  destruct (crash_then_spawn cfg 0 _ _ c1 _ B0 Hcan ltac:(lia) H1)
    as (P1 & P2 & Hcan1 & P3 & P4 & P5).
  destruct (crash_then_spawn cfg (0 + 1) _ _ c2 _ B1 Hcan1 ltac:(lia) H2)
    as (Q1 & Q2 & Hcan2 & Q3 & Q4 & Q5).
  destruct (crash_then_spawn cfg (0 + 1 + 1) _ _ c3 _ B2 Hcan2 ltac:(lia) H3)
    as (R1 & R2 & Hcan3 & R3 & R4 & R5).
  destruct (crash_without_spawn c4
              (step (Elapsed n) (step (Close c3) (step (Elapsed n) (step (Close c2)
                 (step (Elapsed n) (step (Close c1) (s1, w1)).2).2).2).2).2).2)
    as (S1 & S2).
  cbv zeta in *. fold n in P3, P4, P5, Q1, Q2, Q3, Q4, Q5, R1, R2, R3, R4, R5, Hcan1, Hcan2.
  destruct B1 as (_ & _ & _ & _ & T1 & _), B2 as (_ & _ & _ & _ & T2 & _),
    B3 as (_ & _ & _ & _ & T3 & _).
  fold n in S1, S2.
  split; [| split; [split; assumption |]; split; [split; [assumption | cbn [snd] in *; lia] |];
            split; [split; [assumption | cbn [snd] in *; lia] |]; split; [assumption | cbn [snd] in *; lia]].
  intros k Hk.
  assert (Ek : k = 1%nat \/ k = 2%nat \/ k = 3%nat) by lia.
  destruct Ek as [-> | [-> | ->]]; cbn [Nat.mul Nat.add take fold_left];
    (split; [assumption |]; split; [assumption |]; split; [assumption |];
     cbn [snd] in *; lia).
Qed.

Lemma crash_budget_witness :
  let n := length (timers Demo.started.2) in
  let fourth :=
    run [Close (Some 1%Z); Elapsed n; Close (Some 1%Z); Elapsed n;
         Close None; Elapsed n; Close (Some 137%Z)] Demo.started in
  let respawned :=
    run [Close (Some 1%Z); Elapsed n; Close (Some 1%Z); Elapsed n;
         Close None; Elapsed n] Demo.started in
  crashCount Demo.started.1 = 0%Z
  /\ status fourth.1 = CRASHED
  /\ timers fourth.2 = timers Demo.started.2
  /\ respawnsScheduled fourth.2 = (respawnsScheduled Demo.started.2 + 3)%nat
  /\ canSpawn (Demo.descriptor "main") Demo.started
  /\ status respawned.1 = STARTING
  /\ spawns respawned.2 = (spawns Demo.started.2 + 3)%nat
  /\ spawns fourth.2 = (spawns Demo.started.2 + 3)%nat.
Proof.
  assert (Hstart : (loadAndStart (js "main") (js "admin") (Demo.stopped, Demo.world)).1
                   = Ret tt)
    by (vm_compute; reflexivity).
  assert (Hauto : autoRestartEnabled Demo.started.1 = true)
    by (vm_compute; reflexivity).
  assert (Hcan : canSpawn (Demo.descriptor "main") Demo.started).
  { split; [reflexivity |]. split; [vm_compute; reflexivity |].
    split; [vm_compute; discriminate |]. split; [vm_compute; discriminate | reflexivity]. }
  destruct (crash_budget (js "main") (js "admin") Demo.stopped Demo.world
              (Some 1%Z) (Some 1%Z) None (Some 137%Z)
              Hstart Hauto eq_refl eq_refl eq_refl eq_refl)
    as (W1 & _ & _ & _ & W2 & W3 & _ & W4 & W5).
  destruct (W5 (Demo.descriptor "main") Hcan) as (W6 & _ & _ & _ & _ & W7).
  destruct (W6 3%nat ltac:(lia)) as (W8 & _ & _ & W9).
  exact (conj W1 (conj W2 (conj W3 (conj W4 (conj Hcan (conj W8 (conj W9 W7))))))).
Defined.
